(* ===== verification/_CoqProject ===== *)
-Q . S2P
Prelude.v
Client.v
Js.v
Schema.v
Sql.v
Ledger.v
Gateway.v
BalanceView.v
Renewal.v
RenewalSpec.v
Dashboard.v
BotCreation.v
Qr.v
DashboardPage.v
ChatbotPage.v
ChatbotScreen.v
Plans.v
Auth.v
LoginPage.v
Landing.v
DashboardView.v
Refresh.v
Pagination.v
