(* ===== verification/Prelude.v ===== *)
(** * A verification development of the tanambot.ai customer dashboard

    The repository is a Next.js client (TypeScript/React) for a WhatsApp
    chatbot service.  All business actions run in remote webhooks and a
    hosted database; the client reads the database, calls the webhooks and
    compensates in the browser when the remote side is slow or wrong.  The
    development models the parts of the client that keep or change state.

    ** Components and files (_CoqProject lists them in dependency order)

    - Prelude (this file): the [result] type, the [{data, error}] shape
      [query], the state-and-exception monad [st] with its notation in
      [tb_scope] and its laws, signed sums over lists ([sumZ]) with their
      permutation lemmas, the hint database [tanam] and the tactic
      [st_run].  The handlers are [async] functions that thread the
      database, the React state and exceptions; written in [st], their
      [try]/[catch]/[finally] ([st_catch], [st_finally]) and early
      [return]s are explicit.
    - [Client] (Module [Client]): the initialisation of src/lib/supabase.ts
      (the two environment variables, the [console.error] lines when one
      is missing, the [createClient] arguments with their placeholders)
      and the [/api/qr] rewrite of src/next.config.js.  Theorem
      [client_degrades]: loading never fails, the client always gets a
      non-empty URL and key, and each missing variable is reported.
    - [Js]: the JavaScript values the handlers inspect (JSON bodies, row
      fields) as [jsval], with the language's own semantics for
      truthiness and [x || y], property access (a [TypeError] on
      [null]/[undefined] is [None]), [Number(x)], [parseInt], [String(x)],
      [Array.isArray] and [typeof].  Numbers are integers ([Z]): every
      number read is an amount, a quota or a status, exact as a double.
      The one quotient the pages compute, [Math.round(u / q * 100)], is
      done in IEEE binary64 with the Standard Library's [SpecFloat]
      ([percent_of], [js_round]).
    - [Schema]: the [chatbot] and [plans] rows of src/lib/supabase.ts, the
      notification record of [useToast] and a [fetch] response.
    - [Ledger] (Module [Ledger]): [fetchUserData] of
      src/app/dashboard/balance/page.tsx, the Ledger Reader and
      Reconciler: read the balance row, create it when missing, fold the
      transactions into a balance ([reconcile], the [reduce] of lines
      116-119), read the payments, upsert the balance and apply it.  The
      balances table is an interface, the type class [BalanceStore] with
      its laws [BalanceStoreLaws], implemented by a [gmap] keyed by user
      id ([onConflict: "user_id"] makes it unique); the handler's theorems
      are proved against the class.  Each remote call may fail, chosen by
      an explicit [Faults] record, and the page updates are recorded as a
      trace whose order is a theorem.
    - [BalanceView] (Module [BalanceView]): what the balance page
      renders from [Ledger]'s [View]: the rows of the transactions
      table ([tx_row]: badge, sign, amount as [ToNumber] reads it) and
      of the payments table ([pay_row], [getStatusBadge], the "Bayar"
      button of a pending invoice).
    - [Gateway] (Module [Gateway]): [handleTopup] of the same file, the
      Action Gateway Client: the guard, the token check, the request with
      [parseInt] of the amount, the HTTP check, [JSON.parse], the
      response-shape sniffing [classify] (a redirect, a refresh or a typed
      failure), the [catch] block and the [finally].  [JSON.parse] and the
      network ([respond]) are parameters of its sections.  The dialog
      around it (open/close, the amount input, the three amount buttons,
      "Isi Saldo" with its [disabled]) is [run_topup_events]; theorem
      [preset_sends_label]: a button requests the amount of its label.
    - [Renewal] (Module [Renewal]): [handleRenew] of
      src/app/dashboard/chatbots/[id]/page.tsx, the Renewal Confirmation
      Poller, with explicit time: the world has a millisecond clock that
      [wait] advances, and the database row is a function [remote] of the
      time of the read.  The poll loop [poll_loop] is a [Fixpoint] on the
      number of attempts left, started at 5 as in the source's [for]
      loop, so it needs no fuel beyond the source's own bound.  Dates,
      [toISOString], [toLocaleDateString] and [JSON.parse] are section
      parameters.
    - [RenewalSpec] (Module [RenewalSpec]): the poller of spec 4.4 as a
      labelled state machine ([pstep]: [Idle], [Requested], [Polling]
      with the attempts made, [Confirmed], [TimedOut]; the labels are the
      baseline, each read's result and the end of the attempts) and the
      simulation that relates [poll_loop] to [Polling], one abstract step
      per round of the loop.
    - [Sql] (Module [Sql]): PostgreSQL's [ILIKE] (wildcards, escape,
      case), PostgREST's reading of [*] as [%] in a filter value
      ([pgrst_pattern]), and JavaScript's [toLowerCase]/[includes] on
      ASCII text, for the queries and filters that match names.
    - [Dashboard] (Module [Dashboard]): the chatbot list page
      src/app/dashboard/page.tsx: its database ([DashDb]) and page state
      ([DashWorld], grouped as the lists, the new-bot form and the QR
      dialog), the readers [fetchChatbots], [fetchPlans], [fetchBalance],
      [handleDeleteBot], the form reset and the list helpers.
    - [BotCreation] (Module [BotCreation]): [handleCreateBot] of the same
      page with its post-create charge reconciliation; the webhook's
      effect on the database is the section parameter [hook].
    - [Qr] (Module [Qr]): [fetchQRCode] with its timeout and error
      mapping, the QR dialog's countdown [qr_tick], the status watcher
      and the page's polling timers [on_timer].
    - [DashboardPage] (Module [DashboardPage]): the chatbot list page
      as one event machine: the inline handlers of its render (search,
      the new-bot dialog, name, plan, "Batal", "Buat Bot", the delete
      confirmation, the QR badge) dispatched by [dash_event] only when
      the element is rendered and enabled, onto the one [DashWorld] that
      [Dashboard], [BotCreation] and [Qr] share.
    - [DashboardView] (Module [DashboardView]): what that page renders
      from its [DashWorld]: the header ([header_view]; its "Refresh"
      button has no handler, a finding), the table body and rows
      ([table_body], [row_view]), the footer counts and the new-bot
      dialog's summary ([new_bot_view]: balance, cost, red or green
      alert, create button).  Theorems [create_enabled_alert] (an
      enabled "Buat Bot" sits beside the green alert with a non-negative
      rest), [undefined_balance_alert] (an undefined balance shows as
      [NaN], a finding) and [delete_disabled_ignored] (a disabled delete
      button is one whose confirmation the page ignores); the open QR
      dialog ([qr_dialog_view]) names the selected bot and counts down
      within 1..10 on a state satisfying [Qr]'s invariant
      ([qr_dialog_wf]).
    - [ChatbotPage] (Module [ChatbotPage]): the other handlers of the
      chatbot detail page: [fetchChatbot], [fetchBalance], the usage
      poll, the prompt handlers, the activation switch and the simulated
      chat, whose pending [setTimeout] replies are explicit events of
      [run_chat]; the renewal dialog's content [renew_dialog_view]
      (theorem [renew_dialog_consistent]: without a plan the dialog says
      "Gratis" and still disables renewal, a finding).
    - [ChatbotScreen] (Module [ChatbotScreen]): the chatbot detail page
      as one component: its state [Screen] joins [ChatbotPage]'s
      [PageWorld] and the renewal fields of [Renewal]'s [RenewWorld]
      ([to_renew], [of_renew] pass the shared chatbot and notifications);
      [screen_view] is its render (loading, not found, header switch,
      prompt card, usage card, plan card, the modal renewal dialog);
      [screen_ui_step] runs the mount effect, the prompt, switch, dialog
      and chat controls and the usage poll only when the element is
      rendered, enabled and not behind the open dialog; [handleRenew]'s
      poll parameters are section variables; [chat_bubbles] renders the
      test chat as bubbles keyed by message id.
    - [Plans] (Module [Plans]): the plan page
      src/app/dashboard/plans/page.tsx: its state ([PlansWorld]), the
      three loaders its mount effect starts ([plans_mount]), the loading
      screen condition, [openPurchaseDialog], the balance check and
      [handlePurchase], which calls the renewal webhook; what the page
      renders ([render]: back link, plan cards, dialog) and the clicks
      it offers as events run by [run_plans].
    - [Auth] (Module [Auth]): src/contexts/AuthContext.tsx (the session
      callbacks and the [auth-token] cookie, [verifyOTP] with the balance
      row it creates for a new user, [logout]), the login page
      src/app/login/page.tsx ([handleSendOTP] with its rate-limit
      cooldown and [setInterval], [handleGoogleLogin], [handleVerifyOTP],
      the form events as steps of [run_login]), the guard, logout and
      rendered frame of src/app/dashboard/layout.tsx ([layout_render]
      with its sidebar and bottom bar; theorem [layout_highlight]: both
      highlight exactly one entry on the dashboard's addresses), and the
      public navbar of
      src/components/Navbar.tsx ([navbar_handleLogout], which catches
      like the layout's but navigates nowhere, the links and the menu
      drawn from the same context; theorem [navbar_logout_flow]).  The
      identity provider's answers are arguments of the handlers.
    - [LoginPage] (Module [LoginPage]): the render of
      src/app/login/page.tsx (lines 145-292): [login_screen] is the card
      the step shows, with [send_label] and the [disabled] conditions of
      its buttons; [ui_enabled] lets an event through only when its
      element is rendered and enabled and its [required] field is filled,
      and [login_ui_step] then runs [Auth.login_step]; [login_reachable]
      is the inductive set of worlds reached from the [useState] values
      ([login_initial]).  Each handler runs to its [finally] within one
      step, so [loading] is [false] between steps and the "Mengirim..."
      labels are not observed.
    - [Landing] (Module [Landing]): the landing page src/app/page.tsx
      under the public navbar: [landing_view] for an auth context, its
      sections with their anchors, the buttons and their targets, and
      [anchor_ok], the check that a ["#id"] link has its section.
    - [Refresh] (Module [Refresh]): the chatbot list's refreshes with
      their [await]: [fetchChatbots_issue] sends the query (answered
      from the tables as they are then), [fetchChatbots_resume] applies
      the answer, [answer_at] delivers the answer of any query in flight,
      and [refresh_step] takes a tick of the 5 s or 2 s interval, an
      answer or a write to the tables by another party.
    - [Pagination] (Module [Pagination], in MathComp): the balance page's
      history card: [getPaginatedData], [getTotalPages], the range text,
      the previous/next buttons with their [disabled] conditions, the
      tabs and the refresh that replaces the lists.  It loads MathComp's
      [seq] and [div] and none of the other files.

    ** Theorems

    - Ledger (C1, C5, C6, C10): a missing row is created holding the
      signed sum of the user's ledger, which the page shows; an existing
      row is kept and shown; the four page updates come in a fixed order
      with the balance after both lists; the lemmas [fetch_isolation] and
      [fetch_idempotent] show that runs for one user leave other users'
      rows alone and that a second run changes nothing, and the
      lemma [fetch_preserves_consistency] that the consistency of row
      and ledger is preserved; a failed balance read overwrites the
      stored balance (a finding).  [fetch_run_eq] is the
      refinement lemma: the monadic handler equals a straight-line
      function of the faults and the database.
    - Balance page (C9): after a run of [fetchUserData] without
      failures the balance card equals the signed sum of the table's
      rows exactly when the stored row was missing or agreed with the
      ledger ([card_matches_table]).
    - Gateway (C12, C13): non-2xx answers fail with the HTTP
      message; every run ends normalised (loading cleared, one
      notification, success with one effect or failure with a message);
      the lemma [topup_redirect_from_body] that navigations go only to
      URLs of the body; the lemma [topup_success_without_url] that a
      success without a URL opens a blank tab (a finding).  [run_topup_eq] splits the handler into the pipeline
      [topup_pipeline] and the page update [after_topup].
    - Renewal (C18-C22): the poll stops at the first changed read
      (spec 8.6); five unchanged reads give the fallback patch of spec
      8.7; the poll is bounded by five reads and five seconds; statuses
      other than 200 fail, also 2xx ones (a finding); every run clears
      the loading flag and shows exactly one notification.
      [run_renew_200] decomposes the handler around its loop.
    - Renewal against the specification (C23): on a 200 answer every
      run of [handleRenew] is a run of the machine of spec 4.4 whose
      observations are the handler's reads, ending [Confirmed] with no
      patch or [TimedOut] with the patch
      [max(now, prior expiry) + 30 days, prior quota + 10].
    - Dashboard and plans (C24-C28): a missing balance row (which
      [fetchBalance] shows as [undefined]) disables bot creation; a delete
      touches only the user's row and reports success even when nothing
      matched; the plan page opened without a [chatbotId] never leaves
      its loading screen (a finding); days left are never negative and
      round up; a purchase reports success whatever the webhook answers
      (a finding).
    - The chatbot detail page as one component (C7, C32): along every
      run from its first render a renewal starts only for a chatbot with
      a plan whose price the balance shown covers; the plan card calls a
      plan priced 0 "Gratis" while the dialog shows "Rp 0"
      ([plan_card_price_vs_dialog], a finding); the usage card's values
      are evaluated on samples ([usage_card_samples]: 201 of 200 tokens
      shows 100 %, as binary64 rounds the quotient below 100.5).
    - Chat (C29, C32): a message sent before the previous reply arrives
      shares its id with that reply (a finding); a reply still pending
      at "Mulai Ulang" appears in the restarted chat (a finding).
    - Plan purchase (C35): along every run of the page's clicks a
      request is sent only through an enabled confirmation, for a
      catalogue plan whose price the balance covers, with exactly one
      request for the chatbot and plan shown ([render_consistent]: the
      cards and the dialog agree with their buttons).
    - The chatbot list page as one machine (C34): at any point of any
      run of its clicks, typing, QR events and timers, a creation
      request is sent only by an enabled "Buat Bot", with a non-empty
      name, a catalogue plan and a balance row covering its price;
      "Batal" skips [resetForm] while a dismissal runs it
      ([cancel_keeps_form]).
    - Bot creation (C30, C31, C33, C36): a compensation that writes keeps
      the balance row equal to the ledger sum; a charge booked as a topup
      is netted to zero, so the bot is free (a finding); the lemma
      [no_write_unless_price_delta] shows that nothing is written unless
      the balance rose by the price; a duplicate name sends no
      request; every run settles; the duplicate-usage check finds any
      row for the name [%] (a finding), and, for plain names, the
      compensation's own row ([duplicate_usage_found]).  [run_create_200] and [compensate_writes]
      decompose the handler.
    - Prompt and QR (C16, C37, C38): the QR dialog state is well formed
      along every run of the page (countdown in 1..10, never open without
      a selected bot); a 2xx answer other than 200 to the prompt update is
      silently ignored (a finding); the QR countdown refetches exactly
      once every ten ticks.
    - Landing page: the lemma [dead_anchor_harga] checks that of all the
      links the landing page offers, in any auth context, only the
      navbar's "Harga" ([#pricing]) points to an anchor the page does not
      have (a finding); the calls to action send even a signed-in user to
      "/login" ([cta_to_login]).
    - Overlapping refreshes (C14, C17): answers taken in the order the
      queries were sent leave the newest successful one on screen; when
      the older of two list queries is answered last, the page shows,
      with nothing left in flight, the list from before a change the
      server has (the race of spec 9, a finding); a query answered at
      once is the atomic [Dashboard.fetchChatbots]
      ([issue_then_answer_atomic]); the next tick answered at once
      repairs the list ([next_tick_repairs]).
    - Pagination (C11, C40): the pages, read in order, give back the
      whole list; along every run of the history card in which no
      refresh shortens a list, both page indices stay between 1 and the
      number of pages, so a non-empty list shows 1 to 5 rows.
    - Authentication (C2, C3, C15, C39): logging in never overwrites a
      balance row and creates the missing one with balance 0; along every
      run of the login page at most one cooldown interval runs, exactly
      while the send button is locked; a rate-limited request locks the
      button for exactly sixty ticks; a login whose balance insert failed
      still goes to the dashboard (a finding).
    - Login page (C4, C8): along every run of the page from its initial
      state the "Terlalu Cepat" toast of [handleSendOTP] never appears,
      since the send button is disabled while the cooldown runs, so that
      branch is dead code (a finding); the countdown the button shows
      stays between 1 and 60 seconds.  Both are proved by rule induction
      on [login_reachable] from the cooldown invariant of [Auth].

    Witnesses evaluate the handlers on concrete worlds (a [gmap] table,
    sample bodies, a backend that commits after three seconds, a webhook
    that books a topup) by [reflexivity] or [vm_compute].

    ** Not modelled

    The identity provider itself (one-time codes, OAuth,
    session storage) is external: only its answers enter the model.  The
    Supabase library behind the client is modelled only through the
    queries each handler makes (Sql.v and the component files).  The
    settings and agency pages are static placeholders ("segera hadir")
    with no state and no handler; the styling helper of src/lib/utils.ts merges
    class names and the eslint and image options of next.config.js
    affect only the build; [formatCurrency] and
    [formatDate] are locale formatting, parameters where a handler uses
    them.  [Number(s)] of a string with a fraction or an exponent is read
    as [NaN]: amounts are integers of rupiah, and a fractional amount
    has no value in the integer model.  The renewal's fallback adds 30
    days as 30 * 86400000 ms ([Renewal.fallback_expiry]), which is
    [setDate(getDate() + 30)] in a time zone without a daylight-saving
    change in those 30 days, such as the Indonesian zones the pages
    format for ("id-ID").  Outside [Refresh], each handler, and each reader a timer
    starts, runs to completion, as one cycle of the event loop would if
    no other handler interleaved; [Refresh] splits the chatbot list's
    [fetchChatbots] at its [await] (the one reader two timers call), and
    the chat's timers are the other place where interleaving is modelled
    as an explicit sequence of events.  The balance page's and the
    detail page's readers, each started by one mount or one button, are
    kept atomic.  A consequence for the renders
    (LoginPage, ChatbotScreen, DashboardView): the loading labels a
    handler shows while it awaits ("Mengirim...", "Memproses...",
    "Membuat...") are computed by the views but never observed between
    two steps.  The views keep the values [formatCurrency],
    [formatDate] and [toLocaleString] format, not the formatted text;
    static text, icons and CSS classes are left out, as are buttons with
    no handler (listed in the findings). *)

From Stdlib Require Import ZArith String List Permutation Lia.
From stdpp Require Import base list gmap strings.

Declare Scope tb_scope.
Delimit Scope tb_scope with tb.

(** ** Results of fallible operations *)

Inductive result (A E : Type) : Type :=
| Ok (a : A)
| Err (e : E).
Arguments Ok {A E} a.
Arguments Err {A E} e.

Definition is_ok {A E} (r : result A E) : bool :=
  match r with Ok _ => true | Err _ => false end.

(** The [{ data, error }] pair a database query resolves to: an error, or
    the data. *)
Inductive query (A : Type) : Type :=
| QError
| QData (a : A).
Arguments QError {A}.
Arguments QData {A} a.

(** ** The state-and-exception monad of the async handlers

    [st S E A] is a computation on a world [S] that returns an [A] or
    throws an [E]; the world is kept when an exception is thrown, as the
    effects a JavaScript handler performed before a [throw] are not
    undone. *)

Definition st (S E A : Type) : Type := S -> result A E * S.

Definition st_ret {S E A} (a : A) : st S E A := fun s => (Ok a, s).

Definition st_bind {S E A B} (m : st S E A) (k : A -> st S E B) : st S E B :=
  fun s => match m s with
           | (Ok a, s') => k a s'
           | (Err e, s') => (Err e, s')
           end.

Definition st_throw {S E A} (e : E) : st S E A := fun s => (Err e, s).

(** [try { m } catch (e) { h e }] *)
Definition st_catch {S E A} (m : st S E A) (h : E -> st S E A) : st S E A :=
  fun s => match m s with
           | (Err e, s') => h e s'
           | r => r
           end.

(** [try { m } finally { f }], for a [finally] block that cannot throw. *)
Definition st_finally {S E A} (m : st S E A) (f : st S E unit) : st S E A :=
  fun s => let '(r, s') := m s in (r, snd (f s')).

Definition st_get {S E} : st S E S := fun s => (Ok s, s).
Definition st_modify {S E} (f : S -> S) : st S E unit := fun s => (Ok tt, f s).

Notation "x <- m ;; k" := (st_bind m (fun x => k))
  (at level 100, m at next level, right associativity) : tb_scope.
Notation "m ;; k" := (st_bind m (fun _ => k))
  (at level 100, right associativity) : tb_scope.

Open Scope tb_scope.

Section MonadLaws.
Context {S E : Type}.

Lemma st_bind_ret_l {A B} (a : A) (k : A -> st S E B) s :
  st_bind (st_ret a) k s = k a s.
Proof. reflexivity. Qed.

Lemma st_bind_assoc {A B C} (m : st S E A) (k : A -> st S E B)
      (k' : B -> st S E C) s :
  st_bind (st_bind m k) k' s = st_bind m (fun a => st_bind (k a) k') s.
Proof. unfold st_bind. by destruct (m s) as [[] ?]. Qed.

Lemma st_bind_throw {A B} (e : E) (k : A -> st S E B) s :
  st_bind (st_throw e) k s = (Err e, s).
Proof. reflexivity. Qed.
End MonadLaws.

(** ** Signed sums over lists

    A ledger balance is a sum over the rows; the code computes it with a
    left fold ([Array.prototype.reduce]), the specification states it as a
    sum, and the two meet in [fold_left_add_sumZ]. *)

Definition sumZ {A} (f : A -> Z) (l : list A) : Z :=
  fold_right (fun x acc => (f x + acc)%Z) 0%Z l.

Lemma sumZ_nil {A} (f : A -> Z) : sumZ f [] = 0%Z.
Proof. reflexivity. Qed.

Lemma sumZ_cons {A} (f : A -> Z) x l : sumZ f (x :: l) = (f x + sumZ f l)%Z.
Proof. reflexivity. Qed.

Lemma sumZ_app {A} (f : A -> Z) l1 l2 :
  sumZ f (l1 ++ l2) = (sumZ f l1 + sumZ f l2)%Z.
Proof. induction l1 as [|x l1 IH]; simpl; [done|]. rewrite IH. lia. Qed.

Lemma fold_left_add_sumZ {A} (f : A -> Z) l a :
  fold_left (fun acc x => (acc + f x)%Z) l a = (a + sumZ f l)%Z.
Proof.
  revert a. induction l as [|x l IH]; intros a; simpl; [lia|].
  rewrite IH. lia.
Qed.

#[export] Instance sumZ_perm {A} (f : A -> Z) :
  Proper (Permutation ==> eq) (sumZ f).
Proof. intros l1 l2 Hp. induction Hp; simpl; lia. Qed.

Create HintDb tanam discriminated.
Create Rewrite HintDb tanam.
#[export] Hint Rewrite @sumZ_nil @sumZ_cons @sumZ_app @fold_left_add_sumZ : tanam.
#[export] Hint Rewrite @st_bind_ret_l @st_bind_assoc @st_bind_throw : tanam.

(** Unfold the monad and split on every [match] the handler performs. *)
Ltac st_run :=
  repeat (unfold st_bind, st_ret, st_throw, st_catch, st_finally,
            st_get, st_modify in *; simpl in *; try case_match; simplify_eq/=).
