(* ===== verification/Client.v ===== *)
(** * The Supabase client and the QR rewrite

    Sources: src/lib/supabase.ts (lines 1-26), which reads the two
    public environment variables, logs which one is missing and builds
    the client with placeholders in their place, and src/next.config.js,
    whose [rewrites] send [/api/qr] to the QR webhook.

    - The environment is the pair of variables, each [undefined] ([None])
      or a string; [x || default] treats the empty string as missing.
    - Loading the module yields the lines written to [console.error] and
      the configuration passed to [createClient].

    The theorems show the contract of spec 6: loading never fails, the
    client always gets a non-empty URL and key, a missing variable is
    replaced by its placeholder and reported by name, and a complete
    environment is used as it is with nothing logged. *)

From Stdlib Require Import String List.
From stdpp Require Import base list strings.
From S2P Require Import Prelude.

Local Open Scope string_scope.
Local Open Scope list_scope.

Module Client.

(** [process.env.NEXT_PUBLIC_SUPABASE_URL] and
    [process.env.NEXT_PUBLIC_SUPABASE_ANON_KEY] (lines 3-4). *)
Record Env := mkEnv {
  env_url : option string;
  env_anon_key : option string
}.

(** The options object of [createClient] (lines 15-25). *)
Record ClientConfig := mkClientConfig {
  cc_url : string;
  cc_key : string;
  cc_persistSession : bool;
  cc_autoRefreshToken : bool;
  cc_headers : list (string * string)
}.

(** A variable is set when it is a non-empty string. *)
Definition is_set (v : option string) : bool :=
  match v with Some s => negb (String.eqb s "") | None => false end.

(** [v || d] on an optional string. *)
Definition or_default (v : option string) (d : string) : string :=
  match v with Some s => if String.eqb s "" then d else s | None => d end.

Definition placeholder_url : string := "https://placeholder.supabase.co".
Definition placeholder_key : string := "placeholder-key".

(** [v ? 'Set' : 'Missing'] *)
Definition set_or_missing (v : option string) : string :=
  if is_set v then "Set" else "Missing".

(** The [console.error] calls of lines 6-10; [console.error(a, b)]
    prints [a] and [b] separated by a space. *)
Definition env_logs (e : Env) : list string :=
  if is_set (env_url e) && is_set (env_anon_key e) then nil
  else ["Missing Supabase environment variables";
        ("NEXT_PUBLIC_SUPABASE_URL: " ++ set_or_missing (env_url e))%string;
        ("NEXT_PUBLIC_SUPABASE_ANON_KEY: " ++ set_or_missing (env_anon_key e))%string].

(** The arguments of [createClient] (lines 12-26). *)
Definition client_config (e : Env) : ClientConfig :=
  mkClientConfig (or_default (env_url e) placeholder_url) (or_default (env_anon_key e) placeholder_key)
    true true [("X-Client-Info", "supabase-js-web")].

(** Loading the module: the log lines, then the client. *)
Definition load_client (e : Env) : list string * ClientConfig := (env_logs e, client_config e).

(** The [rewrites] of src/next.config.js (lines 7-14). *)
Definition qr_destination : string := "https://n8n.tanam.io/webhook/tanam.io/bot/QR".

Definition rewrite_path (path : string) : option string :=
  if String.eqb path "/api/qr" then Some qr_destination else None.

(** ** Properties *)

Lemma or_default_nonempty v d : d <> "" -> or_default v d <> "".
Proof.
  intros Hd. destruct v as [s|]; simpl; [|done].
  destruct (String.eqb_spec s ""); [done|done].
Qed.

Lemma or_default_set v d : is_set v = true -> exists s, v = Some s /\ or_default v d = s.
Proof.
  destruct v as [s|]; simpl; [|discriminate].
  destruct (String.eqb_spec s ""); [discriminate|]. eauto.
Qed.

(** Spec 6: loading degrades instead of failing.  The client always gets
    a non-empty URL and key; each missing variable is replaced by its
    placeholder and named as missing in the log; with both variables set
    nothing is logged and they are used as they are. *)
Theorem client_degrades e :
  let '(logs, cfg) := load_client e in
  cc_url cfg <> "" /\ cc_key cfg <> "" /\
  (is_set (env_url e) = false -> cc_url cfg = placeholder_url /\
     In "NEXT_PUBLIC_SUPABASE_URL: Missing" logs) /\
  (is_set (env_anon_key e) = false -> cc_key cfg = placeholder_key /\
     In "NEXT_PUBLIC_SUPABASE_ANON_KEY: Missing" logs) /\
  (is_set (env_url e) && is_set (env_anon_key e) = true ->
     logs = [] /\ Some (cc_url cfg) = env_url e /\ Some (cc_key cfg) = env_anon_key e).
Proof.
  unfold load_client, client_config, env_logs; cbn [cc_url cc_key].
  split; [apply or_default_nonempty; discriminate|].
  split; [apply or_default_nonempty; discriminate|].
  split; [|split].
  - intros Hu. rewrite Hu. unfold set_or_missing; rewrite Hu. split; [|simpl; auto].
    destruct (env_url e) as [s|]; simpl in *; [|done].
    destruct (String.eqb s ""); [done|discriminate].
  - intros Hk. rewrite Hk, andb_false_r. unfold set_or_missing; rewrite Hk. split; [|simpl; auto].
    destruct (env_anon_key e) as [s|]; simpl in *; [|done].
    destruct (String.eqb s ""); [done|discriminate].
  - intros Hs. rewrite Hs. apply andb_prop in Hs as [Hu Hk].
    destruct (or_default_set _ placeholder_url Hu) as (u & -> & ->).
    destruct (or_default_set _ placeholder_key Hk) as (k & -> & ->). done.
Qed.

(** The QR request of [fetchQRCode] goes to the webhook; no other path
    is rewritten. *)
Lemma rewrite_only_qr p : rewrite_path p = if String.eqb p "/api/qr" then Some qr_destination else None.
Proof. reflexivity. Qed.

Example missing_key_sample :
  load_client (mkEnv (Some "https://x.supabase.co") None) =
  (["Missing Supabase environment variables"; "NEXT_PUBLIC_SUPABASE_URL: Set";
    "NEXT_PUBLIC_SUPABASE_ANON_KEY: Missing"],
   mkClientConfig "https://x.supabase.co" "placeholder-key" true true
     [("X-Client-Info", "supabase-js-web")]).
Proof. reflexivity. Qed.

End Client.
