(* ===== verification/Js.v ===== *)
(** * JavaScript values and the operators the handlers apply to them

    The handlers of the dashboard inspect JSON bodies returned by the
    webhooks and rows returned by the database with JavaScript's own
    operators: [a || b] picks by truthiness, [o.k] throws a [TypeError] on
    [null] and [undefined], [Number(x)] and [String(x)] coerce, and
    [Array.isArray]/[typeof] classify.  This file gives those operators
    their ECMAScript meaning on a value type [jsval] that has the shapes
    [JSON.parse] produces, plus [undefined].

    Numbers are integers ([Z]): every number the modelled code reads is an
    amount in rupiah, a quota or an HTTP status, all integers far below
    2^53, where IEEE doubles are exact.  [NaN] is not a value of [jsval];
    it appears only as the [None] result of [to_number].  The one
    computation whose value is not an integer, the usage percentage
    [Math.round(usage / quota * 100)], is done in IEEE binary64
    ([percent_of]), since its rounding differs from exact arithmetic (at
    201 of 200 the quotient times 100 is 100.49999999999999 and rounds to
    100). *)

From Stdlib Require Import ZArith String Ascii List Lia DecimalString SpecFloat.
From stdpp Require Import base list strings.
From S2P Require Import Prelude.

Local Open Scope string_scope.

#[local] Set Warnings "-register-all".
Inductive jsval : Type :=
| JUndefined
| JNull
| JBool (b : bool)
| JNumber (n : Z)
| JString (s : string)
| JArray (xs : list jsval)
| JObject (fields : list (string * jsval)).

(** ** ToBoolean and [||] *)

Definition truthy (v : jsval) : bool :=
  match v with
  | JUndefined | JNull => false
  | JBool b => b
  | JNumber n => negb (Z.eqb n 0)
  | JString s => negb (String.eqb s "")
  | JArray _ | JObject _ => true
  end.

(** [a || b] returns one of its operands, not a boolean. *)
Definition js_or (a b : jsval) : jsval := if truthy a then a else b.

(** ** [typeof] and [Array.isArray] *)

Definition typeof_object (v : jsval) : bool :=
  match v with JNull | JArray _ | JObject _ => true | _ => false end.

Definition typeof_number (v : jsval) : bool :=
  match v with JNumber _ => true | _ => false end.

Definition is_array (v : jsval) : bool :=
  match v with JArray _ => true | _ => false end.

(** ** [String(v)] *)

Definition string_of_Z (n : Z) : string := NilZero.string_of_int (Z.to_int n).

(** [Array.prototype.toString] joins the elements with commas and prints
    [null] and [undefined] elements as the empty string. *)
Fixpoint to_string (v : jsval) : string :=
  match v with
  | JUndefined => "undefined"
  | JNull => "null"
  | JBool b => if b then "true" else "false"
  | JNumber n => string_of_Z n
  | JString s => s
  | JArray xs =>
      String.concat ","
        ((fix elems (l : list jsval) : list string :=
            match l with
            | [] => []
            | JUndefined :: l' | JNull :: l' => "" :: elems l'
            | x :: l' => to_string x :: elems l'
            end) xs)
  | JObject _ => "[object Object]"
  end.

(** [new Error(x).message]: [undefined] gives the empty message. *)
Definition error_message (x : jsval) : string :=
  match x with JUndefined => "" | _ => to_string x end.

(** ** [Number(v)]

    StringToNumber trims white space, reads the empty string as 0 and
    otherwise an optionally signed decimal integer; any other text is
    [NaN] ([None]).  Fractions, exponents, hexadecimal and [Infinity] are
    outside the integer model and read as [NaN] here. *)

Definition is_js_space (c : ascii) : bool :=
  match nat_of_ascii c with 9 | 10 | 11 | 12 | 13 | 32 => true | _ => false end.

Fixpoint drop_space (l : list ascii) : list ascii :=
  match l with
  | c :: l' => if is_js_space c then drop_space l' else l
  | [] => []
  end.

Definition trim (s : string) : string :=
  string_of_list_ascii
    (rev (drop_space (rev (drop_space (list_ascii_of_string s))))).

Definition parse_number (s : string) : option Z :=
  match trim s with
  | EmptyString => Some 0%Z
  | String "+" r => option_map Z.of_uint (NilZero.uint_of_string r)
  | t => option_map Z.of_int (NilZero.int_of_string t)
  end.

Definition to_number (v : jsval) : option Z :=
  match v with
  | JUndefined => None
  | JNull => Some 0%Z
  | JBool b => Some (if b then 1%Z else 0%Z)
  | JNumber n => Some n
  | JString s => parse_number s
  | JArray _ | JObject _ => parse_number (to_string v)
  end.

(** [parseInt(s)] (radix 10): leading white space, an optional sign, then
    the longest run of decimal digits; no digit at all is [NaN]. *)
Fixpoint digit_prefix (l : list ascii) : list ascii :=
  match l with
  | c :: l' => if (48 <=? nat_of_ascii c)%nat && (nat_of_ascii c <=? 57)%nat
               then c :: digit_prefix l' else []
  | [] => []
  end.

Definition parse_digits (l : list ascii) : option Z :=
  match digit_prefix l with
  | [] => None
  | ds => option_map Z.of_uint (NilZero.uint_of_string (string_of_list_ascii ds))
  end.

Definition parse_int (s : string) : option Z :=
  match drop_space (list_ascii_of_string s) with
  | "-"%char :: l => option_map Z.opp (parse_digits l)
  | "+"%char :: l => parse_digits l
  | l => parse_digits l
  end.

(** [JSON.stringify] writes a [NaN] number as [null]. *)
Definition json_number (n : option Z) : jsval :=
  match n with Some z => JNumber z | None => JNull end.

(** [Number(x) || 0]: a [NaN] or a zero both give 0. *)
Definition number_or_zero (v : jsval) : Z := default 0%Z (to_number v).

(** ** Property access

    [v.k] throws on [null] and [undefined] ([None]); on an object it reads
    the last binding of [k] (a repeated key in a JSON text keeps its last
    value); a missing property is [undefined]. *)

Definition obj_lookup (k : string) (fs : list (string * jsval)) : option jsval :=
  fold_left (fun acc kv => if String.eqb k kv.1 then Some kv.2 else acc) fs None.

Definition get (v : jsval) (k : string) : option jsval :=
  match v with
  | JUndefined | JNull => None
  | JObject fs => Some (default JUndefined (obj_lookup k fs))
  | JArray xs =>
      Some (if String.eqb k "length" then JNumber (Z.of_nat (length xs))
            else match NilZero.uint_of_string k with
                 | Some d => if String.eqb (NilZero.string_of_uint d) k
                             then default JUndefined (xs !! Nat.of_uint d)
                             else JUndefined
                 | None => JUndefined
                 end)
  | JString s =>
      Some (if String.eqb k "length" then JNumber (Z.of_nat (String.length s))
            else JUndefined)
  | _ => Some JUndefined
  end.

(** [a[i]] on an array, with a literal index. *)
Definition index (v : jsval) (i : nat) : option jsval :=
  match v with
  | JUndefined | JNull => None
  | JArray xs => Some (default JUndefined (xs !! i))
  | _ => Some JUndefined
  end.

(** ** Division, multiplication and [Math.round]

    A quotient such as [usage / quota] is not an integer: [/] and [*]
    are IEEE 754 binary64 operations rounding to nearest, ties to even.
    They are the Standard Library's [SpecFloat] functions at precision 53
    and maximal exponent 1024, evaluated in the kernel; an integer enters
    as the double nearest to it ([double_of_Z], exact below 2^53). *)

Definition double_of_Z (z : Z) : spec_float := binary_normalize 53 1024 z 0 false.
Definition js_div (x y : spec_float) : spec_float := SFdiv 53 1024 x y.
Definition js_mul (x y : spec_float) : spec_float := SFmul 53 1024 x y.

(** What [Math.round] returns: an integer (a [-0] is the integer 0), or
    its argument when that is an infinity or [NaN]. *)
Inductive rounded := RInt (z : Z) | RInf (negative : bool) | RNaN.

(** [floor(v + 1/2)] for the exact value [v = ±m * 2^e]. *)
Definition floor_half (s : bool) (m : positive) (e : Z) : Z :=
  let v := if s then Z.neg m else Z.pos m in
  if (0 <=? e)%Z then (v * 2 ^ e)%Z else ((2 * v + 2 ^ (- e)) / 2 ^ (1 - e))%Z.

(** [Math.round(x)]: the integer closest to [x], a tie going towards
    +Infinity, which is [floor(x + 1/2)] computed on the exact value of
    the double (not on a rounded [x + 0.5]). *)
Definition js_round (x : spec_float) : rounded :=
  match x with
  | S754_zero _ => RInt 0
  | S754_finite s m e => RInt (floor_half s m e)
  | S754_infinity b => RInf b
  | S754_nan => RNaN
  end.

(** [Math.min(r, b)] for an integer bound [b]. *)
Definition rounded_min (r : rounded) (b : Z) : rounded :=
  match r with
  | RInt z => RInt (Z.min z b)
  | RInf false => RInt b
  | RInf true => RInf true
  | RNaN => RNaN
  end.

(** [String(r)], as a template literal writes it. *)
Definition rounded_text (r : rounded) : string :=
  match r with
  | RInt z => string_of_Z z
  | RInf false => "Infinity"
  | RInf true => "-Infinity"
  | RNaN => "NaN"
  end.

(** [Math.round(a / b * 100)] on two integers. *)
Definition percent_of (a b : Z) : rounded :=
  js_round (js_mul (js_div (double_of_Z a) (double_of_Z b)) (double_of_Z 100)).

(** ** Lemmas *)

Lemma truthy_js_or a b : truthy (js_or a b) = truthy a || truthy b.
Proof. unfold js_or. destruct (truthy a) eqn:E; by rewrite ?E. Qed.

Lemma js_or_truthy_l a b : truthy a = true -> js_or a b = a.
Proof. unfold js_or. by intros ->. Qed.

Lemma js_or_falsy_l a b : truthy a = false -> js_or a b = b.
Proof. unfold js_or. by intros ->. Qed.

Lemma obj_lookup_from k fs o :
  fold_left (fun acc kv => if String.eqb k kv.1 then Some kv.2 else acc) fs o =
  match obj_lookup k fs with Some v => Some v | None => o end.
Proof.
  unfold obj_lookup. revert o.
  induction fs as [|[k' v'] fs IH]; intros o; [done|]. simpl.
  rewrite (IH (if String.eqb k k' then Some v' else o)),
    (IH (if String.eqb k k' then Some v' else None)).
  destruct (fold_left _ fs None); [done|]. by destruct (String.eqb k k').
Qed.

Lemma obj_lookup_app k fs1 fs2 :
  obj_lookup k (fs1 ++ fs2) =
  match obj_lookup k fs2 with Some v => Some v | None => obj_lookup k fs1 end.
Proof. unfold obj_lookup at 1. by rewrite fold_left_app, obj_lookup_from. Qed.


Lemma get_object_single k v : get (JObject [(k, v)]) k = Some v.
Proof. unfold get, obj_lookup; simpl. by rewrite String.eqb_refl. Qed.

Lemma get_throws v k : get v k = None <-> v = JUndefined \/ v = JNull.
Proof. destruct v; simpl; intuition congruence. Qed.

#[export] Hint Rewrite truthy_js_or : tanam.
#[export] Hint Resolve js_or_truthy_l js_or_falsy_l : tanam.

(** The tie at 201 of 200 (100.5 in exact arithmetic) is computed below
    100.5 and rounds down; 150 of 100 is exact. *)
Example percent_of_samples :
  percent_of 201 200 = RInt 100 /\ percent_of 202 200 = RInt 101 /\
  percent_of 150 100 = RInt 150 /\ percent_of 1 3 = RInt 33 /\ percent_of 2 3 = RInt 67.
Proof. vm_compute. repeat split. Qed.
