(* ===== verification/Schema.v ===== *)
(** * Rows and notifications shared by the page components

    The [chatbot] and [plans] rows of src/lib/supabase.ts
    ([Database.public.Tables], lines 31-106), as the handlers of the
    dashboard and chatbot pages read them, and the notification record of
    the [useToast] hook that every handler calls. *)

From Stdlib Require Import ZArith String List.
From stdpp Require Import base strings.
From S2P Require Import Prelude Js.

Module Schema.

(** [chatbot.Row] (lines 32-46); nullable columns are options. *)
Record Chatbot := mkChatbot {
  cb_id : string;
  cb_user_id : option string;
  cb_name : option string;
  cb_is_active : bool;
  cb_status : option string;
  cb_plan_id : string;
  cb_is_auto_renewal : option bool;
  cb_ai_usages : option Z;
  cb_ai_quota : option Z;
  cb_prompt : option string;
  cb_created_at : string;
  cb_updated_at : option string;
  cb_expired_at : option string
}.

(** [plans.Row] (lines 79-87). *)
Record Plan := mkPlan {
  plan_id : string;
  plan_name : string;
  plan_price_per_month : Z;
  plan_description : option string;
  plan_ai_quota : Z
}.

(** [toast({ variant, title, description })] *)
Inductive ToastVariant := ToastSuccess | ToastDestructive.

Record Toast := mkToast {
  toast_variant : ToastVariant;
  toast_title : string;
  toast_description : string
}.

(** A [fetch] [Response]: its status, status text and body text. *)
Record Response := mkResponse {
  status : Z;
  statusText : string;
  body : string
}.

(** [response.ok] *)
Definition response_ok (r : Response) : bool := (200 <=? status r)%Z && (status r <=? 299)%Z.

End Schema.
