(* ===== verification/Sql.v ===== *)
(** * The database-side operators the queries use

    The handlers filter rows on the server with PostgREST's [.eq] and
    [.ilike]; this file gives [ILIKE] the meaning PostgreSQL's [like.c]
    gives it, on ASCII text: [%] matches any run of characters, [_] any
    one character, a backslash makes the next pattern character literal,
    and letters compare without case.  A pattern whose escape has nothing
    after it is an error when the matcher reaches it ([None]), which the
    client receives as the [error] of the query.

    It also holds the JavaScript string operations the pages apply to
    names ([toLowerCase], [includes]), on ASCII text.  The theorems relate
    the two: a pattern [%s%] with no special character in [s] is a
    case-insensitive [includes]. *)

From Stdlib Require Import String Ascii List Bool Lia.
From stdpp Require Import base list strings.
From S2P Require Import Prelude.

Local Open Scope string_scope.
Local Open Scope list_scope.

Module Sql.

(** [toLowerCase] on one ASCII character. *)
Definition lower (c : ascii) : ascii :=
  let n := nat_of_ascii c in
  if (65 <=? n)%nat && (n <=? 90)%nat then ascii_of_nat (n + 32) else c.

Definition lower_string (s : string) : string :=
  string_of_list_ascii (map lower (list_ascii_of_string s)).

Definition ascii_eqb (a b : ascii) : bool := if decide (a = b) then true else false.

(** ** [ILIKE] *)

Fixpoint like_match (p s : list ascii) {struct p} : option bool :=
  match p with
  | [] => Some (match s with [] => true | _ => false end)
  | c :: p' =>
      if ascii_eqb c "%"%char then
        (fix star (s : list ascii) : option bool :=
           match like_match p' s with
           | Some true => Some true
           | Some false => match s with [] => Some false | _ :: s' => star s' end
           | None => None
           end) s
      else if ascii_eqb c "_"%char then
        match s with [] => Some false | _ :: s' => like_match p' s' end
      else if ascii_eqb c "\"%char then
        match p' with
        | [] => None
        | e :: p'' =>
            match s with
            | [] => Some false
            | d :: s' => if ascii_eqb (lower e) (lower d) then like_match p'' s' else Some false
            end
        end
      else
        match s with
        | [] => Some false
        | d :: s' => if ascii_eqb (lower c) (lower d) then like_match p' s' else Some false
        end
  end.

(** [column ILIKE pattern]; [None] is the query error. *)
Definition ilike (s pattern : string) : option bool :=
  like_match (list_ascii_of_string pattern) (list_ascii_of_string s).

(** PostgREST, which receives [.ilike(column, pattern)] as
    [column=ilike.pattern], reads [*] in a [like] or [ilike] value as
    [%] before the pattern reaches PostgreSQL. *)
Definition star_to_percent (c : ascii) : ascii :=
  if ascii_eqb c "*"%char then "%"%char else c.

Definition pgrst_pattern (p : string) : string :=
  string_of_list_ascii (map star_to_percent (list_ascii_of_string p)).

(** The characters with a meaning in a pattern sent through PostgREST:
    [LIKE]'s [%], [_] and escape, and PostgREST's [*]. *)
Definition like_special (c : ascii) : bool :=
  ascii_eqb c "%"%char || ascii_eqb c "_"%char || ascii_eqb c "\"%char || ascii_eqb c "*"%char.

Definition plain (s : string) : bool :=
  forallb (fun c => negb (like_special c)) (list_ascii_of_string s).

(** ** JavaScript [includes] *)

Fixpoint prefixb (p s : list ascii) : bool :=
  match p, s with
  | [], _ => true
  | c :: p', d :: s' => ascii_eqb c d && prefixb p' s'
  | _ :: _, [] => false
  end.

Fixpoint infixb (p s : list ascii) : bool :=
  prefixb p s || match s with [] => false | _ :: s' => infixb p s' end.

(** [s.includes(p)] *)
Definition includes (s p : string) : bool :=
  infixb (list_ascii_of_string p) (list_ascii_of_string s).

(** ** Lemmas *)

Lemma ascii_eqb_eq a b : ascii_eqb a b = true <-> a = b.
Proof. unfold ascii_eqb. case_decide; split; congruence. Qed.

Lemma ascii_eqb_refl a : ascii_eqb a a = true.
Proof. by apply ascii_eqb_eq. Qed.

(** A plain pattern followed by [%] matches exactly the texts it is a
    case-insensitive prefix of. *)
Lemma like_match_plain_prefix p :
  forallb (fun c => negb (like_special c)) p = true ->
  forall s, like_match (p ++ ["%"%char]) s = Some (prefixb (map lower p) (map lower s)).
Proof.
  induction p as [|c p IH]; intros Hp s; simpl.
  - induction s as [|d s IHs]; [done|]. simpl. done.
  - simpl in Hp. apply andb_prop in Hp as [Hc Hp].
    unfold like_special in Hc.
    destruct (ascii_eqb c "%"%char), (ascii_eqb c "_"%char), (ascii_eqb c "\"%char);
      try discriminate. simpl.
    destruct s as [|d s]; [done|]. simpl.
    destruct (ascii_eqb (lower c) (lower d)); simpl; [|done]. by apply IH.
Qed.

Lemma list_ascii_app a b :
  list_ascii_of_string (a ++ b) = list_ascii_of_string a ++ list_ascii_of_string b.
Proof. induction a as [|c a IH]; simpl; [done|]. by rewrite IH. Qed.

(** A plain [s] in [%s%] is a case-insensitive substring test. *)
Lemma ilike_plain_infix t s :
  plain s = true ->
  ilike t ("%" ++ s ++ "%") =
  Some (infixb (map lower (list_ascii_of_string s)) (map lower (list_ascii_of_string t))).
Proof.
  unfold ilike, plain. intros Hp.
  rewrite !list_ascii_app. simpl list_ascii_of_string. cbn [app].
  cbn [like_match]. rewrite ascii_eqb_refl.
  induction (list_ascii_of_string t) as [|d l IH].
  - rewrite like_match_plain_prefix by done. simpl.
    by destruct (map lower (list_ascii_of_string s)).
  - rewrite like_match_plain_prefix by done. cbn [map infixb].
    destruct (prefixb _ _); [done|]. simpl. done.
Qed.

Lemma string_of_list_ascii_app l1 l2 :
  string_of_list_ascii (l1 ++ l2) = (string_of_list_ascii l1 ++ string_of_list_ascii l2)%string.
Proof. induction l1 as [|c l1 IH]; simpl; [done|]. by rewrite IH. Qed.

(** PostgREST leaves a pattern [%s%] with a plain [s] as it is. *)
Lemma pgrst_pattern_plain s :
  plain s = true -> pgrst_pattern ("%" ++ s ++ "%")%string = ("%" ++ s ++ "%")%string.
Proof.
  unfold pgrst_pattern, plain. intros Hp.
  assert (Hm : map star_to_percent (list_ascii_of_string s) = list_ascii_of_string s).
  { induction (list_ascii_of_string s) as [|c l IH]; [done|].
    simpl in Hp. apply andb_prop in Hp as [Hc Hp]. cbn [map]. rewrite IH by done.
    unfold like_special in Hc. unfold star_to_percent.
    destruct (ascii_eqb c "*"%char); [by rewrite !orb_true_r in Hc|done]. }
  rewrite !list_ascii_app, !map_app, !string_of_list_ascii_app, Hm, string_of_list_ascii_of_string.
  reflexivity.
Qed.

(** A pattern of percent signs matches every text. *)
Lemma like_match_percent s : like_match ["%"%char] s = Some true.
Proof. induction s as [|c s IH]; [done|]. simpl. done. Qed.

Lemma like_match_percents n s : like_match (repeat "%"%char (S n)) s = Some true.
Proof.
  revert s. induction n as [|n IH]; intros s; [apply like_match_percent|].
  change (repeat "%"%char (S (S n))) with ("%"%char :: repeat "%"%char (S n)).
  cbn [like_match]. rewrite ascii_eqb_refl. destruct s; by rewrite IH.
Qed.

End Sql.
