(* ===== verification/Ledger.v ===== *)
(** * Ledger Reader and Reconciler: [fetchUserData] of the balance page

    Source: src/app/dashboard/balance/page.tsx, [fetchUserData] (lines
    68-169), with the row types of src/lib/supabase.ts.  The handler reads
    the user's balance row; when the row is missing it inserts a zero row
    and later derives the balance by folding the transaction list; it then
    reads the payments, upserts the balance and applies it to the page.

    - [BalanceStore] is the interface of the [balances] table the handler
      needs (read by user id, insert, upsert on the user id), with its laws
      in [BalanceStoreLaws]; the handler and its theorems are stated
      against the interface, and the [gmap] instance discharges the laws.
    - The database is [Db]: the balances table and the [transactions] and
      [payments] tables as lists of rows.  Every remote call may fail; a
      [Faults] record says which ones do.
    - The page's React state is changed only through [setX] calls; the
      handler appends each of them, in order, to the trace of the [World],
      and [view_of] replays a trace onto the page state.

    The theorems show that a missing row is created with the ledger's
    balance (the reconciling fold is the signed sum of the ledger,
    [reconcile_ledger]), that an existing row is kept, that the handler never
    touches another user's row nor the transaction and payment tables,
    that running it twice is running it once, and that the balance reaches
    the page exactly once, after both lists.  They also show what happens
    on a failed balance read: the stored balance is overwritten with 0. *)

From Stdlib Require Import ZArith String List Lia.
From stdpp Require Import base list gmap strings sorting.
From S2P Require Import Prelude Js.

Local Open Scope string_scope.
Local Open Scope list_scope.
Local Open Scope Z_scope.

Module Ledger.

(** ** Rows (src/lib/supabase.ts, [Database.public.Tables]) *)

(** [transactions.type: 'topup' | 'usage'] *)
Inductive TransactionType := Topup | Usage.

#[export] Instance transaction_type_eq_dec : EqDecision TransactionType.
Proof. solve_decision. Defined.

(** A [transactions] row; [amount] is kept as the JavaScript value the
    client receives, since the code coerces it with [Number]. *)
Record Transaction := mkTransaction {
  tx_id : string;
  tx_user_id : string;
  tx_type : TransactionType;
  tx_amount : jsval;
  tx_description : option string;
  tx_created_at : string
}.

(** [payments.status: 'pending' | 'paid' | 'expired'] *)
Inductive PaymentStatus := Pending | Paid | Expired.

Record Payment := mkPayment {
  pay_id : string;
  pay_user_id : string;
  pay_invoice_url : option string;
  pay_amount : Z;
  pay_status : PaymentStatus;
  pay_created_at : string
}.

(** ** The reconciling fold (lines 116-119)

    [transactionsData.reduce((acc, t) => { const amt = Number(t.amount) || 0;
    return acc + (t.type === "topup" ? amt : -amt); }, 0)] *)

Definition signed_amount (t : Transaction) : Z :=
  let amt := number_or_zero (tx_amount t) in
  match tx_type t with Topup => amt | Usage => - amt end.

Definition reconcile (txs : list Transaction) : Z :=
  fold_left (fun acc t => acc + signed_amount t) txs 0.

(** The abstract balance of a ledger: topups count positively, usages
    negatively, malformed amounts as zero (spec 3 and 4.2). *)
Definition ledger_balance (txs : list Transaction) : Z := sumZ signed_amount txs.

(** ** The [balances] table as an interface *)

Class BalanceStore (B : Type) := {
  (** [.from("balances").select("balance").eq("user_id", u).maybeSingle()] *)
  bs_get : B -> string -> option Z;
  (** [.insert({ user_id: u, balance: z })]: [None] is the unique-key
      violation on [user_id] *)
  bs_insert : string -> Z -> B -> option B;
  (** [.upsert([{ user_id: u, balance: z }], { onConflict: "user_id" })] *)
  bs_upsert : string -> Z -> B -> B
}.

Class BalanceStoreLaws (B : Type) {BS : BalanceStore B} := {
  bs_get_upsert_eq u z b : bs_get (bs_upsert u z b) u = Some z;
  bs_get_upsert_ne u u' z b : u <> u' -> bs_get (bs_upsert u z b) u' = bs_get b u';
  bs_upsert_same u z b : bs_get b u = Some z -> bs_upsert u z b = b;
  bs_upsert_upsert u z z' b : bs_upsert u z (bs_upsert u z' b) = bs_upsert u z b;
  bs_insert_fresh u z b : bs_get b u = None -> bs_insert u z b = Some (bs_upsert u z b);
  bs_insert_taken u z b : bs_get b u <> None -> bs_insert u z b = None
}.

(** The hosted table, keyed by the unique [user_id]. *)
#[export] Instance gmap_balance_store : BalanceStore (gmap string Z) := {
  bs_get b u := b !! u;
  bs_insert u z b := match b !! u with Some _ => None | None => Some (<[u:=z]> b) end;
  bs_upsert u z b := <[u:=z]> b
}.

#[export] Instance gmap_balance_store_laws : BalanceStoreLaws (gmap string Z).
Proof.
  split; simpl.
  - intros. apply lookup_insert_eq.
  - intros. by apply lookup_insert_ne.
  - intros. by apply insert_id.
  - intros. apply insert_insert_eq.
  - intros u z b ->. done.
  - intros u z b H. by destruct (b !! u).
Qed.

(** ** Reconciler lemmas *)

Lemma reconcile_ledger txs : reconcile txs = ledger_balance txs.
Proof. unfold reconcile, ledger_balance. rewrite fold_left_add_sumZ. lia. Qed.

#[export] Instance ledger_balance_perm : Proper (Permutation ==> eq) ledger_balance.
Proof. apply sumZ_perm. Qed.

Lemma ledger_balance_app l1 l2 :
  ledger_balance (l1 ++ l2) = ledger_balance l1 + ledger_balance l2.
Proof. apply sumZ_app. Qed.

#[export] Hint Rewrite reconcile_ledger ledger_balance_app : tanam.

(** ** Remote calls, faults and the page state *)

(** Which remote calls of one run fail. *)
Record Faults := mkFaults {
  fail_balance_read : bool;
  fail_balance_insert : bool;
  fail_transactions_read : bool;
  fail_payments_read : bool;
  fail_balance_upsert : bool
}.

Definition no_faults : Faults := mkFaults false false false false false.

(** The [setX] calls of the page, in the order the handler makes them. *)
Inductive Update :=
| SetBalance (z : Z)
| SetTransactions (l : list Transaction)
| SetPayments (l : list Payment)
| SetLoading (b : bool).

(** The page state of [BalancePage] (lines 43-46). *)
Record View := mkView {
  v_balance : Z;
  v_transactions : list Transaction;
  v_payments : list Payment;
  v_loading : bool
}.

(** [useState<number>(181000)], [useState([])], [useState([])],
    [useState(true)]. *)
Definition initial_view : View := mkView 181000 [] [] true.

Definition apply_update (v : View) (up : Update) : View :=
  match up with
  | SetBalance z => mkView z (v_transactions v) (v_payments v) (v_loading v)
  | SetTransactions l => mkView (v_balance v) l (v_payments v) (v_loading v)
  | SetPayments l => mkView (v_balance v) (v_transactions v) l (v_loading v)
  | SetLoading b => mkView (v_balance v) (v_transactions v) (v_payments v) b
  end.

Definition view_of (trace : list Update) : View := fold_left apply_update trace initial_view.

(** [.order("created_at", { ascending: false })] *)
Definition order_desc {A} (created : A -> string) (l : list A) : list A :=
  @merge_sort A (fun a b => String.leb (created b) (created a) = true)
    (fun a b => decide (String.leb (created b) (created a) = true)) l.

Section Handler.
Context {B : Type} {BS : BalanceStore B}.

Record Db := mkDb {
  db_balances : B;
  db_transactions : list Transaction;
  db_payments : list Payment
}.

Record World := mkWorld { w_db : Db; w_trace : list Update }.

Definition user_transactions (db : Db) (u : string) : list Transaction :=
  filter (fun t => tx_user_id t = u) (db_transactions db).

Definition user_payments (db : Db) (u : string) : list Payment :=
  filter (fun p => pay_user_id p = u) (db_payments db).

Definition set_balances (b : B) (w : World) : World :=
  mkWorld (mkDb b (db_transactions (w_db w)) (db_payments (w_db w))) (w_trace w).

Definition emit (up : Update) : st World Empty_set unit :=
  st_modify (fun w => mkWorld (w_db w) (w_trace w ++ [up])).

Definition select_balance (flt : Faults) (u : string)
  : st World Empty_set (query (option Z)) :=
  fun w => (Ok (if fail_balance_read flt then QError
                else QData (bs_get (db_balances (w_db w)) u)), w).

Definition insert_balance (flt : Faults) (u : string) (z : Z)
  : st World Empty_set (query unit) :=
  fun w => if fail_balance_insert flt then (Ok QError, w) else
           match bs_insert u z (db_balances (w_db w)) with
           | Some b' => (Ok (QData tt), set_balances b' w)
           | None => (Ok QError, w)
           end.

Definition select_transactions (flt : Faults) (u : string)
  : st World Empty_set (query (list Transaction)) :=
  fun w => (Ok (if fail_transactions_read flt then QError
                else QData (order_desc tx_created_at (user_transactions (w_db w) u))), w).

Definition select_payments (flt : Faults) (u : string)
  : st World Empty_set (query (list Payment)) :=
  fun w => (Ok (if fail_payments_read flt then QError
                else QData (order_desc pay_created_at (user_payments (w_db w) u))), w).

Definition upsert_balance (flt : Faults) (u : string) (z : Z)
  : st World Empty_set (query unit) :=
  fun w => if fail_balance_upsert flt then (Ok QError, w)
           else (Ok (QData tt), set_balances (bs_upsert u z (db_balances (w_db w))) w).

(** ** [fetchUserData] (lines 68-169)

    [start] is the pair [(nextBalance, hadBalanceRecord)] after the
    balance read (lines 72-98); [next] is [nextBalance] after the
    transaction read (lines 100-129).  The [try] block cannot throw in
    the model (the query builder reports failures as [error] values), so
    its [catch] is omitted; the [finally] clears the loading flag. *)
Definition fetchUserData (flt : Faults) (user : option string)
  : st World Empty_set unit :=
  match user with
  | None => st_ret tt
  | Some u =>
    st_finally
      (bal <- select_balance flt u ;;
       start <- match bal with
                | QError => st_ret (Some 0, false)
                | QData (Some b) => st_ret (Some b, true)
                | QData None => insert_balance flt u 0 ;; st_ret (Some 0, false)
                end ;;
       txs <- select_transactions flt u ;;
       next <- match txs with
               | QError => emit (SetTransactions []) ;; st_ret start.1
               | QData l =>
                   emit (SetTransactions l) ;;
                   st_ret (if start.2 then start.1 else Some (reconcile l))
               end ;;
       ps <- select_payments flt u ;;
       (match ps with
        | QError => emit (SetPayments [])
        | QData l => emit (SetPayments l)
        end) ;;
       match next with
       | Some b => upsert_balance flt u b ;; emit (SetBalance b)
       | None => st_ret tt
       end)
      (emit (SetLoading false))
  end.

Definition run_fetch (flt : Faults) (user : option string) (w : World) : World :=
  snd (fetchUserData flt user w).

(** *** Lemmas on the primitives *)

Lemma order_desc_perm {A} (created : A -> string) (l : list A) :
  order_desc created l ≡ₚ l.
Proof. apply merge_sort_Permutation. Qed.

Lemma ledger_order_desc l :
  ledger_balance (order_desc tx_created_at l) = ledger_balance l.
Proof. by rewrite order_desc_perm. Qed.

Lemma view_of_app tr us :
  view_of (tr ++ us) = fold_left apply_update us (view_of tr).
Proof. unfold view_of. by rewrite fold_left_app. Qed.

(** *** The handler as a straight-line function

    The balances table after the row creation of lines 88-98, the value
    of [nextBalance] when it is applied (line 148), and the lists the
    page receives. *)
Definition balances_after_create (flt : Faults) (u : string) (bal : B) : B :=
  if fail_balance_read flt then bal else
  match bs_get bal u with
  | Some _ => bal
  | None => if fail_balance_insert flt then bal else bs_upsert u 0 bal
  end.

Definition next_balance (flt : Faults) (u : string) (db : Db) : Z :=
  let computed := if fail_transactions_read flt then 0
                  else reconcile (order_desc tx_created_at (user_transactions db u)) in
  if fail_balance_read flt then computed else
  match bs_get (db_balances db) u with
  | Some b => b
  | None => computed
  end.

Definition shown_transactions (flt : Faults) (u : string) (db : Db) :=
  if fail_transactions_read flt then [] else order_desc tx_created_at (user_transactions db u).

Definition shown_payments (flt : Faults) (u : string) (db : Db) :=
  if fail_payments_read flt then [] else order_desc pay_created_at (user_payments db u).

Context {BL : BalanceStoreLaws B}.

(** Unfold one run of the handler into its branches. *)
Ltac fetch_cases :=
  unfold run_fetch, fetchUserData, select_balance, insert_balance,
    select_transactions, select_payments, upsert_balance, emit, set_balances in *;
  st_run; rewrite <-?app_assoc; simpl.

Lemma fetch_run_eq flt u w :
  let db := w_db w in
  let bal := balances_after_create flt u (db_balances db) in
  let z := next_balance flt u db in
  run_fetch flt (Some u) w =
  mkWorld (mkDb (if fail_balance_upsert flt then bal else bs_upsert u z bal)
                (db_transactions db) (db_payments db))
          (w_trace w ++ [SetTransactions (shown_transactions flt u db);
                         SetPayments (shown_payments flt u db);
                         SetBalance z; SetLoading false]).
Proof.
  destruct w as [[bal txs ps] tr].
  unfold balances_after_create, next_balance, shown_transactions, shown_payments.
  fetch_cases;
    repeat match goal with
    | H : bs_insert _ _ _ = Some _ |- _ =>
        rewrite bs_insert_fresh in H by done; injection H as <-
    | H : bs_insert _ _ _ = None |- _ =>
        rewrite bs_insert_fresh in H by done; discriminate
    end; done.
Qed.
End Handler.

#[export] Hint Rewrite @ledger_order_desc @view_of_app : tanam.

(** The balance a user's ledger holds, and a balances table that agrees
    with it (spec 3: "balance SHOULD equal the signed sum of all
    transactions for that user"). *)
Definition consistent {B} {BS : BalanceStore B} (db : Db) (u : string) : Prop :=
  bs_get (db_balances db) u = Some (ledger_balance (user_transactions db u)).

(** ** Properties of the Reconciler *)

(** The two fixed cases of the specification: the empty ledger
    reconciles to 0, and a topup of 50000 followed by a usage of 20000 to
    30000. *)
Example reconcile_examples :
  reconcile [] = 0 /\
  reconcile [mkTransaction "t1" "u" Topup (JNumber 50000) None "2025-01-01";
             mkTransaction "t2" "u" Usage (JNumber 20000) None "2025-01-02"] = 30000.
Proof. split; reflexivity. Qed.

(** A row whose amount is not a number ([Number(amount)] is [NaN])
    leaves the reconciled balance unchanged: it is read as 0 and never
    throws. *)
Theorem reconcile_skips_malformed l1 t l2 :
  to_number (tx_amount t) = None ->
  reconcile (l1 ++ t :: l2) = reconcile (l1 ++ l2).
Proof.
  intros Hnan. rewrite !reconcile_ledger, !ledger_balance_app. simpl.
  unfold ledger_balance, signed_amount, number_or_zero. rewrite Hnan.
  destruct (tx_type t); simpl; lia.
Qed.

(** ** Properties of [fetchUserData] *)

Section HandlerProperties.
Context {B : Type} {BS : BalanceStore B} {BL : BalanceStoreLaws B}.
Implicit Types (w : @World B) (flt : Faults).

Lemma fetch_existing_row flt u b w :
  fail_balance_read flt = false ->
  bs_get (db_balances (w_db w)) u = Some b ->
  w_db (run_fetch flt (Some u) w) = w_db w /\ next_balance flt u (w_db w) = b.
Proof.
  intros Hr Hb. destruct w as [[bal txs ps] tr]; simpl in Hb.
  rewrite fetch_run_eq. unfold next_balance, balances_after_create; simpl.
  rewrite Hr, Hb. by destruct (fail_balance_upsert flt); rewrite ?bs_upsert_same.
Qed.

Lemma fetch_balance_shown flt u w :
  v_balance (view_of (w_trace (run_fetch flt (Some u) w))) = next_balance flt u (w_db w).
Proof. rewrite fetch_run_eq; cbn [w_trace]. by rewrite view_of_app. Qed.

Lemma fetch_tables flt u w :
  let db' := w_db (run_fetch flt (Some u) w) in
  db_transactions db' = db_transactions (w_db w) /\
  db_payments db' = db_payments (w_db w) /\
  user_transactions db' u = user_transactions (w_db w) u.
Proof. by rewrite fetch_run_eq. Qed.

(** C1: When the user has no balance row and the reads and the upsert
    succeed, [fetchUserData] leaves a row holding the signed sum of the
    user's ledger, whether or not the insert of the zero row succeeded,
    and the page shows that sum (spec 4.1, 4.2, 8.2). *)
Theorem fetch_creates_missing_row flt u w :
  fail_balance_read flt = false ->
  fail_transactions_read flt = false ->
  fail_balance_upsert flt = false ->
  bs_get (db_balances (w_db w)) u = None ->
  let w' := run_fetch flt (Some u) w in
  consistent (w_db w') u /\
  v_balance (view_of (w_trace w')) = ledger_balance (user_transactions (w_db w) u).
Proof.
  intros Hr Ht Hu Hnone; cbv zeta. rewrite fetch_balance_shown. unfold consistent.
  destruct (fetch_tables flt u w) as (_ & _ & ->).
  rewrite fetch_run_eq; unfold next_balance; simpl.
  rewrite Hr, Ht, Hu, Hnone, bs_get_upsert_eq, reconcile_ledger, ledger_order_desc.
  done.
Qed.

(** C5: when the balance row is read, [fetchUserData] changes no table,
    whatever else fails, and the page shows the stored balance: an
    existing row is never recomputed from the ledger. *)
Theorem fetch_keeps_row flt u b w :
  fail_balance_read flt = false ->
  bs_get (db_balances (w_db w)) u = Some b ->
  let w' := run_fetch flt (Some u) w in
  w_db w' = w_db w /\ v_balance (view_of (w_trace w')) = b.
Proof.
  intros Hr Hb; cbv zeta. rewrite fetch_balance_shown.
  by destruct (fetch_existing_row flt u b w Hr Hb).
Qed.
(** C6: every run for a signed-in user makes exactly four page updates,
    in this order: the transaction list, the payment list, the balance,
    and the loading flag; so the balance is applied once per run, after
    both lists (spec 4.5, 8.8).  The balance applied is the one written
    to the table whenever the upsert succeeds. *)
Theorem fetch_applies_balance_last flt u w :
  exists lt lp z,
    w_trace (run_fetch flt (Some u) w) =
      w_trace w ++ [SetTransactions lt; SetPayments lp; SetBalance z; SetLoading false] /\
    (fail_balance_upsert flt = false ->
     bs_get (db_balances (w_db (run_fetch flt (Some u) w))) u = Some z).
Proof.
  rewrite fetch_run_eq; simpl. do 3 eexists; split; [done|].
  intros ->. apply bs_get_upsert_eq.
Qed.

Lemma balances_after_create_ne flt u u' bal :
  u <> u' -> bs_get (balances_after_create flt u bal) u' = bs_get bal u'.
Proof.
  intros Hne. unfold balances_after_create.
  repeat case_match; rewrite ?bs_get_upsert_ne by done; done.
Qed.

Lemma fetch_balances_ne flt u u' w :
  u <> u' ->
  bs_get (db_balances (w_db (run_fetch flt (Some u) w))) u' =
  bs_get (db_balances (w_db w)) u'.
Proof.
  intros Hne. rewrite fetch_run_eq; simpl.
  case_match; rewrite ?bs_get_upsert_ne by done; by apply balances_after_create_ne.
Qed.

(** [fetchUserData] for user [u] never changes another user's
    balance row, and never writes the transaction or payment tables,
    whatever fails. *)
Theorem fetch_isolation flt u u' w :
  u <> u' ->
  let db' := w_db (run_fetch flt (Some u) w) in
  bs_get (db_balances db') u' = bs_get (db_balances (w_db w)) u' /\
  db_transactions db' = db_transactions (w_db w) /\
  db_payments db' = db_payments (w_db w).
Proof.
  intros Hne; cbv zeta. rewrite fetch_balances_ne by done.
  destruct (fetch_tables flt u w) as (? & ? & _). done.
Qed.

Lemma fetch_row_exists flt u w :
  fail_balance_upsert flt = false ->
  bs_get (db_balances (w_db (run_fetch flt (Some u) w))) u =
  Some (next_balance flt u (w_db w)).
Proof. intros Hu. rewrite fetch_run_eq; simpl. rewrite Hu. apply bs_get_upsert_eq. Qed.

(** With no failures, running [fetchUserData] twice leaves the same
    tables and shows the same balance as running it once (spec 4.2:
    reconciliation is idempotent). *)
Theorem fetch_idempotent u w :
  let w1 := run_fetch no_faults (Some u) w in
  let w2 := run_fetch no_faults (Some u) w1 in
  w_db w2 = w_db w1 /\
  v_balance (view_of (w_trace w2)) = v_balance (view_of (w_trace w1)).
Proof.
  cbv zeta. rewrite !fetch_balance_shown.
  destruct (fetch_existing_row no_faults u (next_balance no_faults u (w_db w))
              (run_fetch no_faults (Some u) w)) as [-> ->]; [done| |done].
  by apply fetch_row_exists.
Qed.
Lemma next_balance_read_error flt u db :
  fail_balance_read flt = true ->
  next_balance flt u db =
  if fail_transactions_read flt then 0 else ledger_balance (user_transactions db u).
Proof.
  intros Hr. unfold next_balance. rewrite Hr.
  by rewrite reconcile_ledger, ledger_order_desc.
Qed.

(** The consistency of a user's row with the user's ledger is an
    invariant of [fetchUserData], for every user, unless both the
    balance read and the transaction read fail. *)
Theorem fetch_preserves_consistency flt u u' w :
  fail_balance_read flt = false \/ fail_transactions_read flt = false ->
  consistent (w_db w) u' ->
  consistent (w_db (run_fetch flt (Some u) w)) u'.
Proof.
  intros Hf Hc. unfold consistent in *.
  destruct (decide (u = u')) as [<-|Hne].
  - destruct (fail_balance_read flt) eqn:Hr.
    + destruct Hf as [?|Ht]; [congruence|].
      rewrite fetch_run_eq; simpl. unfold balances_after_create. rewrite Hr.
      destruct (fail_balance_upsert flt); [done|].
      rewrite bs_get_upsert_eq, next_balance_read_error, Ht by done. done.
    + by rewrite (proj1 (fetch_existing_row flt u _ w Hr Hc)).
  - rewrite fetch_balances_ne, Hc by done. unfold user_transactions. by rewrite (proj1 (fetch_tables flt u w)).
Qed.

(** C10: when the balance read fails, [fetchUserData] overwrites the
    stored balance, whatever it was, with the ledger sum, or with 0 when
    the transaction read fails too; the page shows the same value
    (spec 4.1 says a read failure leaves the balance unknown). *)
Theorem fetch_read_error_overwrites flt u w :
  fail_balance_read flt = true ->
  fail_balance_upsert flt = false ->
  let w' := run_fetch flt (Some u) w in
  let z := if fail_transactions_read flt then 0
           else ledger_balance (user_transactions (w_db w) u) in
  bs_get (db_balances (w_db w')) u = Some z /\ v_balance (view_of (w_trace w')) = z.
Proof.
  intros Hr Hu; cbv zeta.
  rewrite fetch_balance_shown, fetch_row_exists, next_balance_read_error by done.
  done.
Qed.
End HandlerProperties.

(** ** Witnesses on a sample database

    User "u" has a topup of 50000 and a usage of 20000; user "v" a topup
    of 7.  [sample_world row] gives "u" the balance row [row]. *)

Definition sample_transactions : list Transaction :=
  [mkTransaction "t1" "u" Topup (JNumber 50000) None "2025-01-01T10:00:00Z";
   mkTransaction "t2" "u" Usage (JNumber 20000) None "2025-01-02T10:00:00Z";
   mkTransaction "t3" "v" Topup (JNumber 7) None "2025-01-03T10:00:00Z"].

Definition sample_world (row : option Z) : @World (gmap string Z) :=
  mkWorld (mkDb (match row with Some b => {[ "u" := b ]} | None => ∅ end)
                sample_transactions [])
          [].

Lemma fetch_creates_missing_row_witness :
  bs_get (db_balances (w_db (sample_world None))) "u" = None /\
  (let w' := run_fetch no_faults (Some "u") (sample_world None) in
   consistent (w_db w') "u" /\
   v_balance (view_of (w_trace w')) =
     ledger_balance (user_transactions (w_db (sample_world None)) "u")).
Proof. split; [reflexivity|]. apply fetch_creates_missing_row; reflexivity. Defined.

Lemma fetch_keeps_row_witness :
  bs_get (db_balances (w_db (sample_world (Some 999)))) "u" = Some 999 /\
  (let w' := run_fetch no_faults (Some "u") (sample_world (Some 999)) in
   w_db w' = w_db (sample_world (Some 999)) /\ v_balance (view_of (w_trace w')) = 999).
Proof. split; [reflexivity|]. apply fetch_keeps_row; reflexivity. Defined.

Lemma fetch_applies_balance_last_witness :
  exists lt lp z,
    w_trace (run_fetch no_faults (Some "u") (sample_world None)) =
      [] ++ [SetTransactions lt; SetPayments lp; SetBalance z; SetLoading false] /\
    (fail_balance_upsert no_faults = false ->
     bs_get (db_balances (w_db (run_fetch no_faults (Some "u") (sample_world None)))) "u" =
     Some z).
Proof. apply (fetch_applies_balance_last no_faults "u" (sample_world None)). Defined.

Lemma fetch_idempotent_witness :
  let w1 := run_fetch no_faults (Some "u") (sample_world None) in
  let w2 := run_fetch no_faults (Some "u") w1 in
  w_db w2 = w_db w1 /\ v_balance (view_of (w_trace w2)) = v_balance (view_of (w_trace w1)).
Proof. apply (fetch_idempotent "u" (sample_world None)). Defined.

Lemma fetch_isolation_witness :
  "u" <> "v" /\
  (let db' := w_db (run_fetch no_faults (Some "u") (sample_world None)) in
   bs_get (db_balances db') "v" = bs_get (db_balances (w_db (sample_world None))) "v" /\
   db_transactions db' = db_transactions (w_db (sample_world None)) /\
   db_payments db' = db_payments (w_db (sample_world None))).
Proof. split; [done|]. apply fetch_isolation. done. Defined.

Lemma fetch_preserves_consistency_witness :
  (fail_balance_read no_faults = false \/ fail_transactions_read no_faults = false) /\
  consistent (w_db (sample_world (Some 30000))) "u" /\
  consistent (w_db (run_fetch no_faults (Some "u") (sample_world (Some 30000)))) "u".
Proof.
  assert (Hc : consistent (w_db (sample_world (Some 30000))) "u") by reflexivity.
  split; [by left|]. split; [exact Hc|].
  apply fetch_preserves_consistency; [by left | exact Hc].
Defined.

Definition read_error_faults : Faults := mkFaults true false true false false.

Lemma fetch_read_error_overwrites_witness :
  fail_balance_read read_error_faults = true /\
  fail_balance_upsert read_error_faults = false /\
  (let w' := run_fetch read_error_faults (Some "u") (sample_world (Some 30000)) in
   bs_get (db_balances (w_db w')) "u" = Some 0 /\ v_balance (view_of (w_trace w')) = 0).
Proof.
  split; [reflexivity|]. split; [reflexivity|].
  apply (fetch_read_error_overwrites read_error_faults "u" (sample_world (Some 30000)));
    reflexivity.
Defined.

End Ledger.
