(* ===== verification/Gateway.v ===== *)
(** * Action Gateway Client: [handleTopup] of the balance page

    Source: src/app/dashboard/balance/page.tsx, [handleTopup] (lines
    171-352).  The handler checks the form, reads the session token, POSTs
    the top-up request to the billing webhook, rejects a non-2xx status and
    an unparsable body, and then sniffs the parsed body for one of four
    shapes: [{success, payment_url}], an array of payments, a plain payment
    object, or a failure object with [message]/[error].  Every exception
    ends in the [catch] block, which shows the message.

    - [Response], [Request] and the network [respond] model [fetch];
      [json_parse] is [JSON.parse], a parameter of the section (the
      theorems hold for any parser).
    - [classify] is the shape sniffing of lines 233-337 as a function from
      the parsed body to a normalised [Outcome] or a typed [TopupError];
      [handleTopup] is the whole handler in the monad [st] on the page
      state [TopupPage], whose [effects] list records navigations and
      refreshes in order.
    - The dialog around it (lines 423-491): opening and closing, the
      amount input, the three amount buttons and "Isi Saldo" with its
      [disabled] condition are the events of [run_topup_events].

    The theorems show the four cases of the specification (8.5), that a
    non-2xx status always ends in a failure, that every run ends with the
    loading flag cleared and exactly one notification, that a navigation
    only ever goes to a URL taken from the response body, and what the
    code does with a successful body without a URL (it opens a blank tab),
    and that an amount button requests exactly the amount of its label
    while a typed "1e3" requests one rupiah. *)

From Stdlib Require Import ZArith String List Lia.
From stdpp Require Import base list strings.
From S2P Require Import Prelude Js Schema.

Local Open Scope string_scope.
Local Open Scope list_scope.
Local Open Scope Z_scope.

Module Gateway.

#[local] Set Warnings "-register-all".

(** ** The page state and its effects *)

Import Schema.

(** Navigations and refreshes the handler starts. *)
Inductive Effect :=
| Navigate (url : string)                 (** [window.location.href = url] *)
| OpenWindow (url : jsval)                (** [window.open(url, "_blank")] *)
| RefreshUserData                         (** [fetchUserData()] *)
| After (ms : Z) (effects : list Effect). (** [setTimeout(() => ..., ms)] *)

(** ** Requests and responses *)

Definition topup_endpoint : string := "https://n8n.tanam.io/webhook/biling/topup-balance".

(** The POST of lines 193-207: bearer token and the JSON body
    [{ user_id, email, amount: parseInt(topupAmount) }]. *)
Record Request := mkRequest {
  req_url : string;
  req_token : string;
  req_user_id : string;
  req_email : string;
  req_amount : jsval
}.

(** The state of [BalancePage] that [handleTopup] reads and writes
    (lines 47-49 and 56), with the notifications, effects and
    requests so far. *)
Record TopupPage := mkTopupPage {
  topupAmount : string;
  isTopupOpen : bool;
  error : string;
  topupLoading : bool;
  toasts : list Toast;
  effects : list Effect;
  sent : list Request
}.

(** ** Errors

    The exceptions that reach the [catch] block; [error_text] is their
    [message]. *)
Inductive TopupError :=
| NoToken                                  (** line 183 *)
| FetchRejected (msg : string)             (** [fetch] itself rejects *)
| HttpError (code : Z) (text body : string) (** line 220 *)
| InvalidJson (body : string)              (** line 228 *)
| PropertyOfNullish (nullish key : string) (** [TypeError] reading [key] *)
| Rejected (message : jsval).              (** [new Error(...)] of line 332 *)

Definition error_text (e : TopupError) : string :=
  match e with
  | NoToken => "No authentication token found"
  | FetchRejected m => m
  | HttpError c t b => "HTTP " ++ string_of_Z c ++ ": " ++ t ++ " - " ++ b
  | InvalidJson b => "Invalid JSON response: " ++ b
  | PropertyOfNullish n k => "Cannot read properties of " ++ n ++ " (reading '" ++ k ++ "')"
  | Rejected m => error_message m
  end.

Definition topup_default_reject : string :=
  "Topup gagal diproses. Silakan periksa koneksi internet dan coba lagi.".

Definition topup_default_error : string :=
  "Terjadi kesalahan saat memproses topup. Silakan coba lagi.".

(** The message the [catch] block shows: [error.message || default]. *)
Definition shown_message (e : TopupError) : string :=
  match error_text e with "" => topup_default_error | m => m end.

(** ** Shape sniffing (lines 233-337) *)

(** How a successful body is handled. *)
Inductive Outcome :=
| RedirectTo (url : jsval)          (** assign [window.location.href] *)
| RefreshThenOpen (invoice : jsval) (** refresh and open [invoice_url] after 1 s *)
| RefreshNow.                       (** refresh at once *)

(** [v.k], throwing the [TypeError] of a [null] or [undefined] [v]. *)
Definition read (v : jsval) (k : string) : result jsval TopupError :=
  match get v k with
  | Some x => Ok x
  | None => Err (PropertyOfNullish (match v with JNull => "null" | _ => "undefined" end) k)
  end.

Definition bind_r {A B} (r : result A TopupError) (k : A -> result B TopupError)
  : result B TopupError :=
  match r with Ok a => k a | Err e => Err e end.

Notation "x <-r r ;; k" := (bind_r r (fun x => k))
  (at level 100, r at next level, right associativity) : tb_scope.

(** [res] is the parsed body, [result] in the source.  In the third
    branch the source reads [invoice_url] and [id] only after testing
    [res]; here they are read first, which is the same since [res] is not
    [null] or [undefined] past the first read. *)
Definition classify (res : jsval) : result Outcome TopupError :=
  success <-r read res "success" ;;
  if truthy success then
    payment_url <-r read res "payment_url" ;;
    if truthy payment_url then Ok (RedirectTo payment_url)
    else invoice_url <-r read res "invoice_url" ;; Ok (RefreshThenOpen invoice_url)
  else if is_array res && match res with JArray (_ :: _) => true | _ => false end then
    let payment := default JUndefined (index res 0) in
    invoice_url <-r read payment "invoice_url" ;;
    if truthy invoice_url then Ok (RedirectTo invoice_url) else Ok RefreshNow
  else
    invoice_url <-r read res "invoice_url" ;;
    id <-r read res "id" ;;
    if truthy res && typeof_object res && (truthy invoice_url || truthy id) then
      payment_url <-r read res "payment_url" ;;
      let url := js_or invoice_url payment_url in
      if truthy url then Ok (RedirectTo url) else Ok RefreshNow
    else
      message <-r read res "message" ;;
      err <-r read res "error" ;;
      Err (Rejected (js_or message (js_or err (JString topup_default_reject)))).

(** ** The handler (lines 171-352) *)

Definition set_page (f : TopupPage -> TopupPage) : st TopupPage TopupError unit :=
  st_modify f.

Definition setTopupLoading (b : bool) := set_page (fun p =>
  mkTopupPage (topupAmount p) (isTopupOpen p) (error p) b (toasts p) (effects p) (sent p)).
Definition setError (m : string) := set_page (fun p =>
  mkTopupPage (topupAmount p) (isTopupOpen p) m (topupLoading p) (toasts p) (effects p) (sent p)).
Definition closeTopupDialog := set_page (fun p =>
  mkTopupPage "" false (error p) (topupLoading p) (toasts p) (effects p) (sent p)).
Definition toast (t : Toast) := set_page (fun p =>
  mkTopupPage (topupAmount p) (isTopupOpen p) (error p) (topupLoading p)
              (toasts p ++ [t]) (effects p) (sent p)).
Definition perform (e : Effect) := set_page (fun p =>
  mkTopupPage (topupAmount p) (isTopupOpen p) (error p) (topupLoading p)
              (toasts p) (effects p ++ [e]) (sent p)).
Definition send (r : Request) := set_page (fun p =>
  mkTopupPage (topupAmount p) (isTopupOpen p) (error p) (topupLoading p)
              (toasts p) (effects p) (sent p ++ [r])).

Definition redirecting_toast := mkToast ToastSuccess "Payment Created" "Redirecting to payment page...".
Definition processed_toast :=
  mkToast ToastSuccess "Payment Created" "Your topup request has been processed.".

(** What each outcome does: [setIsTopupOpen(false); setTopupAmount("")],
    a success notification, then the navigation or refresh. *)
Definition apply_outcome (o : Outcome) : st TopupPage TopupError unit :=
  closeTopupDialog ;;
  match o with
  | RedirectTo url => toast redirecting_toast ;; perform (Navigate (to_string url))
  | RefreshThenOpen inv =>
      toast processed_toast ;; perform (After 1000 [RefreshUserData; OpenWindow inv])
  | RefreshNow => toast processed_toast ;; perform RefreshUserData
  end.

Section Handler.
(** [JSON.parse]: [None] when it throws. *)
Variable json_parse : string -> option jsval.

(** [user] is the signed-in user's id and e-mail, [session_token] the
    session's [access_token], [respond] the network: the response to a
    request, or the message [fetch] rejects with. *)
Definition handleTopup (user : option (string * string)) (session_token : option string)
    (respond : Request -> result Response string) : st TopupPage TopupError unit :=
  page <- st_get ;;
  match user with
  | None => st_ret tt
  | Some (uid, email) =>
    if String.eqb (topupAmount page) "" then st_ret tt else
    setTopupLoading true ;;
    setError "" ;;
    st_finally
      (st_catch
        (token <- (match session_token with
                   | Some t => if String.eqb t "" then st_throw NoToken else st_ret t
                   | None => st_throw NoToken
                   end) ;;
         let req := mkRequest topup_endpoint token uid email
                      (json_number (parse_int (topupAmount page))) in
         send req ;;
         resp <- (match respond req with
                  | Ok r => st_ret r
                  | Err m => st_throw (FetchRejected m)
                  end) ;;
         if negb (response_ok resp)
         then st_throw (HttpError (status resp) (statusText resp) (body resp))
         else
         res <- (match json_parse (body resp) with
                 | Some v => st_ret v
                 | None => st_throw (InvalidJson (body resp))
                 end) ;;
         match classify res with
         | Ok o => apply_outcome o
         | Err e => st_throw e
         end)
        (fun e =>
           let msg := shown_message e in
           setError msg ;; toast (mkToast ToastDestructive "Topup Error" msg)))
      (setTopupLoading false)
  end.

Definition run_topup user session_token respond (p : TopupPage) : TopupPage :=
  snd (handleTopup user session_token respond p).

(** *** The handler as a pipeline

    [topup_pipeline] is what happens between the token check and the
    [catch]: the requests sent and the normalised result; [after_topup]
    is the page the [then] or [catch] branch and the [finally] leave. *)
Definition topup_pipeline (session_token : option string) (req_of : string -> Request)
    (respond : Request -> result Response string) : list Request * result Outcome TopupError :=
  match session_token with
  | Some t =>
    if String.eqb t "" then ([], Err NoToken) else
    ([req_of t],
     match respond (req_of t) with
     | Err m => Err (FetchRejected m)
     | Ok r =>
       if negb (response_ok r) then Err (HttpError (status r) (statusText r) (body r)) else
       match json_parse (body r) with
       | None => Err (InvalidJson (body r))
       | Some v => classify v
       end
     end)
  | None => ([], Err NoToken)
  end.

Definition outcome_toast (o : Outcome) : Toast :=
  match o with RedirectTo _ => redirecting_toast | _ => processed_toast end.

Definition outcome_effect (o : Outcome) : Effect :=
  match o with
  | RedirectTo url => Navigate (to_string url)
  | RefreshThenOpen inv => After 1000 [RefreshUserData; OpenWindow inv]
  | RefreshNow => RefreshUserData
  end.

Definition after_topup (p : TopupPage) (rs : list Request) (r : result Outcome TopupError)
  : TopupPage :=
  match r with
  | Ok o => mkTopupPage "" false "" false (toasts p ++ [outcome_toast o])
                        (effects p ++ [outcome_effect o]) (sent p ++ rs)
  | Err e => mkTopupPage (topupAmount p) (isTopupOpen p) (shown_message e) false
                         (toasts p ++ [mkToast ToastDestructive "Topup Error" (shown_message e)])
                         (effects p) (sent p ++ rs)
  end.

Definition topup_request (p : TopupPage) (uid email : string) (t : string) : Request :=
  mkRequest topup_endpoint t uid email (json_number (parse_int (topupAmount p))).

Lemma run_topup_eq uid email tok respond p :
  topupAmount p <> "" ->
  run_topup (Some (uid, email)) tok respond p =
  let '(rs, r) := topup_pipeline tok (topup_request p uid email) respond in
  after_topup p rs r.
Proof.
  intros Hne. destruct p as [amt op err ld ts es ss]; simpl in Hne.
  unfold run_topup, handleTopup, topup_pipeline, topup_request.
  unfold setTopupLoading, setError, send, set_page.
  destruct tok as [t|]; [destruct (String.eqb t "") eqn:Ht|]; st_run;
    unfold apply_outcome, closeTopupDialog, toast, perform, set_page in *;
    repeat (st_run; rewrite <-?app_assoc);
    repeat match goal with H : classify _ = _ |- _ => rewrite H; clear H end;
    simpl; rewrite ?app_nil_r; try done;
    exfalso; apply Hne, String.eqb_eq; assumption.
Qed.

(** *** The dialog's events (lines 423-491) *)

(** The three amount buttons (lines 447-473). *)
Inductive Preset := Rp50000 | Rp100000 | Rp200000.

Definition preset_value (k : Preset) : string :=
  match k with Rp50000 => "50000" | Rp100000 => "100000" | Rp200000 => "200000" end.

Definition setTopupAmount (s : string) (p : TopupPage) : TopupPage :=
  mkTopupPage s (isTopupOpen p) (error p) (topupLoading p) (toasts p) (effects p) (sent p).

Definition setIsTopupOpen (b : bool) (p : TopupPage) : TopupPage :=
  mkTopupPage (topupAmount p) b (error p) (topupLoading p) (toasts p) (effects p) (sent p).

(** "Tambah Saldo" and the dialog's [onOpenChange={setIsTopupOpen}]
    (line 423), the amount input (line 443), the amount buttons and "Isi
    Saldo" with its [disabled={topupLoading || !topupAmount}] (lines
    477-478).  The input and buttons exist only in the open dialog. *)
Inductive TopupEvent :=
  | TopupOpenChange (open : bool)
  | TypeAmount (s : string)
  | ClickPreset (k : Preset)
  | ClickTopup (user : option (string * string)) (session_token : option string)
      (respond : Request -> result Response string).

Definition topup_event (p : TopupPage) (e : TopupEvent) : TopupPage :=
  match e with
  | TopupOpenChange o => setIsTopupOpen o p
  | TypeAmount s => if isTopupOpen p then setTopupAmount s p else p
  | ClickPreset k => if isTopupOpen p then setTopupAmount (preset_value k) p else p
  | ClickTopup u t r =>
      if isTopupOpen p && negb (topupLoading p) && negb (String.eqb (topupAmount p) "")
      then run_topup u t r p else p
  end.

Definition run_topup_events (p : TopupPage) (es : list TopupEvent) : TopupPage :=
  fold_left topup_event es p.
End Handler.

(** ** Properties *)

Lemma shown_message_nonempty e : shown_message e <> "".
Proof. unfold shown_message, topup_default_error. by case_match. Qed.

Lemma read_ok v k x : read v k = Ok x -> get v k = Some x.
Proof. unfold read. case_match; congruence. Qed.

(** Where a redirect of [classify] takes its URL from. *)
Lemma classify_redirect v x :
  classify v = Ok (RedirectTo x) ->
  truthy x = true /\
  (get v "payment_url" = Some x \/ get v "invoice_url" = Some x \/
   exists p, index v 0 = Some p /\ get p "invoice_url" = Some x).
Proof.
  unfold classify, bind_r.
  repeat match goal with
  | |- context [read ?v ?k] => destruct (read v k) eqn:?; [|done]
  | |- context [if ?b then _ else _] => destruct b eqn:?
  end; intros H; simplify_eq; repeat match goal with H : read _ _ = Ok _ |- _ => apply read_ok in H end;
    try (split; [done|]); eauto.
  - destruct v as [| | | | |[|p ?]|]; simplify_eq/=; eauto.
  - unfold js_or in *. case_match; eauto.
Qed.

(** A list does not equal itself extended by one element. *)
Ltac no_new_effect :=
  let H := fresh in
  intros H; apply (f_equal length) in H; rewrite length_app in H; simpl in H; lia.

Section Properties.
Variable json_parse : string -> option jsval.

(** The four response cases of the specification (8.5), for the
    shape sniffing: [{success: true, payment_url: "https://x"}] and
    [[{invoice_url: "https://y"}]] redirect to their URL, and
    [{error: "bad"}] fails with the message "bad". *)
Example classify_spec_cases :
  classify (JObject [("success", JBool true); ("payment_url", JString "https://x")]) =
    Ok (RedirectTo (JString "https://x")) /\
  classify (JArray [JObject [("invoice_url", JString "https://y")]]) =
    Ok (RedirectTo (JString "https://y")) /\
  classify (JObject [("error", JString "bad")]) = Err (Rejected (JString "bad")) /\
  shown_message (Rejected (JString "bad")) = "bad".
Proof. repeat split; reflexivity. Qed.

(** C12: a response whose status is not 2xx always ends in the failure
    branch: the page shows "HTTP <status>: <statusText> - <body>" in its
    error and in a destructive notification, and nothing is navigated or
    refreshed (spec 8.5, fourth case). *)
Theorem topup_http_error uid email t respond p r :
  topupAmount p <> "" -> t <> "" ->
  respond (topup_request p uid email t) = Ok r ->
  response_ok r = false ->
  let p' := run_topup json_parse (Some (uid, email)) (Some t) respond p in
  error p' = ("HTTP " ++ string_of_Z (status r) ++ ": " ++ statusText r ++ " - " ++ body r)%string /\
  effects p' = effects p /\
  last (toasts p') = Some (mkToast ToastDestructive "Topup Error" (error p')).
Proof.
  intros Ha Ht Hr Hok; cbv zeta. rewrite run_topup_eq by done.
  unfold topup_pipeline. rewrite (proj2 (String.eqb_neq t "") Ht), Hr, Hok; simpl.
  split; [|split]; [done|done|]. by rewrite last_snoc.
Qed.
Lemma after_topup_shape p rs r :
  let p' := after_topup p rs r in
  topupLoading p' = false /\ sent p' = sent p ++ rs /\
  ((exists o, r = Ok o /\ effects p' = effects p ++ [outcome_effect o] /\ error p' = "" /\
              toasts p' = toasts p ++ [outcome_toast o]) \/
   (exists e, r = Err e /\ effects p' = effects p /\ error p' = shown_message e /\
              toasts p' = toasts p ++ [mkToast ToastDestructive "Topup Error" (error p')])).
Proof. destruct r as [o|e]; simpl; eauto 10. Qed.

(** C13: every run of [handleTopup] on a filled form ends normalised
    (spec 4.3): the loading flag is cleared, exactly one notification is
    added, and either the run succeeded (the error is cleared, the
    notification is a success and exactly one navigation or refresh is
    started) or it failed (a non-empty message is shown in the error and
    in a destructive notification, and nothing is started). *)
Theorem topup_normalised uid email tok respond p :
  topupAmount p <> "" ->
  let p' := run_topup json_parse (Some (uid, email)) tok respond p in
  topupLoading p' = false /\
  length (toasts p') = S (length (toasts p)) /\
  ((exists o, effects p' = effects p ++ [outcome_effect o] /\ error p' = "" /\
              toast_variant <$> last (toasts p') = Some ToastSuccess) \/
   (effects p' = effects p /\ error p' <> "" /\
    last (toasts p') = Some (mkToast ToastDestructive "Topup Error" (error p')))).
Proof.
  intros Ha; cbv zeta. rewrite run_topup_eq by done.
  destruct (topup_pipeline _ _ _ _) as [rs r].
  destruct (after_topup_shape p rs r)
    as (Hl & _ & [(o & _ & He & Hr & Ht)|(e & _ & He & Hr & Ht)]);
    (split; [done|]); rewrite Ht, length_app, last_snoc; (split; [simpl; lia|]).
  - left. exists o. split; [done|split; [done|]]. by destruct o.
  - right. rewrite Hr. split; [done|split; [apply shown_message_nonempty|done]].
Qed.

(** A navigation started by [handleTopup] always goes to a URL taken
    from the response body: its [payment_url] or [invoice_url], or the
    [invoice_url] of its first element; the URL is truthy and was
    returned with a 2xx status. *)
Theorem topup_redirect_from_body uid email t respond p url :
  topupAmount p <> "" ->
  effects (run_topup json_parse (Some (uid, email)) (Some t) respond p) =
    effects p ++ [Navigate url] ->
  exists r v x,
    respond (topup_request p uid email t) = Ok r /\ response_ok r = true /\
    json_parse (body r) = Some v /\ truthy x = true /\ url = to_string x /\
    (get v "payment_url" = Some x \/ get v "invoice_url" = Some x \/
     exists q, index v 0 = Some q /\ get q "invoice_url" = Some x).
Proof.
  intros Ha. rewrite run_topup_eq by done. unfold topup_pipeline.
  destruct (String.eqb t ""); simpl; [no_new_effect|].
  destruct (respond _) as [r|m]; simpl; [|no_new_effect].
  destruct (response_ok r) eqn:Hok; simpl; [|no_new_effect].
  destruct (json_parse (body r)) as [v|] eqn:Hp; simpl; [|no_new_effect].
  destruct (classify v) as [[x| |]|e] eqn:Hc; simpl; try no_new_effect;
    intros H; apply app_inv_head in H; simplify_eq.
  destruct (classify_redirect v x Hc). eauto 10.
Qed.

(** A run with a non-empty session token sends exactly one request:
    the POST to the top-up webhook with the bearer token, the user's id
    and e-mail, and [parseInt] of the typed amount ([null] when it is not a
    number); without a token nothing is sent and the run fails with "No
    authentication token found". *)
Theorem topup_request_sent uid email tok respond p :
  topupAmount p <> "" ->
  let p' := run_topup json_parse (Some (uid, email)) tok respond p in
  match tok with
  | Some t => t <> "" ->
      sent p' = sent p ++ [mkRequest topup_endpoint t uid email
                              (json_number (parse_int (topupAmount p)))]
  | None => sent p' = sent p /\ error p' = "No authentication token found"
  end.
Proof.
  intros Ha; cbv zeta. rewrite run_topup_eq by done. unfold topup_pipeline.
  destruct tok as [t|]; [intros Ht; rewrite (proj2 (String.eqb_neq t "") Ht)|];
    simpl; [|by rewrite app_nil_r].
  match goal with |- sent (after_topup _ _ ?r) = _ =>
    by destruct (after_topup_shape p [topup_request p uid email t] r) as (_ & -> & _) end.
Qed.

(** With an empty amount or no signed-in user, [handleTopup] returns
    at once and changes nothing (line 172). *)
Theorem topup_guard user tok respond p :
  topupAmount p = "" \/ user = None ->
  run_topup json_parse user tok respond p = p.
Proof.
  intros [Ha| ->]; [|done]. destruct user as [[uid email]|]; [|done].
  destruct p; simpl in Ha; subst. done.
Qed.

(** An amount button fills in exactly the amount its label shows: in the
    open dialog, a click on a button and then on "Isi Saldo" sends one
    request, for that number of rupiah. *)
Theorem preset_sends_label p k uid email t respond :
  isTopupOpen p = true -> topupLoading p = false -> t <> "" ->
  let p' := run_topup_events json_parse p [ClickPreset k; ClickTopup (Some (uid, email)) (Some t) respond] in
  sent p' = sent p ++ [mkRequest topup_endpoint t uid email
                         (JNumber (match k with Rp50000 => 50000 | Rp100000 => 100000
                                                | Rp200000 => 200000 end))].
Proof.
  intros Ho Hl Ht; cbv zeta. unfold run_topup_events; cbn [fold_left].
  assert (Hne : preset_value k <> "") by (destruct k; discriminate).
  assert (E : topup_event json_parse (topup_event json_parse p (ClickPreset k))
                (ClickTopup (Some (uid, email)) (Some t) respond) =
              run_topup json_parse (Some (uid, email)) (Some t) respond
                (setTopupAmount (preset_value k) p)).
  { cbn [topup_event]. rewrite Ho. cbn [isTopupOpen topupLoading topupAmount setTopupAmount].
    by rewrite Ho, Hl, (proj2 (String.eqb_neq _ _) Hne). }
  rewrite E. pose proof (topup_request_sent uid email (Some t) respond
    (setTopupAmount (preset_value k) p) Hne) as Hs.
  cbv zeta iota beta in Hs. rewrite (Hs Ht). by destruct k.
Qed.
(** A 2xx body whose [success] is truthy but which has neither
    [payment_url] nor [invoice_url] is reported as processed and, one
    second later, refreshes the page and calls [window.open(undefined)],
    which opens an empty tab (lines 250-264). *)
Theorem topup_success_without_url uid email t respond p r fs s :
  topupAmount p <> "" -> t <> "" ->
  respond (topup_request p uid email t) = Ok r -> response_ok r = true ->
  json_parse (body r) = Some (JObject fs) ->
  obj_lookup "success" fs = Some s -> truthy s = true ->
  obj_lookup "payment_url" fs = None -> obj_lookup "invoice_url" fs = None ->
  let p' := run_topup json_parse (Some (uid, email)) (Some t) respond p in
  effects p' = effects p ++ [After 1000 [RefreshUserData; OpenWindow JUndefined]] /\
  toasts p' = toasts p ++ [processed_toast].
Proof.
  intros Ha Ht Hr Hok Hp Hs Hts Hpu Hiu; cbv zeta. rewrite run_topup_eq by done.
  unfold topup_pipeline. rewrite (proj2 (String.eqb_neq t "") Ht), Hr, Hok, Hp; simpl.
  unfold classify, read, bind_r; simpl. rewrite Hs; simpl. by rewrite Hts, Hpu, Hiu.
Qed.
End Properties.

(** ** Witnesses

    [sample_parse] stands for [JSON.parse] on four named bodies. *)

Definition sample_parse (b : string) : option jsval :=
  if String.eqb b "redirect" then
    Some (JObject [("success", JBool true); ("payment_url", JString "https://x")])
  else if String.eqb b "processed" then Some (JObject [("success", JBool true)])
  else if String.eqb b "array" then
    Some (JArray [JObject [("invoice_url", JString "https://y")]])
  else if String.eqb b "null" then Some JNull
  else None.

Definition sample_page (amount : string) : TopupPage := mkTopupPage amount true "" false [] [] [].

Definition respond_with (code : Z) (b : string) (r : Request) : result Response string :=
  Ok (mkResponse code "" b).

Lemma topup_http_error_witness :
  let p := sample_page "50000" in
  let respond := respond_with 500 "oops" in
  topupAmount p <> "" /\ "tok" <> "" /\
  respond (topup_request p "u" "u@x.id" "tok") = Ok (mkResponse 500 "" "oops") /\
  response_ok (mkResponse 500 "" "oops") = false /\
  (let p' := run_topup sample_parse (Some ("u", "u@x.id")) (Some "tok") respond p in
   error p' = ("HTTP " ++ string_of_Z 500 ++ ": " ++ "" ++ " - " ++ "oops")%string /\
   effects p' = effects p /\
   last (toasts p') = Some (mkToast ToastDestructive "Topup Error" (error p'))).
Proof.
  cbv zeta. do 4 (split; [done|]).
  apply (topup_http_error sample_parse "u" "u@x.id" "tok" (respond_with 500 "oops")
           (sample_page "50000") (mkResponse 500 "" "oops")); done.
Defined.

Lemma topup_normalised_witness :
  topupAmount (sample_page "50000") <> "" /\
  (let p' := run_topup sample_parse (Some ("u", "u@x.id")) (Some "tok")
               (respond_with 200 "null") (sample_page "50000") in
   topupLoading p' = false /\
   length (toasts p') = S (length (toasts (sample_page "50000"))) /\
   ((exists o, effects p' = effects (sample_page "50000") ++ [outcome_effect o] /\
               error p' = "" /\ toast_variant <$> last (toasts p') = Some ToastSuccess) \/
    (effects p' = effects (sample_page "50000") /\ error p' <> "" /\
     last (toasts p') = Some (mkToast ToastDestructive "Topup Error" (error p'))))).
Proof. split; [done|]. apply topup_normalised. done. Defined.

Lemma topup_redirect_from_body_witness :
  topupAmount (sample_page "50000") <> "" /\
  effects (run_topup sample_parse (Some ("u", "u@x.id")) (Some "tok")
             (respond_with 200 "array") (sample_page "50000")) =
    effects (sample_page "50000") ++ [Navigate "https://y"] /\
  exists r v x,
    respond_with 200 "array" (topup_request (sample_page "50000") "u" "u@x.id" "tok") = Ok r /\
    response_ok r = true /\ sample_parse (body r) = Some v /\ truthy x = true /\
    "https://y" = to_string x /\
    (get v "payment_url" = Some x \/ get v "invoice_url" = Some x \/
     exists q, index v 0 = Some q /\ get q "invoice_url" = Some x).
Proof.
  assert (He : effects (run_topup sample_parse (Some ("u", "u@x.id")) (Some "tok")
             (respond_with 200 "array") (sample_page "50000")) =
    effects (sample_page "50000") ++ [Navigate "https://y"]) by reflexivity.
  split; [done|]. split; [exact He|].
  exact (topup_redirect_from_body sample_parse "u" "u@x.id" "tok" (respond_with 200 "array")
           (sample_page "50000") "https://y" ltac:(done) He).
Defined.

Lemma topup_success_without_url_witness :
  obj_lookup "success" [("success", JBool true)] = Some (JBool true) /\
  let p' := run_topup sample_parse (Some ("u", "u@x.id")) (Some "tok")
              (respond_with 200 "processed") (sample_page "50000") in
  effects p' = effects (sample_page "50000") ++
                 [After 1000 [RefreshUserData; OpenWindow JUndefined]] /\
  toasts p' = toasts (sample_page "50000") ++ [processed_toast].
Proof.
  split; [done|].
  apply (topup_success_without_url sample_parse "u" "u@x.id" "tok" (respond_with 200 "processed")
           (sample_page "50000")
           (mkResponse 200 "" "processed") [("success", JBool true)] (JBool true));
    done.
Defined.

Lemma preset_sends_label_witness :
  isTopupOpen (sample_page "") = true /\ topupLoading (sample_page "") = false /\ "tok" <> "" /\
  sent (run_topup_events sample_parse (sample_page "")
          [ClickPreset Rp100000; ClickTopup (Some ("u", "u@x.id")) (Some "tok") (respond_with 200 "processed")]) =
    sent (sample_page "") ++ [mkRequest topup_endpoint "tok" "u" "u@x.id" (JNumber 100000)].
Proof.
  split_and!; [done|done|discriminate|].
  exact (preset_sends_label sample_parse (sample_page "") Rp100000 "u" "u@x.id" "tok"
           (respond_with 200 "processed") eq_refl eq_refl ltac:(discriminate)).
Defined.

(** The amount box is an [<input type="number">], which accepts "1e3";
    [parseInt] reads the leading "1", so one rupiah is requested, and
    "12.5" requests 12. *)
Example typed_exponent_sends_one :
  sent (run_topup_events sample_parse (sample_page "")
          [TypeAmount "1e3"; ClickTopup (Some ("u", "u@x.id")) (Some "tok") (respond_with 200 "processed")]) =
    [mkRequest topup_endpoint "tok" "u" "u@x.id" (JNumber 1)] /\
  sent (run_topup_events sample_parse (sample_page "")
          [TypeAmount "12.5"; ClickTopup (Some ("u", "u@x.id")) (Some "tok") (respond_with 200 "processed")]) =
    [mkRequest topup_endpoint "tok" "u" "u@x.id" (JNumber 12)].
Proof. split; vm_compute; reflexivity. Qed.

End Gateway.
