(* ===== verification/BalanceView.v ===== *)
(** * What the balance page renders

    Source: src/app/dashboard/balance/page.tsx, the render of
    [BalancePage]: the balance card (lines 495-509), the rows of the
    transactions table (lines 561-622) and of the payments table (lines
    686-723) with their badges and the "Bayar" button, and the helper
    [getStatusBadge] (lines 377-388).  The state is [Ledger]'s [View],
    which [fetchUserData] fills; the slicing of the lists into pages is
    in [Pagination].

    - [tx_row] is one transaction row: the date, the description, the
      badge ("Penggunaan" for a usage, "Isi Saldo" otherwise), the sign
      written before the amount and the amount as [formatCurrency]
      reads it ([None] is [NaN]: the amount is converted by [ToNumber]).
    - [pay_row] is one payment row; [pr_pay_url] is the invoice the
      "Bayar" button opens, when the button is shown.

    The theorem [card_matches_table] composes the render with the
    handler: after a run of [fetchUserData] without failures, the balance
    card equals the signed sum of the rows the transactions table lists
    (over all its pages, a [NaN] amount counting 0) exactly when the user had no balance row or a
    row equal to the ledger's sum; a stale row is shown as it is, beside
    a table that contradicts it. *)

From Stdlib Require Import ZArith String List Lia.
From stdpp Require Import base list gmap strings sorting.
From S2P Require Import Prelude Js Schema Ledger.

Local Open Scope string_scope.
Local Open Scope list_scope.
Local Open Scope Z_scope.

Module BalanceView.
Import Ledger.

(** ** Transactions *)

Inductive TxBadge := BadgeUsage | BadgeTopup.

#[export] Instance tx_badge_eq_dec : EqDecision TxBadge.
Proof. solve_decision. Defined.

Record TxRow := mkTxRow {
  tr_date : string;
  tr_description : option string;
  tr_badge : TxBadge;
  tr_sign : string;
  tr_amount : option Z
}.

(** A row of the transactions table (lines 561-609). *)
Definition tx_row (t : Transaction) : TxRow :=
  mkTxRow (tx_created_at t) (tx_description t)
    (match tx_type t with Usage => BadgeUsage | Topup => BadgeTopup end)
    (match tx_type t with Usage => "-" | Topup => "+" end)
    (to_number (tx_amount t)).

(** What a row adds to the table's signed sum: its amount with the sign
    the row writes before it.  A row whose amount is [NaN] (shown as
    "NaN" by [formatCurrency], [tr_amount = None]) adds 0, as it does in
    the reconciliation's [Number(t.amount) || 0] (line 117); the sum
    compared with the card is the one the reconciliation computes. *)
Definition row_value (r : TxRow) : Z :=
  match tr_amount r with
  | Some a => if bool_decide (tr_badge r = BadgeUsage) then - a else a
  | None => 0
  end.

(** The rows of one page and the "Tidak ada transaksi" line shown when
    the page is empty (lines 560-622). *)
Definition tx_table (page : list Transaction) : list TxRow * option string :=
  (map tx_row page, if bool_decide (page = []) then Some "Tidak ada transaksi" else None).

(** ** Payments *)

(** [getStatusBadge] (lines 377-388). *)
Definition status_badge (s : PaymentStatus) : string :=
  match s with Paid => "Paid" | Pending => "Pending" | Expired => "Expired" end.

Record PayRow := mkPayRow {
  pr_date : string;
  pr_amount : Z;
  pr_badge : string;
  pr_pay_url : option string
}.

(** A row of the payments table (lines 686-712): "Bayar" is shown for a
    pending payment with a truthy [invoice_url], and opens it in a new
    tab. *)
Definition pay_row (p : Payment) : PayRow :=
  mkPayRow (pay_created_at p) (pay_amount p) (status_badge (pay_status p))
    (match pay_status p, pay_invoice_url p with
     | Pending, Some u => if String.eqb u "" then None else Some u
     | _, _ => None
     end).

Definition pay_table (page : list Payment) : list PayRow * option string :=
  (map pay_row page, if bool_decide (page = []) then Some "Tidak ada pembayaran" else None).

(** ** Lemmas *)

Lemma row_value_signed t : row_value (tx_row t) = signed_amount t.
Proof.
  unfold row_value, tx_row, signed_amount, number_or_zero; cbn.
  by destruct (tx_type t), (to_number (tx_amount t)).
Qed.

(** The signed rows of a list add up to its ledger sum. *)
Lemma rows_sum_ledger l : sumZ row_value (map tx_row l) = ledger_balance l.
Proof.
  induction l as [|t l IH]; [done|]. cbn [map]. rewrite !sumZ_cons, IH, row_value_signed. done.
Qed.

Section Page.
Context {B : Type} {BS : BalanceStore B} {BL : BalanceStoreLaws B}.

Lemma fetch_view flt u (w : @World B) :
  view_of (w_trace (run_fetch flt (Some u) w)) =
    mkView (next_balance flt u (w_db w)) (shown_transactions flt u (w_db w))
      (shown_payments flt u (w_db w)) false.
Proof. rewrite fetch_run_eq; cbn [w_trace]. by rewrite view_of_app. Qed.

(** C9: After a run of [fetchUserData] without failures, the balance card
    shows the signed sum of the transactions table's rows exactly when
    the user had no balance row, or one equal to the ledger's sum. *)
Theorem card_matches_table u (w : @World B) :
  let v := view_of (w_trace (run_fetch no_faults (Some u) w)) in
  v_balance v = sumZ row_value (map tx_row (v_transactions v)) <->
  match bs_get (db_balances (w_db w)) u with
  | Some b => b = ledger_balance (user_transactions (w_db w) u)
  | None => True
  end.
Proof.
  cbv zeta. rewrite fetch_view; cbn [v_balance v_transactions]. rewrite rows_sum_ledger.
  unfold next_balance, shown_transactions; cbn [no_faults fail_balance_read fail_transactions_read].
  rewrite ledger_order_desc, reconcile_ledger, ledger_order_desc.
  by destruct (bs_get _ u).
Qed.

End Page.

Lemma card_matches_table_witness :
  let v := view_of (w_trace (run_fetch no_faults (Some "u") (sample_world (Some 999)))) in
  (v_balance v = sumZ row_value (map tx_row (v_transactions v)) <->
   match bs_get (db_balances (w_db (sample_world (Some 999)))) "u" with
   | Some b => b = ledger_balance (user_transactions (w_db (sample_world (Some 999))) "u")
   | None => True
   end).
Proof. exact (card_matches_table "u" (sample_world (Some 999))). Defined.

(** ** Examples *)

(** User "u" of [Ledger]'s sample has a topup of 50000 and a usage of
    20000.  With a stale row of 999 the card shows 999 while the table
    lists "-20000" and "+50000"; the "Bayar" button of a pending payment
    opens its invoice. *)
Example stale_row_page :
  let v := view_of (w_trace (run_fetch no_faults (Some "u") (sample_world (Some 999)))) in
  v_balance v = 999 /\ map tr_sign (map tx_row (v_transactions v)) = ["-"; "+"] /\
  sumZ row_value (map tx_row (v_transactions v)) = 30000.
Proof. vm_compute. split_and!; reflexivity. Qed.

Example pending_payment_row :
  pr_pay_url (pay_row (mkPayment "p1" "u" (Some "https://inv/1") 50000 Pending "2025-01-01")) =
    Some "https://inv/1" /\
  pr_pay_url (pay_row (mkPayment "p2" "u" (Some "https://inv/2") 50000 Paid "2025-01-01")) = None.
Proof. split; reflexivity. Qed.

End BalanceView.
