(* ===== verification/Renewal.v ===== *)
(** * Renewal Confirmation Poller: [handleRenew] of the chatbot page

    Source: src/app/dashboard/chatbots/[id]/page.tsx, [handleRenew] (lines
    311-535).  After the renewal webhook answers 200, the handler patches
    the page from the response body, refreshes the balance, then re-reads
    the row's [expired_at] and [ai_quota] once a second, at most five
    times, stopping at the first read that differs from the snapshot taken
    before the request.  When no read differs it writes a fallback patch
    of its own: thirty days from the later of now and the old expiry, and
    ten more AI quota.  Any other status is turned into an error message.

    - Time is explicit: the world carries a millisecond [rw_clock] that
      [wait] advances; the database row as the poller sees it is a
      function [remote] of the time of the read, so a backend that commits
      late is a [remote] that changes late.
    - [date_of] ([new Date(s).getTime()], [None] for an invalid date),
      [iso_of] ([toISOString]), [format_date] ([toLocaleDateString]) and
      [json_parse] are parameters of the section.
    - [setDate(getDate() + 30)] works in local time; the model adds
      thirty days of 86 400 000 ms, which is exact in a time zone without
      daylight saving (the service's users are in Indonesia, UTC+7 all
      year).

    The theorems show that the loop ends after at most five reads, that it
    stops at the first changed read (and then writes nothing), that five
    unchanged reads lead to the fallback patch of the specification
    (4.4, 8.7), which statuses count as failures and which message they
    show, and that every run ends with the loading flag cleared. *)

From Stdlib Require Import ZArith String List Lia.
From stdpp Require Import base list strings.
From S2P Require Import Prelude Js Schema.

Local Open Scope string_scope.
Local Open Scope list_scope.
Local Open Scope Z_scope.

Module Renewal.
Import Schema.

(** [{ expired_at, ai_quota }] as [fetchLatest] returns it (lines
    390-393): an empty [expired_at] is [null]. *)
Record Snapshot := mkSnapshot {
  snap_expired_at : option string;
  snap_ai_quota : option Z
}.

(** A row update [.update({ expired_at, ai_quota }).eq("id", ...)
    .eq("user_id", ...)]. *)
Record Patch := mkPatch {
  patch_chatbot : string;
  patch_user : string;
  patch_expired_at : string;
  patch_ai_quota : Z
}.

Inductive RenewError :=
| NoToken                  (** line 322 *)
| FetchRejected (m : string)
| RenewalFailed (m : jsval). (** [throw new Error(errorMessage)], line 524 *)

Definition renew_error_text (e : RenewError) : string :=
  match e with
  | NoToken => "No authentication token found"
  | FetchRejected m => m
  | RenewalFailed m => error_message m
  end.

(** The page state [handleRenew] touches (lines 46-52), with the
    notifications, the clock, the times of the reads, the patches written
    and the balance refreshes started. *)
Record RenewWorld := mkRenewWorld {
  rw_chatbot : option Chatbot;
  rw_renewLoading : bool;
  rw_renewDialogOpen : bool;
  rw_toasts : list Toast;
  rw_clock : Z;
  rw_reads : list Z;
  rw_patches : list Patch;
  rw_balance_refreshes : nat
}.

Definition renew_attempts : nat := 5.
Definition renew_interval : Z := 1000.
Definition day_ms : Z := 86400000.

(** [chatbot.expired_at || null] *)
Definition or_null (s : option string) : option string :=
  match s with Some "" => None | _ => s end.

(** The diff against the snapshot (lines 404-409): a non-null expiry
    other than the old one, or a numeric quota other than the old one. *)
Definition changed (prevExpiredAt : option string) (prevAiQuota : Z) (l : Snapshot) : bool :=
  match snap_expired_at l with
  | Some e => negb (bool_decide (Some e = prevExpiredAt))
  | None => false
  end ||
  match snap_ai_quota l with
  | Some q => negb (q =? prevAiQuota)
  | None => false
  end.

(** ** World updates *)

Definition rw_set (f : RenewWorld -> RenewWorld) : st RenewWorld RenewError unit := st_modify f.

Definition setChatbot (f : Chatbot -> Chatbot) := rw_set (fun w =>
  mkRenewWorld (option_map f (rw_chatbot w)) (rw_renewLoading w) (rw_renewDialogOpen w)
    (rw_toasts w) (rw_clock w) (rw_reads w) (rw_patches w) (rw_balance_refreshes w)).
Definition setRenewLoading (b : bool) := rw_set (fun w =>
  mkRenewWorld (rw_chatbot w) b (rw_renewDialogOpen w)
    (rw_toasts w) (rw_clock w) (rw_reads w) (rw_patches w) (rw_balance_refreshes w)).
Definition setRenewDialogOpen (b : bool) := rw_set (fun w =>
  mkRenewWorld (rw_chatbot w) (rw_renewLoading w) b
    (rw_toasts w) (rw_clock w) (rw_reads w) (rw_patches w) (rw_balance_refreshes w)).
Definition rw_toast (t : Toast) := rw_set (fun w =>
  mkRenewWorld (rw_chatbot w) (rw_renewLoading w) (rw_renewDialogOpen w)
    (rw_toasts w ++ [t]) (rw_clock w) (rw_reads w) (rw_patches w) (rw_balance_refreshes w)).
(** [await wait(ms)] *)
Definition wait (ms : Z) := rw_set (fun w =>
  mkRenewWorld (rw_chatbot w) (rw_renewLoading w) (rw_renewDialogOpen w)
    (rw_toasts w) (rw_clock w + ms) (rw_reads w) (rw_patches w) (rw_balance_refreshes w)).
Definition write_patch (p : Patch) := rw_set (fun w =>
  mkRenewWorld (rw_chatbot w) (rw_renewLoading w) (rw_renewDialogOpen w)
    (rw_toasts w) (rw_clock w) (rw_reads w) (rw_patches w ++ [p]) (rw_balance_refreshes w)).
(** [fetchBalance().catch(() => {})]: started, not awaited. *)
Definition refresh_balance := rw_set (fun w =>
  mkRenewWorld (rw_chatbot w) (rw_renewLoading w) (rw_renewDialogOpen w)
    (rw_toasts w) (rw_clock w) (rw_reads w) (rw_patches w) (S (rw_balance_refreshes w))).

Definition set_expired_at (e : option string) (c : Chatbot) : Chatbot :=
  mkChatbot (cb_id c) (cb_user_id c) (cb_name c) (cb_is_active c) (cb_status c) (cb_plan_id c)
    (cb_is_auto_renewal c) (cb_ai_usages c) (cb_ai_quota c) (cb_prompt c) (cb_created_at c)
    (cb_updated_at c) e.
Definition set_ai_quota (q : option Z) (c : Chatbot) : Chatbot :=
  mkChatbot (cb_id c) (cb_user_id c) (cb_name c) (cb_is_active c) (cb_status c) (cb_plan_id c)
    (cb_is_auto_renewal c) (cb_ai_usages c) q (cb_prompt c) (cb_created_at c)
    (cb_updated_at c) (cb_expired_at c).

Section Poller.
Variable date_of : string -> option Z.
Variable iso_of : Z -> string.
Variable format_date : string -> string.
Variable json_parse : string -> option jsval.

(** The row's [expired_at] and [ai_quota] columns, or an error, as a read
    at a given time returns them. *)
Variable remote : Z -> query (option string * option Z).

(** [fetchLatest] (lines 373-394): a read error is [null]. *)
Definition fetchLatest : st RenewWorld RenewError (option Snapshot) :=
  fun w =>
    let t := rw_clock w in
    let w' := mkRenewWorld (rw_chatbot w) (rw_renewLoading w) (rw_renewDialogOpen w)
                (rw_toasts w) t (rw_reads w ++ [t]) (rw_patches w) (rw_balance_refreshes w) in
    (Ok (match remote t with
         | QError => None
         | QData (e, q) => Some (mkSnapshot (or_null e) q)
         end), w').

(** The loop of lines 400-410, [k] attempts left:
    [await wait(1000); latest = await fetchLatest(); if (!latest) continue;
     if (changedExpiry || changedQuota) break;] *)
Fixpoint poll_loop (prevExpiredAt : option string) (prevAiQuota : Z) (k : nat)
    (latest : option Snapshot) : st RenewWorld RenewError (option Snapshot) :=
  match k with
  | O => st_ret latest
  | S k' =>
      wait renew_interval ;;
      l <- fetchLatest ;;
      match l with
      | None => poll_loop prevExpiredAt prevAiQuota k' None
      | Some sn =>
          if changed prevExpiredAt prevAiQuota sn then st_ret (Some sn)
          else poll_loop prevExpiredAt prevAiQuota k' (Some sn)
      end
  end.

(** The immediate patch from the response body (lines 347-366), when the
    body parses to a truthy value.  A truthy non-string [expired_at] is
    stored as its [String] form (the page only formats it). *)
Definition immediate_patch (prevAiQuota : Z) (data : jsval) (c : Chatbot) : Chatbot :=
  let e := default JUndefined (get data "expired_at") in
  let q := default JUndefined (get data "ai_quota") in
  let inc := default JUndefined (get data "ai_quota_increment") in
  let c1 := if truthy e then set_expired_at (Some (to_string e)) c else c in
  let c2 := match q with JNumber n => set_ai_quota (Some n) c1 | _ => c1 end in
  match inc with JNumber n => set_ai_quota (Some (prevAiQuota + n)) c2 | _ => c2 end.

(** The confirmed branch (lines 418-443). *)
Definition confirm (l : Snapshot) : st RenewWorld RenewError unit :=
  setChatbot (fun c =>
    set_ai_quota (match snap_ai_quota l with Some q => Some q | None => cb_ai_quota c end)
      (set_expired_at (match snap_expired_at l with Some e => Some e | None => cb_expired_at c end) c)) ;;
  let parts := (match snap_expired_at l with
                | Some e => [("Berlaku sampai " ++ format_date e)%string] | None => [] end) ++
               (match snap_ai_quota l with
                | Some q => [("Kuota AI sekarang " ++ string_of_Z q)%string] | None => [] end) in
  rw_toast (mkToast ToastSuccess "Success"
              (match String.concat " · " parts with
               | "" => "Perpanjangan berhasil." | d => d end)).

(** The expiry the fallback computes (lines 447-454):
    [base = prevExpiredAt && new Date(prevExpiredAt) > now ? new Date(prevExpiredAt) : now],
    plus thirty days. *)
Definition fallback_expiry (prevExpiredAt : option string) (now : Z) : Z :=
  let base := match prevExpiredAt with
              | Some p => match date_of p with
                          | Some d => if now <? d then d else now
                          | None => now
                          end
              | None => now
              end in
  base + 30 * day_ms.

Definition pending_text : string :=
  "Perpanjangan berhasil diproses. Perubahan masa aktif/kuota akan muncul dalam beberapa saat. Silakan sinkronkan atau refresh halaman bila belum terlihat.".

(** The fallback branch (lines 445-495); [patch_error] says whether the
    update is refused. *)
Definition fallback (id uid : string) (prevExpiredAt : option string) (prevAiQuota : Z)
    (patch_error : bool) : st RenewWorld RenewError unit :=
  w <- st_get ;;
  let expectedIso := iso_of (fallback_expiry prevExpiredAt (rw_clock w)) in
  let computedQuota := prevAiQuota + 10 in
  if patch_error then rw_toast (mkToast ToastSuccess "Success" pending_text)
  else
    write_patch (mkPatch id uid expectedIso computedQuota) ;;
    setChatbot (fun c => set_ai_quota (Some computedQuota) (set_expired_at (Some expectedIso) c)) ;;
    rw_toast (mkToast ToastSuccess "Success"
      ("Perpanjangan disinkronkan: masa aktif ke " ++ format_date expectedIso ++
       " · kuota AI +10 (" ++ string_of_Z computedQuota ++ ").")%string).

(** The message of a non-200 answer (lines 501-520). *)
Definition renewal_error_message (code : Z) (errorText : string) : jsval :=
  let default_msg := JString ("Renewal failed: " ++ string_of_Z code)%string in
  match json_parse errorText with
  | None => default_msg
  | Some errorData =>
      match get errorData "message", get errorData "error", get errorData "code" with
      | Some m, Some e, Some cd =>
          if truthy m then m
          else if truthy e then e
          else match cd with
               | JUndefined => default_msg
               | _ => JString ("Error " ++ to_string cd ++ ": " ++
                               to_string (js_or m (JString "Unknown error")))%string
               end
      | _, _, _ => default_msg
      end
  end.

(** The [catch] block of lines 526-532. *)
Definition renew_failed (e : RenewError) : st RenewWorld RenewError unit :=
  rw_toast (mkToast ToastDestructive "Error"
              ("Gagal memperpanjang chatbot: " ++ renew_error_text e)%string).

(** ** [handleRenew] (lines 311-535)

    [user] is the signed-in user's id, [token] the session's
    [access_token], [respond] the answer of the renewal webhook and
    [patch_error] whether the fallback update is refused. *)
Definition handleRenew (user : option string) (token : option string)
    (respond : result Response string) (patch_error : bool) : st RenewWorld RenewError unit :=
  w0 <- st_get ;;
  match rw_chatbot w0, user with
  | Some cb, Some uid =>
    setRenewLoading true ;;
    st_finally
      (st_catch
        (_ <- (match token with
               | Some t => if String.eqb t "" then st_throw NoToken else st_ret t
               | None => st_throw NoToken
               end) ;;
         let prevExpiredAt := or_null (cb_expired_at cb) in
         let prevAiQuota := default 0 (cb_ai_quota cb) in
         resp <- (match respond with
                  | Ok r => st_ret r
                  | Err m => st_throw (FetchRejected m)
                  end) ;;
         if status resp =? 200 then
           (match json_parse (body resp) with
            | Some data => if truthy data then setChatbot (immediate_patch prevAiQuota data)
                           else st_ret tt
            | None => st_ret tt
            end) ;;
           refresh_balance ;;
           latest <- poll_loop prevExpiredAt prevAiQuota renew_attempts None ;;
           (match latest with
            | Some l =>
                if changed prevExpiredAt prevAiQuota l then confirm l
                else fallback (cb_id cb) uid prevExpiredAt prevAiQuota patch_error
            | None => fallback (cb_id cb) uid prevExpiredAt prevAiQuota patch_error
            end) ;;
           setRenewDialogOpen false
         else st_throw (RenewalFailed (renewal_error_message (status resp) (body resp))))
        renew_failed)
      (setRenewLoading false)
  | _, _ => st_ret tt
  end.

Definition run_renew user token respond patch_error (w : RenewWorld) : RenewWorld :=
  snd (handleRenew user token respond patch_error w).

(** ** The poll loop

    [read_at t] is what [fetchLatest] returns at time [t];
    [read_times t n] are the times of [n] reads one interval apart after
    [t]; [after_reads w n] is the world after [n] rounds of
    [wait(1000); fetchLatest()]. *)

Definition read_at (t : Z) : option Snapshot :=
  match remote t with
  | QError => None
  | QData (e, q) => Some (mkSnapshot (or_null e) q)
  end.

Definition observed_change (prevExpiredAt : option string) (prevAiQuota : Z) (t : Z) : bool :=
  match read_at t with Some sn => changed prevExpiredAt prevAiQuota sn | None => false end.

Fixpoint read_times (t : Z) (n : nat) : list Z :=
  match n with
  | O => []
  | S n' => (t + renew_interval) :: read_times (t + renew_interval) n'
  end.

Definition step_world (w : RenewWorld) : RenewWorld :=
  let t := rw_clock w + renew_interval in
  mkRenewWorld (rw_chatbot w) (rw_renewLoading w) (rw_renewDialogOpen w)
    (rw_toasts w) t (rw_reads w ++ [t]) (rw_patches w) (rw_balance_refreshes w).

Fixpoint after_reads (w : RenewWorld) (n : nat) : RenewWorld :=
  match n with O => w | S n' => after_reads (step_world w) n' end.

Lemma poll_step pe pq k latest w :
  poll_loop pe pq (S k) latest w =
  match read_at (rw_clock w + renew_interval) with
  | None => poll_loop pe pq k None (step_world w)
  | Some sn => if changed pe pq sn then (Ok (Some sn), step_world w)
               else poll_loop pe pq k (Some sn) (step_world w)
  end.
Proof.
  unfold read_at. cbn -[changed].
  destruct (remote (rw_clock w + renew_interval)) as [|[e q]]; [reflexivity|].
  by destruct (changed _ _ _).
Qed.

Lemma after_reads_fields w n :
  let w' := after_reads w n in
  rw_reads w' = rw_reads w ++ read_times (rw_clock w) n /\
  rw_clock w' = rw_clock w + renew_interval * Z.of_nat n /\
  rw_chatbot w' = rw_chatbot w /\ rw_renewLoading w' = rw_renewLoading w /\
  rw_renewDialogOpen w' = rw_renewDialogOpen w /\ rw_toasts w' = rw_toasts w /\
  rw_patches w' = rw_patches w /\ rw_balance_refreshes w' = rw_balance_refreshes w.
Proof.
  revert w. induction n as [|n IH]; intros w; simpl; [rewrite app_nil_r; split_and!; done || lia|].
  destruct (IH (step_world w)) as (-> & -> & -> & -> & -> & -> & -> & ->); simpl.
  rewrite <-app_assoc. split_and!; done || lia.
Qed.

(** The loop stops at the first read that shows a change. *)
Lemma poll_loop_stop pe pq j k latest w :
  (j < k)%nat ->
  Forall (fun t => observed_change pe pq t = false) (read_times (rw_clock w) j) ->
  observed_change pe pq (rw_clock w + renew_interval * Z.of_nat (S j)) = true ->
  poll_loop pe pq k latest w =
  (Ok (read_at (rw_clock w + renew_interval * Z.of_nat (S j))), after_reads w (S j)).
Proof.
  revert k latest w. induction j as [|j IH]; intros [|k] latest w Hjk Hno Hch; try lia.
  - rewrite poll_step. replace (rw_clock w + renew_interval * Z.of_nat 1)
      with (rw_clock w + renew_interval) in * by lia.
    unfold observed_change in Hch. destruct (read_at _) as [sn|]; [|done].
    by rewrite Hch.
  - inversion Hno as [|? ? Hfirst Hrest]; subst.
    rewrite poll_step. unfold observed_change in Hfirst.
    replace (rw_clock w + renew_interval * Z.of_nat (S (S j)))
      with (rw_clock (step_world w) + renew_interval * Z.of_nat (S j)) in * by (simpl; lia).
    destruct (read_at _) as [sn|]; [rewrite Hfirst|]; apply IH; auto with lia.
Qed.

(** Without a changed read the loop makes all its attempts and returns
    the last read. *)
Lemma poll_loop_timeout pe pq k latest w :
  Forall (fun t => observed_change pe pq t = false) (read_times (rw_clock w) k) ->
  poll_loop pe pq k latest w =
  (Ok (match k with O => latest | S _ => read_at (rw_clock w + renew_interval * Z.of_nat k) end),
   after_reads w k).
Proof.
  revert latest w. induction k as [|k IH]; intros latest w Hno; [done|].
  inversion Hno as [|? ? Hfirst Hrest]; subst.
  rewrite poll_step. unfold observed_change in Hfirst.
  destruct (read_at _) as [sn|] eqn:Hr; [rewrite Hfirst|]; rewrite IH by done;
    (destruct k; [rewrite <-Hr|]); simpl;
    (apply (f_equal2 pair); [do 2 f_equal; lia|reflexivity]).
Qed.

(** Whatever the reads return, the loop ends after at most [k] of them. *)
Lemma poll_loop_bounded pe pq k latest w :
  exists n r, (n <= k)%nat /\ poll_loop pe pq k latest w = (Ok r, after_reads w n).
Proof.
  revert latest w. induction k as [|k IH]; intros latest w; [by exists 0%nat, latest|].
  rewrite poll_step.
  destruct (read_at _) as [sn|]; [destruct (changed pe pq sn)|].
  - exists 1%nat, (Some sn). split; [lia|done].
  - destruct (IH (Some sn) (step_world w)) as (n & r & ? & ->). exists (S n), r. split; [lia|done].
  - destruct (IH None (step_world w)) as (n & r & ? & ->). exists (S n), r. split; [lia|done].
Qed.

(** ** [handleRenew] around its loop

    On a 200 answer the handler is [after_poll] applied to the loop run
    from [pre_poll]: what happens before the loop (loading flag,
    immediate patch, balance refresh) and after it (confirmation or
    fallback, dialog, loading flag). *)

Definition pre_poll (cb : Chatbot) (r : Response) (w : RenewWorld) : RenewWorld :=
  snd ((setRenewLoading true ;;
        (match json_parse (body r) with
         | Some data => if truthy data
                        then setChatbot (immediate_patch (default 0 (cb_ai_quota cb)) data)
                        else st_ret tt
         | None => st_ret tt
         end) ;;
        refresh_balance) w).

Definition finish_renewal (cb : Chatbot) (uid : string) (patch_error : bool)
    (latest : option Snapshot) : st RenewWorld RenewError unit :=
  let pe := or_null (cb_expired_at cb) in
  let pq := default 0 (cb_ai_quota cb) in
  match latest with
  | Some l =>
      if changed pe pq l then confirm l
      else fallback (cb_id cb) uid pe pq patch_error
  | None => fallback (cb_id cb) uid pe pq patch_error
  end.

Definition after_poll (cb : Chatbot) (uid : string) (patch_error : bool)
    (res : result (option Snapshot) RenewError * RenewWorld) : RenewWorld :=
  match res with
  | (Ok latest, w) =>
      snd (st_finally
             (st_catch (finish_renewal cb uid patch_error latest ;; setRenewDialogOpen false)
                renew_failed)
             (setRenewLoading false) w)
  | (Err e, w) => snd (st_finally (renew_failed e) (setRenewLoading false) w)
  end.

#[local] Arguments poll_loop : simpl never.

Lemma run_renew_200 uid t r cb patch_error w :
  rw_chatbot w = Some cb -> t <> "" -> status r = 200 ->
  run_renew (Some uid) (Some t) (Ok r) patch_error w =
  after_poll cb uid patch_error
    (poll_loop (or_null (cb_expired_at cb)) (default 0 (cb_ai_quota cb)) renew_attempts None
       (pre_poll cb r w)).
Proof.
  intros Hcb Ht Hs. destruct w as [c0 ld dl ts clk rds pts br]; simpl in Hcb; subst c0.
  apply String.eqb_neq in Ht. apply Z.eqb_eq in Hs.
  unfold run_renew, handleRenew, pre_poll, st_finally, st_catch, st_bind, st_ret,
    st_throw, st_get.
  cbn -[poll_loop confirm fallback after_poll]. rewrite Ht. cbn -[poll_loop confirm fallback after_poll].
  rewrite Hs.
  destruct (json_parse (body r)) as [d|]; [destruct (truthy d)|].
  all: cbn -[poll_loop confirm fallback after_poll].
  all: destruct (poll_loop _ _ _ _ _) as [[l|e] w']; try reflexivity.
  all: reflexivity.
Qed.

Lemma pre_poll_fields cb r w :
  let w' := pre_poll cb r w in
  rw_clock w' = rw_clock w /\ rw_reads w' = rw_reads w /\ rw_patches w' = rw_patches w /\
  rw_toasts w' = rw_toasts w.
Proof. unfold pre_poll. simpl. by repeat case_match. Qed.

Lemma pre_poll_chatbot cb r w c :
  rw_chatbot w = Some c -> exists c', rw_chatbot (pre_poll cb r w) = Some c'.
Proof. unfold pre_poll. simpl. intros Hc. repeat case_match; simpl; rewrite ?Hc; eauto. Qed.

Lemma read_times_last t n :
  (0 < n)%nat -> In (t + renew_interval * Z.of_nat n) (read_times t n).
Proof.
  revert t. induction n as [|[|n] IH]; intros t Hn; [lia| |].
  - left. lia.
  - right. replace (t + renew_interval * Z.of_nat (S (S n)))
      with ((t + renew_interval) + renew_interval * Z.of_nat (S n)) by lia.
    apply IH. lia.
Qed.

(** An unchanged (or failed) last read sends the handler to the fallback. *)
Lemma finish_unchanged cb uid patch_error x :
  observed_change (or_null (cb_expired_at cb)) (default 0 (cb_ai_quota cb)) x = false ->
  finish_renewal cb uid patch_error (read_at x) =
  fallback (cb_id cb) uid (or_null (cb_expired_at cb)) (default 0 (cb_ai_quota cb)) patch_error.
Proof. unfold observed_change, finish_renewal. destruct (read_at x); [intros ->|]; done. Qed.

(** Either branch after the loop ends normally: it leaves the clock, the
    reads and the loading flag alone, adds exactly one notification and
    writes at most one patch. *)
Lemma finish_renewal_fields cb uid patch_error l w :
  fst (finish_renewal cb uid patch_error l w) = Ok tt /\
  let w' := snd (finish_renewal cb uid patch_error l w) in
  rw_clock w' = rw_clock w /\ rw_reads w' = rw_reads w /\
  rw_renewLoading w' = rw_renewLoading w /\
  (exists t, rw_toasts w' = rw_toasts w ++ [t]) /\
  (exists ps, rw_patches w' = rw_patches w ++ ps /\ (length ps <= 1)%nat).
Proof.
  unfold finish_renewal, confirm, fallback, st_bind, st_get, rw_toast, write_patch,
    setChatbot, rw_set, st_modify.
  repeat case_match; simpl; split_and!; eauto.
  all: exists []; rewrite app_nil_r; simpl; split; [done|lia].
Qed.

Lemma after_poll_ok cb uid patch_error l w :
  let w' := snd (finish_renewal cb uid patch_error l w) in
  after_poll cb uid patch_error (Ok l, w) =
  mkRenewWorld (rw_chatbot w') false false (rw_toasts w') (rw_clock w') (rw_reads w')
    (rw_patches w') (rw_balance_refreshes w').
Proof.
  pose proof (finish_renewal_fields cb uid patch_error l w) as Hf.
  unfold after_poll, st_finally, st_catch, st_bind. simpl.
  destruct (finish_renewal _ _ _ _ _) as [res w'] eqn:E. simpl in Hf. destruct Hf as [-> _]. done.
Qed.

(** A 200 answer leads to the closing steps after at most five reads. *)
Lemma run_renew_200_bounded uid t r cb patch_error w :
  rw_chatbot w = Some cb -> t <> "" -> status r = 200 ->
  exists n l, (n <= renew_attempts)%nat /\
    run_renew (Some uid) (Some t) (Ok r) patch_error w =
    after_poll cb uid patch_error (Ok l, after_reads (pre_poll cb r w) n).
Proof.
  intros Hcb Ht Hs. rewrite (run_renew_200 uid t r cb) by done.
  destruct (poll_loop_bounded (or_null (cb_expired_at cb)) (default 0 (cb_ai_quota cb))
              renew_attempts None (pre_poll cb r w)) as (n & l & Hn & ->).
  eauto.
Qed.

(** *** Properties of [handleRenew] *)

(** C18: confirmation stops the poll early (spec 8.6).  When the first
    [j] reads after a 200 answer show no change and read [j+1] does, the
    handler stops after exactly [j+1] reads, one second apart, writes no
    fallback patch, closes the dialog, clears the loading flag and adds one
    success notification. *)
Theorem renew_confirms_at_first_change uid t r cb patch_error w j :
  rw_chatbot w = Some cb -> t <> "" -> status r = 200 -> (j < renew_attempts)%nat ->
  Forall (fun x => observed_change (or_null (cb_expired_at cb)) (default 0 (cb_ai_quota cb)) x = false)
    (read_times (rw_clock w) j) ->
  observed_change (or_null (cb_expired_at cb)) (default 0 (cb_ai_quota cb))
    (rw_clock w + renew_interval * Z.of_nat (S j)) = true ->
  let w' := run_renew (Some uid) (Some t) (Ok r) patch_error w in
  rw_reads w' = rw_reads w ++ read_times (rw_clock w) (S j) /\
  rw_clock w' = rw_clock w + renew_interval * Z.of_nat (S j) /\
  rw_patches w' = rw_patches w /\
  rw_renewLoading w' = false /\ rw_renewDialogOpen w' = false /\
  exists d, rw_toasts w' = rw_toasts w ++ [mkToast ToastSuccess "Success" d].
Proof.
  intros Hcb Ht Hs Hj Hno Hch; cbv zeta.
  destruct (pre_poll_fields cb r w) as (Hc & Hr & Hp & Hts).
  rewrite (run_renew_200 uid t r cb), (poll_loop_stop _ _ j) by (rewrite ?Hc; done).
  rewrite after_poll_ok. unfold finish_renewal; cbv zeta. rewrite Hc.
  unfold observed_change in Hch. destruct (read_at _) as [sn|]; [rewrite Hch|done].
  destruct (after_reads_fields (pre_poll cb r w) (S j)) as (Hr' & Hc' & _ & _ & _ & Ht' & Hp' & _).
  unfold confirm, st_bind, setChatbot, rw_toast, rw_set, st_modify; cbn -[after_reads].
  rewrite Hr', Hc', Ht', Hp', Hr, Hc, Hp, Hts. eauto 10.
Qed.

(** C19: the timeout fallback (spec 4.4, 8.7).  When none of the five
    reads shows a change and the update is accepted, the handler makes
    exactly five reads, then writes the patch
    [{expired_at: max(now, prior expiry) + 30 days, ai_quota: prior + 10}]
    for the chatbot and user, with [now] five seconds after the request,
    and shows the same values on the page. *)
Theorem renew_fallback_after_five uid t r cb w :
  rw_chatbot w = Some cb -> t <> "" -> status r = 200 ->
  Forall (fun x => observed_change (or_null (cb_expired_at cb)) (default 0 (cb_ai_quota cb)) x = false)
    (read_times (rw_clock w) 5) ->
  let expectedIso := iso_of (fallback_expiry (or_null (cb_expired_at cb)) (rw_clock w + 5000)) in
  let computedQuota := default 0 (cb_ai_quota cb) + 10 in
  let w' := run_renew (Some uid) (Some t) (Ok r) false w in
  rw_reads w' = rw_reads w ++ read_times (rw_clock w) 5 /\
  rw_patches w' = rw_patches w ++ [mkPatch (cb_id cb) uid expectedIso computedQuota] /\
  option_map (fun c => (cb_expired_at c, cb_ai_quota c)) (rw_chatbot w') =
    Some (Some expectedIso, Some computedQuota) /\
  rw_renewLoading w' = false /\ rw_renewDialogOpen w' = false.
Proof.
  intros Hcb Ht Hs Hno; cbv zeta.
  destruct (pre_poll_fields cb r w) as (Hc & Hr & Hp & Hts).
  destruct (pre_poll_chatbot cb r w cb Hcb) as [c' Hc''].
  rewrite (run_renew_200 uid t r cb), poll_loop_timeout by (rewrite ?Hc; done).
  rewrite after_poll_ok; cbv beta iota delta [renew_attempts]. rewrite Hc, finish_unchanged.
  2:{ rewrite Forall_forall in Hno. apply Hno, list_elem_of_In, read_times_last. lia. }
  destruct (after_reads_fields (pre_poll cb r w) 5) as (Hr' & Hc' & Hb' & _ & _ & _ & Hp' & _).
  unfold fallback, st_bind, st_get, write_patch, setChatbot, rw_toast, rw_set, st_modify;
    cbn -[after_reads].
  rewrite Hr', Hc', Hb', Hp', Hr, Hc, Hp, Hc''. simpl. split_and!; done.
Qed.

(** C20: the poll is bounded.  Whatever the database returns, a 200
    answer leads to at most five reads, one second apart, the clock moves
    by at most five seconds, and at most one patch is written. *)
Theorem renew_bounded uid t r cb patch_error w :
  rw_chatbot w = Some cb -> t <> "" -> status r = 200 ->
  let w' := run_renew (Some uid) (Some t) (Ok r) patch_error w in
  exists n ps, (n <= renew_attempts)%nat /\
    rw_reads w' = rw_reads w ++ read_times (rw_clock w) n /\
    rw_clock w' = rw_clock w + renew_interval * Z.of_nat n /\
    rw_patches w' = rw_patches w ++ ps /\ (length ps <= 1)%nat.
Proof.
  intros Hcb Ht Hs; cbv zeta.
  destruct (pre_poll_fields cb r w) as (Hc & Hr & Hp & _).
  destruct (run_renew_200_bounded uid t r cb patch_error w) as (n & l & Hn & ->); [done..|].
  rewrite after_poll_ok; simpl.
  destruct (finish_renewal_fields cb uid patch_error l (after_reads (pre_poll cb r w) n))
    as (_ & Hc1 & Hr1 & _ & _ & ps & Hp1 & Hps).
  destruct (after_reads_fields (pre_poll cb r w) n) as (Hr' & Hc' & _ & _ & _ & _ & Hp' & _).
  exists n, ps. rewrite Hc1, Hr1, Hp1, Hr', Hc', Hp', Hr, Hc, Hp. done.
Qed.

(** C21: statuses other than 200 fail (spec 7c).  Any status other than
    200, including the other 2xx statuses, makes no read and no patch,
    clears the loading flag and adds one destructive notification whose
    text is the [message], [error] or [code] of the JSON body, or
    "Renewal failed: <status>". *)
Theorem renew_non200 uid t r cb patch_error w :
  rw_chatbot w = Some cb -> t <> "" -> status r <> 200 ->
  run_renew (Some uid) (Some t) (Ok r) patch_error w =
  mkRenewWorld (rw_chatbot w) false (rw_renewDialogOpen w)
    (rw_toasts w ++ [mkToast ToastDestructive "Error"
       ("Gagal memperpanjang chatbot: " ++
        error_message (renewal_error_message (status r) (body r)))%string])
    (rw_clock w) (rw_reads w) (rw_patches w) (rw_balance_refreshes w).
Proof.
  intros Hcb Ht Hs. destruct w as [c0 ld dl ts clk rds pts br]; simpl in Hcb; subst c0.
  apply String.eqb_neq in Ht. apply Z.eqb_neq in Hs.
  unfold run_renew, handleRenew, st_finally, st_catch, st_bind, st_ret, st_throw, st_get.
  cbn -[renewal_error_message poll_loop]. rewrite Ht. cbn -[renewal_error_message poll_loop].
  by rewrite Hs.
Qed.

(** C22: every run settles (spec 7: nothing escapes to the page).  For
    any session, webhook answer, database behaviour and update outcome, a
    renewal started on a loaded chatbot ends with the loading flag
    cleared and exactly one notification added. *)
Theorem renew_always_settles uid tok respond cb patch_error w :
  rw_chatbot w = Some cb ->
  let w' := run_renew (Some uid) tok respond patch_error w in
  rw_renewLoading w' = false /\ exists x, rw_toasts w' = rw_toasts w ++ [x].
Proof.
  intros Hcb; cbv zeta.
  destruct tok as [t|], respond as [r|m];
    try destruct (String.eqb t "") eqn:Ht;
    try destruct (Z.eq_dec (status r) 200) as [Hs|Hs].
  all: try (destruct w as [c0 ld dl ts clk rds pts br]; simpl in Hcb; subst c0;
            unfold run_renew, handleRenew, st_finally, st_catch, st_bind, st_ret, st_throw, st_get;
            cbn -[poll_loop renewal_error_message]; rewrite ?Ht;
            cbn -[poll_loop renewal_error_message]; rewrite ?(proj2 (Z.eqb_neq _ _) Hs);
            by eauto).
  destruct (pre_poll_fields cb r w) as (_ & _ & _ & Hts).
  destruct (run_renew_200_bounded uid t r cb patch_error w) as (n & l & _ & ->);
    [done|by apply String.eqb_neq|done|].
  rewrite after_poll_ok; simpl.
  destruct (finish_renewal_fields cb uid patch_error l (after_reads (pre_poll cb r w) n))
    as (_ & _ & _ & _ & [x Hx] & _).
  destruct (after_reads_fields (pre_poll cb r w) n) as (_ & _ & _ & _ & _ & Ht' & _).
  rewrite Hx, Ht', Hts. eauto.
Qed.

End Poller.

(** ** Witnesses

    A chatbot whose expiry "E0" is the instant 10^9 ms and whose quota is
    100, renewed at time 0 with a 200 answer.  [remote_late] commits the
    new expiry "E1" from time 3000 on; [remote_stale] never commits. *)

Definition sample_date (s : string) : option Z :=
  if String.eqb s "E0" then Some 1000000000 else None.
Definition sample_iso (z : Z) : string := string_of_Z z.
Definition sample_format (s : string) : string := s.
Definition sample_json (b : string) : option jsval :=
  if String.eqb b "{}" then Some (JObject []) else None.
Definition remote_late (t : Z) : query (option string * option Z) :=
  if t <? 3000 then QData (Some "E0", Some 100) else QData (Some "E1", Some 100).
Definition remote_stale (t : Z) : query (option string * option Z) :=
  QData (Some "E0", Some 100).
Definition sample_cb : Chatbot :=
  mkChatbot "bot1" (Some "u1") (Some "Bot") true (Some "WORKING") "p1" None None
    (Some 100) None "2024-12-01" None (Some "E0").
Definition sample_world : RenewWorld := mkRenewWorld (Some sample_cb) false true [] 0 [] [] 0.
Definition ok200 : result Response string := Ok (mkResponse 200 "OK" "{}").

Lemma renew_confirms_at_first_change_witness :
  let w' := run_renew sample_date sample_iso sample_format sample_json remote_late
              (Some "u1") (Some "tok") ok200 false sample_world in
  rw_reads w' = rw_reads sample_world ++ read_times (rw_clock sample_world) 3 /\
  rw_clock w' = rw_clock sample_world + renew_interval * Z.of_nat 3 /\
  rw_patches w' = rw_patches sample_world /\
  rw_renewLoading w' = false /\ rw_renewDialogOpen w' = false /\
  exists d, rw_toasts w' = rw_toasts sample_world ++ [mkToast ToastSuccess "Success" d].
Proof.
  apply (renew_confirms_at_first_change sample_date sample_iso sample_format sample_json
           remote_late "u1" "tok" (mkResponse 200 "OK" "{}") sample_cb false sample_world 2);
    [reflexivity|discriminate|reflexivity|unfold renew_attempts; lia|
     vm_compute; repeat constructor|vm_compute; reflexivity].
Defined.

Lemma renew_fallback_after_five_witness :
  let expectedIso := sample_iso (fallback_expiry sample_date (Some "E0") (0 + 5000)) in
  let w' := run_renew sample_date sample_iso sample_format sample_json remote_stale
              (Some "u1") (Some "tok") ok200 false sample_world in
  rw_reads w' = rw_reads sample_world ++ read_times (rw_clock sample_world) 5 /\
  rw_patches w' = rw_patches sample_world ++ [mkPatch "bot1" "u1" expectedIso (100 + 10)] /\
  option_map (fun c => (cb_expired_at c, cb_ai_quota c)) (rw_chatbot w') =
    Some (Some expectedIso, Some (100 + 10)) /\
  rw_renewLoading w' = false /\ rw_renewDialogOpen w' = false.
Proof.
  apply (renew_fallback_after_five sample_date sample_iso sample_format sample_json
           remote_stale "u1" "tok" (mkResponse 200 "OK" "{}") sample_cb sample_world);
    [reflexivity|discriminate|reflexivity|vm_compute; repeat constructor].
Defined.

(** The fallback expiry is thirty days after the old expiry, which is
    still in the future at time 5000. *)
Example sample_fallback_expiry :
  fallback_expiry sample_date (Some "E0") 5000 = 1000000000 + 30 * day_ms.
Proof. reflexivity. Qed.

Lemma renew_bounded_witness :
  let w' := run_renew sample_date sample_iso sample_format sample_json remote_stale
              (Some "u1") (Some "tok") ok200 true sample_world in
  exists n ps, (n <= renew_attempts)%nat /\
    rw_reads w' = rw_reads sample_world ++ read_times (rw_clock sample_world) n /\
    rw_clock w' = rw_clock sample_world + renew_interval * Z.of_nat n /\
    rw_patches w' = rw_patches sample_world ++ ps /\ (length ps <= 1)%nat.
Proof.
  apply (renew_bounded sample_date sample_iso sample_format sample_json remote_stale
           "u1" "tok" (mkResponse 200 "OK" "{}") sample_cb true sample_world);
    [reflexivity|discriminate|reflexivity].
Defined.

(** A 201 answer is a failure whose message is the status. *)
Lemma renew_non200_witness :
  run_renew sample_date sample_iso sample_format sample_json remote_stale
    (Some "u1") (Some "tok") (Ok (mkResponse 201 "Created" "")) false sample_world =
  mkRenewWorld (Some sample_cb) false true
    [mkToast ToastDestructive "Error" "Gagal memperpanjang chatbot: Renewal failed: 201"]
    0 [] [] 0.
Proof.
  etransitivity.
  - apply (renew_non200 sample_date sample_iso sample_format sample_json remote_stale
             "u1" "tok" (mkResponse 201 "Created" "") sample_cb false sample_world);
      [reflexivity|discriminate|discriminate].
  - vm_compute. reflexivity.
Defined.

Lemma renew_always_settles_witness :
  let w' := run_renew sample_date sample_iso sample_format sample_json remote_late
              (Some "u1") None ok200 false sample_world in
  rw_renewLoading w' = false /\ exists x, rw_toasts w' = rw_toasts sample_world ++ [x].
Proof.
  apply (renew_always_settles sample_date sample_iso sample_format sample_json remote_late
           "u1" None ok200 sample_cb false sample_world); reflexivity.
Defined.

End Renewal.
