(* ===== verification/RenewalSpec.v ===== *)
(** * The renewal poller against its specification (spec 4.4)

    The specification describes the Renewal Confirmation Poller as a state
    machine [Idle -> Requested -> Polling -> {Confirmed | TimedOut}]:
    polling re-reads [{expired_at, ai_quota}] at most five times and
    confirms at the first read that differs from the baseline captured at
    the request; when the attempts run out it times out and applies
    [new_expiry = max(now, prior_expiry) + 30 days],
    [new_quota = prior_quota + 10].

    This file states that machine as a labelled step relation [pstep] on
    abstract states [PState], whose labels are what the client observes
    (the baseline at the request, each read's result, the end of the
    attempts), and proves that [handleRenew] of [Renewal] refines it: on a
    200 answer every run of the handler is an abstract run whose
    observations are the handler's own reads, in order, and whose final
    state is [PConfirmed] when the handler writes no patch and [PTimedOut]
    when it writes the specification's fallback patch.  The proof is a
    simulation between [poll_loop] and [PPolling], in the style of a
    forward simulation diagram: each round of the loop is matched by one
    abstract step. *)

From Stdlib Require Import ZArith String List Lia.
From stdpp Require Import base list strings.
From S2P Require Import Prelude Js Schema Renewal.

Local Open Scope string_scope.
Local Open Scope list_scope.
Local Open Scope Z_scope.

Module RenewalSpec.
Import Schema Renewal.

(** ** The abstract machine of spec 4.4 *)

(** The values captured before the request. *)
Record Baseline := mkBaseline { base_expiry : option string; base_quota : Z }.

(** [prevExpiredAt = chatbot.expired_at || null] and
    [prevAiQuota = typeof ai_quota === "number" ? ai_quota : 0]. *)
Definition baseline_of (cb : Chatbot) : Baseline :=
  mkBaseline (or_null (cb_expired_at cb)) (default 0 (cb_ai_quota cb)).

(** A read differs from the baseline; a failed read differs in nothing. *)
Definition differs (b : Baseline) (r : option Snapshot) : bool :=
  match r with
  | Some sn => changed (base_expiry b) (base_quota b) sn
  | None => false
  end.

Definition max_attempts : nat := 5.

Inductive PState :=
  | PIdle
  | PRequested (b : Baseline)
  | PPolling (b : Baseline) (attempts : nat)
  | PConfirmed (b : Baseline) (sn : Snapshot)
  | PTimedOut (b : Baseline).

Inductive PLabel :=
  | LRequest (b : Baseline)
  | LStart
  | LObserve (r : option Snapshot)
  | LExhausted.

Inductive pstep : PState -> PLabel -> PState -> Prop :=
  | ps_request b : pstep PIdle (LRequest b) (PRequested b)
  | ps_start b : pstep (PRequested b) LStart (PPolling b 0)
  | ps_same b n r :
      (n < max_attempts)%nat -> differs b r = false ->
      pstep (PPolling b n) (LObserve r) (PPolling b (S n))
  | ps_confirm b n sn :
      (n < max_attempts)%nat -> differs b (Some sn) = true ->
      pstep (PPolling b n) (LObserve (Some sn)) (PConfirmed b sn)
  | ps_timeout b : pstep (PPolling b max_attempts) LExhausted (PTimedOut b).

(** Runs of the machine, with the labels they show. *)
Inductive psteps : PState -> list PLabel -> PState -> Prop :=
  | pss_nil s : psteps s [] s
  | pss_cons s l s' ls s'' : pstep s l s' -> psteps s' ls s'' -> psteps s (l :: ls) s''.

#[export] Hint Constructors pstep psteps : tanam.

(** The expiry of the timed-out patch as the specification writes it:
    [max(now, prior_expiry) + 30 days]; an absent or unreadable prior
    expiry counts as [now]. *)
Definition spec_expiry (date_of : string -> option Z) (prior : option string) (now : Z) : Z :=
  match prior with
  | Some p => match date_of p with Some d => Z.max now d | None => now end
  | None => now
  end + 30 * day_ms.

(** ** The loop simulates [PPolling] *)

Section Refinement.
Variable date_of : string -> option Z.
Variable iso_of : Z -> string.
Variable format_date : string -> string.
Variable json_parse : string -> option jsval.
Variable remote : Z -> query (option string * option Z).

(** What the client observes of reads made at the given times. *)
Definition observations (ts : list Z) : list PLabel :=
  map (fun x => LObserve (read_at remote x)) ts.

Lemma fallback_expiry_spec prior now :
  fallback_expiry date_of prior now = spec_expiry date_of prior now.
Proof.
  unfold fallback_expiry, spec_expiry.
  destruct prior as [p|]; [destruct (date_of p) as [d|]|]; [|done..].
  destruct (Z.ltb_spec now d); f_equal; lia.
Qed.

Lemma psteps_app s ls1 s' ls2 s'' :
  psteps s ls1 s' -> psteps s' ls2 s'' -> psteps s (ls1 ++ ls2) s''.
Proof. induction 1; simpl; eauto with tanam. Qed.

(** One simulation diagram per round: after [m] attempts with [k] left,
    the loop either confirms on a differing read, matched by a run of
    [PPolling] into [PConfirmed], or makes all [k] reads, matched by a
    run into [PPolling b max_attempts], and returns a read that does not
    differ. *)
Lemma poll_loop_sim b k : forall m latest w,
  (m + k = max_attempts)%nat -> differs b latest = false ->
  exists n res,
    poll_loop remote (base_expiry b) (base_quota b) k latest w = (Ok res, after_reads w n) /\
    ((exists sn, res = Some sn /\ differs b (Some sn) = true /\
                 psteps (PPolling b m) (observations (read_times (rw_clock w) n)) (PConfirmed b sn)) \/
     (n = k /\ differs b res = false /\
      psteps (PPolling b m) (observations (read_times (rw_clock w) n)) (PPolling b max_attempts))).
Proof.
  induction k as [|k IH]; intros m latest w Hmk Hl.
  - exists 0%nat, latest. rewrite Nat.add_0_r in Hmk; subst m. split; [done|]. right. eauto with tanam.
  - rewrite poll_step.
    destruct (read_at remote (rw_clock w + renew_interval)) as [sn|] eqn:Hr.
    + destruct (changed _ _ sn) eqn:Hc.
      * exists 1%nat, (Some sn). split; [done|]. left. exists sn. split_and!; [done|done|].
        unfold observations; simpl. rewrite Hr. eauto with tanam lia.
      * destruct (IH (S m) (Some sn) (step_world w)) as (n & res & Hrun & Hsim); [lia|done|].
        exists (S n), res. split; [done|].
        unfold observations in *; simpl; rewrite Hr.
        destruct Hsim as [(sn' & ? & ? & Hp)|(-> & ? & Hp)]; [left; exists sn'|right];
          split_and!; eauto with tanam lia.
    + destruct (IH (S m) None (step_world w)) as (n & res & Hrun & Hsim); [lia|done|].
      exists (S n), res. split; [done|].
      unfold observations in *; simpl; rewrite Hr.
      destruct Hsim as [(sn' & ? & ? & Hp)|(-> & ? & Hp)]; [left; exists sn'|right];
        split_and!; eauto with tanam lia.
Qed.

(** After the loop: a differing read is confirmed and writes nothing;
    any other result goes to the fallback, which (when the update is
    accepted) writes the patch computed at the current time. *)
Lemma finish_differs cb uid pe sn w :
  differs (baseline_of cb) (Some sn) = true ->
  rw_patches (snd (finish_renewal date_of iso_of format_date cb uid pe (Some sn) w)) = rw_patches w.
Proof.
  unfold finish_renewal, differs, baseline_of; cbn [base_expiry base_quota]. intros ->.
  unfold confirm, st_bind, setChatbot, rw_toast, rw_set, st_modify. done.
Qed.

Lemma finish_fallback cb uid res w :
  differs (baseline_of cb) res = false ->
  rw_patches (snd (finish_renewal date_of iso_of format_date cb uid false res w)) =
  rw_patches w ++ [mkPatch (cb_id cb) uid
                     (iso_of (fallback_expiry date_of (or_null (cb_expired_at cb)) (rw_clock w)))
                     (default 0 (cb_ai_quota cb) + 10)].
Proof.
  unfold finish_renewal, differs, baseline_of; cbn [base_expiry base_quota].
  intros Hd. assert (Hf : forall w0, rw_patches (snd (fallback date_of iso_of format_date (cb_id cb) uid
      (or_null (cb_expired_at cb)) (default 0 (cb_ai_quota cb)) false w0)) =
      rw_patches w0 ++ [mkPatch (cb_id cb) uid
        (iso_of (fallback_expiry date_of (or_null (cb_expired_at cb)) (rw_clock w0)))
        (default 0 (cb_ai_quota cb) + 10)]).
  { intros w0. unfold fallback, st_bind, st_get, write_patch, setChatbot, rw_toast, rw_set, st_modify.
    done. }
  destruct res as [l|]; [by rewrite Hd, Hf|apply Hf].
Qed.

(** C23: [handleRenew] refines the poller of spec 4.4.  On a 200 answer
    with a session token, every run of the handler is a run of the
    specification's machine from [Idle]: the baseline is captured at the
    request, each of the handler's reads (at most five, one second
    apart) is one observation, in order, and the run ends either in
    [Confirmed] on the first differing read, with no patch written, or in
    [TimedOut] after five observations, with the patch
    [max(now, prior_expiry) + 30 days, prior_quota + 10] written for the
    chatbot and user.  The loading flag is cleared and the dialog closed
    in both cases. *)
Theorem handleRenew_refines uid t r cb w :
  rw_chatbot w = Some cb -> t <> "" -> status r = 200 ->
  let b := baseline_of cb in
  let w' := run_renew date_of iso_of format_date json_parse remote (Some uid) (Some t) (Ok r) false w in
  exists n,
    rw_reads w' = rw_reads w ++ read_times (rw_clock w) n /\
    rw_renewLoading w' = false /\ rw_renewDialogOpen w' = false /\
    let obs := LRequest b :: LStart :: observations (read_times (rw_clock w) n) in
    ((exists sn, psteps PIdle obs (PConfirmed b sn) /\ rw_patches w' = rw_patches w) \/
     (psteps PIdle (obs ++ [LExhausted]) (PTimedOut b) /\
      rw_patches w' = rw_patches w ++
        [mkPatch (cb_id cb) uid (iso_of (spec_expiry date_of (base_expiry b) (rw_clock w + 5000)))
           (base_quota b + 10)])).
Proof.
  intros Hcb Ht Hs; cbv zeta.
  destruct (pre_poll_fields json_parse cb r w) as (Hc & Hr & Hp & _).
  destruct (poll_loop_sim (baseline_of cb) renew_attempts 0 None (pre_poll json_parse cb r w))
    as (n & res & Hrun & Hsim); [done|done|].
  cbn [base_expiry base_quota baseline_of] in Hrun.
  rewrite (run_renew_200 _ _ _ _ _ uid t r cb), Hrun, after_poll_ok by done; cbn [rw_reads rw_patches
    rw_renewLoading rw_renewDialogOpen].
  destruct (finish_renewal_fields date_of iso_of format_date cb uid false res
              (after_reads (pre_poll json_parse cb r w) n)) as (_ & _ & Hr1 & _).
  destruct (after_reads_fields (pre_poll json_parse cb r w) n) as (Hr' & Hc' & _ & _ & _ & _ & Hp' & _).
  exists n. rewrite Hr1, Hr', Hr, Hc. split_and!; [done|done|done|].
  destruct Hsim as [(sn & -> & Hd & Hps)|(-> & Hd & Hps)]; rewrite Hc in Hps.
  - left. exists sn. rewrite finish_differs, Hp', Hp by done. split; [|done].
    econstructor; [constructor|]. econstructor; [constructor|exact Hps].
  - right. rewrite finish_fallback, Hp', Hp, Hc', Hc, fallback_expiry_spec by done. split; [|done].
    econstructor; [constructor|]. econstructor; [constructor|].
    eapply psteps_app; [exact Hps|eauto with tanam].
Qed.

End Refinement.

(** ** Witness *)

Lemma handleRenew_refines_witness :
  let b := baseline_of sample_cb in
  let w' := run_renew sample_date sample_iso sample_format sample_json remote_late
              (Some "u1") (Some "tok") (Ok (mkResponse 200 "OK" "{}")) false sample_world in
  exists n,
    rw_reads w' = rw_reads sample_world ++ read_times (rw_clock sample_world) n /\
    rw_renewLoading w' = false /\ rw_renewDialogOpen w' = false /\
    let obs := LRequest b :: LStart :: observations remote_late (read_times (rw_clock sample_world) n) in
    ((exists sn, psteps PIdle obs (PConfirmed b sn) /\ rw_patches w' = rw_patches sample_world) \/
     (psteps PIdle (obs ++ [LExhausted]) (PTimedOut b) /\
      rw_patches w' = rw_patches sample_world ++
        [mkPatch (cb_id sample_cb) "u1"
           (sample_iso (spec_expiry sample_date (base_expiry b) (rw_clock sample_world + 5000)))
           (base_quota b + 10)])).
Proof.
  apply (handleRenew_refines sample_date sample_iso sample_format sample_json remote_late
           "u1" "tok" (mkResponse 200 "OK" "{}") sample_cb sample_world);
    [reflexivity|discriminate|reflexivity].
Defined.

(** With the backend committing after three seconds, the abstract run
    confirms on the third observation. *)
Example refines_sample :
  psteps PIdle
    (LRequest (baseline_of sample_cb) :: LStart ::
     observations remote_late (read_times 0 3))
    (PConfirmed (baseline_of sample_cb) (mkSnapshot (Some "E1") (Some 100))).
Proof.
  vm_compute. repeat econstructor; vm_compute; try reflexivity; lia.
Qed.

End RenewalSpec.
