(* ===== verification/Dashboard.v ===== *)
(** * The chatbot list page: its state, its readers and its row actions

    Source: src/app/dashboard/page.tsx ([ChatbotsPage]).  The page keeps
    the user's chatbots (each joined with its plan), the plan catalogue,
    the balance and the state of the new-bot form and of the QR dialog.
    Three readers refresh it ([fetchChatbots], [fetchPlans],
    [fetchBalance], lines 273-389), on mount and on timers; [handleDeleteBot]
    (lines 597-626) deletes a row; the list helpers (lines 635-700) compute
    the badge, the days left, the usage text and the search filter.

    - The database [DashDb] has the [chatbot], [plans], [transactions] and
      [balances] tables; the last is a [gmap] keyed by user id.
    - The page is [DashWorld]: the database, three groups of React state
      (the lists, the new-bot form, the QR dialog), the notifications, and
      the effects started but not awaited (a refresh, a reload, an alert,
      a request), in order.
    - A query that fails is chosen by a boolean (or an [option] message)
      argument of the handler, as in [Ledger].

    The theorems show what [fetchBalance] leaves in the balance (the raw
    row, or [undefined]), that the create button is enabled only with a
    sufficient balance, that a delete touches only the user's row with
    that id and reports success even when no row matched, and the bounds
    of the list helpers. *)

From Stdlib Require Import ZArith String List Lia.
From stdpp Require Import base list gmap strings sorting.
From S2P Require Import Prelude Js Schema Ledger Sql.

Local Open Scope string_scope.
Local Open Scope list_scope.
Local Open Scope Z_scope.

Module Dashboard.
Import Schema Ledger Sql.

(** ** Data *)

(** [ChatbotWithPlan] (lines 46-48): a row with its joined plan. *)
Record ChatbotWithPlan := mkCWP { cwp_bot : Chatbot; cwp_plan : option Plan }.

Record DashDb := mkDashDb {
  dd_chatbots : list Chatbot;
  dd_plans : list Plan;
  dd_transactions : list Transaction;
  dd_balances : gmap string Z
}.

(** The list state (lines 55-58, 70). [balance] is [None] when it was
    set to [undefined]. *)
Record ListState := mkListState {
  ls_chatbots : list ChatbotWithPlan;
  ls_plans : list Plan;
  ls_balance : option Z;
  ls_loading : bool;
  ls_balanceLoading : bool;
  ls_searchQuery : string
}.

(** The new-bot form and the row being deleted (lines 60-63, 71). *)
Record FormState := mkFormState {
  fs_isNewBotOpen : bool;
  fs_botName : string;
  fs_selectedPlan : string;
  fs_creating : bool;
  fs_deletingId : option string
}.

(** The QR dialog (lines 64-69). [qrCode] holds whatever [data.qr] was. *)
Record QrState := mkQrState {
  qs_qrDialogOpen : bool;
  qs_selectedBotForQR : option ChatbotWithPlan;
  qs_qrCode : jsval;
  qs_qrLoading : bool;
  qs_refreshCountdown : Z
}.

(** Calls started and not awaited, and browser actions. *)
Inductive DashEffect :=
| RefreshChatbots                  (** [fetchChatbots()] *)
| RefreshBalance                   (** [fetchBalance()] *)
| FetchQR (id : string)            (** [fetchQRCode(id)] *)
| Reload                           (** [window.location.reload()] *)
| Alert (msg : string)             (** [alert(msg)] *)
| CreateRequest (token name plan : string) (** POST chatbot/create *)
| QrRequest (token id : string).   (** POST /api/qr *)

Record DashWorld := mkDashWorld {
  dw_db : DashDb;
  dw_list : ListState;
  dw_form : FormState;
  dw_qr : QrState;
  dw_toasts : list Toast;
  dw_effects : list DashEffect
}.

(** [useState] initial values (lines 55-71). *)
Definition initial_list : ListState := mkListState [] [] (Some 0) true false "".
Definition initial_form : FormState := mkFormState false "" "" false None.
Definition initial_qr : QrState := mkQrState false None (JString "") false 10.

(** ** State updates *)

Definition dw_set (f : DashWorld -> DashWorld) {E} : st DashWorld E unit := st_modify f.

Definition mod_db (f : DashDb -> DashDb) {E} : st DashWorld E unit := dw_set (fun w =>
  mkDashWorld (f (dw_db w)) (dw_list w) (dw_form w) (dw_qr w) (dw_toasts w) (dw_effects w)).
Definition mod_list (f : ListState -> ListState) {E} : st DashWorld E unit := dw_set (fun w =>
  mkDashWorld (dw_db w) (f (dw_list w)) (dw_form w) (dw_qr w) (dw_toasts w) (dw_effects w)).
Definition mod_form (f : FormState -> FormState) {E} : st DashWorld E unit := dw_set (fun w =>
  mkDashWorld (dw_db w) (dw_list w) (f (dw_form w)) (dw_qr w) (dw_toasts w) (dw_effects w)).
Definition mod_qr (f : QrState -> QrState) {E} : st DashWorld E unit := dw_set (fun w =>
  mkDashWorld (dw_db w) (dw_list w) (dw_form w) (f (dw_qr w)) (dw_toasts w) (dw_effects w)).
Definition dash_toast (t : Toast) {E} : st DashWorld E unit := dw_set (fun w =>
  mkDashWorld (dw_db w) (dw_list w) (dw_form w) (dw_qr w) (dw_toasts w ++ [t]) (dw_effects w)).
Definition start (e : DashEffect) {E} : st DashWorld E unit := dw_set (fun w =>
  mkDashWorld (dw_db w) (dw_list w) (dw_form w) (dw_qr w) (dw_toasts w) (dw_effects w ++ [e])).

Definition setChatbots l {E} : st DashWorld E unit := mod_list (fun s =>
  mkListState l (ls_plans s) (ls_balance s) (ls_loading s) (ls_balanceLoading s) (ls_searchQuery s)).
Definition setPlans l {E} : st DashWorld E unit := mod_list (fun s =>
  mkListState (ls_chatbots s) l (ls_balance s) (ls_loading s) (ls_balanceLoading s) (ls_searchQuery s)).
Definition setBalance b {E} : st DashWorld E unit := mod_list (fun s =>
  mkListState (ls_chatbots s) (ls_plans s) b (ls_loading s) (ls_balanceLoading s) (ls_searchQuery s)).
Definition setLoading b {E} : st DashWorld E unit := mod_list (fun s =>
  mkListState (ls_chatbots s) (ls_plans s) (ls_balance s) b (ls_balanceLoading s) (ls_searchQuery s)).
Definition setBalanceLoading b {E} : st DashWorld E unit := mod_list (fun s =>
  mkListState (ls_chatbots s) (ls_plans s) (ls_balance s) (ls_loading s) b (ls_searchQuery s)).

Definition setIsNewBotOpen b {E} : st DashWorld E unit := mod_form (fun s =>
  mkFormState b (fs_botName s) (fs_selectedPlan s) (fs_creating s) (fs_deletingId s)).
Definition setBotName n {E} : st DashWorld E unit := mod_form (fun s =>
  mkFormState (fs_isNewBotOpen s) n (fs_selectedPlan s) (fs_creating s) (fs_deletingId s)).
Definition setSelectedPlan p {E} : st DashWorld E unit := mod_form (fun s =>
  mkFormState (fs_isNewBotOpen s) (fs_botName s) p (fs_creating s) (fs_deletingId s)).
Definition setCreating b {E} : st DashWorld E unit := mod_form (fun s =>
  mkFormState (fs_isNewBotOpen s) (fs_botName s) (fs_selectedPlan s) b (fs_deletingId s)).
Definition setDeletingId d {E} : st DashWorld E unit := mod_form (fun s =>
  mkFormState (fs_isNewBotOpen s) (fs_botName s) (fs_selectedPlan s) (fs_creating s) d).

(** ** Readers *)

(** The [chatbot] rows of a user with their plans, newest first
    ([select("*, plans (*)").eq("user_id", ...).order("created_at",
    { ascending: false })], lines 277-286). *)
Definition user_chatbots (db : DashDb) (uid : string) : list ChatbotWithPlan :=
  map (fun c => mkCWP c (find (fun p => bool_decide (plan_id p = cb_plan_id c)) (dd_plans db)))
    (order_desc cb_created_at (filter (fun c => cb_user_id c = Some uid) (dd_chatbots db))).

(** The catalogue by ascending price (lines 303-306). *)
Definition plans_by_price (db : DashDb) : list Plan :=
  @merge_sort Plan (fun a b => plan_price_per_month a <= plan_price_per_month b)
    (fun a b => decide (plan_price_per_month a <= plan_price_per_month b)) (dd_plans db).

(** [fetchChatbots] (lines 273-299); [read_error] says whether the
    query fails.  The early [return] on an error still runs [finally]. *)
Definition fetchChatbots (user : option string) (read_error : bool) : st DashWorld Empty_set unit :=
  match user with
  | None => st_ret tt
  | Some uid =>
      st_finally
        (w <- st_get ;;
         if read_error then st_ret tt
         else setChatbots (user_chatbots (dw_db w) uid))
        (setLoading false)
  end.

(** [fetchPlans] (lines 301-320): the list, and the cheapest plan
    selected. *)
Definition fetchPlans (read_error : bool) : st DashWorld Empty_set unit :=
  w <- st_get ;;
  if read_error then st_ret tt else
  let data := plans_by_price (dw_db w) in
  setPlans data ;;
  match data with
  | p :: _ => setSelectedPlan (plan_id p)
  | [] => st_ret tt
  end.

(** [fetchBalance] (lines 322-389): [setBalance(balanceData?.balance)];
    a missing row or a failed read gives [undefined].  The reconciliation
    of the old version is commented out (lines 346-383). *)
Definition fetchBalance (user : option string) (read_error : bool) : st DashWorld Empty_set unit :=
  match user with
  | None => st_ret tt
  | Some uid =>
      setBalanceLoading true ;;
      st_finally
        (w <- st_get ;;
         setBalance (if read_error then None else dd_balances (dw_db w) !! uid))
        (setBalanceLoading false)
  end.

(** [getSelectedPlanData] and [isBalanceSufficient] (lines 391-399);
    [undefined >= n] is false. *)
Definition getSelectedPlanData (s : ListState) (f : FormState) : option Plan :=
  find (fun p => bool_decide (plan_id p = fs_selectedPlan f)) (ls_plans s).

Definition isBalanceSufficient (s : ListState) (f : FormState) : bool :=
  match getSelectedPlanData s f, ls_balance s with
  | Some p, Some b => Z.leb (plan_price_per_month p) b
  | _, _ => false
  end.

(** The [disabled] condition of the create button (lines 1092-1097). *)
Definition create_enabled (s : ListState) (f : FormState) : bool :=
  negb (String.eqb (trim (fs_botName f)) "") && negb (String.eqb (fs_selectedPlan f) "") &&
  isBalanceSufficient s f && negb (fs_creating f).

(** [resetForm] (lines 628-633) and the new-bot dialog's
    [onOpenChange] (lines 727-731 and 957-961): opening refreshes the balance,
    closing resets the form. *)
Definition resetForm {E} : st DashWorld E unit :=
  setBotName "" ;;
  w <- st_get ;;
  match ls_plans (dw_list w) with
  | p :: _ => setSelectedPlan (plan_id p)
  | [] => st_ret tt
  end.

Definition onNewBotOpenChange (user : option string) (balance_error : bool) (open : bool)
  : st DashWorld Empty_set unit :=
  setIsNewBotOpen open ;;
  (if open then fetchBalance user balance_error else st_ret tt) ;;
  (if open then st_ret tt else resetForm).

(** ** [handleDeleteBot] (lines 597-626)

    [delete_error] is the [error] of the delete, with its [message]. *)

Definition delete_default : string := "Terjadi kesalahan saat menghapus chatbot.".

(** [.delete().eq("id", id).eq("user_id", user.id)] *)
Definition delete_owned (id uid : string) (db : DashDb) : DashDb :=
  mkDashDb (filter (fun c => ~ (cb_id c = id /\ cb_user_id c = Some uid)) (dd_chatbots db))
    (dd_plans db) (dd_transactions db) (dd_balances db).

Definition handleDeleteBot (user : option string) (id : string) (delete_error : option string)
  : st DashWorld string unit :=
  match user with
  | None => st_ret tt
  | Some uid =>
      setDeletingId (Some id) ;;
      st_finally
        (st_catch
           ((match delete_error with
             | Some m => st_throw m
             | None => mod_db (delete_owned id uid)
             end) ;;
            w <- st_get ;;
            setChatbots (filter (fun b => cb_id (cwp_bot b) <> id) (ls_chatbots (dw_list w))) ;;
            dash_toast (mkToast ToastSuccess "Berhasil" "Chatbot berhasil dihapus."))
           (fun m => dash_toast (mkToast ToastDestructive "Gagal menghapus"
                                   (if String.eqb m "" then delete_default else m))))
        (setDeletingId None)
  end.

(** ** List helpers (lines 635-700) *)

(** The label of [getStatusBadge] (lines 635-661). *)
Definition status_label (status : option string) : string :=
  match status with
  | Some "NEED_SCAN_QR" => "Need Scan QR"
  | Some "WORKING" => "Working"
  | _ => "Provisioning"
  end.

(** [Math.ceil(a / b)] for [b > 0]. *)
Definition ceil_div (a b : Z) : Z := - ((- a) / b).

(** [getDaysLeft] (lines 680-687) at the instant [now]; [None] is [NaN],
    which an invalid date gives ([Math.max(0, NaN)] is [NaN]). *)
Definition getDaysLeft (date_of : string -> option Z) (now : Z) (expiredAt : option string)
  : option Z :=
  match expiredAt with
  | None | Some "" => Some 0
  | Some e =>
      match date_of e with
      | None => None
      | Some t => Some (Z.max 0 (ceil_div (t - now) (1000 * 60 * 60 * 24)))
      end
  end.

(** The percentage of [getUsageText] (lines 689-694):
    [Math.round(((ai_usages || 0) / ai_quota) * 100)] in IEEE binary64
    ([Js.percent_of]) when [ai_quota] is truthy, else 0. *)
Definition usage_percentage (c : Chatbot) : rounded :=
  match cb_ai_quota c with
  | None => RInt 0
  | Some q => if q =? 0 then RInt 0 else percent_of (default 0 (cb_ai_usages c)) q
  end.

Definition getUsageText (c : Chatbot) : string :=
  (rounded_text (usage_percentage c) ++ "% used")%string.

(** [filteredChatbots] (lines 696-700). *)
Definition matches_query (q : string) (r : ChatbotWithPlan) : bool :=
  match cb_name (cwp_bot r) with
  | Some n => includes (lower_string n) (lower_string q)
  | None => false
  end || includes (lower_string (cb_id (cwp_bot r))) (lower_string q).

Definition filteredChatbots (q : string) (l : list ChatbotWithPlan) : list ChatbotWithPlan :=
  filter (fun r => matches_query q r = true) l.

(** ** Properties *)

(** [fetchBalance] shows the stored row as it is: the balance
    becomes the row's value, or [undefined] when there is no row or the
    read fails; it reconciles nothing, writes nothing and clears its
    loading flag. *)
Theorem fetch_balance_raw uid err w :
  let w' := snd (fetchBalance (Some uid) err w) in
  ls_balance (dw_list w') = (if err then None else dd_balances (dw_db w) !! uid) /\
  ls_balanceLoading (dw_list w') = false /\ dw_db w' = dw_db w /\ dw_toasts w' = dw_toasts w.
Proof. done. Qed.

(** C24: after [fetchBalance] finds no row (or fails), the create button
    is disabled whatever plan is selected: [undefined >= price] is
    false. *)
Theorem missing_row_blocks_create uid err w :
  (err = true \/ dd_balances (dw_db w) !! uid = None) ->
  let w' := snd (fetchBalance (Some uid) err w) in
  isBalanceSufficient (dw_list w') (dw_form w') = false /\
  create_enabled (dw_list w') (dw_form w') = false.
Proof.
  intros Herr; cbv zeta. unfold create_enabled, isBalanceSufficient; simpl.
  destruct Herr as [->| ->]; [|destruct err]; simpl;
    destruct (getSelectedPlanData _ _); by rewrite ?andb_false_r.
Qed.

Lemma delete_ok_world uid id w :
  snd (handleDeleteBot (Some uid) id None w) =
  mkDashWorld (delete_owned id uid (dw_db w))
    (let s := dw_list w in
     mkListState (filter (fun b => cb_id (cwp_bot b) <> id) (ls_chatbots s)) (ls_plans s)
       (ls_balance s) (ls_loading s) (ls_balanceLoading s) (ls_searchQuery s))
    (let f := dw_form w in
     mkFormState (fs_isNewBotOpen f) (fs_botName f) (fs_selectedPlan f) (fs_creating f) None)
    (dw_qr w) (dw_toasts w ++ [mkToast ToastSuccess "Berhasil" "Chatbot berhasil dihapus."])
    (dw_effects w).
Proof. done. Qed.

(** C25: a successful delete removes exactly the rows with that id that
    belong to the user, keeps every other user's rows, drops the id from
    the list and reports success, also when no row matched. *)
Theorem delete_scoped uid id w :
  let w' := snd (handleDeleteBot (Some uid) id None w) in
  dd_chatbots (dw_db w') =
    filter (fun c => ~ (cb_id c = id /\ cb_user_id c = Some uid)) (dd_chatbots (dw_db w)) /\
  (forall c, c ∈ dd_chatbots (dw_db w) -> cb_user_id c <> Some uid -> c ∈ dd_chatbots (dw_db w')) /\
  Forall (fun b => cb_id (cwp_bot b) <> id) (ls_chatbots (dw_list w')) /\
  dw_toasts w' = dw_toasts w ++ [mkToast ToastSuccess "Berhasil" "Chatbot berhasil dihapus."] /\
  fs_deletingId (dw_form w') = None.
Proof.
  cbv zeta. rewrite delete_ok_world. simpl. split_and!; [done| | |done|done].
  - intros c Hc Hu. apply list_elem_of_filter. split; [|done]. by intros [_ ?].
  - apply Forall_forall. intros b Hb. by apply list_elem_of_filter in Hb as [? _].
Qed.

(** A failed delete changes neither the table nor the list and
    shows the error's message, or the default text for an empty one. *)
Theorem delete_error_reported uid id m w :
  let w' := snd (handleDeleteBot (Some uid) id (Some m) w) in
  dw_db w' = dw_db w /\ ls_chatbots (dw_list w') = ls_chatbots (dw_list w) /\
  dw_toasts w' = dw_toasts w ++
    [mkToast ToastDestructive "Gagal menghapus" (if String.eqb m "" then delete_default else m)] /\
  fs_deletingId (dw_form w') = None.
Proof. done. Qed.

(** C27: the days left are never negative, and a positive count is the
    number of whole or started days until the expiry ([Math.ceil]). *)
Theorem days_left_bounds date_of now e t d :
  e <> "" -> date_of e = Some t -> getDaysLeft date_of now (Some e) = Some d ->
  0 <= d /\ t - now <= d * 86400000 /\ (0 < d -> (d - 1) * 86400000 < t - now).
Proof.
  intros He Ht Hd. unfold getDaysLeft in Hd.
  destruct e; [done|]. rewrite Ht in Hd. injection Hd as <-. unfold ceil_div.
  change (1000 * 60 * 60 * 24) with 86400000.
  pose proof (Z.div_mod (- (t - now)) 86400000 ltac:(lia)).
  pose proof (Z.mod_pos_bound (- (t - now)) 86400000 ltac:(lia)).
  lia.
Qed.

Lemma includes_empty s : includes s "" = true.
Proof. unfold includes. destruct (list_ascii_of_string s); done. Qed.

(** The search box keeps every row when it is empty, and keeps a row
    whose id contains the query, ignoring case. *)
Theorem filter_keeps_matches l :
  filteredChatbots "" l = l /\
  forall q r, r ∈ l -> includes (lower_string (cb_id (cwp_bot r))) (lower_string q) = true ->
  r ∈ filteredChatbots q l.
Proof.
  split.
  - unfold filteredChatbots. induction l as [|r l IH]; [done|].
    rewrite filter_cons_True, IH; [done|]. unfold matches_query.
    rewrite includes_empty. by rewrite orb_true_r.
  - intros q r Hr Hid. apply list_elem_of_filter. split; [|done].
    unfold matches_query. rewrite Hid. by rewrite orb_true_r.
Qed.

(** ** Witnesses *)

Definition sample_plan : Plan := mkPlan "p1" "Basic" 50000 None 100.
Definition sample_bot (id uid name : string) : Chatbot :=
  mkChatbot id (Some uid) (Some name) true (Some "WORKING") "p1" None (Some 30) (Some 120)
    None "2025-01-01" None (Some "2025-02-01").
Definition sample_db : DashDb :=
  mkDashDb [sample_bot "b1" "u1" "Toko"; sample_bot "b2" "u2" "Kafe"] [sample_plan] []
    {[ "u2" := 70000 ]}.
Definition sample_dash : DashWorld :=
  mkDashWorld sample_db
    (mkListState (user_chatbots sample_db "u1") [sample_plan] (Some 0) false false "")
    (mkFormState true "Toko Baru" "p1" false None) initial_qr [] [].

Lemma missing_row_blocks_create_witness :
  let w' := snd (fetchBalance (Some "u1") false sample_dash) in
  isBalanceSufficient (dw_list w') (dw_form w') = false /\
  create_enabled (dw_list w') (dw_form w') = false.
Proof. apply (missing_row_blocks_create "u1" false sample_dash). right. reflexivity. Defined.

Lemma delete_scoped_witness :
  let w' := snd (handleDeleteBot (Some "u1") "b2" None sample_dash) in
  dd_chatbots (dw_db w') =
    filter (fun c => ~ (cb_id c = "b2" /\ cb_user_id c = Some "u1")) (dd_chatbots (dw_db sample_dash)) /\
  (forall c, c ∈ dd_chatbots (dw_db sample_dash) -> cb_user_id c <> Some "u1" ->
             c ∈ dd_chatbots (dw_db w')) /\
  Forall (fun b => cb_id (cwp_bot b) <> "b2") (ls_chatbots (dw_list w')) /\
  dw_toasts w' = dw_toasts sample_dash ++
    [mkToast ToastSuccess "Berhasil" "Chatbot berhasil dihapus."] /\
  fs_deletingId (dw_form w') = None.
Proof. exact (delete_scoped "u1" "b2" sample_dash). Defined.

(** Deleting another user's bot id leaves the table as it was and still
    reports success. *)
Example delete_foreign_id :
  dd_chatbots (dw_db (snd (handleDeleteBot (Some "u1") "b2" None sample_dash))) =
    dd_chatbots sample_db /\
  dw_toasts (snd (handleDeleteBot (Some "u1") "b2" None sample_dash)) =
    [mkToast ToastSuccess "Berhasil" "Chatbot berhasil dihapus."].
Proof. split; reflexivity. Qed.

Definition sample_date (s : string) : option Z :=
  if String.eqb s "2025-02-01" then Some 2678400000 else None.

Lemma days_left_bounds_witness :
  0 <= 31 /\ 2678400000 - 0 <= 31 * 86400000 /\ (0 < 31 -> (31 - 1) * 86400000 < 2678400000 - 0).
Proof.
  apply (days_left_bounds sample_date 0 "2025-02-01" 2678400000 31);
    [discriminate|reflexivity|reflexivity].
Defined.

(** The usage text of a row: 201 of 200 tokens read "100% used" (the
    binary64 quotient times 100 is just below 100.5), 202 of 200 "101%
    used", and a row without a quota "0% used". *)
Example usage_text_samples :
  getUsageText (mkChatbot "b" None None true None "p1" None (Some 201) (Some 200) None "" None None)
    = "100% used" /\
  getUsageText (mkChatbot "b" None None true None "p1" None (Some 202) (Some 200) None "" None None)
    = "101% used" /\
  getUsageText (mkChatbot "b" None None true None "p1" None (Some 5) None None "" None None)
    = "0% used".
Proof. vm_compute. repeat split. Qed.

End Dashboard.
