(* ===== verification/BotCreation.v ===== *)
(** * Bot creation and the post-create charge compensation

    Source: src/app/dashboard/page.tsx, [handleCreateBot] (lines
    401-595).  The handler refuses a name the user already has, posts the
    name and plan to the bot-creation webhook and, on a 200 answer,
    recomputes the balance from the transaction ledger.  When the balance
    went {e up} by exactly the plan price since the form was opened (the
    webhook booked the charge as a topup), it inserts a usage row of the
    price, unless one whose description matches the bot name exists, and
    upserts the balance [computed - price].

    - The webhook's effect on the database is a section parameter [hook],
      applied when the request gets an answer; [fresh] gives the id and
      creation time the database assigns to an inserted row.
    - Every query may fail, chosen by a [CreateFaults] record.
    - The closure reads the form, the plan list and the balance of the
      render that started it ([prevBalance], [botName], [selectedPlan]),
      so the model reads them once from the world at the start.

    The theorems show that a compensation leaves the balance row equal to
    the user's ledger sum, that a charge booked as a topup is netted to
    zero (the bot costs nothing), that nothing is written unless the
    balance rose by the price, that a duplicate name sends no request,
    that every run clears its flag with one notification, and that the
    duplicate-row check finds the row a first compensation wrote, for a
    name without [LIKE] wildcards (with one, it can match another bot's
    row). *)

From Stdlib Require Import ZArith String Ascii List Lia.
From stdpp Require Import base list gmap strings sorting.
From S2P Require Import Prelude Js Schema Ledger Sql Dashboard.

Local Open Scope string_scope.
Local Open Scope list_scope.
Local Open Scope Z_scope.

Module BotCreation.
Import Schema Ledger Sql Dashboard.

Record CreateFaults := mkCreateFaults {
  cf_name_check : bool;  (** the duplicate-name query fails (line 416) *)
  cf_tx_read : bool;     (** the ledger read fails (line 494) *)
  cf_tx_check : bool;    (** the duplicate-usage query fails (line 529) *)
  cf_insert : bool;      (** the usage insert fails (line 546) *)
  cf_upsert : bool       (** the balance upsert fails (line 559) *)
}.

Definition no_create_faults : CreateFaults := mkCreateFaults false false false false false.

Inductive CreateError :=
| Duplicate (name : string)                 (** line 419 *)
| NoToken                                   (** line 430 *)
| FetchRejected (m : string)
| CreateFailed (code : Z) (text : string).  (** line 579 *)

Definition dq : string := String (ascii_of_nat 34) EmptyString.

Definition create_error_text (e : CreateError) : string :=
  match e with
  | Duplicate n => "Bot dengan nama " ++ dq ++ n ++ dq ++ " sudah ada. Gunakan nama lain."
  | NoToken => "No authentication token found"
  | FetchRejected m => m
  | CreateFailed c t => "Failed to create bot: " ++ string_of_Z c ++ " " ++ t
  end.

(** The rows of the duplicate-name query (lines 409-414). *)
Definition name_taken (uid name : string) (c : Chatbot) : bool :=
  bool_decide (cb_user_id c = Some uid /\ cb_name c = Some name).

Definition user_ledger (db : DashDb) (uid : string) : list Transaction :=
  filter (fun t => tx_user_id t = uid) (dd_transactions db).

(** The balance after the ledger read (lines 479-499). *)
Definition computed_balance (flt : CreateFaults) (db : DashDb) (uid : string)
    (prevBalance : option Z) : option Z :=
  if cf_tx_read flt then prevBalance
  else Some (reconcile (order_desc tx_created_at (user_ledger db uid))).

(** [computedBalance - prevBalance], [NaN] ([None]) if either is
    [undefined]. *)
Definition delta (computed prevBalance : option Z) : option Z :=
  match computed, prevBalance with
  | Some c, Some p => Some (c - p)
  | _, _ => None
  end.

(** [Create Bot ${botName} - Plan ${planData?.name || "Unknown"}] *)
Definition botCreationDesc (name : string) (p : Plan) : string :=
  "Create Bot " ++ name ++ " - Plan " ++
  (if String.eqb (plan_name p) "" then "Unknown" else plan_name p).

(** The duplicate-usage query (lines 519-527): the user's usage rows of
    that amount whose description is [ILIKE %name%]; a pattern error on a
    candidate row fails the query ([None]). *)
Definition usage_candidate (uid : string) (price : Z) (t : Transaction) : bool :=
  bool_decide (tx_user_id t = uid) && bool_decide (tx_type t = Usage) &&
  bool_decide (to_number (tx_amount t) = Some price).

Fixpoint existing_usage (pat : string) (l : list Transaction) : option (list Transaction) :=
  match l with
  | [] => Some []
  | t :: l' =>
      match existing_usage pat l', tx_description t with
      | None, _ => None
      | Some r, None => Some r
      | Some r, Some d =>
          match ilike d pat with
          | None => None
          | Some true => Some (t :: r)
          | Some false => Some r
          end
      end
  end.

Definition find_existing (db : DashDb) (uid name : string) (price : Z) : option (list Transaction) :=
  existing_usage (pgrst_pattern ("%" ++ name ++ "%")) (filter (fun t => usage_candidate uid price t = true)
                                          (dd_transactions db)).

Section Handler.
Variable hook : DashDb -> DashDb.
Variable fresh : DashDb -> string * string.

(** The row [.insert({ user_id, type: "usage", amount: price,
    description })] creates. *)
Definition usage_row (uid : string) (price : Z) (desc : string) (db : DashDb) : Transaction :=
  mkTransaction (fresh db).1 uid Usage (JNumber price) (Some desc) (fresh db).2.

Definition insert_usage (uid : string) (price : Z) (desc : string) : st DashWorld CreateError unit :=
  mod_db (fun db =>
    mkDashDb (dd_chatbots db) (dd_plans db)
      (dd_transactions db ++ [usage_row uid price desc db]) (dd_balances db)).

Definition upsert_balance (uid : string) (b : Z) : st DashWorld CreateError unit :=
  mod_db (fun db => mkDashDb (dd_chatbots db) (dd_plans db) (dd_transactions db)
                      (<[uid := b]> (dd_balances db))).

(** The reconciliation block (lines 472-571).  Its [catch] is never
    reached in the model: nothing in it throws. *)
Definition compensate (flt : CreateFaults) (uid name : string) (plan : option Plan)
    (prevBalance : option Z) : st DashWorld CreateError unit :=
  match plan with
  | None => st_ret tt
  | Some p =>
      let price := plan_price_per_month p in
      w <- st_get ;;
      let computed := computed_balance flt (dw_db w) uid prevBalance in
      if (0 <? price) && bool_decide (delta computed prevBalance = Some price) then
        let existing := if cf_tx_check flt then None else find_existing (dw_db w) uid name price in
        match existing with
        | Some (_ :: _) => st_ret tt
        | _ =>
            if cf_insert flt then st_ret tt else
            insert_usage uid price (botCreationDesc name p) ;;
            if cf_upsert flt then st_ret tt else
            upsert_balance uid (default 0 computed - price)
        end
      else st_ret tt
  end.

Definition handleCreateBot (user : option string) (token : option string)
    (respond : result Response string) (flt : CreateFaults) : st DashWorld CreateError unit :=
  w0 <- st_get ;;
  let name := fs_botName (dw_form w0) in
  let sel := fs_selectedPlan (dw_form w0) in
  match user with
  | None => st_ret tt
  | Some uid =>
    if String.eqb (trim name) "" || String.eqb sel "" then st_ret tt else
    setCreating true ;;
    let prevBalance := ls_balance (dw_list w0) in
    st_finally
      (st_catch
        (w1 <- st_get ;;
         (if cf_name_check flt then st_ret tt
          else if existsb (name_taken uid (trim name)) (dd_chatbots (dw_db w1))
               then st_throw (Duplicate name) else st_ret tt) ;;
         t <- (match token with
               | Some t => if String.eqb t "" then st_throw NoToken else st_ret t
               | None => st_throw NoToken
               end) ;;
         start (CreateRequest t name sel) ;;
         resp <- (match respond with
                  | Ok r => mod_db hook ;; st_ret r
                  | Err m => st_throw (FetchRejected m)
                  end) ;;
         if status resp =? 200 then
           dash_toast (mkToast ToastSuccess "Success" "Bot berhasil dibuat!") ;;
           setIsNewBotOpen false ;;
           setBotName "" ;;
           start RefreshChatbots ;;
           compensate flt uid name (getSelectedPlanData (dw_list w0) (dw_form w0)) prevBalance ;;
           start RefreshBalance
         else st_throw (CreateFailed (status resp) (body resp)))
        (fun e => dash_toast (mkToast ToastDestructive "Error"
                                ("Gagal membuat bot: " ++ create_error_text e))))
      (setCreating false ;; start RefreshBalance)
  end.

Definition run_create user token respond flt (w : DashWorld) : DashWorld :=
  snd (handleCreateBot user token respond flt w).

(** ** The handler around the compensation *)

(** What the 200 branch does before the compensation. *)
Definition pre_compensation (t : string) (w : DashWorld) : DashWorld :=
  let name := fs_botName (dw_form w) in
  let sel := fs_selectedPlan (dw_form w) in
  snd ((setCreating true ;; start (CreateRequest t name sel) ;; mod_db hook ;;
        dash_toast (mkToast ToastSuccess "Success" "Bot berhasil dibuat!") ;;
        setIsNewBotOpen false ;; setBotName "" ;; start RefreshChatbots
        : st DashWorld CreateError unit) w).

Definition post_compensation (w : DashWorld) : DashWorld :=
  snd ((start RefreshBalance ;; setCreating false ;; start RefreshBalance
        : st DashWorld CreateError unit) w).

Lemma compensate_ok flt uid name plan pb w :
  fst (compensate flt uid name plan pb w) = Ok tt.
Proof.
  unfold compensate, insert_usage, upsert_balance, mod_db, dw_set, st_modify, st_bind, st_get, st_ret.
  by repeat case_match.
Qed.

Lemma compensate_page flt uid name plan pb w :
  let w' := snd (compensate flt uid name plan pb w) in
  dw_list w' = dw_list w /\ dw_form w' = dw_form w /\ dw_qr w' = dw_qr w /\
  dw_toasts w' = dw_toasts w /\ dw_effects w' = dw_effects w.
Proof.
  unfold compensate, insert_usage, upsert_balance, mod_db, dw_set, st_modify, st_bind, st_get, st_ret.
  by repeat case_match.
Qed.

Lemma run_create_200 uid t r flt w :
  trim (fs_botName (dw_form w)) <> "" -> fs_selectedPlan (dw_form w) <> "" -> t <> "" ->
  (cf_name_check flt = false ->
   existsb (name_taken uid (trim (fs_botName (dw_form w)))) (dd_chatbots (dw_db w)) = false) ->
  status r = 200 ->
  run_create (Some uid) (Some t) (Ok r) flt w =
  post_compensation (snd (compensate flt uid (fs_botName (dw_form w))
                            (getSelectedPlanData (dw_list w) (dw_form w)) (ls_balance (dw_list w))
                            (pre_compensation t w))).
Proof.
  intros Hn Hs Ht Hdup Hst. destruct w as [db ls [op nm sl cr dl] qs ts es]; simpl in *.
  apply String.eqb_neq in Hn, Hs, Ht. apply Z.eqb_eq in Hst.
  unfold run_create, handleCreateBot, pre_compensation, post_compensation.
  unfold st_finally, st_catch, st_bind, st_get, st_ret, st_throw; simpl.
  rewrite Hn, Hs; simpl. rewrite Ht.
  destruct (cf_name_check flt) eqn:Hc; [|rewrite Hdup by done]; simpl; rewrite Hst; simpl;
  match goal with |- context [compensate ?a ?b ?c ?d ?e ?f] =>
    pose proof (compensate_ok a b c d e f) as Hok;
    destruct (compensate a b c d e f) as [res w'] eqn:E end;
  simpl in Hok; subst res; reflexivity.
Qed.

(** The writes of one compensation on the database it reads. *)
Lemma compensate_writes flt uid name p pb w :
  let db := dw_db w in
  let price := plan_price_per_month p in
  let db' := dw_db (snd (compensate flt uid name (Some p) pb w)) in
  db' = db \/
  exists c, cf_tx_read flt = false /\
    c = reconcile (order_desc tx_created_at (user_ledger db uid)) /\
    0 < price /\ delta (Some c) pb = Some price /\
    dd_chatbots db' = dd_chatbots db /\ dd_plans db' = dd_plans db /\
    dd_transactions db' = dd_transactions db ++ [usage_row uid price (botCreationDesc name p) db] /\
    dd_balances db' = (if cf_upsert flt then dd_balances db else <[uid := c - price]> (dd_balances db)).
Proof.
  cbv zeta. unfold compensate, st_bind, st_get; simpl.
  destruct (0 <? plan_price_per_month p) eqn:Hp; simpl; [|by left].
  case_bool_decide as Hd; [|by left].
  unfold computed_balance in *. destruct (cf_tx_read flt) eqn:Hr.
  { exfalso. destruct pb; simpl in Hd; [|done]. apply Z.ltb_lt in Hp. injection Hd. lia. }
  apply Z.ltb_lt in Hp.
  destruct (if cf_tx_check flt then None else _) as [[|??]|]; try (by left);
    (destruct (cf_insert flt); [by left|]); right;
    destruct (cf_upsert flt); eexists; split_and!; done.
Qed.

Lemma user_ledger_app db txs uid :
  filter (fun t => tx_user_id t = uid) (dd_transactions db ++ txs) =
  user_ledger db uid ++ filter (fun t => tx_user_id t = uid) txs.
Proof. apply filter_app. Qed.

Lemma ledger_usage_row uid price desc db :
  ledger_balance (filter (fun t => tx_user_id t = uid) [usage_row uid price desc db]) = - price.
Proof. unfold ledger_balance. rewrite filter_cons_True by done. simpl. unfold signed_amount, usage_row, number_or_zero. simpl. lia. Qed.

(** The conditions under which the handler reaches the request: a
    non-blank name, a selected plan, a token, and no bot of that name
    (or a failed check). *)
Definition create_proceeds (uid t : string) (flt : CreateFaults) (w : DashWorld) : Prop :=
  trim (fs_botName (dw_form w)) <> "" /\ fs_selectedPlan (dw_form w) <> "" /\ t <> "" /\
  (cf_name_check flt = false ->
   existsb (name_taken uid (trim (fs_botName (dw_form w)))) (dd_chatbots (dw_db w)) = false).

Lemma pre_compensation_db t w : dw_db (pre_compensation t w) = hook (dw_db w).
Proof. done. Qed.

Lemma pre_compensation_page t w :
  dw_list (pre_compensation t w) = dw_list w /\
  dw_toasts (pre_compensation t w) =
    dw_toasts w ++ [mkToast ToastSuccess "Success" "Bot berhasil dibuat!"].
Proof. done. Qed.

Lemma run_create_db uid t r flt w :
  create_proceeds uid t flt w -> status r = 200 ->
  dw_db (run_create (Some uid) (Some t) (Ok r) flt w) =
  dw_db (snd (compensate flt uid (fs_botName (dw_form w))
                (getSelectedPlanData (dw_list w) (dw_form w)) (ls_balance (dw_list w))
                (pre_compensation t w))).
Proof. intros (? & ? & ? & ?) ?. by rewrite run_create_200. Qed.

Lemma compensate_write_eq flt uid name p pb w c :
  let db := dw_db w in
  let price := plan_price_per_month p in
  cf_tx_read flt = false -> cf_insert flt = false -> cf_upsert flt = false ->
  match (if cf_tx_check flt then None else find_existing db uid name price) with
  | Some (_ :: _) => False
  | _ => True
  end ->
  c = reconcile (order_desc tx_created_at (user_ledger db uid)) ->
  0 < price -> delta (Some c) pb = Some price ->
  dw_db (snd (compensate flt uid name (Some p) pb w)) =
  mkDashDb (dd_chatbots db) (dd_plans db)
    (dd_transactions db ++ [usage_row uid price (botCreationDesc name p) db])
    (<[uid := c - price]> (dd_balances db)).
Proof.
  cbv zeta. intros Hr Hi Hu He -> Hp Hd. unfold compensate, st_bind, st_get; simpl.
  unfold computed_balance. rewrite Hr, (proj2 (Z.ltb_lt _ _) Hp). simpl.
  rewrite bool_decide_eq_true_2 by done.
  destruct (if cf_tx_check flt then None else _) as [[|??]|]; [| done |];
    by rewrite Hi, Hu.
Qed.

Lemma prefixb_app p b : prefixb p (p ++ b) = true.
Proof. induction p as [|c p IH]; simpl; [done|]. by rewrite ascii_eqb_refl. Qed.

Lemma infixb_prefix p s : prefixb p s = true -> infixb p s = true.
Proof. destruct s; simpl; intros ->; done. Qed.

Lemma infixb_mid p a b : infixb p (a ++ p ++ b) = true.
Proof.
  induction a as [|c a IH]; simpl.
  - apply infixb_prefix, prefixb_app.
  - by rewrite IH, orb_true_r.
Qed.

(** The description of [t] contains [name], ignoring case. *)
Definition desc_contains (name : string) (t : Transaction) : bool :=
  match tx_description t with
  | Some d => infixb (map lower (list_ascii_of_string name)) (map lower (list_ascii_of_string d))
  | None => false
  end.

(** For a plain name the duplicate-usage query never fails and returns
    the candidates whose description contains the name. *)
Lemma existing_usage_plain name l :
  plain name = true ->
  existing_usage ("%" ++ name ++ "%") l = Some (filter (fun t => desc_contains name t = true) l).
Proof.
  intros Hp. induction l as [|t l IH]; [done|]. simpl. rewrite IH, filter_cons.
  destruct (tx_description t) as [d|] eqn:Ed.
  - rewrite ilike_plain_infix by done.
    replace (desc_contains name t)
      with (infixb (map lower (list_ascii_of_string name)) (map lower (list_ascii_of_string d)))
      by (unfold desc_contains; by rewrite Ed).
    destruct (infixb _ _); by case_decide.
  - replace (desc_contains name t) with false by (unfold desc_contains; by rewrite Ed).
    by case_decide.
Qed.

(** *** Properties of [handleCreateBot] *)

(** C30: a compensation that writes keeps the books consistent: when the
    handler inserts its usage row and the upsert succeeds, the balance
    row equals the user's ledger sum after the insert. *)
Theorem compensation_consistent uid t r flt w :
  create_proceeds uid t flt w -> status r = 200 -> cf_upsert flt = false ->
  let w' := run_create (Some uid) (Some t) (Ok r) flt w in
  dd_transactions (dw_db w') <> dd_transactions (hook (dw_db w)) ->
  dd_balances (dw_db w') !! uid = Some (ledger_balance (user_ledger (dw_db w') uid)).
Proof.
  intros Hp Hs Hu; cbv zeta. rewrite run_create_db by done.
  destruct (getSelectedPlanData _ _) as [p|]; [|done].
  destruct (compensate_writes flt uid (fs_botName (dw_form w)) p (ls_balance (dw_list w))
              (pre_compensation t w)) as [->|(c & _ & -> & _ & _ & _ & _ & Ht & Hb)];
    [done|]. intros _.
  rewrite Hb, Hu, lookup_insert_eq. unfold user_ledger at 2. rewrite Ht, user_ledger_app.
  rewrite ledger_balance_app, ledger_usage_row, reconcile_ledger, ledger_order_desc. f_equal; lia.
Qed.

(** C31: a charge the webhook books as a topup is netted to zero.  When
    the balance shown agreed with the ledger, the webhook adds a topup of
    the plan price instead of a usage, and no matching usage row exists,
    the handler's compensation leaves the balance row and the ledger sum
    at the balance before the purchase: the bot costs nothing. *)
Theorem charge_booked_as_topup_is_free uid t r w p tx :
  create_proceeds uid t no_create_faults w -> status r = 200 ->
  getSelectedPlanData (dw_list w) (dw_form w) = Some p -> 0 < plan_price_per_month p ->
  ls_balance (dw_list w) = Some (ledger_balance (user_ledger (dw_db w) uid)) ->
  user_ledger (hook (dw_db w)) uid = user_ledger (dw_db w) uid ++ [tx] ->
  tx_type tx = Topup -> tx_amount tx = JNumber (plan_price_per_month p) ->
  find_existing (hook (dw_db w)) uid (fs_botName (dw_form w)) (plan_price_per_month p) = Some [] ->
  let w' := run_create (Some uid) (Some t) (Ok r) no_create_faults w in
  dd_balances (dw_db w') !! uid = Some (ledger_balance (user_ledger (dw_db w) uid)) /\
  ledger_balance (user_ledger (dw_db w') uid) = ledger_balance (user_ledger (dw_db w) uid).
Proof.
  intros Hpr Hs Hp Hpos Hb Hl Hty Ham He; cbv zeta.
  rewrite run_create_db, Hp, Hb by done.
  assert (Hc : reconcile (order_desc tx_created_at (user_ledger (hook (dw_db w)) uid)) =
               ledger_balance (user_ledger (dw_db w) uid) + plan_price_per_month p).
  { rewrite reconcile_ledger, ledger_order_desc, Hl, ledger_balance_app.
    unfold ledger_balance at 2; simpl. unfold signed_amount, number_or_zero.
    rewrite Hty, Ham. simpl. lia. }
  rewrite (compensate_write_eq no_create_faults uid (fs_botName (dw_form w)) p _ (pre_compensation t w)
             (ledger_balance (user_ledger (dw_db w) uid) + plan_price_per_month p));
    [|done|done|done|cbn -[find_existing pre_compensation]; by rewrite pre_compensation_db, He
     |by rewrite pre_compensation_db, Hc|done|simpl; f_equal; lia].
  cbn [dd_balances dd_transactions]. rewrite lookup_insert_eq. split; [f_equal; lia|].
  unfold user_ledger at 1. cbn [dd_transactions].
  rewrite user_ledger_app, ledger_balance_app, ledger_usage_row, pre_compensation_db, Hl,
    ledger_balance_app.
  unfold ledger_balance at 2; simpl. unfold signed_amount, number_or_zero.
  rewrite Hty, Ham. simpl. lia.
Qed.

(** Nothing is written unless the balance rose by the price: when
    the recomputed balance minus the balance shown is not the plan price
    (or is [NaN]), the handler leaves the database as the webhook left
    it. *)
Theorem no_write_unless_price_delta uid t r flt w :
  create_proceeds uid t flt w -> status r = 200 ->
  (forall p, getSelectedPlanData (dw_list w) (dw_form w) = Some p ->
   delta (computed_balance flt (hook (dw_db w)) uid (ls_balance (dw_list w))) (ls_balance (dw_list w))
     <> Some (plan_price_per_month p)) ->
  dw_db (run_create (Some uid) (Some t) (Ok r) flt w) = hook (dw_db w).
Proof.
  intros Hpr Hs Hd. rewrite run_create_db by done.
  destruct (getSelectedPlanData _ _) as [p|] eqn:Hp; [|done].
  destruct (compensate_writes flt uid (fs_botName (dw_form w)) p (ls_balance (dw_list w))
              (pre_compensation t w)) as [->|(c & Hr & Hc & _ & Hdl & _)]; [done|].
  exfalso. apply (Hd p eq_refl). unfold computed_balance.
  rewrite pre_compensation_db in Hc. by rewrite Hr, <-Hc.
Qed.

(** C33: a name the user already has is refused before any request: the
    database is untouched, no request is started, a destructive
    notification names the bot, the flag is cleared and the balance is
    refreshed. *)
Theorem duplicate_name_rejected uid tok respond flt w :
  trim (fs_botName (dw_form w)) <> "" -> fs_selectedPlan (dw_form w) <> "" ->
  cf_name_check flt = false ->
  existsb (name_taken uid (trim (fs_botName (dw_form w)))) (dd_chatbots (dw_db w)) = true ->
  let w' := run_create (Some uid) tok respond flt w in
  dw_db w' = dw_db w /\ dw_effects w' = dw_effects w ++ [RefreshBalance] /\
  dw_toasts w' = dw_toasts w ++
    [mkToast ToastDestructive "Error"
       ("Gagal membuat bot: " ++ create_error_text (Duplicate (fs_botName (dw_form w))))] /\
  fs_creating (dw_form w') = false.
Proof.
  intros Hn Hs Hc Hd; cbv zeta. destruct w as [db ls [op nm sl cr dl] qs ts es]; simpl in *.
  apply String.eqb_neq in Hn, Hs.
  unfold run_create, handleCreateBot, st_finally, st_catch, st_bind, st_get, st_ret, st_throw; simpl.
  rewrite Hn, Hs; simpl. by rewrite Hc, Hd.
Qed.

(** Run a branch of [handleCreateBot] that ends in its [catch] block. *)
Ltac create_fail :=
  unfold run_create, handleCreateBot, st_finally, st_catch, st_bind, st_get, st_ret, st_throw;
  simpl;
  repeat (match goal with
          | H : String.eqb ?x ?y = false |- context [String.eqb ?x ?y] => rewrite H
          | H : Z.eqb ?x ?y = false |- context [Z.eqb ?x ?y] => rewrite H
          | H : ?b = true |- context [if ?b then _ else _] => rewrite H
          | H : ?b = false |- context [if ?b then _ else _] => rewrite H
          end; simpl);
  rewrite last_snoc; eauto.

(** Every run that passes the form guard settles: the [creating]
    flag is cleared, exactly one notification is added, and the last
    effect is the balance refresh of the [finally] block. *)
Theorem create_always_settles uid tok respond flt w :
  trim (fs_botName (dw_form w)) <> "" -> fs_selectedPlan (dw_form w) <> "" ->
  let w' := run_create (Some uid) tok respond flt w in
  fs_creating (dw_form w') = false /\ (exists x, dw_toasts w' = dw_toasts w ++ [x]) /\
  last (dw_effects w') = Some RefreshBalance.
Proof.
  intros Hn Hs; cbv zeta. apply String.eqb_neq in Hn as Hn', Hs as Hs'.
  assert (Hok : forall t r, t <> "" -> status r = 200 -> create_proceeds uid t flt w ->
    let w' := run_create (Some uid) (Some t) (Ok r) flt w in
    fs_creating (dw_form w') = false /\ (exists x, dw_toasts w' = dw_toasts w ++ [x]) /\
    last (dw_effects w') = Some RefreshBalance).
  { intros t r Ht Hst Hp; cbv zeta. rewrite run_create_200 by (destruct Hp as (? & ? & ? & ?); done).
    destruct (compensate_page flt uid (fs_botName (dw_form w))
                (getSelectedPlanData (dw_list w) (dw_form w))
                (ls_balance (dw_list w)) (pre_compensation t w)) as (_ & _ & _ & Ht' & _).
    unfold post_compensation; simpl. rewrite last_snoc, Ht'. eauto. }
  destruct (cf_name_check flt) eqn:Hc;
    [|destruct (existsb (name_taken uid (trim (fs_botName (dw_form w)))) (dd_chatbots (dw_db w)))
        eqn:Hd; [create_fail|]];
    (destruct tok as [t|];
     [destruct (String.eqb_spec t "") as [->|Ht]; [|pose proof (proj2 (String.eqb_neq t "") Ht)]|];
     [create_fail| |create_fail]);
    (destruct respond as [r|m]; [|create_fail]);
    (destruct (Z.eqb_spec (status r) 200) as [Hst|Hst];
     [|apply Z.eqb_neq in Hst; create_fail]);
    apply Hok; try done; unfold create_proceeds; split_and!; first [done | intros ?; congruence].
Qed.

(** For a name without [LIKE] wildcards the duplicate-usage check
    finds the usage row a compensation wrote for that name and plan, so
    a second compensation does not insert another. *)
Theorem duplicate_usage_found db uid name p id created :
  plain name = true ->
  mkTransaction id uid Usage (JNumber (plan_price_per_month p)) (Some (botCreationDesc name p)) created
    ∈ dd_transactions db ->
  exists x xs, find_existing db uid name (plan_price_per_month p) = Some (x :: xs).
Proof.
  intros Hp Hin. unfold find_existing. rewrite pgrst_pattern_plain, existing_usage_plain by done.
  set (row := mkTransaction _ _ _ _ _ _) in Hin.
  assert (Hr : row ∈ filter (fun t => desc_contains name t = true)
                     (filter (fun t => usage_candidate uid (plan_price_per_month p) t = true)
                        (dd_transactions db))).
  { apply list_elem_of_filter. split.
    - unfold desc_contains. cbn [tx_description row]. unfold botCreationDesc.
      rewrite !list_ascii_app, !map_app. apply infixb_mid.
    - apply list_elem_of_filter. split; [|done]. unfold usage_candidate; simpl.
      by rewrite !bool_decide_eq_true_2. }
  destruct (filter _ _) as [|x xs]; [by apply not_elem_of_nil in Hr|]. eauto.
Qed.

(** C36: a name that is a [LIKE] wildcard matches every usage row of
    the price: for the name [%] the duplicate-usage check returns all of
    the user's usage rows of that amount that have a description, so
    one unrelated row is enough to skip the compensation. *)
Theorem wildcard_name_matches_any db uid price :
  find_existing db uid "%" price =
  Some (filter (fun t => is_Some (tx_description t))
          (filter (fun t => usage_candidate uid price t = true) (dd_transactions db))).
Proof.
  unfold find_existing. change (pgrst_pattern ("%" ++ "%" ++ "%")%string) with ("%" ++ "%" ++ "%")%string.
  induction (filter _ (dd_transactions db)) as [|t l IH]; [done|].
  cbn [existing_usage]. rewrite IH, filter_cons.
  destruct (tx_description t) as [d|].
  - replace (ilike d ("%" ++ "%" ++ "%")) with (Some true)
      by (symmetry; apply (like_match_percents 2)).
    rewrite decide_True; eauto.
  - rewrite decide_False; [done|]. by intros [? ?].
Qed.

(** PostgREST's [*] alias makes the name [*] match every such row too. *)
Lemma star_name_matches_any db uid price :
  find_existing db uid "*" price = find_existing db uid "%" price.
Proof. unfold find_existing. by change (pgrst_pattern ("%" ++ "*" ++ "%")%string) with ("%" ++ "%" ++ "%")%string. Qed.

End Handler.

(** ** Witnesses

    A user with one topup of 100000 and a matching balance row buys the
    Basic plan (50000).  [hook_topup] is a webhook that books the charge
    as a topup; [hook_usage] one that books it as a usage. *)

Definition tx0 : Transaction := mkTransaction "t0" "u1" Topup (JNumber 100000) None "2025-01-01".
Definition booked (ty : TransactionType) : Transaction :=
  mkTransaction "h1" "u1" ty (JNumber 50000) (Some "bot") "2025-03-01".
Definition with_tx (t : Transaction) (db : DashDb) : DashDb :=
  mkDashDb (dd_chatbots db) (dd_plans db) (dd_transactions db ++ [t]) (dd_balances db).
Definition hook_topup : DashDb -> DashDb := with_tx (booked Topup).
Definition hook_usage : DashDb -> DashDb := with_tx (booked Usage).
Definition fresh_row (db : DashDb) : string * string := ("n1", "2025-03-02").
Definition create_db (bots : list Chatbot) : DashDb :=
  mkDashDb bots [sample_plan] [tx0] {[ "u1" := 100000 ]}.
Definition create_world (bots : list Chatbot) : DashWorld :=
  mkDashWorld (create_db bots)
    (mkListState [] [sample_plan] (Some 100000) false false "")
    (mkFormState true "Toko" "p1" false None) initial_qr [] [].
Definition ok200 : result Response string := Ok (mkResponse 200 "OK" "").

Lemma create_proceeds_sample : create_proceeds "u1" "tok" no_create_faults (create_world []).
Proof. split_and!; [vm_compute; discriminate|discriminate|discriminate|reflexivity]. Qed.

Lemma compensation_consistent_witness :
  let w' := run_create hook_topup fresh_row (Some "u1") (Some "tok") ok200 no_create_faults
              (create_world []) in
  dd_balances (dw_db w') !! "u1" = Some (ledger_balance (user_ledger (dw_db w') "u1")).
Proof.
  apply (compensation_consistent hook_topup fresh_row "u1" "tok" (mkResponse 200 "OK" "")
           no_create_faults (create_world []));
    [exact create_proceeds_sample|reflexivity|reflexivity|vm_compute; discriminate].
Defined.

Lemma charge_booked_as_topup_is_free_witness :
  let w' := run_create hook_topup fresh_row (Some "u1") (Some "tok") ok200 no_create_faults
              (create_world []) in
  dd_balances (dw_db w') !! "u1" = Some (ledger_balance (user_ledger (create_db []) "u1")) /\
  ledger_balance (user_ledger (dw_db w') "u1") = ledger_balance (user_ledger (create_db []) "u1").
Proof.
  apply (charge_booked_as_topup_is_free hook_topup fresh_row "u1" "tok" (mkResponse 200 "OK" "")
           (create_world []) sample_plan (booked Topup));
    [exact create_proceeds_sample|reflexivity..].
Defined.

(** The bot is free: the balance stays at 100000. *)
Example topup_booking_balance :
  dd_balances (dw_db (run_create hook_topup fresh_row (Some "u1") (Some "tok") ok200
                        no_create_faults (create_world []))) !! "u1" = Some 100000.
Proof. vm_compute. reflexivity. Qed.

Lemma no_write_unless_price_delta_witness :
  dw_db (run_create hook_usage fresh_row (Some "u1") (Some "tok") ok200 no_create_faults
           (create_world [])) = hook_usage (create_db []).
Proof.
  apply (no_write_unless_price_delta hook_usage fresh_row "u1" "tok" (mkResponse 200 "OK" "")
           no_create_faults (create_world []));
    [exact create_proceeds_sample|reflexivity|].
  intros p Hp. vm_compute in Hp. injection Hp as <-. vm_compute. discriminate.
Defined.

Lemma duplicate_name_rejected_witness :
  let w := create_world [sample_bot "b1" "u1" "Toko"] in
  let w' := run_create hook_topup fresh_row (Some "u1") (Some "tok") ok200 no_create_faults w in
  dw_db w' = dw_db w /\ dw_effects w' = dw_effects w ++ [RefreshBalance] /\
  dw_toasts w' = dw_toasts w ++
    [mkToast ToastDestructive "Error"
       ("Gagal membuat bot: " ++ create_error_text (Duplicate (fs_botName (dw_form w))))] /\
  fs_creating (dw_form w') = false.
Proof.
  apply (duplicate_name_rejected hook_topup fresh_row "u1" (Some "tok") ok200 no_create_faults
           (create_world [sample_bot "b1" "u1" "Toko"]));
    [vm_compute; discriminate|discriminate|reflexivity|reflexivity].
Defined.

Lemma create_always_settles_witness :
  let w' := run_create hook_topup fresh_row (Some "u1") None ok200 no_create_faults
              (create_world []) in
  fs_creating (dw_form w') = false /\ (exists x, dw_toasts w' = dw_toasts (create_world []) ++ [x]) /\
  last (dw_effects w') = Some RefreshBalance.
Proof.
  apply (create_always_settles hook_topup fresh_row "u1" None ok200 no_create_faults
           (create_world [])); [vm_compute; discriminate|discriminate].
Defined.

Definition written_row : Transaction :=
  mkTransaction "n1" "u1" Usage (JNumber 50000) (Some (botCreationDesc "Toko" sample_plan)) "2025-03-02".

Lemma duplicate_usage_found_witness :
  exists x xs,
    find_existing (with_tx written_row (create_db [])) "u1" "Toko" (plan_price_per_month sample_plan)
    = Some (x :: xs).
Proof.
  apply (duplicate_usage_found (with_tx written_row (create_db [])) "u1" "Toko" sample_plan
           "n1" "2025-03-02"); [reflexivity|simpl; by right; left].
Defined.

(** With the name [%], an unrelated usage row of the price is taken for
    the bot's own. *)
Example wildcard_name_sample :
  find_existing (with_tx (mkTransaction "x" "u1" Usage (JNumber 50000) (Some "Create Bot Kafe")
                            "2025-02-01") (create_db [])) "u1" "%" 50000 <> Some [].
Proof. vm_compute. discriminate. Qed.

End BotCreation.
