(* ===== verification/Qr.v ===== *)
(** * WhatsApp linking: the QR dialog of the chatbot list page

    Source: src/app/dashboard/page.tsx.  A bot whose status is
    [NEED_SCAN_QR] opens the QR dialog from its badge (lines 645-649);
    [fetchQRCode] (lines 80-214) asks the QR webhook (through the
    [/api/qr] rewrite of src/next.config.js) for the code, with a ten
    second abort timeout, and turns every failure into a notification; a
    one-second interval counts down from 10 and fetches a fresh code when
    it reaches 1 (lines 240-257); a watcher closes the dialog and reloads
    the page once the list shows the bot [WORKING] (lines 259-271).

    - The fetch is an input [FetchResult]: aborted by the timeout, failed
      in the network layer with an error name and message, or answered.
    - Time is the number of interval ticks [qr_tick] that ran.

    The theorems show that the dialog state stays well formed along every
    run of the page (the countdown within 1..10, never open without a
    selected bot), that the countdown refetches exactly once every ten
    ticks, that a failed answer is reported with
    the message of its status, and that the watcher closes the dialog
    when the bot is linked. *)

From Stdlib Require Import ZArith String List Lia.
From stdpp Require Import base list strings.
From S2P Require Import Prelude Js Schema Sql Dashboard.

Local Open Scope string_scope.
Local Open Scope list_scope.
Local Open Scope Z_scope.

Module Qr.
Import Schema Sql Dashboard.

Inductive FetchResult :=
| Aborted                              (** [controller.abort()] after 10 s *)
| NetworkError (name message : string) (** [fetch] rejects with an [Error] *)
| Answered (r : Response).

Definition setQrLoading b {E} : st DashWorld E unit := mod_qr (fun q =>
  mkQrState (qs_qrDialogOpen q) (qs_selectedBotForQR q) (qs_qrCode q) b (qs_refreshCountdown q)).
Definition setQrCode v {E} : st DashWorld E unit := mod_qr (fun q =>
  mkQrState (qs_qrDialogOpen q) (qs_selectedBotForQR q) v (qs_qrLoading q) (qs_refreshCountdown q)).
Definition setQrDialogOpen b {E} : st DashWorld E unit := mod_qr (fun q =>
  mkQrState b (qs_selectedBotForQR q) (qs_qrCode q) (qs_qrLoading q) (qs_refreshCountdown q)).
Definition setSelectedBotForQR s {E} : st DashWorld E unit := mod_qr (fun q =>
  mkQrState (qs_qrDialogOpen q) s (qs_qrCode q) (qs_qrLoading q) (qs_refreshCountdown q)).
Definition setRefreshCountdown c {E} : st DashWorld E unit := mod_qr (fun q =>
  mkQrState (qs_qrDialogOpen q) (qs_selectedBotForQR q) (qs_qrCode q) (qs_qrLoading q) c).

(** ** [fetchQRCode] *)

Definition timeout_message : string :=
  "Request timeout - QR service took too long to respond".
Definition nl : string := String (Ascii.ascii_of_nat 10) EmptyString.

Definition connect_message : string :=
  "Unable to connect to QR service. This could be due to:" ++ nl ++
  "• Network connectivity issues" ++ nl ++
  "• CORS policy blocking the request" ++ nl ++
  "• QR service is temporarily unavailable" ++ nl ++ nl ++
  "Please try again later or contact support.".

(** The [catch] around [fetch] (lines 120-135). *)
Definition fetch_outcome (f : FetchResult) : result Response string :=
  match f with
  | Aborted => Err timeout_message
  | NetworkError name msg =>
      if String.eqb name "AbortError" then Err timeout_message
      else if includes msg "Failed to fetch" then Err connect_message
      else Err msg
  | Answered r => Ok r
  end.

(** The message of a non-ok answer (lines 147-170). *)
Definition qr_status_message (r : Response) : string :=
  if status r =? 0 then
    "Network error: Unable to reach QR service. Please check your internet connection."
  else if 500 <=? status r then
    "QR service is temporarily unavailable (" ++ string_of_Z (status r) ++ "). Please try again later."
  else if status r =? 404 then "QR service endpoint not found. Please contact support."
  else "QR service error: " ++ string_of_Z (status r) ++ " " ++ statusText r.

(** [data.qr], [data.error] and the [TypeError] of a [null] body
    (lines 184-198). *)
Definition qr_of_data (data : jsval) : result jsval string :=
  match get data "qr" with
  | None => Err ("Cannot read properties of " ++ to_string data ++ " (reading 'qr')")%string
  | Some q =>
      if truthy q then Ok q
      else match get data "error" with
           | Some e => if truthy e then Err ("QR service error: " ++ to_string e)%string
                       else Err "QR code not available in response"
           | None => Err "QR code not available in response"
           end
  end.

Section Fetch.
Variable json_parse : string -> option jsval.

Definition fetchQRCode (user : option string) (token : option string) (f : FetchResult)
    (chatbotId : string) : st DashWorld string unit :=
  match user with
  | None => st_ret tt
  | Some _ =>
    setQrLoading true ;;
    setQrCode (JString "") ;;
    st_finally
      (st_catch
        (match token with
         | Some t =>
           if String.eqb t "" then start (Alert "Session expired. Please login again.") else
           start (QrRequest t chatbotId) ;;
           resp <- (match fetch_outcome f with Ok r => st_ret r | Err m => st_throw m end) ;;
           if negb (response_ok resp) then st_throw (qr_status_message resp) else
           data <- (match json_parse (body resp) with
                    | Some d => st_ret d
                    | None => st_throw "Invalid response format from QR service"
                    end) ;;
           match qr_of_data data with
           | Ok q => setQrCode q
           | Err m => st_throw m
           end
         | None => start (Alert "Session expired. Please login again.")
         end)
        (fun m => dash_toast (mkToast ToastDestructive "QR Code Error" m)))
      (setQrLoading false)
  end.

End Fetch.

(** ** The dialog *)

(** The badge's [onClick] (lines 645-649); the fetch it starts is an
    effect. *)
Definition open_qr (b : ChatbotWithPlan) {E} : st DashWorld E unit :=
  setSelectedBotForQR (Some b) ;; start (FetchQR (cb_id (cwp_bot b))) ;; setQrDialogOpen true.

(** The close button of the dialog (lines 1126-1130). *)
Definition close_qr {E} : st DashWorld E unit :=
  setQrDialogOpen false ;; setSelectedBotForQR None ;; setQrCode (JString "").

(** One tick of the one-second interval (lines 241-257). *)
Definition qr_tick {E} : st DashWorld E unit :=
  w <- st_get ;;
  if qs_qrDialogOpen (dw_qr w) then
    let prev := qs_refreshCountdown (dw_qr w) in
    if prev <=? 1 then
      (match qs_selectedBotForQR (dw_qr w) with
       | Some b => start (FetchQR (cb_id (cwp_bot b)))
       | None => st_ret tt
       end) ;;
      setRefreshCountdown 10
    else setRefreshCountdown (prev - 1)
  else st_ret tt.

Fixpoint run_ticks (n : nat) (w : DashWorld) : DashWorld :=
  match n with
  | O => w
  | S n' => run_ticks n' (snd (qr_tick (E := Empty_set) w))
  end.

(** The watcher of lines 259-271, run after the list changes. *)
Definition watch_status {E} : st DashWorld E unit :=
  w <- st_get ;;
  match qs_selectedBotForQR (dw_qr w) with
  | Some sel =>
      if qs_qrDialogOpen (dw_qr w) then
        match find (fun b => bool_decide (cb_id (cwp_bot b) = cb_id (cwp_bot sel)))
                   (ls_chatbots (dw_list w)) with
        | Some cur =>
            if bool_decide (cb_status (cwp_bot cur) = Some "WORKING") then
              setQrDialogOpen false ;; setSelectedBotForQR None ;; setQrCode (JString "") ;;
              start Reload
            else st_ret tt
        | None => st_ret tt
        end
      else st_ret tt
  | None => st_ret tt
  end.

(** ** The page's timers

    The intervals of lines 216-257: every 5 s the list and the balance
    are refreshed, every 2 s the list, every second the QR countdown
    ticks; then the watcher looks at the list.  The two readers a tick
    starts are not awaited; the model runs each to completion, in the
    order they are started. *)
Inductive Timer := Every5s | Every2s | Every1s.

Definition on_timer (user : option string) (chatbots_error balance_error : bool) (t : Timer)
  : st DashWorld Empty_set unit :=
  match user, t with
  | None, Every5s | None, Every2s => st_ret tt
  | _, Every5s => fetchChatbots user chatbots_error ;; fetchBalance user balance_error
  | _, Every2s => fetchChatbots user chatbots_error
  | _, Every1s => qr_tick
  end ;;
  watch_status.


(** The dialog's own [onOpenChange={setQrDialogOpen}] (line 1109):
    Escape or a click outside closes it and keeps the selection. *)
Definition dismiss_qr {E} : st DashWorld E unit := setQrDialogOpen false.

(** ** The dialog's events

    What reaches the QR state: the badge, the close button, a dismissal,
    a finished [fetchQRCode] and a tick of one of the page's timers. *)
Inductive QrEvent :=
| BadgeClick (b : ChatbotWithPlan)
| CloseClick
| Dismiss
| QrFetched (user token : option string) (f : FetchResult) (id : string)
| TimerFired (user : option string) (chatbots_error balance_error : bool) (t : Timer).

Definition qr_event (json_parse : string -> option jsval) (w : DashWorld) (e : QrEvent) : DashWorld :=
  match e with
  | BadgeClick b => snd (open_qr (E := Empty_set) b w)
  | CloseClick => snd (close_qr (E := Empty_set) w)
  | Dismiss => snd (dismiss_qr (E := Empty_set) w)
  | QrFetched u t f id => snd (fetchQRCode json_parse u t f id w)
  | TimerFired u ce be t => snd (on_timer u ce be t w)
  end.

Definition run_qr_events json_parse (w : DashWorld) (es : list QrEvent) : DashWorld :=
  fold_left (qr_event json_parse) es w.

(** ** Properties *)

Lemma qr_tick_open w b :
  qs_qrDialogOpen (dw_qr w) = true -> qs_selectedBotForQR (dw_qr w) = Some b ->
  let c := qs_refreshCountdown (dw_qr w) in
  let w' := snd (qr_tick (E := Empty_set) w) in
  qs_qrDialogOpen (dw_qr w') = true /\ qs_selectedBotForQR (dw_qr w') = Some b /\
  (c <= 1 -> qs_refreshCountdown (dw_qr w') = 10 /\
             dw_effects w' = dw_effects w ++ [FetchQR (cb_id (cwp_bot b))]) /\
  (1 < c -> qs_refreshCountdown (dw_qr w') = c - 1 /\ dw_effects w' = dw_effects w).
Proof.
  intros Ho Hs; cbv zeta. unfold qr_tick, st_bind, st_get; simpl. rewrite Ho.
  destruct (Z.leb_spec (qs_refreshCountdown (dw_qr w)) 1); simpl; rewrite ?Hs; simpl;
    split_and!; (done || lia).
Qed.

Lemma qr_tick_range w :
  1 <= qs_refreshCountdown (dw_qr w) <= 10 ->
  1 <= qs_refreshCountdown (dw_qr (snd (qr_tick (E := Empty_set) w))) <= 10.
Proof.
  unfold qr_tick, st_bind, st_get; simpl. intros Hc.
  destruct (qs_qrDialogOpen _); [|done]. simpl.
  destruct (Z.leb_spec (qs_refreshCountdown (dw_qr w)) 1); simpl; [|lia].
  destruct (qs_selectedBotForQR _); simpl; lia.
Qed.

(** The countdown shown in the dialog stays between 1 and 10, whatever
    the dialog and the selection do. *)
Theorem countdown_in_range n w :
  1 <= qs_refreshCountdown (dw_qr w) <= 10 ->
  1 <= qs_refreshCountdown (dw_qr (run_ticks n w)) <= 10.
Proof. revert w. induction n as [|n IH]; intros w Hc; [done|]. apply IH, qr_tick_range, Hc. Qed.

(** C38: with the dialog open on a bot, the code is fetched again
    exactly once every ten ticks: after [n] ticks from the count [c],
    [(n + 10 - c) / 10] fetches of that bot were started and the count
    shows [10 - (n + 10 - c) mod 10]. *)
Theorem countdown_refetch_period n w b :
  qs_qrDialogOpen (dw_qr w) = true -> qs_selectedBotForQR (dw_qr w) = Some b ->
  1 <= qs_refreshCountdown (dw_qr w) <= 10 ->
  let c := qs_refreshCountdown (dw_qr w) in
  dw_effects (run_ticks n w) =
    dw_effects w ++ repeat (FetchQR (cb_id (cwp_bot b))) (Z.to_nat ((Z.of_nat n + 10 - c) / 10)) /\
  qs_refreshCountdown (dw_qr (run_ticks n w)) = 10 - (Z.of_nat n + 10 - c) mod 10.
Proof.
  revert w. induction n as [|n IH]; intros w Ho Hs Hc; cbv zeta.
  - simpl. rewrite Z.div_small, Z.mod_small by lia. simpl. rewrite app_nil_r. split; [done|lia].
  - destruct (qr_tick_open w b Ho Hs) as (Ho' & Hs' & Hle & Hgt); cbv zeta in *.
    simpl run_ticks.
    destruct (Z.leb_spec (qs_refreshCountdown (dw_qr w)) 1) as [H1|H1].
    + destruct (Hle H1) as [Hc' He]. destruct (IH _ Ho' Hs' ltac:(lia)) as [IHe IHc].
      rewrite IHe, IHc, He, Hc', <-app_assoc.
      replace (Z.of_nat (S n) + 10 - qs_refreshCountdown (dw_qr w)) with (Z.of_nat n + 1 * 10) by lia.
      rewrite Z.div_add, Z.mod_add by lia.
      replace (Z.of_nat n + 10 - 10) with (Z.of_nat n) by lia.
      rewrite Z2Nat.inj_add by (try apply Z.div_pos; lia).
      rewrite Nat.add_1_r. split; [|done]. done.
    + destruct (Hgt H1) as [Hc' He]. destruct (IH _ Ho' Hs' ltac:(lia)) as [IHe IHc].
      rewrite IHe, IHc, He, Hc'.
      replace (Z.of_nat n + 10 - (qs_refreshCountdown (dw_qr w) - 1))
        with (Z.of_nat (S n) + 10 - qs_refreshCountdown (dw_qr w)) by lia.
      done.
Qed.

(** An answer that is not ok is reported, not shown: the code stays
    empty, the loading flag is cleared, the request was sent once, and a
    destructive notification carries the message of the status (network
    error for 0, unavailable for 5xx, not found for 404, the status and
    its text otherwise). *)
Theorem qr_failed_answer json_parse uid t r id w :
  t <> "" -> response_ok r = false ->
  let w' := snd (fetchQRCode json_parse (Some uid) (Some t) (Answered r) id w) in
  qs_qrCode (dw_qr w') = JString "" /\ qs_qrLoading (dw_qr w') = false /\
  dw_effects w' = dw_effects w ++ [QrRequest t id] /\
  dw_toasts w' = dw_toasts w ++ [mkToast ToastDestructive "QR Code Error" (qr_status_message r)].
Proof.
  intros Ht Hok; cbv zeta. apply String.eqb_neq in Ht.
  unfold fetchQRCode, st_finally, st_catch, st_bind, st_ret, st_throw; simpl.
  rewrite Ht; simpl. by rewrite Hok.
Qed.

(** Once the list shows the selected bot [WORKING], the watcher
    closes the dialog, clears the selection and the code, and reloads
    the page. *)
Theorem watch_closes_when_working w sel cur :
  qs_selectedBotForQR (dw_qr w) = Some sel -> qs_qrDialogOpen (dw_qr w) = true ->
  find (fun b => bool_decide (cb_id (cwp_bot b) = cb_id (cwp_bot sel))) (ls_chatbots (dw_list w))
    = Some cur ->
  cb_status (cwp_bot cur) = Some "WORKING" ->
  let w' := snd (watch_status (E := Empty_set) w) in
  qs_qrDialogOpen (dw_qr w') = false /\ qs_selectedBotForQR (dw_qr w') = None /\
  qs_qrCode (dw_qr w') = JString "" /\ dw_effects w' = dw_effects w ++ [Reload].
Proof.
  intros Hs Ho Hf Hw; cbv zeta. unfold watch_status, st_bind, st_get; simpl.
  rewrite Hs, Ho, Hf, bool_decide_eq_true_2 by done. done.
Qed.


(** ** Well-formedness of the dialog state *)

(** The dialog state is well formed when the countdown is a number of
    seconds between 1 and 10 and an open dialog has a selected bot. *)
Definition qr_wf (q : QrState) : Prop :=
  1 <= qs_refreshCountdown q <= 10 /\ (qs_qrDialogOpen q = true -> is_Some (qs_selectedBotForQR q)).

(** The readers a timer runs and [fetchQRCode] leave the dialog's
    opening, selection and countdown alone. *)
Lemma fetchQRCode_qr json_parse u t f id w :
  let q' := dw_qr (snd (fetchQRCode json_parse u t f id w)) in
  qs_qrDialogOpen q' = qs_qrDialogOpen (dw_qr w) /\
  qs_selectedBotForQR q' = qs_selectedBotForQR (dw_qr w) /\
  qs_refreshCountdown q' = qs_refreshCountdown (dw_qr w).
Proof.
  unfold fetchQRCode, st_finally, st_catch, st_bind, st_ret, st_throw, setQrLoading, setQrCode,
    start, dash_toast, mod_qr, dw_set, st_modify.
  destruct u; [|done]. destruct t as [t|]; cbn; [|done].
  destruct (String.eqb t ""); cbn; [done|].
  destruct (fetch_outcome f) as [r|m]; cbn; [|done].
  destruct (response_ok r); cbn; [|done].
  destruct (json_parse (body r)) as [d|]; cbn; [|done].
  by destruct (qr_of_data d).
Qed.

Lemma readers_qr u ce be w :
  dw_qr (snd ((fetchChatbots u ce ;; fetchBalance u be) w)) = dw_qr w /\
  dw_qr (snd (fetchChatbots u ce w)) = dw_qr w.
Proof.
  unfold fetchChatbots, fetchBalance, st_finally, st_bind, st_ret, st_get, setChatbots, setLoading,
    setBalance, setBalanceLoading, mod_list, dw_set, st_modify.
  by destruct u, ce, be.
Qed.

Lemma qr_tick_sel w :
  qs_qrDialogOpen (dw_qr (snd (qr_tick (E := Empty_set) w))) = qs_qrDialogOpen (dw_qr w) /\
  qs_selectedBotForQR (dw_qr (snd (qr_tick (E := Empty_set) w))) = qs_selectedBotForQR (dw_qr w).
Proof.
  unfold qr_tick, st_bind, st_get, st_ret; cbn -[Z.leb].
  destruct (qs_qrDialogOpen (dw_qr w)) eqn:Ho; cbn; [|by rewrite Ho].
  destruct (_ <=? 1); cbn; [destruct (qs_selectedBotForQR (dw_qr w)) eqn:Hs|]; cbn; by rewrite ?Ho, ?Hs.
Qed.

Lemma snd_bind_unit {S} (m : st S Empty_set unit) (k : unit -> st S Empty_set unit) s :
  snd ((x <- m ;; k x) s) = snd (k tt (snd (m s))).
Proof. unfold st_bind. by destruct (m s) as [[[]|[]] s']. Qed.

Lemma watch_status_wf w :
  qr_wf (dw_qr w) -> qr_wf (dw_qr (snd (watch_status (E := Empty_set) w))).
Proof.
  unfold watch_status, st_bind, st_get, st_ret, setQrDialogOpen, setSelectedBotForQR, setQrCode,
    start, mod_qr, dw_set, st_modify; simpl.
  repeat (case_match; simpl); try done. intros [? _]. split; [done|discriminate].
Qed.

Lemma qr_event_wf json_parse w e :
  qr_wf (dw_qr w) -> qr_wf (dw_qr (qr_event json_parse w e)).
Proof.
  intros Hw. destruct e as [b| | |u t f id|u ce be tm]; cbn [qr_event].
  - split; [apply Hw|by eexists].
  - split; [apply Hw|discriminate].
  - split; [apply Hw|discriminate].
  - unfold qr_wf. destruct (fetchQRCode_qr json_parse u t f id w) as (-> & -> & ->); apply Hw.
  - unfold on_timer. rewrite snd_bind_unit. apply watch_status_wf.
    destruct u as [uid|], tm; cbn [st_ret snd]; try exact Hw;
      try (rewrite (proj1 (readers_qr _ ce be w)); exact Hw);
      try (rewrite (proj2 (readers_qr _ ce be w)); exact Hw).
    all: destruct Hw as [Hc Ho]; split; [apply qr_tick_range, Hc|].
    all: by destruct (qr_tick_sel w) as [-> ->].
Qed.

(** C16: the dialog state is well formed along every run of the page:
    starting from the initial state, whatever badges, close buttons,
    dismissals, QR answers and timer ticks arrive, the countdown stays
    between 1 and 10 and the dialog is never open without a selected bot,
    so every refetch the countdown starts names a bot. *)
Theorem qr_state_wf json_parse es w :
  qr_wf (dw_qr w) -> qr_wf (dw_qr (run_qr_events json_parse w es)).
Proof. revert w. induction es; intros w Hw; [done|]. apply IHes, qr_event_wf, Hw. Qed.

(** ** Witnesses *)

Definition qr_bot : ChatbotWithPlan :=
  mkCWP (mkChatbot "b1" (Some "u1") (Some "Toko") true (Some "NEED_SCAN_QR") "p1" None None
           None None "2025-01-01" None None) None.
Definition qr_world (c : Z) : DashWorld :=
  mkDashWorld (mkDashDb [] [] [] ∅) initial_list initial_form
    (mkQrState true (Some qr_bot) (JString "") false c) [] [].

Lemma countdown_refetch_period_witness :
  dw_effects (run_ticks 25 (qr_world 10)) =
    dw_effects (qr_world 10) ++ repeat (FetchQR "b1") (Z.to_nat ((Z.of_nat 25 + 10 - 10) / 10)) /\
  qs_refreshCountdown (dw_qr (run_ticks 25 (qr_world 10))) = 10 - (Z.of_nat 25 + 10 - 10) mod 10.
Proof.
  apply (countdown_refetch_period 25 (qr_world 10) qr_bot); [reflexivity|reflexivity|simpl; lia].
Defined.

(** Twenty-five ticks from 10 fetch twice and leave the count at 5. *)
Example countdown_sample :
  dw_effects (run_ticks 25 (qr_world 10)) = [FetchQR "b1"; FetchQR "b1"] /\
  qs_refreshCountdown (dw_qr (run_ticks 25 (qr_world 10))) = 5.
Proof. split; reflexivity. Qed.

Definition no_parse (b : string) : option jsval := None.

Example qr_404_message :
  qr_status_message (mkResponse 404 "Not Found" "") =
  "QR service endpoint not found. Please contact support.".
Proof. reflexivity. Qed.

Definition linked_bot : ChatbotWithPlan :=
  mkCWP (mkChatbot "b1" (Some "u1") (Some "Toko") true (Some "WORKING") "p1" None None
           None None "2025-01-01" None None) None.

Definition qr_events : list QrEvent :=
  [BadgeClick qr_bot; TimerFired (Some "u1") false false Every1s; Dismiss;
   QrFetched (Some "u1") (Some "tok") Aborted "b1"; TimerFired (Some "u1") false false Every5s;
   BadgeClick qr_bot; CloseClick].

Lemma qr_state_wf_witness :
  qr_wf (dw_qr (qr_world 10)) /\ qr_wf (dw_qr (run_qr_events no_parse (qr_world 10) qr_events)).
Proof.
  assert (H : qr_wf (dw_qr (qr_world 10))) by (split; [simpl; lia|by eexists]).
  split; [exact H|]. apply qr_state_wf, H.
Defined.

End Qr.
