(* ===== verification/DashboardPage.v ===== *)
(** * The chatbot list page as one event machine

    Source: src/app/dashboard/page.tsx ([DashboardPage]), the inline
    handlers of its render: the search box (line 714), the new-bot
    dialog's [onOpenChange] (lines 727-731, 957-961), the name input
    (line 977), the plan radio group (line 986), "Batal" (line 1085),
    "Buat Bot" with its [disabled] (lines 1090-1097), the delete
    confirmation of each row (lines 893-925), the QR badge (lines
    643-649) and the QR dialog's events.

    This file composes the components: the setters and readers of
    [Dashboard], [handleCreateBot] of [BotCreation] and the QR dialog of
    [Qr] all act on the one [DashWorld], and [dash_event] dispatches a
    click to them only when the element clicked is rendered and enabled.

    The theorems show that a creation request leaves the page only
    through an enabled "Buat Bot", with a non-empty name, a plan of the
    catalogue and a balance row covering its price ([handleCreateBot]
    checks only the name and the plan), and that "Batal" closes the
    dialog without [resetForm] while a dismissal resets it. *)

From Stdlib Require Import ZArith String List Lia.
From stdpp Require Import base list gmap strings.
From S2P Require Import Prelude Js Schema Sql Ledger Dashboard BotCreation Qr.

Local Open Scope string_scope.
Local Open Scope list_scope.
Local Open Scope Z_scope.

Module DashboardPage.
Import Schema Sql Dashboard BotCreation Qr.

(** [setSearchQuery] (line 714). *)
Definition setSearchQuery q {E} : st DashWorld E unit := mod_list (fun s =>
  mkListState (ls_chatbots s) (ls_plans s) (ls_balance s) (ls_loading s) (ls_balanceLoading s) q).

(** The rows the table renders (lines 773-795): none while loading. *)
Definition shown_rows (w : DashWorld) : list ChatbotWithPlan :=
  if ls_loading (dw_list w) then []
  else filteredChatbots (ls_searchQuery (dw_list w)) (ls_chatbots (dw_list w)).

(** The clicks and keystrokes of the page. *)
Inductive DashEvent :=
  | TypeSearch (q : string)
  | NewBotOpenChange (open balance_error : bool)
  | TypeBotName (n : string)
  | ChoosePlan (id : string)
  | CancelNewBot
  | CreateClick (token : option string) (respond : result Response string) (flt : CreateFaults)
  | DeleteConfirm (i : nat) (delete_error : option string)
  | QrBadge (i : nat)
  | QrOther (e : QrEvent).

Section Page.
(** The JSON parser, the webhook's effect on the database and the ids
    [handleCreateBot] draws, as in [Qr] and [BotCreation], and the user
    of the session. *)
Variable json_parse : string -> option jsval.
Variable hook : DashDb -> DashDb.
Variable fresh : DashDb -> string * string.
Variable user : option string.

Definition dash_event (w : DashWorld) (e : DashEvent) : DashWorld :=
  let f := dw_form w in
  match e with
  | TypeSearch q => snd (setSearchQuery (E := Empty_set) q w)
  | NewBotOpenChange o be =>
      if Bool.eqb o (fs_isNewBotOpen f) then w else snd (onNewBotOpenChange user be o w)
  | TypeBotName n => if fs_isNewBotOpen f then snd (setBotName (E := Empty_set) n w) else w
  | ChoosePlan id =>
      if fs_isNewBotOpen f && existsb (fun p => String.eqb (plan_id p) id) (ls_plans (dw_list w))
      then snd (setSelectedPlan (E := Empty_set) id w) else w
  | CancelNewBot => if fs_isNewBotOpen f then snd (setIsNewBotOpen (E := Empty_set) false w) else w
  | CreateClick t r flt =>
      if fs_isNewBotOpen f && create_enabled (dw_list w) f then run_create hook fresh user t r flt w else w
  | DeleteConfirm i err =>
      match shown_rows w !! i with
      | Some b => if bool_decide (fs_deletingId f = Some (cb_id (cwp_bot b))) then w
                  else snd (handleDeleteBot user (cb_id (cwp_bot b)) err w)
      | None => w
      end
  | QrBadge i =>
      match shown_rows w !! i with
      | Some b => if bool_decide (cb_status (cwp_bot b) = Some "NEED_SCAN_QR")
                  then qr_event json_parse w (BadgeClick b) else w
      | None => w
      end
  | QrOther (BadgeClick _) => w
  | QrOther e => qr_event json_parse w e
  end.

Definition run_dash (w : DashWorld) (es : list DashEvent) : DashWorld :=
  fold_left dash_event es w.

End Page.

(** The creation requests the page has sent: token, name and plan. *)
Definition create_of (e : DashEffect) : option (string * string * string) :=
  match e with CreateRequest t n p => Some (t, n, p) | _ => None end.

Definition create_requests (w : DashWorld) : list (string * string * string) :=
  omap create_of (dw_effects w).

(** ** Which handlers send a creation request *)

(** Normalises [create_requests] of a world whose effects were appended to. *)
Local Ltac same_creates :=
  rewrite ?omap_app; cbn; rewrite ?omap_app; cbn; rewrite ?app_nil_r, <-?app_assoc; done.

(** Appending effects that are not creation requests. *)
Lemma create_requests_other es l :
  omap create_of l = [] -> omap create_of (es ++ l) = omap create_of es.
Proof. intros H. by rewrite omap_app, H, app_nil_r. Qed.

Lemma onNewBotOpenChange_effects u be o w :
  dw_effects (snd (onNewBotOpenChange u be o w)) = dw_effects w.
Proof.
  unfold onNewBotOpenChange, fetchBalance, resetForm, setIsNewBotOpen, setBotName, setSelectedPlan,
    setBalance, setBalanceLoading, mod_form, mod_list, dw_set, st_finally, st_bind, st_get, st_ret,
    st_modify.
  destruct o, u, be; cbn; try done; by destruct (ls_plans _).
Qed.

Lemma handleDeleteBot_effects u id err w :
  dw_effects (snd (handleDeleteBot u id err w)) = dw_effects w.
Proof.
  unfold handleDeleteBot, setDeletingId, setChatbots, dash_toast, mod_db, mod_form, mod_list, dw_set,
    st_finally, st_catch, st_bind, st_get, st_ret, st_throw, st_modify.
  by destruct u, err.
Qed.

Lemma fetchQRCode_creates json_parse u t f id w :
  create_requests (snd (fetchQRCode json_parse u t f id w)) = create_requests w.
Proof.
  unfold create_requests, fetchQRCode, st_finally, st_catch, st_bind, st_ret, st_throw, setQrLoading,
    setQrCode, start, dash_toast, mod_qr, dw_set, st_modify.
  destruct u; [|done]. destruct t as [t|]; cbn; [|by apply create_requests_other].
  destruct (String.eqb t ""); cbn; [by apply create_requests_other|].
  destruct (fetch_outcome f) as [r|m]; cbn; [|by apply create_requests_other].
  destruct (response_ok r); cbn; [|by apply create_requests_other].
  destruct (json_parse (body r)) as [d|]; cbn; [|by apply create_requests_other].
  destruct (qr_of_data d); by apply create_requests_other.
Qed.

Lemma on_timer_creates u ce be tm w :
  create_requests (snd (on_timer u ce be tm w)) = create_requests w.
Proof.
  unfold on_timer. rewrite snd_bind_unit.
  assert (Hw : forall w', create_requests (snd (watch_status (E := Empty_set) w')) = create_requests w').
  { intros w'. unfold create_requests, watch_status, st_bind, st_get, st_ret, setQrDialogOpen,
      setSelectedBotForQR, setQrCode, start, mod_qr, dw_set, st_modify; cbn.
    repeat (case_match; cbn); simplify_eq; cbn; try done. by apply create_requests_other. }
  rewrite Hw. unfold create_requests.
  destruct u as [uid|], tm; cbn [st_ret snd]; try done.
  1,2: unfold fetchChatbots, fetchBalance, st_finally, st_bind, st_ret, st_get, setChatbots, setLoading,
    setBalance, setBalanceLoading, mod_list, dw_set, st_modify; by destruct ce, be.
  all: unfold qr_tick, st_bind, st_get, st_ret, setRefreshCountdown, start, mod_qr, dw_set, st_modify;
    cbn -[Z.leb]; repeat (case_match; cbn -[Z.leb]); simplify_eq; cbn; try done;
    by apply create_requests_other.
Qed.

Lemma qr_event_creates json_parse w e :
  create_requests (qr_event json_parse w e) = create_requests w.
Proof.
  destruct e as [b| | |u t f id|u ce be tm]; cbn [qr_event].
  - unfold create_requests; cbn. by apply create_requests_other.
  - done.
  - done.
  - apply fetchQRCode_creates.
  - apply on_timer_creates.
Qed.

(** [handleCreateBot] sends at most one creation request, with the
    session's token and the name and plan of the form. *)
Lemma run_create_creates hook fresh u t r flt w :
  create_requests (run_create hook fresh u t r flt w) = create_requests w \/
  exists tk, t = Some tk /\
    create_requests (run_create hook fresh u t r flt w) =
      create_requests w ++ [(tk, fs_botName (dw_form w), fs_selectedPlan (dw_form w))].
Proof.
  unfold run_create, handleCreateBot, create_requests, st_finally, st_catch, st_bind, st_get, st_ret,
    st_throw, setCreating, setIsNewBotOpen, setBotName, start, dash_toast, mod_form, mod_db, dw_set,
    st_modify.
  destruct u as [uid|]; [|by left]. cbn -[compensate].
  destruct (_ || _); [by left|]. cbn -[compensate].
  destruct (cf_name_check flt); cbn -[compensate]; [|destruct (existsb _ _); cbn -[compensate]].
  all: destruct t as [tk|]; cbn -[compensate]; try (left; same_creates).
  all: destruct (String.eqb tk ""); cbn -[compensate]; try (left; same_creates).
  all: right; exists tk; split; [done|].
  all: destruct r as [resp|m]; cbn -[compensate]; [|same_creates].
  all: destruct (Z.eqb (status resp) 200); cbn -[compensate]; [|same_creates].
  all: match goal with |- context [compensate ?f ?a ?b ?c ?d ?e ?w] =>
         pose proof (compensate_page f a b c d e w) as Hp; pose proof (compensate_ok f a b c d e w) as Ho;
         destruct (compensate f a b c d e w) as [res w2]; cbn in Hp, Ho; subst res end.
  all: destruct Hp as (_ & _ & _ & _ & He); cbn; rewrite He; same_creates.
Qed.

Section Runs.
Variable json_parse : string -> option jsval.
Variable hook : DashDb -> DashDb.
Variable fresh : DashDb -> string * string.
Variable user : option string.

Lemma dash_event_creates w e :
  create_requests (dash_event json_parse hook fresh user w e) = create_requests w \/
  exists t r flt tk, e = CreateClick t r flt /\ t = Some tk /\ fs_isNewBotOpen (dw_form w) = true /\
    create_enabled (dw_list w) (dw_form w) = true /\
    create_requests (dash_event json_parse hook fresh user w e) =
      create_requests w ++ [(tk, fs_botName (dw_form w), fs_selectedPlan (dw_form w))].
Proof.
  destruct e as [q|o be|n|id| |t r flt|i err|i|e]; cbn [dash_event]; unfold create_requests.
  - by left.
  - left. destruct (Bool.eqb _ _); [done|]. by rewrite onNewBotOpenChange_effects.
  - left. by destruct (fs_isNewBotOpen _).
  - left. by destruct (_ && _).
  - left. by destruct (fs_isNewBotOpen _).
  - destruct (fs_isNewBotOpen _ && create_enabled _ _) eqn:G; [|by left].
    apply andb_prop in G as [Ho Hc].
    destruct (run_create_creates hook fresh user t r flt w) as [H|(tk & -> & H)]; [by left|].
    right. exists (Some tk), r, flt, tk. by split_and!.
  - left. destruct (shown_rows w !! i) as [b|]; [|done].
    case_bool_decide; [done|]. by rewrite handleDeleteBot_effects.
  - left. destruct (shown_rows w !! i) as [b|]; [|done].
    case_bool_decide; [|done]. apply qr_event_creates.
  - left. destruct e; try done; apply qr_event_creates.
Qed.

(** C34: a creation request leaves the chatbot list page only through an
    enabled "Buat Bot": at any point of any run of the page's clicks,
    keystrokes, QR events and timers, an event that sends a request is a
    click on "Buat Bot" in the open dialog with a non-empty name, a plan
    of the catalogue selected, a balance row covering its price and no
    creation running, and it sends exactly one request, for the name and
    plan of the form.  [handleCreateBot] itself checks only the name and
    the plan: the balance is guarded by the button's [disabled]. *)
Theorem create_needs_funds w es e :
  let w1 := run_dash json_parse hook fresh user w es in
  create_requests (dash_event json_parse hook fresh user w1 e) <> create_requests w1 ->
  exists t r flt p b, e = CreateClick (Some t) r flt /\ fs_isNewBotOpen (dw_form w1) = true /\
    trim (fs_botName (dw_form w1)) <> "" /\ fs_creating (dw_form w1) = false /\
    p ∈ ls_plans (dw_list w1) /\ plan_id p = fs_selectedPlan (dw_form w1) /\
    ls_balance (dw_list w1) = Some b /\ plan_price_per_month p <= b /\
    create_requests (dash_event json_parse hook fresh user w1 e) =
      create_requests w1 ++ [(t, fs_botName (dw_form w1), fs_selectedPlan (dw_form w1))].
Proof.
  intros w1 Hr.
  destruct (dash_event_creates w1 e) as [H|(t & r & flt & tk & -> & -> & Ho & Hc & H)]; [done|].
  unfold create_enabled, isBalanceSufficient, getSelectedPlanData in Hc.
  destruct (find _ _) as [p|] eqn:Hf; [|by rewrite !andb_false_r in Hc].
  destruct (ls_balance _) as [b|]; [|by rewrite !andb_false_r in Hc].
  apply andb_prop in Hc as [Hc Hn]. apply andb_prop in Hc as [Hc Hb].
  apply andb_prop in Hc as [Hn' _]. apply negb_true_iff, String.eqb_neq in Hn'.
  apply negb_true_iff in Hn. apply Z.leb_le in Hb.
  apply find_some in Hf as [Hin Hid%bool_decide_eq_true_1].
  exists tk, r, flt, p, b. split_and!; auto. by apply list_elem_of_In.
Qed.

(** "Batal" (line 1085) calls [setIsNewBotOpen(false)] directly, so the
    dialog's [onOpenChange] and its [resetForm] do not run: the name and
    plan typed stay for the next opening.  Escape or a click outside goes
    through [onOpenChange] and resets the form. *)
Theorem cancel_keeps_form w be :
  fs_isNewBotOpen (dw_form w) = true ->
  let wc := dash_event json_parse hook fresh user w CancelNewBot in
  let wd := dash_event json_parse hook fresh user w (NewBotOpenChange false be) in
  fs_isNewBotOpen (dw_form wc) = false /\ fs_botName (dw_form wc) = fs_botName (dw_form w) /\
  fs_selectedPlan (dw_form wc) = fs_selectedPlan (dw_form w) /\
  fs_isNewBotOpen (dw_form wd) = false /\ fs_botName (dw_form wd) = "" /\
  fs_selectedPlan (dw_form wd) =
    match ls_plans (dw_list w) with p :: _ => plan_id p | [] => fs_selectedPlan (dw_form w) end.
Proof.
  intros Ho; cbn [dash_event]. rewrite Ho; cbn.
  unfold onNewBotOpenChange, resetForm, setIsNewBotOpen, setBotName, setSelectedPlan, mod_form,
    dw_set, st_bind, st_get, st_ret, st_modify; cbn.
  by destruct (ls_plans (dw_list w)).
Qed.

End Runs.

(** ** Witnesses *)

Definition no_json (_ : string) : option jsval := None.

(** The user dismisses the open dialog, opens it again (the balance row
    of 100000 is read), types a name and picks the plan. *)
Definition new_bot_events : list DashEvent :=
  [NewBotOpenChange false false; NewBotOpenChange true false; TypeBotName "Toko Baru";
   ChoosePlan "p1"; QrOther (TimerFired (Some "u1") false false Every1s)].

Definition create_click : DashEvent := CreateClick (Some "tok") ok200 no_create_faults.

Lemma create_needs_funds_witness :
  let w1 := run_dash no_json hook_usage fresh_row (Some "u1") (create_world []) new_bot_events in
  create_requests (dash_event no_json hook_usage fresh_row (Some "u1") w1 create_click) <>
    create_requests w1 /\
  exists t r flt p b, create_click = CreateClick (Some t) r flt /\ fs_isNewBotOpen (dw_form w1) = true /\
    trim (fs_botName (dw_form w1)) <> "" /\ fs_creating (dw_form w1) = false /\
    p ∈ ls_plans (dw_list w1) /\ plan_id p = fs_selectedPlan (dw_form w1) /\
    ls_balance (dw_list w1) = Some b /\ plan_price_per_month p <= b /\
    create_requests (dash_event no_json hook_usage fresh_row (Some "u1") w1 create_click) =
      create_requests w1 ++ [(t, fs_botName (dw_form w1), fs_selectedPlan (dw_form w1))].
Proof.
  assert (Hr : create_requests (dash_event no_json hook_usage fresh_row (Some "u1")
     (run_dash no_json hook_usage fresh_row (Some "u1") (create_world []) new_bot_events) create_click) <>
     create_requests (run_dash no_json hook_usage fresh_row (Some "u1") (create_world []) new_bot_events))
    by (vm_compute; discriminate).
  split; [exact Hr|]. exact (create_needs_funds no_json hook_usage fresh_row (Some "u1") _ _ _ Hr).
Defined.

Lemma cancel_keeps_form_witness :
  let w := create_world [] in
  let wc := dash_event no_json hook_usage fresh_row (Some "u1") w CancelNewBot in
  let wd := dash_event no_json hook_usage fresh_row (Some "u1") w (NewBotOpenChange false false) in
  fs_isNewBotOpen (dw_form wc) = false /\ fs_botName (dw_form wc) = fs_botName (dw_form w) /\
  fs_selectedPlan (dw_form wc) = fs_selectedPlan (dw_form w) /\
  fs_isNewBotOpen (dw_form wd) = false /\ fs_botName (dw_form wd) = "" /\
  fs_selectedPlan (dw_form wd) =
    match ls_plans (dw_list w) with p :: _ => plan_id p | [] => fs_selectedPlan (dw_form w) end.
Proof. apply cancel_keeps_form. reflexivity. Defined.

End DashboardPage.
