(* ===== verification/ChatbotPage.v ===== *)
(** * The chatbot detail page: loading, prompt, activation and test chat

    Source: src/app/dashboard/chatbots/[id]/page.tsx ([ChatbotManagePage]),
    the handlers other than [handleRenew] (which is in [Renewal]): the
    loaders [fetchBalance] and [fetchChatbot] (lines 107-182), the
    ten-second usage poll (lines 75-105), the prompt handlers
    [handleSavePrompt] and [handleUpdatePrompt] (lines 184-309), the
    switch [handleToggleActive] (lines 541-563), the simulated chat
    [handleSendMessage]/[handleRestartChat] (lines 565-609) and the
    helpers [isBalanceSufficient], [getDaysLeft] and [getUsagePercentage],
    and the content of the renewal dialog ([renew_dialog_view], lines
    970-1041).

    - The database is the list of [chatbot] rows and the [plans] and
      [balances] tables; every update is [.eq("id", ...).eq("user_id",
      ...)], so it changes the rows that match both.
    - The page state [PageWorld] holds the fields these handlers use, the
      notifications, the navigations and requests started, and the chat
      replies scheduled by [setTimeout] but not yet delivered.
    - The clock reaches the handlers as the strings [now_iso]
      ([toISOString]) and [now_time] ([toLocaleTimeString]).

    The theorems show that the chat gives two messages the same id when a
    second message is sent before the first reply arrives, and that an
    update-prompt answer with a 2xx status other than 200 is silently
    ignored, and that the renewal dialog agrees with its button except
    for a chatbot without a plan, which it calls free and still refuses
    to renew. *)

From Stdlib Require Import ZArith String List Lia.
From stdpp Require Import base list gmap strings.
From S2P Require Import Prelude Js Schema Sql Dashboard.

Local Open Scope string_scope.
Local Open Scope list_scope.
Local Open Scope Z_scope.

Module ChatbotPage.
Import Schema Sql Dashboard.

(** ** Data *)

Inductive Sender := SenderUser | SenderBot.

(** A line of the test chat (lines 55-65). *)
Record ChatMessage := mkChatMessage {
  msg_id : Z;
  msg_sender : Sender;
  msg_text : string;
  msg_time : string
}.

Record PageDb := mkPageDb {
  pd_chatbots : list Chatbot;
  pd_plans : list Plan;
  pd_balances : gmap string Z
}.

Inductive PageEffect :=
| RouterPush (path : string)                       (** [router.push] *)
| PromptRequest (token id prompt uid : string).    (** POST bot/update-prompt *)

(** The page state (lines 46-65) with the database, the notifications,
    the effects, and the replies waiting in [setTimeout]. *)
Record PageWorld := mkPageWorld {
  pw_db : PageDb;
  pw_chatbot : option ChatbotWithPlan;
  pw_loading : bool;
  pw_saving : bool;
  pw_prompt : string;
  pw_balance : Z;
  pw_chatMessage : string;
  pw_chatHistory : list ChatMessage;
  pw_pending : list Z;
  pw_toasts : list Toast;
  pw_effects : list PageEffect
}.

Definition welcome_message : string :=
  "Halo! Saya adalah chatbot Anda. Ada yang bisa saya bantu?".

(** ** State updates *)

Definition pw_set (f : PageWorld -> PageWorld) {E} : st PageWorld E unit := st_modify f.

Definition with_db (d : PageDb) (w : PageWorld) : PageWorld :=
  mkPageWorld d (pw_chatbot w) (pw_loading w) (pw_saving w) (pw_prompt w) (pw_balance w)
    (pw_chatMessage w) (pw_chatHistory w) (pw_pending w) (pw_toasts w) (pw_effects w).
Definition with_chatbot (c : option ChatbotWithPlan) (w : PageWorld) : PageWorld :=
  mkPageWorld (pw_db w) c (pw_loading w) (pw_saving w) (pw_prompt w) (pw_balance w)
    (pw_chatMessage w) (pw_chatHistory w) (pw_pending w) (pw_toasts w) (pw_effects w).
Definition with_loading (b : bool) (w : PageWorld) : PageWorld :=
  mkPageWorld (pw_db w) (pw_chatbot w) b (pw_saving w) (pw_prompt w) (pw_balance w)
    (pw_chatMessage w) (pw_chatHistory w) (pw_pending w) (pw_toasts w) (pw_effects w).
Definition with_saving (b : bool) (w : PageWorld) : PageWorld :=
  mkPageWorld (pw_db w) (pw_chatbot w) (pw_loading w) b (pw_prompt w) (pw_balance w)
    (pw_chatMessage w) (pw_chatHistory w) (pw_pending w) (pw_toasts w) (pw_effects w).
Definition with_prompt (p : string) (w : PageWorld) : PageWorld :=
  mkPageWorld (pw_db w) (pw_chatbot w) (pw_loading w) (pw_saving w) p (pw_balance w)
    (pw_chatMessage w) (pw_chatHistory w) (pw_pending w) (pw_toasts w) (pw_effects w).
Definition with_balance (b : Z) (w : PageWorld) : PageWorld :=
  mkPageWorld (pw_db w) (pw_chatbot w) (pw_loading w) (pw_saving w) (pw_prompt w) b
    (pw_chatMessage w) (pw_chatHistory w) (pw_pending w) (pw_toasts w) (pw_effects w).
Definition with_chat (m : string) (h : list ChatMessage) (p : list Z) (w : PageWorld) : PageWorld :=
  mkPageWorld (pw_db w) (pw_chatbot w) (pw_loading w) (pw_saving w) (pw_prompt w) (pw_balance w)
    m h p (pw_toasts w) (pw_effects w).
Definition with_toast (t : Toast) (w : PageWorld) : PageWorld :=
  mkPageWorld (pw_db w) (pw_chatbot w) (pw_loading w) (pw_saving w) (pw_prompt w) (pw_balance w)
    (pw_chatMessage w) (pw_chatHistory w) (pw_pending w) (pw_toasts w ++ [t]) (pw_effects w).
Definition with_effect (e : PageEffect) (w : PageWorld) : PageWorld :=
  mkPageWorld (pw_db w) (pw_chatbot w) (pw_loading w) (pw_saving w) (pw_prompt w) (pw_balance w)
    (pw_chatMessage w) (pw_chatHistory w) (pw_pending w) (pw_toasts w) (pw_effects w ++ [e]).

Definition page_toast (t : Toast) {E} : st PageWorld E unit := pw_set (with_toast t).
Definition setChatbotWith (f : Chatbot -> Chatbot) {E} : st PageWorld E unit :=
  pw_set (fun w => with_chatbot (option_map (fun r => mkCWP (f (cwp_bot r)) (cwp_plan r))
                                   (pw_chatbot w)) w).

(** ** The rows a query sees *)

(** [.eq("id", id).eq("user_id", uid)] *)
Definition owned (id uid : string) (c : Chatbot) : bool :=
  bool_decide (cb_id c = id /\ cb_user_id c = Some uid).

(** [.single()]: exactly one row, else an error. *)
Definition single_row (id uid : string) (db : PageDb) : option Chatbot :=
  match filter (fun c => owned id uid c = true) (pd_chatbots db) with
  | [c] => Some c
  | _ => None
  end.

(** [.update(...)] on the matching rows. *)
Definition update_rows (id uid : string) (f : Chatbot -> Chatbot) (db : PageDb) : PageDb :=
  mkPageDb (map (fun c => if owned id uid c then f c else c) (pd_chatbots db))
    (pd_plans db) (pd_balances db).

Definition set_prompt_at (p now_iso : string) (c : Chatbot) : Chatbot :=
  mkChatbot (cb_id c) (cb_user_id c) (cb_name c) (cb_is_active c) (cb_status c) (cb_plan_id c)
    (cb_is_auto_renewal c) (cb_ai_usages c) (cb_ai_quota c) (Some p) (cb_created_at c)
    (Some now_iso) (cb_expired_at c).
Definition set_active_at (b : bool) (now_iso : string) (c : Chatbot) : Chatbot :=
  mkChatbot (cb_id c) (cb_user_id c) (cb_name c) b (cb_status c) (cb_plan_id c)
    (cb_is_auto_renewal c) (cb_ai_usages c) (cb_ai_quota c) (cb_prompt c) (cb_created_at c)
    (Some now_iso) (cb_expired_at c).
Definition set_prompt (p : string) (c : Chatbot) : Chatbot :=
  mkChatbot (cb_id c) (cb_user_id c) (cb_name c) (cb_is_active c) (cb_status c) (cb_plan_id c)
    (cb_is_auto_renewal c) (cb_ai_usages c) (cb_ai_quota c) (Some p) (cb_created_at c)
    (cb_updated_at c) (cb_expired_at c).
Definition set_active (b : bool) (c : Chatbot) : Chatbot :=
  mkChatbot (cb_id c) (cb_user_id c) (cb_name c) b (cb_status c) (cb_plan_id c)
    (cb_is_auto_renewal c) (cb_ai_usages c) (cb_ai_quota c) (cb_prompt c) (cb_created_at c)
    (cb_updated_at c) (cb_expired_at c).
Definition set_usage (u q : option Z) (c : Chatbot) : Chatbot :=
  mkChatbot (cb_id c) (cb_user_id c) (cb_name c) (cb_is_active c) (cb_status c) (cb_plan_id c)
    (cb_is_auto_renewal c) u q (cb_prompt c) (cb_created_at c)
    (cb_updated_at c) (cb_expired_at c).

(** ** Loaders *)

(** The message PostgREST gives [.single()] when the row is missing. *)
Definition single_error : string := "JSON object requested, multiple (or no) rows returned".

Definition plan_of (db : PageDb) (c : Chatbot) : option Plan :=
  find (fun p => bool_decide (plan_id p = cb_plan_id c)) (pd_plans db).

(** [fetchChatbot] (lines 128-182).  [env_ok] says whether both
    [NEXT_PUBLIC_SUPABASE_*] variables are set; [read_error] is the
    message of a failed request. *)
Definition fetchChatbot (user : option string) (id : string) (env_ok : bool)
    (read_error : option string) : st PageWorld string unit :=
  w0 <- st_get ;;
  match user with
  | None => st_ret tt
  | Some uid =>
    if String.eqb id "" then st_ret tt else
    st_finally
      (st_catch
        (if negb env_ok then st_throw "Supabase configuration missing" else
         w <- st_get ;;
         match (match read_error with
                | Some m => Err m
                | None => match single_row id uid (pw_db w) with
                          | Some c => Ok c
                          | None => Err single_error
                          end
                end) with
         | Err m =>
             page_toast (mkToast ToastDestructive "Database Error" ("Failed to load chatbot: " ++ m)%string) ;;
             pw_set (with_effect (RouterPush "/dashboard"))
         | Ok c =>
             pw_set (with_chatbot (Some (mkCWP c (plan_of (pw_db w) c)))) ;;
             if String.eqb (pw_prompt w0) "" then pw_set (with_prompt (default "" (cb_prompt c)))
             else st_ret tt
         end)
        (fun m => page_toast (mkToast ToastDestructive "Connection Error" m) ;;
                  pw_set (with_effect (RouterPush "/dashboard"))))
      (pw_set (with_loading false))
  end.

(** [fetchBalance] of this page (lines 107-126): [data?.balance || 0]. *)
Definition fetchBalance (user : option string) (read_error : bool) : st PageWorld Empty_set unit :=
  match user with
  | None => st_ret tt
  | Some uid =>
      w <- st_get ;;
      if read_error then st_ret tt
      else pw_set (with_balance (default 0 (pd_balances (pw_db w) !! uid)))
  end.

(** One run of the ten-second usage poll (lines 75-105). *)
Definition usage_poll (user : option string) (id : string) (read_error : bool)
  : st PageWorld Empty_set unit :=
  w <- st_get ;;
  match user with
  | Some uid =>
      if String.eqb id "" || read_error then st_ret tt else
      match single_row id uid (pw_db w), pw_chatbot w with
      | Some row, Some _ => setChatbotWith (set_usage (cb_ai_usages row) (cb_ai_quota row))
      | _, _ => st_ret tt
      end
  | None => st_ret tt
  end.

(** ** Prompt and activation *)

(** [handleSavePrompt] (lines 184-225); [update_error] says whether the
    update reports an error.  The client reports failures as values, so
    the [catch] block is not reached. *)
Definition handleSavePrompt (user : option string) (now_iso : string) (update_error : bool)
  : st PageWorld Empty_set unit :=
  w0 <- st_get ;;
  match pw_chatbot w0, user with
  | Some cb, Some uid =>
      let prompt := pw_prompt w0 in
      pw_set (with_saving true) ;;
      st_finally
        (if update_error then
           page_toast (mkToast ToastDestructive "Error" "Gagal menyimpan prompt")
         else
           pw_set (fun w => with_db (update_rows (cb_id (cwp_bot cb)) uid
                                       (set_prompt_at prompt now_iso) (pw_db w)) w) ;;
           setChatbotWith (set_prompt prompt) ;;
           page_toast (mkToast ToastSuccess "Success" "Prompt berhasil disimpan!"))
        (pw_set (with_saving false))
  | _, _ => st_ret tt
  end.

(** [handleUpdatePrompt] (lines 227-309): the webhook first, then the
    local update, whose error is only logged. *)
Definition handleUpdatePrompt (user : option string) (token : option string)
    (respond : result Response string) (now_iso : string) (local_error : bool)
  : st PageWorld string unit :=
  w0 <- st_get ;;
  match pw_chatbot w0, user with
  | Some cb, Some uid =>
    let prompt := pw_prompt w0 in
    if String.eqb (trim prompt) "" then st_ret tt else
    pw_set (with_saving true) ;;
    st_finally
      (st_catch
        (t <- (match token with
               | Some t => if String.eqb t "" then st_throw "No authentication token found" else st_ret t
               | None => st_throw "No authentication token found"
               end) ;;
         pw_set (with_effect (PromptRequest t (cb_id (cwp_bot cb)) prompt uid)) ;;
         resp <- (match respond with Ok r => st_ret r | Err m => st_throw m end) ;;
         if negb (response_ok resp) then
           st_throw ("API returned status " ++ string_of_Z (status resp) ++ ": " ++ body resp)%string
         else if status resp =? 200 then
           (if local_error then st_ret tt
            else pw_set (fun w => with_db (update_rows (cb_id (cwp_bot cb)) uid
                                             (set_prompt_at prompt now_iso) (pw_db w)) w)) ;;
           setChatbotWith (set_prompt prompt) ;;
           page_toast (mkToast ToastSuccess "Success" "Prompt berhasil diupdate!")
         else st_ret tt)
        (fun m => page_toast (mkToast ToastDestructive "Error" ("Gagal mengupdate prompt: " ++ m)%string)))
      (pw_set (with_saving false))
  | _, _ => st_ret tt
  end.

(** [handleToggleActive] (lines 541-563): a failed update is only
    logged. *)
Definition handleToggleActive (user : option string) (isActive : bool) (now_iso : string)
    (update_error : bool) : st PageWorld Empty_set unit :=
  w0 <- st_get ;;
  match pw_chatbot w0, user with
  | Some cb, Some uid =>
      if update_error then st_ret tt else
      pw_set (fun w => with_db (update_rows (cb_id (cwp_bot cb)) uid
                                  (set_active_at isActive now_iso) (pw_db w)) w) ;;
      setChatbotWith (set_active isActive)
  | _, _ => st_ret tt
  end.

(** ** The test chat *)

Definition bot_reply_text : string :=
  "Terima kasih atas pesan Anda. Ini adalah respons simulasi dari chatbot.".

(** [handleSendMessage] (lines 565-595): the message gets the id
    [length + 1] of the history it was sent from, and the reply
    scheduled a second later [length + 2] of that same history. *)
Definition handleSendMessage (now_time : string) : st PageWorld Empty_set unit :=
  w <- st_get ;;
  let text := pw_chatMessage w in
  if String.eqb (trim text) "" then st_ret tt else
  let n := Z.of_nat (length (pw_chatHistory w)) in
  pw_set (with_chat "" (pw_chatHistory w ++ [mkChatMessage (n + 1) SenderUser text now_time])
                    (pw_pending w ++ [n + 2])).

(** The timer of the oldest pending reply fires: [setChatHistory((prev)
    => [...prev, botResponse])]. *)
Definition deliver_reply (now_time : string) : st PageWorld Empty_set unit :=
  w <- st_get ;;
  match pw_pending w with
  | i :: rest =>
      pw_set (with_chat (pw_chatMessage w)
                (pw_chatHistory w ++ [mkChatMessage i SenderBot bot_reply_text now_time]) rest)
  | [] => st_ret tt
  end.

(** [handleRestartChat] (lines 597-609): the pending replies are not
    cancelled. *)
Definition handleRestartChat (now_time : string) : st PageWorld Empty_set unit :=
  w <- st_get ;;
  pw_set (with_chat (pw_chatMessage w)
            [mkChatMessage 1 SenderBot "Chat telah dimulai ulang. Halo, ada yang bisa saya bantu?"
               now_time] (pw_pending w)).

(** The chat input's [onChange] (line 1113). *)
Definition typeMessage (m : string) : st PageWorld Empty_set unit :=
  pw_set (fun w => with_chat m (pw_chatHistory w) (pw_pending w) w).

(** What happens in the chat panel, in order: typing, sending (the
    button or Enter, lines 1113-1120), a reply timer firing, a restart. *)
Inductive ChatEvent :=
| TypeMsg (m : string)
| SendMsg (now_time : string)
| DeliverReply (now_time : string)
| RestartChat (now_time : string).

Definition chat_step (e : ChatEvent) : st PageWorld Empty_set unit :=
  match e with
  | TypeMsg m => typeMessage m
  | SendMsg t => handleSendMessage t
  | DeliverReply t => deliver_reply t
  | RestartChat t => handleRestartChat t
  end.

Fixpoint run_chat (es : list ChatEvent) (w : PageWorld) : PageWorld :=
  match es with
  | [] => w
  | e :: es' => run_chat es' (snd (chat_step e w))
  end.

(** ** Helpers *)

(** [isBalanceSufficient] (lines 537-539). *)
Definition isBalanceSufficient (w : PageWorld) : bool :=
  match pw_chatbot w with
  | Some r => match cwp_plan r with
              | Some p => Z.leb (plan_price_per_month p) (pw_balance w)
              | None => false
              end
  | None => false
  end.

(** [getDaysLeft] (lines 628-635), the same code as on the list page. *)
Definition getDaysLeft (date_of : string -> option Z) (now : Z) (expiredAt : option string)
  : option Z := Dashboard.getDaysLeft date_of now expiredAt.

(** [getUsagePercentage] (lines 637-640): 0 unless both the quota and the
    usage are truthy, else [Math.round((ai_usages / ai_quota) * 100)] in
    IEEE binary64 ([Js.percent_of]). *)
Definition getUsagePercentage (w : PageWorld) : rounded :=
  match pw_chatbot w with
  | Some r =>
      match cb_ai_quota (cwp_bot r), cb_ai_usages (cwp_bot r) with
      | Some q, Some u => if (q =? 0) || (u =? 0) then RInt 0 else percent_of u q
      | _, _ => RInt 0
      end
  | None => RInt 0
  end.

(** The renewal dialog's content (lines 962-1050): the plan, the cost
    ([None] is "Gratis"), the balance, the balance after renewal, the
    warning with the amount still needed (0 is the "Rp 0" shown without
    a plan), and the [disabled] of "Perpanjang" (line 1041), which also
    needs [renewLoading] of the renewal handler. *)
Record RenewDialogView := mkRenewDialogView {
  rd_plan_name : option string;
  rd_cost : option Z;
  rd_balance : Z;
  rd_after : Z;
  rd_warning : option Z;
  rd_confirm_disabled : bool
}.

Definition renew_dialog_view (renewLoading : bool) (w : PageWorld) : option RenewDialogView :=
  match pw_chatbot w with
  | None => None
  | Some r =>
      let plan := cwp_plan r in
      Some (mkRenewDialogView (option_map plan_name plan) (option_map plan_price_per_month plan)
              (pw_balance w)
              (match plan with Some p => pw_balance w - plan_price_per_month p | None => pw_balance w end)
              (if isBalanceSufficient w then None
               else Some (match plan with Some p => plan_price_per_month p - pw_balance w | None => 0 end))
              (negb (isBalanceSufficient w) || renewLoading))
  end.

(** ** Properties *)

Lemma send_step t w :
  String.eqb (trim (pw_chatMessage w)) "" = false ->
  snd (handleSendMessage t w) =
  with_chat "" (pw_chatHistory w ++
                [mkChatMessage (Z.of_nat (length (pw_chatHistory w)) + 1) SenderUser
                   (pw_chatMessage w) t])
    (pw_pending w ++ [Z.of_nat (length (pw_chatHistory w)) + 2]) w.
Proof. intros H. unfold handleSendMessage, st_bind, st_get; simpl. by rewrite H. Qed.

(** C29: the test chat reuses ids.  When a second message is sent before
    the reply to the first arrives, the second message and the first
    reply both get the id [length + 2] of the history, so the ids of the
    history are no longer distinct (they are React keys). *)
Theorem chat_ids_collide w m1 m2 t1 t2 t3 t4 :
  trim m1 <> "" -> trim m2 <> "" -> pw_pending w = [] ->
  let w' := run_chat [TypeMsg m1; SendMsg t1; TypeMsg m2; SendMsg t2; DeliverReply t3; DeliverReply t4] w in
  ~ NoDup (map msg_id (pw_chatHistory w')).
Proof.
  intros H1 H2 Hp; cbv zeta. apply String.eqb_neq in H1, H2.
  unfold run_chat, chat_step, typeMessage, handleSendMessage, deliver_reply, pw_set, st_modify,
    st_bind, st_get, st_ret; simpl.
  rewrite H1; simpl. rewrite H2; simpl. rewrite Hp; simpl.
  rewrite length_app, <-!app_assoc, map_app; simpl.
  rewrite NoDup_app. intros (_ & _ & Hn).
  apply NoDup_cons in Hn as [_ Hn]. apply NoDup_cons in Hn as [Hn _].
  apply Hn, elem_of_cons. left. lia.
Qed.

(** C37: an update-prompt answer with a 2xx status other than 200 is
    ignored: the request was sent, but the database, the chatbot shown
    and the notifications are unchanged, and only the saving flag is
    cleared; the user gets no feedback. *)
Theorem update_prompt_2xx_ignored uid t r now_iso local_error w :
  is_Some (pw_chatbot w) -> trim (pw_prompt w) <> "" -> t <> "" ->
  response_ok r = true -> status r <> 200 ->
  let w' := snd (handleUpdatePrompt (Some uid) (Some t) (Ok r) now_iso local_error w) in
  pw_db w' = pw_db w /\ pw_chatbot w' = pw_chatbot w /\ pw_toasts w' = pw_toasts w /\
  pw_saving w' = false /\ length (pw_effects w') = S (length (pw_effects w)).
Proof.
  intros [cb Hcb] Hp Ht Hok Hs; cbv zeta. apply String.eqb_neq in Hp, Ht. apply Z.eqb_neq in Hs.
  unfold handleUpdatePrompt, st_finally, st_catch, st_bind, st_get, st_ret, st_throw; simpl.
  rewrite Hcb, Hp; simpl. rewrite Ht; simpl. rewrite Hok, Hs; simpl.
  split_and!; try done. rewrite length_app. simpl. lia.
Qed.

(** The renewal dialog agrees with its button for a chatbot with a plan:
    the warning shows exactly when the balance after renewal would be
    negative, with the amount the balance lacks, and an enabled button
    comes with no warning.  Without a plan the dialog says the renewal
    is free ("Gratis"), leaves the balance unchanged, and still warns
    that "Rp 0" more is needed and disables the button: a chatbot without
    a plan cannot be renewed from this page. *)
Theorem renew_dialog_consistent renewLoading w dv :
  renew_dialog_view renewLoading w = Some dv ->
  match rd_cost dv with
  | Some c => (rd_warning dv = None <-> 0 <= rd_after dv) /\
              (forall s, rd_warning dv = Some s -> 0 < s /\ rd_balance dv + s = c)
  | None => rd_after dv = rd_balance dv /\ rd_warning dv = Some 0 /\ rd_confirm_disabled dv = true
  end /\ (rd_confirm_disabled dv = false -> rd_warning dv = None).
Proof.
  unfold renew_dialog_view, isBalanceSufficient.
  destruct (pw_chatbot w) as [r|]; [|done]. intros [= <-]; cbn.
  destruct (cwp_plan r) as [p|]; cbn; [|done].
  destruct (Z.leb_spec (plan_price_per_month p) (pw_balance w)); cbn.
  - split_and!; [split; [lia|done]|done|done].
  - split_and!; [split; [done|lia]| |done]. intros s [= <-]. lia.
Qed.

(** ** Witnesses *)

Definition page_bot : Chatbot :=
  mkChatbot "b1" (Some "u1") (Some "Toko") true (Some "WORKING") "p1" None (Some 10) (Some 100)
    (Some "Halo") "2025-01-01" None (Some "2025-02-01").
Definition page_world : PageWorld :=
  mkPageWorld (mkPageDb [page_bot] [] ∅) (Some (mkCWP page_bot None)) false false "Jawab sopan"
    0 "" [mkChatMessage 1 SenderBot welcome_message "09.00"] [] [] [].

Lemma chat_ids_collide_witness :
  ~ NoDup (map msg_id (pw_chatHistory
      (run_chat [TypeMsg "hai"; SendMsg "09.01"; TypeMsg "halo"; SendMsg "09.01";
                 DeliverReply "09.02"; DeliverReply "09.02"] page_world))).
Proof. apply chat_ids_collide; [vm_compute; discriminate|vm_compute; discriminate|reflexivity]. Defined.

(** The ids the history ends with: 1, 2, 3, 3, 4. *)
Example chat_ids_sample :
  map msg_id (pw_chatHistory
    (run_chat [TypeMsg "hai"; SendMsg "09.01"; TypeMsg "halo"; SendMsg "09.01";
               DeliverReply "09.02"; DeliverReply "09.02"] page_world)) = [1; 2; 3; 3; 4].
Proof. reflexivity. Qed.

Lemma update_prompt_2xx_ignored_witness :
  let w' := snd (handleUpdatePrompt (Some "u1") (Some "tok") (Ok (mkResponse 204 "No Content" ""))
                   "2025-03-01T00:00:00.000Z" false page_world) in
  pw_db w' = pw_db page_world /\ pw_chatbot w' = pw_chatbot page_world /\
  pw_toasts w' = pw_toasts page_world /\
  pw_saving w' = false /\ length (pw_effects w') = S (length (pw_effects page_world)).
Proof.
  apply update_prompt_2xx_ignored; [eexists; reflexivity|vm_compute; discriminate|discriminate
                                   |reflexivity|discriminate].
Defined.

(** [page_bot] has no plan and a balance of 50000: the dialog says
    "Gratis", "Rp 0" more is needed, and "Perpanjang" is disabled. *)
Example renew_without_plan :
  renew_dialog_view false (with_balance 50000 page_world) =
    Some (mkRenewDialogView None None 50000 50000 (Some 0) true).
Proof. reflexivity. Qed.

End ChatbotPage.
