(* ===== verification/ChatbotScreen.v ===== *)
(** * The chatbot detail page as one component

    Source: src/app/dashboard/chatbots/[id]/page.tsx, [ChatbotManagePage]
    as a whole: its state (lines 45-64), the mount effect (lines 66-71),
    the usage poll, the render (lines 642-1132) and the events the render
    lets through.  The handlers are those of [ChatbotPage] and, for the
    renewal, [Renewal.handleRenew]; this file composes them over one
    state.

    - [Screen] is the component's state: the [PageWorld] of
      [ChatbotPage] and the renewal fields of [Renewal.RenewWorld], with
      the log of the renewals the page started.  [to_renew] and
      [of_renew] move the shared chatbot and the notifications between
      the two, so that [handleRenew] runs on the same chatbot the page
      shows and its notifications join the page's.
    - [screen_view] is what the component renders: the loading screen,
      the "not found" screen or the detail view with the header switch,
      the prompt card, the usage card, the plan card and the renewal
      dialog when it is open; [chat_bubbles] is the chat panel, one
      bubble per message with its React key, and [chat_key] the input's
      Enter key.
    - [screen_enabled] says whether an element an event needs is
      rendered and enabled.  The renewal dialog is modal: while it is
      open only its own buttons are reachable.  Timers (the usage poll,
      the pending chat replies) always run.
    - [screen_reachable] is the inductive set of states reached from the
      first render by such events.

    The theorems show that every renewal the page starts is covered by
    the balance shown ([renewals_covered]), that the plan card and the
    dialog disagree on a plan priced 0, and that "Mulai Ulang" leaves the
    pending replies of the old conversation to appear in the new one
    ([restart_keeps_pending_reply]).  The usage card's percentage is the
    binary64 [Math.round] of [Js.percent_of], evaluated on samples. *)

From Stdlib Require Import ZArith String List Lia.
From stdpp Require Import base list gmap strings.
From S2P Require Import Prelude Js Schema Dashboard Renewal ChatbotPage.

Local Open Scope string_scope.
Local Open Scope list_scope.
Local Open Scope Z_scope.

Module ChatbotScreen.
Import Schema Dashboard Renewal ChatbotPage.

(** ** State *)

(** The component state: the page fields, [renewLoading] and
    [renewDialogOpen] (lines 49-50), the clock, reads, patches and
    balance refreshes of the renewal, and the renewals started, each as
    the chatbot id, the plan price and the balance the dialog showed. *)
Record Screen := mkScreen {
  sc_page : PageWorld;
  sc_renewLoading : bool;
  sc_renewDialogOpen : bool;
  sc_clock : Z;
  sc_reads : list Z;
  sc_patches : list Patch;
  sc_refreshes : nat;
  sc_renewals : list (string * Z * Z)
}.

Definition with_page (p : PageWorld) (s : Screen) : Screen :=
  mkScreen p (sc_renewLoading s) (sc_renewDialogOpen s) (sc_clock s) (sc_reads s)
    (sc_patches s) (sc_refreshes s) (sc_renewals s).

(** [setRenewDialogOpen] of the component. *)
Definition with_dialog (b : bool) (s : Screen) : Screen :=
  mkScreen (sc_page s) (sc_renewLoading s) b (sc_clock s) (sc_reads s)
    (sc_patches s) (sc_refreshes s) (sc_renewals s).

Definition log_renewal (r : string * Z * Z) (s : Screen) : Screen :=
  mkScreen (sc_page s) (sc_renewLoading s) (sc_renewDialogOpen s) (sc_clock s) (sc_reads s)
    (sc_patches s) (sc_refreshes s) (sc_renewals s ++ [r]).

(** A handler of [ChatbotPage] run on the page part. *)
Definition on_page {E A} (m : st PageWorld E A) (s : Screen) : Screen :=
  with_page (snd (m (sc_page s))) s.

(** The state [handleRenew] sees: the chatbot the page shows, without
    its plan, and no notifications yet. *)
Definition to_renew (s : Screen) : RenewWorld :=
  mkRenewWorld (option_map cwp_bot (pw_chatbot (sc_page s))) (sc_renewLoading s)
    (sc_renewDialogOpen s) [] (sc_clock s) (sc_reads s) (sc_patches s) (sc_refreshes s).

(** Its result written back: [setChatbot({ ...prev, ... })] keeps the
    joined plan, and the notifications follow the page's. *)
Definition of_renew (s : Screen) (r : RenewWorld) : Screen :=
  let p := sc_page s in
  let cb := match pw_chatbot p, rw_chatbot r with
            | Some cw, Some c => Some (mkCWP c (cwp_plan cw))
            | x, _ => x
            end in
  mkScreen
    (mkPageWorld (pw_db p) cb (pw_loading p) (pw_saving p) (pw_prompt p) (pw_balance p)
       (pw_chatMessage p) (pw_chatHistory p) (pw_pending p) (pw_toasts p ++ rw_toasts r)
       (pw_effects p))
    (rw_renewLoading r) (rw_renewDialogOpen r) (rw_clock r) (rw_reads r) (rw_patches r)
    (rw_balance_refreshes r) (sc_renewals s).

(** The first render over a database: [loading] is [true], no chatbot,
    an empty prompt, balance 0 and the welcome message stamped
    [now_time] (lines 45-64). *)
Definition screen_initial (db : PageDb) (now_time : string) : Screen :=
  mkScreen (mkPageWorld db None true false "" 0 ""
              [mkChatMessage 1 SenderBot welcome_message now_time] [] [] [])
    false false 0 [] [] 0%nat [].

(** ** What the component renders *)

(** The plan card of the "Paket" tab (lines 849-911): the plan's name or
    "Tanpa Paket", its description or "Tidak ada deskripsi tersedia", the
    monthly price ([None] is "Gratis": the code tests the price's
    truthiness), the plan's quota, the auto-renewal label, the expiry
    ([None] is the "-" of [formatDate]) and the days left shown beside a
    truthy expiry ([None] inside is [NaN]). *)
Record PlanCard := mkPlanCard {
  pc_name : string;
  pc_description : string;
  pc_price : option Z;
  pc_quota : Z;
  pc_auto_renewal : string;
  pc_expiry : option string;
  pc_days_left : option (option Z)
}.

(** The usage card (lines 786-845): usage and quota ([|| "0"]), the
    percentage of [getUsagePercentage] and the width of the bar,
    [Math.min(getUsagePercentage(), 100)] percent. *)
Record UsageCard := mkUsageCard {
  uc_usages : Z;
  uc_quota : Z;
  uc_percentage : rounded;
  uc_bar_width : rounded
}.

Record DetailView := mkDetailView {
  dv_name : string;
  dv_switch_checked : bool;
  dv_switch_label : string;
  dv_prompt : string;
  dv_update_label : string;
  dv_update_disabled : bool;
  dv_usage : UsageCard;
  dv_plan : PlanCard;
  dv_dialog : option (RenewDialogView * string);
  dv_chat : list ChatMessage
}.

Inductive ScreenView :=
| LoadingView                     (** lines 642-651 *)
| NotFoundView                    (** lines 653-666 *)
| ShowDetail (d : DetailView).

(** [s || d] on an optional string. *)
Definition or_default (s : option string) (d : string) : string :=
  match s with Some x => if String.eqb x "" then d else x | None => d end.

Definition plan_card (date_of : string -> option Z) (now : Z) (cw : ChatbotWithPlan) : PlanCard :=
  let c := cwp_bot cw in
  let plan := cwp_plan cw in
  let expiry := match cb_expired_at c with Some "" | None => None | Some e => Some e end in
  mkPlanCard
    (match plan with Some p => if String.eqb (plan_name p) "" then "Tanpa Paket" else plan_name p
                | None => "Tanpa Paket" end)
    (match plan with Some p => or_default (plan_description p) "Tidak ada deskripsi tersedia"
                | None => "Tidak ada deskripsi tersedia" end)
    (match plan with Some p => if plan_price_per_month p =? 0 then None else Some (plan_price_per_month p)
                | None => None end)
    (match plan with Some p => plan_ai_quota p | None => 0 end)
    (match cb_is_auto_renewal c with Some true => "Aktif" | _ => "Tidak Aktif" end)
    expiry
    (option_map (fun e => getDaysLeft date_of now (Some e)) expiry).

Definition usage_card (w : PageWorld) (c : Chatbot) : UsageCard :=
  mkUsageCard (default 0 (cb_ai_usages c)) (default 0 (cb_ai_quota c))
    (getUsagePercentage w) (rounded_min (getUsagePercentage w) 100).

(** The confirm button's label (lines 1044-1055). *)
Definition confirm_label (renewLoading : bool) : string :=
  if renewLoading then "Memproses..." else "Konfirmasi Renew".

Definition screen_view (date_of : string -> option Z) (now : Z) (s : Screen) : ScreenView :=
  let w := sc_page s in
  if pw_loading w then LoadingView else
  match pw_chatbot w with
  | None => NotFoundView
  | Some cw =>
      let c := cwp_bot cw in
      ShowDetail (mkDetailView
        (or_default (cb_name c) "Bot Tanpa Nama")
        (cb_is_active c) (if cb_is_active c then "Aktif" else "Tidak Aktif")
        (pw_prompt w)
        (if pw_saving w then "Mengupdate Prompt..." else "Update Prompt")
        (pw_saving w || String.eqb (trim (pw_prompt w)) "")
        (usage_card w c)
        (plan_card date_of now cw)
        (if sc_renewDialogOpen s
         then option_map (fun d => (d, confirm_label (sc_renewLoading s)))
                (renew_dialog_view (sc_renewLoading s) w)
         else None)
        (pw_chatHistory w))
  end.

(** ** The chat panel (lines 1066-1124) *)

(** Where a bubble sits: [justify-end] for the user's messages,
    [justify-start] for the bot's (lines 1089-1091). *)
Inductive BubbleSide := BubbleRight | BubbleLeft.

(** One bubble of [chatHistory.map] (lines 1084-1101): its React [key],
    its side, the message and the time under it. *)
Record Bubble := mkBubble {
  bb_key : Z;
  bb_side : BubbleSide;
  bb_text : string;
  bb_time : string
}.

Definition chat_bubble (m : ChatMessage) : Bubble :=
  mkBubble (msg_id m)
    (match msg_sender m with SenderUser => BubbleRight | SenderBot => BubbleLeft end)
    (msg_text m) (msg_time m).

Definition chat_bubbles (w : PageWorld) : list Bubble := map chat_bubble (pw_chatHistory w).

(** The input's [onKeyPress] (line 1114): Enter sends, as the button
    next to it does (line 1118); any other key does nothing. *)
Definition chat_key (key now_time : string) : option ChatEvent :=
  if String.eqb key "Enter" then Some (SendMsg now_time) else None.

(** ** Events *)

(** What can happen to the component, in order: the mount effect
    (lines 66-71: [fetchChatbot] then [fetchBalance]), typing in the
    prompt (line 761), "Update Prompt" (line 766), the switch (line 705,
    which passes the new [checked] value), opening the renewal dialog
    (lines 946-949: [setRenewDialogOpen(true)] then [fetchBalance]),
    closing it ("Batal", line 1034, or dismissing it), "Konfirmasi Renew"
    (line 1040), the test chat (lines 1076-1120 and its timers) and a run
    of the ten-second usage poll (lines 73-105). *)
Inductive ScreenEvent :=
| Mount (user : option string) (id : string) (env_ok : bool) (read_error : option string)
    (balance_error : bool)
| TypePrompt (p : string)
| ClickUpdatePrompt (user token : option string) (respond : result Response string)
    (now_iso : string) (local_error : bool)
| ToggleSwitch (user : option string) (now_iso : string) (update_error : bool)
| OpenRenewDialog (user : option string) (balance_error : bool)
| CloseRenewDialog
| ConfirmRenew (user token : option string) (respond : result Response string) (patch_error : bool)
| ChatInput (e : ChatEvent)
| UsagePoll (user : option string) (id : string) (read_error : bool).

(** Whether the detail view is rendered with the dialog closed, so that
    its controls can be used. *)
Definition detail_usable (s : Screen) : bool :=
  negb (pw_loading (sc_page s)) && bool_decide (is_Some (pw_chatbot (sc_page s))) &&
  negb (sc_renewDialogOpen s).

(** Whether the element an event needs is rendered and enabled: the
    disabled conditions are those of lines 767 and 1041; the dialog's
    buttons exist only while it is open; a chat reply and the usage poll
    are timers. *)
Definition screen_enabled (s : Screen) (e : ScreenEvent) : bool :=
  let w := sc_page s in
  match e with
  | Mount _ _ _ _ _ => true
  | TypePrompt _ | ToggleSwitch _ _ _ | OpenRenewDialog _ _ => detail_usable s
  | ClickUpdatePrompt _ _ _ _ _ =>
      detail_usable s && negb (pw_saving w || String.eqb (trim (pw_prompt w)) "")
  | CloseRenewDialog => sc_renewDialogOpen s
  | ConfirmRenew _ _ _ _ =>
      negb (pw_loading w) && sc_renewDialogOpen s &&
      negb (negb (isBalanceSufficient w) || sc_renewLoading s)
  | ChatInput (DeliverReply _) => true
  | ChatInput _ => detail_usable s
  | UsagePoll _ _ _ => true
  end.

(** The renewal a confirm click starts: the chatbot, the plan's price and
    the balance the dialog shows. *)
Definition renewal_of (w : PageWorld) : option (string * Z * Z) :=
  match pw_chatbot w with
  | Some cw => option_map (fun p => (cb_id (cwp_bot cw), plan_price_per_month p, pw_balance w))
                 (cwp_plan cw)
  | None => None
  end.

(** The plan card and the renewal dialog name the same price, except for
    a plan priced 0: the card tests the price's truthiness and says
    "Gratis", the dialog tests the plan and shows "Rp 0". *)
Theorem plan_card_price_vs_dialog date_of now rl w cw dv :
  pw_chatbot w = Some cw -> renew_dialog_view rl w = Some dv ->
  (pc_price (plan_card date_of now cw) = rd_cost dv <->
   forall p, cwp_plan cw = Some p -> plan_price_per_month p <> 0).
Proof.
  intros Hw. unfold renew_dialog_view. rewrite Hw. intros [= <-]; cbn.
  destruct (cwp_plan cw) as [p|]; cbn; [|done].
  destruct (Z.eqb_spec (plan_price_per_month p) 0) as [H0|H0]; split; intros H.
  - done.
  - by specialize (H p eq_refl).
  - by intros ? [= <-].
  - done.
Qed.

Section Screen.
(** The parameters of [Renewal.handleRenew]'s poll. *)
Variable date_of : string -> option Z.
Variable iso_of : Z -> string.
Variable format_date : string -> string.
Variable json_parse : string -> option jsval.
Variable remote : Z -> query (option string * option Z).

Definition screen_step (s : Screen) (e : ScreenEvent) : Screen :=
  match e with
  | Mount u id ok re be => on_page (fetchBalance u be) (on_page (fetchChatbot u id ok re) s)
  | TypePrompt p => on_page (pw_set (E:=Empty_set) (with_prompt p)) s
  | ClickUpdatePrompt u t r n l => on_page (handleUpdatePrompt u t r n l) s
  | ToggleSwitch u n err =>
      let checked := match pw_chatbot (sc_page s) with
                     | Some cw => cb_is_active (cwp_bot cw) | None => false end in
      on_page (handleToggleActive u (negb checked) n err) s
  | OpenRenewDialog u be => on_page (fetchBalance u be) (with_dialog true s)
  | CloseRenewDialog => with_dialog false s
  | ConfirmRenew u t r pe =>
      let s' := match renewal_of (sc_page s) with Some x => log_renewal x s | None => s end in
      of_renew s' (run_renew date_of iso_of format_date json_parse remote u t r pe (to_renew s'))
  | ChatInput ce => on_page (chat_step ce) s
  | UsagePoll u id re => on_page (usage_poll u id re) s
  end.

Definition screen_ui_step (s : Screen) (e : ScreenEvent) : Screen :=
  if screen_enabled s e then screen_step s e else s.

Definition run_screen (s : Screen) (es : list ScreenEvent) : Screen := fold_left screen_ui_step es s.

Inductive screen_reachable : Screen -> Prop :=
| sr_init db t : screen_reachable (screen_initial db t)
| sr_step s e : screen_reachable s -> screen_reachable (screen_ui_step s e).

(** ** Lemmas *)

Lemma on_page_renewals {E A} (m : st PageWorld E A) s : sc_renewals (on_page m s) = sc_renewals s.
Proof. done. Qed.

Lemma of_renew_renewals s r : sc_renewals (of_renew s r) = sc_renewals s.
Proof. done. Qed.

(** A renewal is logged only by an enabled confirm, and then with a plan
    whose price the balance shown covers. *)
Lemma ui_step_renewals s e :
  exists l, sc_renewals (screen_ui_step s e) = sc_renewals s ++ l /\
    Forall (fun '(_, price, bal) => price <= bal) l.
Proof.
  unfold screen_ui_step. destruct (screen_enabled s e) eqn:He; [|exists []; by rewrite app_nil_r].
  destruct e; cbn [screen_step]; try (exists []; rewrite app_nil_r; done).
  rewrite of_renew_renewals. cbn [screen_enabled] in He.
  destruct (isBalanceSufficient (sc_page s)) eqn:Hb; [|by rewrite andb_false_r in He].
  unfold isBalanceSufficient in Hb. unfold renewal_of.
  destruct (pw_chatbot (sc_page s)) as [[c [p|]]|]; try done; cbn.
  exists [(cb_id c, plan_price_per_month p, pw_balance (sc_page s))].
  split; [done|]. apply Forall_singleton. by apply Z.leb_le.
Qed.

Lemma run_screen_reachable s es : screen_reachable s -> screen_reachable (run_screen s es).
Proof. revert s; induction es as [|e es IH]; intros s Hs; [done|]. apply IH, sr_step, Hs. Qed.

(** C7: Along every run of the page from its first render, every
    renewal the page starts is for a chatbot with a plan whose monthly
    price the balance shown in the dialog covers: the modal dialog is
    the only way to "Konfirmasi Renew", and its button is disabled
    otherwise. *)
Theorem renewals_covered s :
  screen_reachable s -> Forall (fun '(_, price, bal) => price <= bal) (sc_renewals s).
Proof.
  induction 1 as [db t|s e _ IH]; [constructor|].
  destruct (ui_step_renewals s e) as (l & -> & Hl). by apply Forall_app.
Qed.

(** C32: "Mulai Ulang" does not cancel the replies still pending: when the
    timer of one fires after the restart, the fresh chat shows the
    restart greeting and then the old conversation's reply, on the bot's
    side and with the id computed from the old history. *)
Theorem restart_keeps_pending_reply s i rest t t' :
  detail_usable s = true -> pw_pending (sc_page s) = i :: rest ->
  let s' := run_screen s [ChatInput (RestartChat t); ChatInput (DeliverReply t')] in
  chat_bubbles (sc_page s') =
    [mkBubble 1 BubbleLeft "Chat telah dimulai ulang. Halo, ada yang bisa saya bantu?" t;
     mkBubble i BubbleLeft bot_reply_text t'] /\
  pw_pending (sc_page s') = rest.
Proof.
  intros Hu Hp; cbv zeta. cbn [run_screen fold_left].
  assert (E : screen_ui_step s (ChatInput (RestartChat t)) = on_page (handleRestartChat t) s)
    by (unfold screen_ui_step; cbn [screen_enabled]; by rewrite Hu).
  rewrite E. unfold screen_ui_step; cbn. rewrite Hp. cbn. split; reflexivity.
Qed.

End Screen.

(** ** Witnesses

    The chatbot "b1" of user "u1" on plan "p1" (Rp 100000 a month), with
    expiry "E0" and quota 100 as in [Renewal]'s samples, and a balance
    of Rp 150000; the backend [remote_late] commits the renewal after
    three seconds. *)

Definition demo_plan : Plan := mkPlan "p1" "Basic" 100000 None 1000.
Definition demo_bot : Chatbot :=
  mkChatbot "b1" (Some "u1") (Some "Toko") true (Some "WORKING") "p1" (Some true) (Some 150)
    (Some 100) (Some "Jawab sopan") "2024-12-01" None (Some "E0").
Definition demo_db : PageDb := mkPageDb [demo_bot] [demo_plan] (<["u1" := 150000]> ∅).

Definition demo_session : list ScreenEvent :=
  [Mount (Some "u1") "b1" true None false; TypePrompt "Jawab singkat";
   OpenRenewDialog (Some "u1") false;
   ConfirmRenew (Some "u1") (Some "tok") ok200 false].

Definition demo_run : Screen :=
  run_screen sample_date sample_iso sample_format sample_json remote_late
    (screen_initial demo_db "09.00") demo_session.

(** The session starts one renewal, which the backend confirms: the
    dialog closes and the expiry shown is the committed one. *)
Example demo_run_renews :
  sc_renewals demo_run = [("b1", 100000, 150000)] /\ sc_renewDialogOpen demo_run = false /\
  option_map (fun cw => cb_expired_at (cwp_bot cw)) (pw_chatbot (sc_page demo_run)) = Some (Some "E1").
Proof. vm_compute. split_and!; reflexivity. Qed.

Lemma renewals_covered_witness :
  screen_reachable sample_date sample_iso sample_format sample_json remote_late demo_run /\
  Forall (fun '(_, price, bal) => price <= bal) (sc_renewals demo_run).
Proof.
  assert (Hr : screen_reachable sample_date sample_iso sample_format sample_json remote_late demo_run)
    by apply run_screen_reachable, sr_init.
  split; [exact Hr|]. exact (renewals_covered _ _ _ _ _ _ Hr).
Defined.

(** The usage card at 150 of 100 tokens says 150 % with the bar full;
    at 201 of 200, over the quota, it says 100 %: the quotient times 100
    is computed as 100.49999999999999, which [Math.round] takes down. *)
Example usage_card_samples :
  let w := sc_page (run_screen sample_date sample_iso sample_format sample_json remote_late
                      (screen_initial demo_db "09.00") [Mount (Some "u1") "b1" true None false]) in
  let uc := usage_card w demo_bot in
  uc_percentage uc = RInt 150 /\ uc_bar_width uc = RInt 100 /\
  let over := mkChatbot "b1" (Some "u1") (Some "Toko") true (Some "WORKING") "p1" (Some true)
                (Some 201) (Some 200) None "2024-12-01" None (Some "E0") in
  let w' := with_chatbot (Some (mkCWP over (Some demo_plan))) w in
  uc_percentage (usage_card w' over) = RInt 100 /\ uc_bar_width (usage_card w' over) = RInt 100.
Proof. vm_compute. repeat split. Qed.

(** A plan priced 0: the card says "Gratis", the dialog "Rp 0". *)
Example free_plan_prices :
  let cw := mkCWP demo_bot (Some (mkPlan "p0" "Trial" 0 None 100)) in
  let w := with_chatbot (Some cw) (sc_page demo_run) in
  pc_price (plan_card sample_date 0 cw) = None /\
  option_map rd_cost (renew_dialog_view false w) = Some (Some 0).
Proof. split; reflexivity. Qed.

(** A message sent before the restart: its reply, id 3, arrives in the
    restarted chat. *)
Lemma restart_keeps_pending_reply_witness :
  let s := run_screen sample_date sample_iso sample_format sample_json remote_late
             (screen_initial demo_db "09.00")
             [Mount (Some "u1") "b1" true None false; ChatInput (TypeMsg "hai");
              ChatInput (SendMsg "09.01")] in
  detail_usable s = true /\ pw_pending (sc_page s) = [3] /\
  let s' := run_screen sample_date sample_iso sample_format sample_json remote_late s
              [ChatInput (RestartChat "09.02"); ChatInput (DeliverReply "09.02")] in
  chat_bubbles (sc_page s') =
    [mkBubble 1 BubbleLeft "Chat telah dimulai ulang. Halo, ada yang bisa saya bantu?" "09.02";
     mkBubble 3 BubbleLeft bot_reply_text "09.02"] /\
  pw_pending (sc_page s') = [].
Proof.
  cbv zeta.
  assert (Hu : detail_usable (run_screen sample_date sample_iso sample_format sample_json remote_late
             (screen_initial demo_db "09.00")
             [Mount (Some "u1") "b1" true None false; ChatInput (TypeMsg "hai");
              ChatInput (SendMsg "09.01")]) = true) by (vm_compute; reflexivity).
  assert (Hp : pw_pending (sc_page (run_screen sample_date sample_iso sample_format sample_json remote_late
             (screen_initial demo_db "09.00")
             [Mount (Some "u1") "b1" true None false; ChatInput (TypeMsg "hai");
              ChatInput (SendMsg "09.01")])) = [3]) by (vm_compute; reflexivity).
  split; [exact Hu|]. split; [exact Hp|].
  exact (restart_keeps_pending_reply _ _ _ _ _ _ _ _ "09.02" "09.02" Hu Hp).
Defined.

(** Enter sends; another key does nothing. *)
Example chat_key_enter : chat_key "Enter" "09.01" = Some (SendMsg "09.01") /\ chat_key "a" "09.01" = None.
Proof. split; reflexivity. Qed.

End ChatbotScreen.
