(* ===== verification/Plans.v ===== *)
(** * The plan page: choosing and buying a plan for a chatbot

    Source: src/app/dashboard/plans/page.tsx ([PlansPage]).  The page is
    opened with [?chatbotId=...]; on mount it loads the plan catalogue,
    the chatbot and the balance (lines 67-132), the buy button opens a
    confirmation dialog after refreshing the balance and the chatbot
    (lines 134-141), and [handlePurchase] (lines 148-199) calls the
    renewal webhook with the chosen plan.

    - The database is [Dashboard.DashDb]; the page state [PlansWorld]
      holds the fields of lines 57-64, the notifications and the
      requests started.
    - The loaders run to completion in the order the mount effect starts
      them; each read may fail, chosen by a boolean.

    - What the page renders ([render]: the back link, the plan cards,
      the dialog) and the clicks it offers ([PlansEvent]), each guarded
      by the button being rendered and enabled, run by [run_plans].

    The theorems show that without a [chatbotId] the page never leaves
    its loading screen, that a purchase reports success whatever the
    webhook answers, that a request is sent only through an enabled
    confirmation for a catalogue plan the balance covers (the guard is
    the button's [disabled], not [handlePurchase]), and that the cards and
    the dialog agree with what their buttons do. *)

From Stdlib Require Import ZArith String List Lia.
From stdpp Require Import base list gmap strings sorting.
From S2P Require Import Prelude Js Schema Dashboard.

Local Open Scope string_scope.
Local Open Scope list_scope.
Local Open Scope Z_scope.

Module Plans.
Import Schema Dashboard.

(** The renewal request of lines 168-178. *)
Record PurchaseRequest := mkPurchaseRequest {
  pr_token : string;
  pr_chatbot : string;
  pr_plan : string
}.

Record PlansWorld := mkPlansWorld {
  plw_db : DashDb;
  plw_plans : list Plan;
  plw_chatbot : option Chatbot;
  plw_balance : Z;
  plw_loadingPlans : bool;
  plw_loadingChatbot : bool;
  plw_purchaseDialogOpen : bool;
  plw_selectedPlan : option Plan;
  plw_purchasing : bool;
  plw_toasts : list Toast;
  plw_requests : list PurchaseRequest
}.

Definition plw_set (f : PlansWorld -> PlansWorld) {E} : st PlansWorld E unit := st_modify f.

Definition set_plans l w := mkPlansWorld (plw_db w) l (plw_chatbot w) (plw_balance w)
  (plw_loadingPlans w) (plw_loadingChatbot w) (plw_purchaseDialogOpen w) (plw_selectedPlan w)
  (plw_purchasing w) (plw_toasts w) (plw_requests w).
Definition set_chatbot c w := mkPlansWorld (plw_db w) (plw_plans w) c (plw_balance w)
  (plw_loadingPlans w) (plw_loadingChatbot w) (plw_purchaseDialogOpen w) (plw_selectedPlan w)
  (plw_purchasing w) (plw_toasts w) (plw_requests w).
Definition set_balance b w := mkPlansWorld (plw_db w) (plw_plans w) (plw_chatbot w) b
  (plw_loadingPlans w) (plw_loadingChatbot w) (plw_purchaseDialogOpen w) (plw_selectedPlan w)
  (plw_purchasing w) (plw_toasts w) (plw_requests w).
Definition set_loadingPlans b w := mkPlansWorld (plw_db w) (plw_plans w) (plw_chatbot w)
  (plw_balance w) b (plw_loadingChatbot w) (plw_purchaseDialogOpen w) (plw_selectedPlan w)
  (plw_purchasing w) (plw_toasts w) (plw_requests w).
Definition set_loadingChatbot b w := mkPlansWorld (plw_db w) (plw_plans w) (plw_chatbot w)
  (plw_balance w) (plw_loadingPlans w) b (plw_purchaseDialogOpen w) (plw_selectedPlan w)
  (plw_purchasing w) (plw_toasts w) (plw_requests w).
Definition set_dialog b w := mkPlansWorld (plw_db w) (plw_plans w) (plw_chatbot w)
  (plw_balance w) (plw_loadingPlans w) (plw_loadingChatbot w) b (plw_selectedPlan w)
  (plw_purchasing w) (plw_toasts w) (plw_requests w).
Definition set_selected p w := mkPlansWorld (plw_db w) (plw_plans w) (plw_chatbot w)
  (plw_balance w) (plw_loadingPlans w) (plw_loadingChatbot w) (plw_purchaseDialogOpen w) p
  (plw_purchasing w) (plw_toasts w) (plw_requests w).
Definition set_purchasing b w := mkPlansWorld (plw_db w) (plw_plans w) (plw_chatbot w)
  (plw_balance w) (plw_loadingPlans w) (plw_loadingChatbot w) (plw_purchaseDialogOpen w)
  (plw_selectedPlan w) b (plw_toasts w) (plw_requests w).
Definition add_toast t w := mkPlansWorld (plw_db w) (plw_plans w) (plw_chatbot w)
  (plw_balance w) (plw_loadingPlans w) (plw_loadingChatbot w) (plw_purchaseDialogOpen w)
  (plw_selectedPlan w) (plw_purchasing w) (plw_toasts w ++ [t]) (plw_requests w).
Definition add_request r w := mkPlansWorld (plw_db w) (plw_plans w) (plw_chatbot w)
  (plw_balance w) (plw_loadingPlans w) (plw_loadingChatbot w) (plw_purchaseDialogOpen w)
  (plw_selectedPlan w) (plw_purchasing w) (plw_toasts w) (plw_requests w ++ [r]).

(** ** Loaders *)

(** [fetchPlans] (lines 74-92). *)
Definition fetchPlans (read_error : bool) : st PlansWorld Empty_set unit :=
  st_finally
    (w <- st_get ;;
     if read_error then st_ret tt else plw_set (set_plans (plans_by_price (plw_db w))))
    (plw_set (set_loadingPlans false)).

(** [fetchChatbot] (lines 94-116): the early [return] is outside the
    [try], so its [finally] does not run. *)
Definition fetchChatbot (chatbotId : option string) (user : option string) (read_error : bool)
  : st PlansWorld Empty_set unit :=
  match chatbotId, user with
  | Some id, Some uid =>
      if String.eqb id "" then st_ret tt else
      st_finally
        (w <- st_get ;;
         if read_error then st_ret tt else
         match filter (fun c => bool_decide (cb_id c = id /\ cb_user_id c = Some uid))
                      (dd_chatbots (plw_db w)) with
         | [c] => plw_set (set_chatbot (Some c))
         | _ => st_ret tt
         end)
        (plw_set (set_loadingChatbot false))
  | _, _ => st_ret tt
  end.

(** [fetchBalance] (lines 118-132): [.single()] on the balance row; a
    missing row or a failed read gives [data] [null], shown as 0. *)
Definition fetchBalance (user : option string) (read_error : bool) : st PlansWorld Empty_set unit :=
  match user with
  | None => st_ret tt
  | Some uid =>
      w <- st_get ;;
      plw_set (set_balance (if read_error then 0 else default 0 (dd_balances (plw_db w) !! uid)))
  end.

(** The mount effect (lines 67-72). *)
Definition plans_mount (user chatbotId : option string) (plans_error chatbot_error balance_error : bool)
  : st PlansWorld Empty_set unit :=
  match user with
  | None => st_ret tt
  | Some _ =>
      fetchPlans plans_error ;; fetchChatbot chatbotId user chatbot_error ;;
      fetchBalance user balance_error
  end.

(** The loading screen condition (line 201). *)
Definition shows_loading (w : PlansWorld) : bool := plw_loadingPlans w || plw_loadingChatbot w.

(** ** The purchase *)

(** [openPurchaseDialog] (lines 134-141). *)
Definition openPurchaseDialog (user chatbotId : option string) (chatbot_error balance_error : bool)
    (p : Plan) : st PlansWorld Empty_set unit :=
  fetchBalance user balance_error ;;
  fetchChatbot chatbotId user chatbot_error ;;
  plw_set (set_selected (Some p)) ;;
  plw_set (set_dialog true).

(** [isBalanceSufficient] (lines 143-146) and the confirm button's
    [disabled] (line 423). *)
Definition isBalanceSufficient (w : PlansWorld) : bool :=
  match plw_selectedPlan w with
  | Some p => Z.leb (plan_price_per_month p) (plw_balance w)
  | None => false
  end.

Definition confirm_enabled (w : PlansWorld) : bool :=
  isBalanceSufficient w && negb (plw_purchasing w).

Definition purchase_failed_text : string := "Gagal melakukan upgrade paket. Silakan coba lagi.".

(** [handlePurchase] (lines 148-199): the answer of the webhook is not
    inspected; only a rejected [fetch] fails. *)
Definition handlePurchase (user : option string) (token : option string)
    (respond : result Response string) : st PlansWorld string unit :=
  w0 <- st_get ;;
  match plw_selectedPlan w0, plw_chatbot w0, user with
  | Some p, Some c, Some _ =>
      plw_set (set_purchasing true) ;;
      st_finally
        (st_catch
          (t <- (match token with
                 | Some t => if String.eqb t "" then st_throw "No authentication token found"
                             else st_ret t
                 | None => st_throw "No authentication token found"
                 end) ;;
           plw_set (add_request (mkPurchaseRequest t (cb_id c) (plan_id p))) ;;
           _ <- (match respond with Ok r => st_ret r | Err m => st_throw m end) ;;
           plw_set (add_toast (mkToast ToastSuccess "Berhasil!"
             ("Paket berhasil diupgrade ke " ++ plan_name p ++
              ". Masa aktif diperpanjang 30 hari.")%string)) ;;
           plw_set (set_dialog false))
          (fun _ => plw_set (add_toast (mkToast ToastDestructive "Error" purchase_failed_text))))
        (plw_set (set_purchasing false))
  | _, _, _ => st_ret tt
  end.

(** [daysRemaining] (lines 41-48), the days-left helper of this page. *)
Definition daysRemaining (date_of : string -> option Z) (now : Z) (d : option string) : option Z :=
  getDaysLeft date_of now d.

(** ** What the page renders *)

(** The back link (lines 205-207, 225-227): a template literal on a
    truthy [chatbotId]. *)
Definition back_href (chatbotId : option string) : string :=
  match chatbotId with
  | Some id => if String.eqb id "" then "/dashboard" else ("/dashboard/chatbots/" ++ id)%string
  | None => "/dashboard"
  end.

(** [chatbot?.plan_id === plan.id] (line 244). *)
Definition isCurrentPlan (c : option Chatbot) (p : Plan) : bool :=
  match c with Some c => String.eqb (cb_plan_id c) (plan_id p) | None => false end.

(** The button of a card (lines 328-339). *)
Inductive CardAction := CurrentPlanDisabled | BuyButton (p : Plan).

(** A plan card (lines 243-344): the plan, the "Saat Ini" badge, the
    expiry row with its day count, and the button. *)
Record PlanCard := mkPlanCard {
  pc_plan : Plan;
  pc_current : bool;
  pc_daysLeft : option (option Z);
  pc_action : CardAction
}.

(** The expiry row needs [isCurrentPlan && chatbot?.expired_at] (line 288). *)
Definition plan_card (date_of : string -> option Z) (now : Z) (c : option Chatbot) (p : Plan) : PlanCard :=
  let cur := isCurrentPlan c p in
  mkPlanCard p cur
    (match c with
     | Some cb => match cb_expired_at cb with
                  | Some e => if cur && negb (String.eqb e "")
                              then Some (daysRemaining date_of now (Some e)) else None
                  | None => None
                  end
     | None => None
     end)
    (if cur then CurrentPlanDisabled else BuyButton p).

(** The confirmation dialog's content (lines 354-429), shown for the
    selected plan. *)
Record DialogView := mkDialogView {
  dv_plan : Plan;
  dv_balance : Z;
  dv_after : Z;
  dv_shortfall : option Z;
  dv_confirm_disabled : bool;
  dv_confirm_label : string
}.

Definition dialog_view (w : PlansWorld) : option DialogView :=
  match plw_selectedPlan w with
  | Some p =>
      Some (mkDialogView p (plw_balance w) (plw_balance w - plan_price_per_month p)
              (if isBalanceSufficient w then None else Some (plan_price_per_month p - plw_balance w))
              (negb (confirm_enabled w))
              (if plw_purchasing w then "Memproses..." else "Konfirmasi"))
  | None => None
  end.

(** The page (lines 201-434): the loading screen, or the grid and the
    dialog, open or closed. *)
Inductive PlansScreen :=
  | LoadingScreen (back : string)
  | PlansGrid (back : string) (cards : list PlanCard) (dialog : option (option DialogView)).

Definition render (date_of : string -> option Z) (now : Z) (chatbotId : option string)
    (w : PlansWorld) : PlansScreen :=
  if shows_loading w then LoadingScreen (back_href chatbotId)
  else PlansGrid (back_href chatbotId) (map (plan_card date_of now (plw_chatbot w)) (plw_plans w))
         (if plw_purchaseDialogOpen w then Some (dialog_view w) else None).

(** The clicks the rendered page offers: the button of the [i]-th card,
    "Batal" or a dismissal of the dialog ([onOpenChange], line 348), and
    "Konfirmasi" (lines 412-427).  A click on a button that is not
    rendered or disabled does nothing. *)
Inductive PlansEvent :=
  | ClickBuy (i : nat) (chatbot_error balance_error : bool)
  | ClickCancel
  | ClickConfirm (token : option string) (respond : result Response string).

Definition plans_event (user chatbotId : option string) (w : PlansWorld) (e : PlansEvent) : PlansWorld :=
  if shows_loading w then w else
  match e with
  | ClickBuy i ce be =>
      match plw_plans w !! i with
      | Some p => if isCurrentPlan (plw_chatbot w) p then w
                  else snd (openPurchaseDialog user chatbotId ce be p w)
      | None => w
      end
  | ClickCancel => set_dialog false w
  | ClickConfirm t r =>
      if plw_purchaseDialogOpen w && confirm_enabled w
      then snd (handlePurchase user t r w) else w
  end.

Definition run_plans (user chatbotId : option string) (w : PlansWorld) (es : list PlansEvent) : PlansWorld :=
  fold_left (plans_event user chatbotId) es w.

(** The selected plan is one of the catalogue's. *)
Definition selected_ok (w : PlansWorld) : Prop :=
  forall p, plw_selectedPlan w = Some p -> p ∈ plw_plans w.

(** ** Properties *)

(** C26: without a [chatbotId] in the address the page never leaves its
    loading screen: [fetchChatbot] returns before its [try], so
    [loadingChatbot] stays [true] whatever the other loaders do. *)
Theorem plans_stuck_without_chatbot uid pe ce be w :
  plw_loadingChatbot w = true ->
  let w' := snd (plans_mount (Some uid) None pe ce be w) in
  plw_loadingChatbot w' = true /\ shows_loading w' = true.
Proof.
  intros Hl; cbv zeta. unfold plans_mount, fetchPlans, fetchBalance, fetchChatbot,
    st_finally, st_bind, st_get, st_ret, plw_set, st_modify; simpl.
  unfold shows_loading. destruct pe; simpl; rewrite Hl; by rewrite ?orb_true_r.
Qed.

(** C28: a purchase reports success whatever the webhook answers: for
    any response, also a 4xx or 5xx one, the page shows the success
    notification naming the plan and closes the dialog; only a rejected
    request or a missing token is reported as a failure. *)
Theorem purchase_ignores_status uid t r w p c :
  plw_selectedPlan w = Some p -> plw_chatbot w = Some c -> t <> "" ->
  let w' := snd (handlePurchase (Some uid) (Some t) (Ok r) w) in
  plw_toasts w' = plw_toasts w ++
    [mkToast ToastSuccess "Berhasil!"
       ("Paket berhasil diupgrade ke " ++ plan_name p ++ ". Masa aktif diperpanjang 30 hari.")%string] /\
  plw_purchaseDialogOpen w' = false /\ plw_purchasing w' = false /\
  plw_requests w' = plw_requests w ++ [mkPurchaseRequest t (cb_id c) (plan_id p)].
Proof.
  intros Hp Hc Ht; cbv zeta. apply String.eqb_neq in Ht.
  unfold handlePurchase, st_finally, st_catch, st_bind, st_get, st_ret, st_throw, plw_set, st_modify.
  simpl. rewrite Hp, Hc; simpl. by rewrite Ht.
Qed.

Lemma openPurchaseDialog_fields u cid ce be p w :
  let w' := snd (openPurchaseDialog u cid ce be p w) in
  plw_plans w' = plw_plans w /\ plw_requests w' = plw_requests w /\
  plw_selectedPlan w' = Some p /\ plw_purchaseDialogOpen w' = true /\
  plw_purchasing w' = plw_purchasing w.
Proof.
  unfold openPurchaseDialog, fetchBalance, fetchChatbot, st_finally, st_bind, st_get, st_ret,
    plw_set, st_modify.
  destruct u as [uid|], cid as [id|]; cbn; try destruct (String.eqb id ""); cbn;
    try destruct ce; cbn; try destruct (filter _ _) as [|? [|? ?]]; cbn; auto.
Qed.

Lemma handlePurchase_fields u t r w :
  let w' := snd (handlePurchase u t r w) in
  plw_plans w' = plw_plans w /\ plw_selectedPlan w' = plw_selectedPlan w /\
  plw_requests w' = plw_requests w ++
    match plw_selectedPlan w, plw_chatbot w, u, t with
    | Some p, Some c, Some _, Some tk =>
        if String.eqb tk "" then [] else [mkPurchaseRequest tk (cb_id c) (plan_id p)]
    | _, _, _, _ => []
    end.
Proof.
  unfold handlePurchase, st_finally, st_catch, st_bind, st_get, st_ret, st_throw, plw_set, st_modify.
  destruct (plw_selectedPlan w) eqn:Hs, (plw_chatbot w), u, t as [tk|]; cbn; rewrite ?app_nil_r; auto.
  destruct (String.eqb tk ""), r; cbn; rewrite ?app_nil_r; auto.
Qed.

Lemma plans_event_selected_ok u cid w e : selected_ok w -> selected_ok (plans_event u cid w e).
Proof.
  unfold selected_ok, plans_event. intros Hw q.
  destruct (shows_loading w); [apply Hw|]. destruct e as [i ce be| |t r].
  - destruct (plw_plans w !! i) as [p|] eqn:Hi; [|apply Hw].
    destruct (isCurrentPlan _ p); [apply Hw|].
    destruct (openPurchaseDialog_fields u cid ce be p w) as (-> & _ & -> & _).
    intros [= <-]. by eapply list_elem_of_lookup_2.
  - apply Hw.
  - destruct (_ && _); [|apply Hw].
    destruct (handlePurchase_fields u t r w) as (-> & -> & _). apply Hw.
Qed.

Lemma run_plans_selected_ok u cid es : forall w, selected_ok w -> selected_ok (run_plans u cid w es).
Proof. induction es; intros w Hw; [done|]. apply IHes, plans_event_selected_ok, Hw. Qed.

(** C35: a purchase request leaves the page only through an enabled
    "Konfirmasi": along every run of the page's clicks, an event that sends
    a request is a confirmation in the open dialog, for a plan of the
    catalogue whose price the balance shown covers, with no purchase
    running, and it sends exactly one request, for the chatbot and the
    plan shown.  [handlePurchase] itself checks neither the balance nor the
    current plan: only the disabled buttons do. *)
Theorem purchase_needs_funds u cid w es e :
  selected_ok w ->
  let w1 := run_plans u cid w es in
  plw_requests (plans_event u cid w1 e) <> plw_requests w1 ->
  exists p c t r, e = ClickConfirm (Some t) r /\ p ∈ plw_plans w1 /\ plw_chatbot w1 = Some c /\
    plw_selectedPlan w1 = Some p /\ plw_purchaseDialogOpen w1 = true /\
    plan_price_per_month p <= plw_balance w1 /\ plw_purchasing w1 = false /\
    plw_requests (plans_event u cid w1 e) = plw_requests w1 ++ [mkPurchaseRequest t (cb_id c) (plan_id p)].
Proof.
  intros Hw w1 Hr. pose proof (run_plans_selected_ok u cid es w Hw) as Hs. fold w1 in Hs.
  revert Hr. unfold plans_event. destruct (shows_loading w1); [done|].
  destruct e as [i ce be| |t r].
  - destruct (plw_plans w1 !! i) as [p|]; [|done]. destruct (isCurrentPlan _ p); [done|].
    by destruct (openPurchaseDialog_fields u cid ce be p w1) as (_ & -> & _).
  - done.
  - destruct (plw_purchaseDialogOpen w1 && confirm_enabled w1) eqn:G; [|done].
    apply andb_prop in G as [Ho G]. unfold confirm_enabled, isBalanceSufficient in G.
    rewrite (proj2 (proj2 (handlePurchase_fields u t r w1))).
    destruct (plw_selectedPlan w1) as [p|] eqn:Hp; [|discriminate].
    apply andb_prop in G as [Hb Hu%negb_true_iff]. apply Z.leb_le in Hb.
    pose proof (Hs p Hp).
    destruct (plw_chatbot w1) as [c|], u, t as [tk|]; rewrite ?app_nil_r; try done.
    destruct (String.eqb tk ""); rewrite ?app_nil_r; [done|]. intros _.
    exists p, c, tk, r. split_and!; auto.
Qed.

(** What the page shows agrees with what its buttons do: the current
    plan's card has the disabled button and every other card a buy button
    for its own plan, only the current card shows the days left, never
    negative; in the dialog the shortfall warning appears exactly when the
    balance after the purchase is negative, its amount is what the balance
    lacks, and an enabled "Konfirmasi" comes with no warning. *)
Theorem render_consistent date_of now cid w :
  match render date_of now cid w with
  | LoadingScreen b => b = back_href cid /\ shows_loading w = true
  | PlansGrid b cards dlg =>
      Forall (fun pc =>
        (pc_action pc = CurrentPlanDisabled <-> pc_current pc = true) /\
        (forall p, pc_action pc = BuyButton p -> p = pc_plan pc) /\
        (forall d, pc_daysLeft pc = Some (Some d) -> pc_current pc = true /\ 0 <= d)) cards /\
      (forall dv, dlg = Some (Some dv) ->
        (dv_shortfall dv = None <-> 0 <= dv_after dv) /\
        (forall s, dv_shortfall dv = Some s ->
           0 < s /\ dv_balance dv + s = plan_price_per_month (dv_plan dv) /\ dv_confirm_disabled dv = true) /\
        (dv_confirm_disabled dv = false -> dv_shortfall dv = None))
  end.
Proof.
  unfold render. destruct (shows_loading w) eqn:Hl; [done|]. split.
  - apply Forall_forall. intros pc (p & -> & _)%list_elem_of_fmap.
    unfold plan_card; cbn. destruct (isCurrentPlan _ p) eqn:Hc; cbn.
    + split_and!; try done. intros d. destruct (plw_chatbot w) as [c|]; [|done].
      destruct (cb_expired_at c) as [e|]; cbn; [|done].
      destruct (String.eqb_spec e ""); cbn; [done|]. intros Hd. split; [done|].
      unfold daysRemaining, getDaysLeft in Hd. destruct e; [done|].
      destruct (date_of _); [|done]. simplify_eq. lia.
    + split_and!; [done|by intros ? [= ->]|]. intros d.
      destruct (plw_chatbot w) as [c|]; [|done].
      destruct (cb_expired_at c) as [e|]; cbn; [by destruct (String.eqb e "")|done].
  - destruct (plw_purchaseDialogOpen w); [|done]. intros dv [= Hd].
    unfold dialog_view, confirm_enabled, isBalanceSufficient in Hd.
    destruct (plw_selectedPlan w) as [p|]; [|done]. injection Hd as <-; cbn.
    destruct (Z.leb_spec (plan_price_per_month p) (plw_balance w)); cbn.
    + split_and!; [split; [lia|done]|done|done].
    + split_and!; [split; [done|lia]| |done]. intros s [= <-]. lia.
Qed.

(** ** Witnesses *)

Definition plans_world : PlansWorld :=
  mkPlansWorld (mkDashDb [] [sample_plan] [] ∅) [] None 0 true true false None false [] [].

Lemma plans_stuck_without_chatbot_witness :
  let w' := snd (plans_mount (Some "u1") None false false false plans_world) in
  plw_loadingChatbot w' = true /\ shows_loading w' = true.
Proof. apply plans_stuck_without_chatbot. reflexivity. Defined.

Definition purchase_bot : Chatbot :=
  mkChatbot "b1" (Some "u1") (Some "Toko") true (Some "WORKING") "p0" None None (Some 100)
    None "2025-01-01" None (Some "2025-02-01").
Definition purchase_world : PlansWorld :=
  mkPlansWorld (mkDashDb [purchase_bot] [sample_plan] [] ∅) [sample_plan] (Some purchase_bot)
    100000 false false true (Some sample_plan) false [] [].

Lemma purchase_ignores_status_witness :
  let w' := snd (handlePurchase (Some "u1") (Some "tok")
                   (Ok (mkResponse 500 "Internal Server Error" "")) purchase_world) in
  plw_toasts w' = plw_toasts purchase_world ++
    [mkToast ToastSuccess "Berhasil!"
       ("Paket berhasil diupgrade ke " ++ plan_name sample_plan ++
        ". Masa aktif diperpanjang 30 hari.")%string] /\
  plw_purchaseDialogOpen w' = false /\ plw_purchasing w' = false /\
  plw_requests w' = plw_requests purchase_world ++
    [mkPurchaseRequest "tok" (cb_id purchase_bot) (plan_id sample_plan)].
Proof. apply purchase_ignores_status; [reflexivity|reflexivity|discriminate]. Defined.

(** The page of [purchase_bot] after loading: the user opens the plan's
    dialog, cancels, opens it again, and confirms. *)
Definition shop_world : PlansWorld :=
  mkPlansWorld (mkDashDb [purchase_bot] [sample_plan] [] (<["u1" := 60000]> ∅)) [sample_plan]
    (Some purchase_bot) 0 false false false None false [] [].

Definition shop_clicks : list PlansEvent := [ClickBuy 0 false false; ClickCancel; ClickBuy 0 false false].

Definition shop_confirm : PlansEvent := ClickConfirm (Some "tok") (Ok (mkResponse 200 "OK" "")).

Lemma purchase_needs_funds_witness :
  let w1 := run_plans (Some "u1") (Some "b1") shop_world shop_clicks in
  plw_requests (plans_event (Some "u1") (Some "b1") w1 shop_confirm) <> plw_requests w1 /\
  exists p c t r, shop_confirm = ClickConfirm (Some t) r /\ p ∈ plw_plans w1 /\
    plw_chatbot w1 = Some c /\ plw_selectedPlan w1 = Some p /\ plw_purchaseDialogOpen w1 = true /\
    plan_price_per_month p <= plw_balance w1 /\ plw_purchasing w1 = false /\
    plw_requests (plans_event (Some "u1") (Some "b1") w1 shop_confirm) =
      plw_requests w1 ++ [mkPurchaseRequest t (cb_id c) (plan_id p)].
Proof.
  assert (Hr : plw_requests (plans_event (Some "u1") (Some "b1")
     (run_plans (Some "u1") (Some "b1") shop_world shop_clicks) shop_confirm) <>
     plw_requests (run_plans (Some "u1") (Some "b1") shop_world shop_clicks))
    by (vm_compute; discriminate).
  split; [exact Hr|].
  apply (purchase_needs_funds (Some "u1") (Some "b1") shop_world shop_clicks); [|exact Hr].
  intros p Hp; discriminate Hp.
Defined.

Example shop_screen :
  render (fun _ => Some 0) 0 (Some "b1") (run_plans (Some "u1") (Some "b1") shop_world shop_clicks) =
  PlansGrid "/dashboard/chatbots/b1"
    [mkPlanCard sample_plan false None (BuyButton sample_plan)]
    (Some (Some (mkDialogView sample_plan 60000 10000 None false "Konfirmasi"))).
Proof. reflexivity. Qed.

End Plans.
