(* ===== verification/Auth.v ===== *)
(** * Authentication: the session context, the login page and the guard

    Sources: src/contexts/AuthContext.tsx ([AuthProvider]),
    src/app/login/page.tsx ([LoginPage]), the redirect, logout and
    navigation bars of src/app/dashboard/layout.tsx ([DashboardLayout])
    and the public navbar src/components/Navbar.tsx.

    - The identity provider is external: what it answers ([getSession],
      [onAuthStateChange], [verifyOtp], [signInWithOtp], [signOut]) is an
      argument of the handlers.  A session is its user id and its access
      token.
    - The [balances] table is a [gmap] from user id to balance: the
      upserts of the balance and dashboard pages name [user_id] as their
      conflict target, so there is at most one row per user, and an
      insert for a user that has a row is rejected.
    - The context state [AuthCtx] is [user], [loading] and the
      [auth-token] cookie; [run_auth] feeds it the provider's callbacks
      in the order they arrive.
    - The login page state [LoginWorld] holds the fields of lines 16-22,
      the number of cooldown intervals running, the notifications, the
      navigations and the balances table that [verifyOTP] writes.  Its
      events (submits and the one-second interval) are explicit steps of
      [run_login].

    The theorems show that an existing balance row is never overwritten
    at login and that a new user gets a row with balance 0; that along
    every run of the login page at most one cooldown interval runs,
    exactly while the send button is locked, and that a rate-limited
    request locks it for exactly sixty ticks; that no request is sent
    during the cooldown; that login proceeds to the dashboard even when
    the balance row could not be created; that a successful logout ends
    on the login redirect and a failed one changes nothing, also from the
    navbar; and that the dashboard frame, drawn only for a signed-in
    user, highlights exactly one entry in both navigation bars on the
    dashboard's own addresses and none elsewhere. *)

From Stdlib Require Import ZArith String List Lia.
From stdpp Require Import base list gmap strings.
From S2P Require Import Prelude Js Schema Sql.

Local Open Scope string_scope.
Local Open Scope list_scope.
Local Open Scope Z_scope.

Module Auth.
Import Schema Sql.

(** ** The session context (AuthContext.tsx) *)

Record Session := mkSession { s_user : string; s_access_token : string }.

Record AuthCtx := mkAuthCtx {
  au_user : option string;
  au_loading : bool;
  au_cookie : option string
}.

Definition initial_ctx (cookie : option string) : AuthCtx := mkAuthCtx None true cookie.

(** [useAuth] (lines 114-120): the context of the enclosing provider
    ([None] outside any [AuthProvider]), or the error it throws. *)
Definition useAuth (ctx : option AuthCtx) : result AuthCtx string :=
  match ctx with
  | Some c => Ok c
  | None => Err "useAuth must be used within an AuthProvider"
  end.

(** [session?.access_token] is truthy: a session with a non-empty token. *)
Definition token_of (s : option Session) : option string :=
  match s with
  | Some x => if String.eqb (s_access_token x) "" then None else Some (s_access_token x)
  | None => None
  end.

(** [getSession] (lines 24-33): the cookie is set when there is a token
    and left as it is otherwise. *)
Definition getSession_done (s : option Session) (c : AuthCtx) : AuthCtx :=
  mkAuthCtx (option_map s_user s) false
    (match token_of s with Some t => Some t | None => au_cookie c end).

(** The [onAuthStateChange] callback (lines 38-48): the cookie is set or
    removed. *)
Definition onAuthStateChange (s : option Session) (c : AuthCtx) : AuthCtx :=
  mkAuthCtx (option_map s_user s) false (token_of s).

(** The provider's callbacks as they reach the context. *)
Inductive AuthEvent :=
  | SessionLoaded (s : option Session)
  | StateChanged (s : option Session).

Definition auth_step (c : AuthCtx) (e : AuthEvent) : AuthCtx :=
  match e with
  | SessionLoaded s => getSession_done s c
  | StateChanged s => onAuthStateChange s c
  end.

Definition run_auth (c : AuthCtx) (es : list AuthEvent) : AuthCtx := fold_left auth_step es c.

(** [logout] (lines 101-105): a failed [signOut] throws before the
    cookie is removed. *)
Definition logout (signout_error : option string) : st AuthCtx string unit :=
  match signout_error with
  | Some m => st_throw m
  | None => st_modify (fun c => mkAuthCtx (au_user c) (au_loading c) None)
  end.

(** An error of the provider: [message], [status] and [code]. *)
Record AuthError := mkAuthError {
  ae_message : string;
  ae_status : option Z;
  ae_code : option string
}.

(** [verifyOTP] (lines 73-99): a rejected code throws; a verified user
    without a balance row gets one with balance 0.  A failed read gives
    [data] [null] like a missing row; a failed insert is only logged. *)
Definition verifyOTP (verified : result (option string) AuthError) (read_error insert_error : bool)
  : st (gmap string Z) AuthError unit :=
  u <- (match verified with Ok u => st_ret u | Err e => st_throw e end) ;;
  match u with
  | None => st_ret tt
  | Some uid =>
      db <- st_get ;;
      match (if read_error then None else db !! uid) with
      | Some _ => st_ret tt
      | None =>
          if insert_error || bool_decide (is_Some (db !! uid)) then st_ret tt
          else st_modify (insert uid 0)
      end
  end.

(** ** The login page (src/app/login/page.tsx) *)

Inductive LoginStep := StepEmail | StepOtp.

(** The form fields of lines 16-20. *)
Record LoginForm := mkLoginForm {
  lf_email : string;
  lf_otp : string;
  lf_step : LoginStep;
  lf_loading : bool;
  lf_error : string
}.

(** The cooldown of lines 21-22 and the [setInterval] timers running. *)
Record Cooldown := mkCooldown {
  cd_active : bool;
  cd_time : Z;
  cd_intervals : nat
}.

Record LoginWorld := mkLoginWorld {
  lw_form : LoginForm;
  lw_cooldown : Cooldown;
  lw_toasts : list Toast;
  lw_routes : list string;
  lw_sent : list string;
  lw_balances : gmap string Z
}.

Definition initial_form : LoginForm := mkLoginForm "" "" StepEmail false "".
Definition initial_cooldown : Cooldown := mkCooldown false 0 0.

Definition lw_set (f : LoginWorld -> LoginWorld) : st LoginWorld AuthError unit := st_modify f.

Definition mod_form (f : LoginForm -> LoginForm) (w : LoginWorld) : LoginWorld :=
  mkLoginWorld (f (lw_form w)) (lw_cooldown w) (lw_toasts w) (lw_routes w) (lw_sent w) (lw_balances w).
Definition mod_cooldown (f : Cooldown -> Cooldown) (w : LoginWorld) : LoginWorld :=
  mkLoginWorld (lw_form w) (f (lw_cooldown w)) (lw_toasts w) (lw_routes w) (lw_sent w) (lw_balances w).
Definition add_toast (t : Toast) (w : LoginWorld) : LoginWorld :=
  mkLoginWorld (lw_form w) (lw_cooldown w) (lw_toasts w ++ [t]) (lw_routes w) (lw_sent w) (lw_balances w).
Definition add_route (r : string) (w : LoginWorld) : LoginWorld :=
  mkLoginWorld (lw_form w) (lw_cooldown w) (lw_toasts w) (lw_routes w ++ [r]) (lw_sent w) (lw_balances w).
Definition add_sent (e : string) (w : LoginWorld) : LoginWorld :=
  mkLoginWorld (lw_form w) (lw_cooldown w) (lw_toasts w) (lw_routes w) (lw_sent w ++ [e]) (lw_balances w).

Definition setEmail e := mod_form (fun f => mkLoginForm e (lf_otp f) (lf_step f) (lf_loading f) (lf_error f)).
Definition setOtp o := mod_form (fun f => mkLoginForm (lf_email f) o (lf_step f) (lf_loading f) (lf_error f)).
Definition setStep s := mod_form (fun f => mkLoginForm (lf_email f) (lf_otp f) s (lf_loading f) (lf_error f)).
Definition setLoading b := mod_form (fun f => mkLoginForm (lf_email f) (lf_otp f) (lf_step f) b (lf_error f)).
Definition setError m := mod_form (fun f => mkLoginForm (lf_email f) (lf_otp f) (lf_step f) (lf_loading f) m).
Definition setCooldownActive b := mod_cooldown (fun c => mkCooldown b (cd_time c) (cd_intervals c)).
Definition setCooldownTime n := mod_cooldown (fun c => mkCooldown (cd_active c) n (cd_intervals c)).
Definition setInterval := mod_cooldown (fun c => mkCooldown (cd_active c) (cd_time c) (S (cd_intervals c))).
Definition clearInterval := mod_cooldown (fun c => mkCooldown (cd_active c) (cd_time c) (pred (cd_intervals c))).

(** Runs a computation on the [balances] table inside the page. *)
Definition on_balances {A} (m : st (gmap string Z) AuthError A) : st LoginWorld AuthError A :=
  fun w => let '(r, db) := m (lw_balances w) in
           (r, mkLoginWorld (lw_form w) (lw_cooldown w) (lw_toasts w) (lw_routes w) (lw_sent w) db).

Definition COOLDOWN_DURATION : Z := 60.

Definition wait_text (n : Z) : string :=
  ("Tunggu " ++ string_of_Z n ++ " detik sebelum mengirim OTP lagi")%string.

(** [error.message || default] *)
Definition message_or (e : AuthError) (d : string) : string :=
  if String.eqb (ae_message e) "" then d else ae_message e.

(** The rate-limit test of line 63. *)
Definition rate_limited (e : AuthError) (msg : string) : bool :=
  bool_decide (ae_status e = Some 429) ||
  bool_decide (ae_code e = Some "over_email_send_rate_limit") ||
  includes msg "email rate limit exceeded" || includes msg "rate limit".

(** The callback of the cooldown interval (lines 68-77). *)
Definition interval_fire : st LoginWorld AuthError unit :=
  w <- st_get ;;
  let prev := cd_time (lw_cooldown w) in
  if prev <=? 1 then
    lw_set clearInterval ;; lw_set (setCooldownActive false) ;; lw_set (setCooldownTime 0)
  else lw_set (setCooldownTime (prev - 1)).

(** [login] (AuthContext lines 54-62): the one-time code request for
    [email] ([signInWithOtp]); the provider's error, given as [answer],
    is rethrown. *)
Definition login (email : string) (answer : option AuthError) : st LoginWorld AuthError unit :=
  lw_set (add_sent email) ;;
  match answer with None => st_ret tt | Some e => st_throw e end.

(** [loginWithGoogle] (AuthContext lines 64-72): the redirect itself is
    the provider's; its error is rethrown. *)
Definition loginWithGoogle (answer : option AuthError) : st LoginWorld AuthError unit :=
  match answer with None => st_ret tt | Some e => st_throw e end.

(** [handleSendOTP] (lines 29-94). *)
Definition handleSendOTP (answer : option AuthError) : st LoginWorld AuthError unit :=
  w <- st_get ;;
  let email := lf_email (lw_form w) in
  if cd_active (lw_cooldown w) then
    lw_set (setError (wait_text (cd_time (lw_cooldown w)))) ;;
    lw_set (add_toast (mkToast ToastDestructive "Terlalu Cepat" (wait_text (cd_time (lw_cooldown w)))))
  else if String.eqb email "" then lw_set (setError "Email harus diisi")
  else
    lw_set (setLoading true) ;; lw_set (setError "") ;;
    st_finally
      (st_catch
        (login email answer ;;
         lw_set (setStep StepOtp) ;;
         lw_set (add_toast (mkToast ToastSuccess "OTP Sent" ("Kode OTP telah dikirim ke " ++ email)%string)))
        (fun e =>
          let msg := message_or e "Terjadi kesalahan saat mengirim OTP" in
          lw_set (setError msg) ;;
          if rate_limited e msg then
            lw_set (setCooldownActive true) ;; lw_set (setCooldownTime COOLDOWN_DURATION) ;;
            lw_set setInterval ;;
            lw_set (add_toast (mkToast ToastDestructive "Rate Limit Terlampaui"
              ("Terlalu banyak permintaan. Tunggu " ++ string_of_Z COOLDOWN_DURATION ++
               " detik sebelum mencoba lagi.")%string))
          else lw_set (add_toast (mkToast ToastDestructive "Login Error" msg))))
      (lw_set (setLoading false)).

(** [handleGoogleLogin] (lines 95-113). *)
Definition handleGoogleLogin (answer : option AuthError) : st LoginWorld AuthError unit :=
  lw_set (setLoading true) ;; lw_set (setError "") ;;
  st_finally
    (st_catch (loginWithGoogle answer)
      (fun e =>
        let msg := message_or e "Terjadi kesalahan saat login dengan Google" in
        lw_set (setError msg) ;;
        lw_set (add_toast (mkToast ToastDestructive "Google Login Error" msg))))
    (lw_set (setLoading false)).

(** [handleVerifyOTP] (lines 115-144) with the context's [verifyOTP]. *)
Definition handleVerifyOTP (verified : result (option string) AuthError) (read_error insert_error : bool)
  : st LoginWorld AuthError unit :=
  w <- st_get ;;
  if String.eqb (lf_otp (lw_form w)) "" then lw_set (setError "Kode OTP harus diisi") else
  lw_set (setLoading true) ;; lw_set (setError "") ;;
  st_finally
    (st_catch
      (on_balances (verifyOTP verified read_error insert_error) ;;
       lw_set (add_route "/dashboard") ;;
       lw_set (add_toast (mkToast ToastSuccess "Login Successful" "Selamat datang di dashboard!")))
      (fun e =>
        let msg := message_or e "Kode OTP tidak valid" in
        lw_set (setError msg) ;;
        lw_set (add_toast (mkToast ToastDestructive "Verification Error" msg))))
    (lw_set (setLoading false)).

(** The page's events: typing (the code field keeps at most six
    characters, [maxLength={6}]), the submits, the back button (line 268)
    and one second of the clock, on which every running interval fires. *)
Inductive LoginEvent :=
  | EnterEmail (s : string)
  | EnterOtp (s : string)
  | SubmitEmail (answer : option AuthError)
  | SubmitGoogle (answer : option AuthError)
  | SubmitOtp (verified : result (option string) AuthError) (read_error insert_error : bool)
  | BackToEmail
  | Tick.

Definition login_step (w : LoginWorld) (e : LoginEvent) : LoginWorld :=
  match e with
  | EnterEmail s => setEmail s w
  | EnterOtp s => setOtp (substring 0 6 s) w
  | SubmitEmail a => snd (handleSendOTP a w)
  | SubmitGoogle a => snd (handleGoogleLogin a w)
  | SubmitOtp v r i => snd (handleVerifyOTP v r i w)
  | BackToEmail => setStep StepEmail w
  | Tick => Nat.iter (cd_intervals (lw_cooldown w)) (fun w' => snd (interval_fire w')) w
  end.

Definition run_login (w : LoginWorld) (es : list LoginEvent) : LoginWorld := fold_left login_step es w.

(** ** The dashboard guard (src/app/dashboard/layout.tsx) *)

Record LayoutWorld := mkLayoutWorld { ly_ctx : AuthCtx; ly_routes : list string }.

Inductive LayoutView := ShowSpinner | ShowNothing | ShowDashboard.

(** What the layout renders (lines 48-58). *)
Definition layout_view (c : AuthCtx) : LayoutView :=
  if au_loading c then ShowSpinner
  else match au_user c with None => ShowNothing | Some _ => ShowDashboard end.

(** The redirect effect (lines 33-37). *)
Definition layout_redirect (c : AuthCtx) : list string :=
  if au_loading c then [] else match au_user c with None => ["/login"] | Some _ => [] end.

Definition on_ctx {A} (m : st AuthCtx string A) : st LayoutWorld string A :=
  fun w => let '(r, c) := m (ly_ctx w) in (r, mkLayoutWorld c (ly_routes w)).

(** [handleLogout] (lines 39-46): the error is only logged. *)
Definition handleLogout (signout_error : option string) : st LayoutWorld string unit :=
  st_catch
    (on_ctx (logout signout_error) ;;
     st_modify (fun w => mkLayoutWorld (ly_ctx w) (ly_routes w ++ ["/"])))
    (fun _ => st_ret tt).

(** The sidebar entries (lines 60-82): name, address and badge (the
    icon is presentation). *)
Record SidebarItem := mkSidebarItem { si_name : string; si_href : string; si_badge : option string }.

Definition sidebarItems : list SidebarItem :=
  [mkSidebarItem "Chatbot" "/dashboard" (Some "Beta");
   mkSidebarItem "Saldo" "/dashboard/balance" None;
   mkSidebarItem "Pengaturan" "/dashboard/settings" None;
   mkSidebarItem "Agensi" "/dashboard/agency" None].

(** [isActive] (line 127): the chatbot pages highlight the chatbot entry. *)
Definition isActive (pathname href : string) : bool :=
  String.eqb pathname href ||
  (String.eqb href "/dashboard" &&
   prefixb (list_ascii_of_string "/dashboard/chatbots") (list_ascii_of_string pathname)).

(** A rendered link: its name, address, badge and highlight. *)
Record NavLinkView := mkNavLinkView {
  nl_name : string; nl_href : string; nl_badge : option string; nl_active : bool
}.

(** The sidebar (lines 126-150) and, computed the same way, the bottom
    bar of small screens (lines 157-178). *)
Definition sidebar_links (pathname : string) : list NavLinkView :=
  map (fun it => mkNavLinkView (si_name it) (si_href it) (si_badge it) (isActive pathname (si_href it)))
    sidebarItems.

Definition mobile_links (pathname : string) : list NavLinkView :=
  map (fun it => mkNavLinkView (si_name it) (si_href it) (si_badge it) (isActive pathname (si_href it)))
    sidebarItems.

(** The layout's page (lines 48-188): the spinner, nothing, or the top bar
    with the user and the one-item menu "Keluar" (lines 98-117), both
    navigation bars and the page itself. *)
Inductive LayoutScreen :=
  | LSpinner
  | LNothing
  | LDashboard (user : string) (menu : list string) (sidebar bottom : list NavLinkView).

Definition layout_render (c : AuthCtx) (pathname : string) : LayoutScreen :=
  match layout_view c, au_user c with
  | ShowSpinner, _ => LSpinner
  | ShowDashboard, Some u => LDashboard u ["Keluar"] (sidebar_links pathname) (mobile_links pathname)
  | _, _ => LNothing
  end.

(** ** The public navbar (src/components/Navbar.tsx) *)

(** Its [handleLogout] (lines 17-23) catches and logs the error like the
    layout's, but navigates nowhere. *)
Definition navbar_handleLogout (signout_error : option string) : st AuthCtx string unit :=
  st_catch (logout signout_error) (fun _ => st_ret tt).

(** The brand and the section links (lines 30-47), by label and address. *)
Definition navbar_links : list (string * string) :=
  [("tanambot.io", "/"); ("Beranda", "/"); ("Fitur", "#features");
   ("Harga", "#pricing"); ("Kontak", "#contact")].

(** An entry of the right-hand menu: a link or the logout action. *)
Inductive NavEntry := NavLink (label href : string) | NavLogout (label : string).

(** The right-hand side (lines 51-75): the user's menu, or the login button. *)
Definition navbar_menu (c : AuthCtx) : list NavEntry :=
  match au_user c with
  | Some _ => [NavLink "Dasbor" "/dashboard"; NavLogout "Keluar"]
  | None => [NavLink "Masuk" "/login"]
  end.

(** ** Cooldown: one interval, sixty ticks *)

(** The cooldown's invariant: either one interval runs and the button
    is locked for 1 to 60 more seconds, or none runs and the count is 0. *)
Definition cooldown_ok (c : Cooldown) : Prop :=
  (cd_intervals c = 1%nat /\ cd_active c = true /\ 1 <= cd_time c <= COOLDOWN_DURATION) \/
  (cd_intervals c = 0%nat /\ cd_active c = false /\ cd_time c = 0).

Definition send_error_text : string := "Terjadi kesalahan saat mengirim OTP".

Ltac login_unfold :=
  unfold handleSendOTP, handleGoogleLogin, handleVerifyOTP, login, loginWithGoogle, interval_fire, on_balances,
    st_finally, st_catch, st_bind, st_get, st_ret, st_throw, lw_set, st_modify.

Lemma send_cooldown a w :
  lw_cooldown (snd (handleSendOTP a w)) =
  if cd_active (lw_cooldown w) || String.eqb (lf_email (lw_form w)) "" then lw_cooldown w
  else match a with
       | Some e => if rate_limited e (message_or e send_error_text)
                   then mkCooldown true COOLDOWN_DURATION (S (cd_intervals (lw_cooldown w)))
                   else lw_cooldown w
       | None => lw_cooldown w
       end.
Proof.
  destruct w as [[em ? ? ? ?] [[] t n] ? ? ? ?]; login_unfold; cbn -[rate_limited]; [done|].
  destruct (String.eqb em ""); [done|]. destruct a as [e|]; cbn -[rate_limited]; [|done].
  by destruct (rate_limited _ _).
Qed.

Lemma google_cooldown a w : lw_cooldown (snd (handleGoogleLogin a w)) = lw_cooldown w.
Proof. destruct a; login_unfold; by cbn. Qed.

Lemma verify_page_cooldown v r i w :
  lw_cooldown (snd (handleVerifyOTP v r i w)) = lw_cooldown w.
Proof.
  login_unfold; cbn -[verifyOTP]. destruct (String.eqb _ ""); [done|]; cbn -[verifyOTP].
  by destruct (verifyOTP v r i _) as [[]?].
Qed.

Lemma fire_cooldown w :
  lw_cooldown (snd (interval_fire w)) =
  if cd_time (lw_cooldown w) <=? 1 then mkCooldown false 0 (pred (cd_intervals (lw_cooldown w)))
  else mkCooldown (cd_active (lw_cooldown w)) (cd_time (lw_cooldown w) - 1) (cd_intervals (lw_cooldown w)).
Proof. login_unfold; cbn. by destruct (_ <=? 1). Qed.

Lemma login_step_cooldown_ok w e :
  cooldown_ok (lw_cooldown w) -> cooldown_ok (lw_cooldown (login_step w e)).
Proof.
  intros Hc. destruct e; cbn [login_step];
    rewrite ?google_cooldown, ?verify_page_cooldown; try (by destruct w as [[] ? ? ? ? ?]).
  - rewrite send_cooldown. destruct (cd_active _) eqn:Ha, (String.eqb _ ""); cbn [orb]; try done.
    destruct answer as [e|]; [|done]. destruct (rate_limited _ _); [|done].
    destruct Hc as [(_ & ? & _)|(Hn & _ & _)]; [congruence|].
    left; rewrite Hn; cbn; unfold COOLDOWN_DURATION; lia.
  - destruct Hc as [(Hn & Ha & Ht)|(Hn & ? & ?)]; rewrite Hn; cbn [Nat.iter]; [|by right].
    change (Nat.iter 1 ?f w) with (f w); cbv beta; rewrite fire_cooldown, Hn, Ha.
    destruct (Z.leb_spec (cd_time (lw_cooldown w)) 1); [by right|left; cbn; lia].
Qed.

Lemma run_login_app w es1 es2 : run_login w (es1 ++ es2) = run_login (run_login w es1) es2.
Proof. apply fold_left_app. Qed.

Lemma tick_locked w n :
  lw_cooldown w = mkCooldown true n 1 -> 1 < n ->
  lw_cooldown (login_step w Tick) = mkCooldown true (n - 1) 1.
Proof.
  intros Hc Hn. cbn [login_step]. replace (cd_intervals (lw_cooldown w)) with 1%nat by (by rewrite Hc).
  change (Nat.iter 1 ?f w) with (f w); cbv beta.
  rewrite fire_cooldown, Hc; cbn. by destruct (Z.leb_spec n 1); [lia|].
Qed.

Lemma tick_unlocks w n :
  lw_cooldown w = mkCooldown true n 1 -> n <= 1 ->
  lw_cooldown (login_step w Tick) = mkCooldown false 0 0.
Proof.
  intros Hc Hn. cbn [login_step]. replace (cd_intervals (lw_cooldown w)) with 1%nat by (by rewrite Hc).
  change (Nat.iter 1 ?f w) with (f w); cbv beta.
  rewrite fire_cooldown, Hc; cbn. by destruct (Z.leb_spec n 1); [|lia].
Qed.

Lemma ticks_count_down k : forall w n,
  lw_cooldown w = mkCooldown true n 1 -> Z.of_nat k < n ->
  lw_cooldown (run_login w (repeat Tick k)) = mkCooldown true (n - Z.of_nat k) 1.
Proof.
  induction k as [|k IH]; intros w n Hc Hk; cbn [repeat run_login fold_left].
  - by rewrite Z.sub_0_r.
  - change (fold_left login_step (repeat Tick k) (login_step w Tick))
      with (run_login (login_step w Tick) (repeat Tick k)).
    rewrite (IH _ (n - 1)); [f_equal; lia|apply tick_locked; [done|lia]|lia].
Qed.

Lemma ticks_unlock w n :
  lw_cooldown w = mkCooldown true n 1 -> 1 <= n ->
  lw_cooldown (run_login w (repeat Tick (Z.to_nat n))) = mkCooldown false 0 0.
Proof.
  intros Hc Hn. replace (Z.to_nat n) with (Z.to_nat (n - 1) + 1)%nat by lia.
  rewrite repeat_app, run_login_app. cbn [repeat run_login fold_left].
  apply (tick_unlocks _ 1); [|lia].
  rewrite (ticks_count_down _ _ n); [f_equal; lia|done|lia].
Qed.

Lemma send_rate_limited w e :
  cd_active (lw_cooldown w) = false -> String.eqb (lf_email (lw_form w)) "" = false ->
  rate_limited e (message_or e send_error_text) = true ->
  lw_cooldown (login_step w (SubmitEmail (Some e))) =
    mkCooldown true COOLDOWN_DURATION (S (cd_intervals (lw_cooldown w))).
Proof. intros Ha He Hr. cbn [login_step]. by rewrite send_cooldown, Ha, He, Hr. Qed.

(** C3: the cooldown invariant holds along every run of the login page:
    at most one interval runs, and exactly while the send button is
    locked, for 1 to 60 more seconds. *)
Theorem cooldown_invariant es : forall w,
  cooldown_ok (lw_cooldown w) -> cooldown_ok (lw_cooldown (run_login w es)).
Proof. induction es; intros w Hw; [done|]. apply IHes, login_step_cooldown_ok, Hw. Qed.

(** C15: a rate-limited OTP request locks the send button for exactly
    sixty ticks of the clock: it starts the one interval at 60, the
    button is still locked after 59 ticks, and the 60th tick unlocks it
    and clears the interval. *)
Theorem rate_limit_locks_sixty_ticks w e :
  cooldown_ok (lw_cooldown w) -> cd_active (lw_cooldown w) = false ->
  lf_email (lw_form w) <> "" -> rate_limited e (message_or e send_error_text) = true ->
  let w1 := login_step w (SubmitEmail (Some e)) in
  lw_cooldown w1 = mkCooldown true 60 1 /\
  (forall k, (k < 60)%nat -> cd_active (lw_cooldown (run_login w1 (repeat Tick k))) = true) /\
  lw_cooldown (run_login w1 (repeat Tick 60)) = mkCooldown false 0 0.
Proof.
  intros Hc Ha He Hr w1. apply String.eqb_neq in He.
  assert (Hw1 : lw_cooldown w1 = mkCooldown true 60 1).
  { unfold w1; rewrite send_rate_limited by done.
    destruct Hc as [(_ & ? & _)|(-> & _ & _)]; [congruence|done]. }
  split_and!; [done| |exact (ticks_unlock _ 60 Hw1 ltac:(lia))].
  intros k Hk. by rewrite (ticks_count_down k w1 60 Hw1) by lia.
Qed.

(** ** Login and the balance row *)

(** The read before the insert does not matter: with one row per user, a
    failed read only lets the insert be rejected. *)
Lemma verifyOTP_run v r i db :
  verifyOTP v r i db =
  match v with
  | Err e => (Err e, db)
  | Ok None => (Ok tt, db)
  | Ok (Some uid) =>
      (Ok tt, match db !! uid with Some _ => db | None => if i then db else <[uid:=0]> db end)
  end.
Proof.
  unfold verifyOTP, st_bind, st_get, st_ret, st_throw, st_modify.
  destruct v as [[uid|]|e]; [|done|done].
  destruct r, (db !! uid) eqn:E, i; cbn; rewrite ?E; done.
Qed.

Lemma handleVerifyOTP_run v r i w :
  lf_otp (lw_form w) <> "" ->
  let db' := snd (verifyOTP v r i (lw_balances w)) in
  snd (handleVerifyOTP v r i w) =
  match v with
  | Ok _ =>
      mkLoginWorld (mkLoginForm (lf_email (lw_form w)) (lf_otp (lw_form w)) (lf_step (lw_form w)) false "")
        (lw_cooldown w)
        (lw_toasts w ++ [mkToast ToastSuccess "Login Successful" "Selamat datang di dashboard!"])
        (lw_routes w ++ ["/dashboard"]) (lw_sent w) db'
  | Err e =>
      mkLoginWorld (mkLoginForm (lf_email (lw_form w)) (lf_otp (lw_form w)) (lf_step (lw_form w)) false
                      (message_or e "Kode OTP tidak valid"))
        (lw_cooldown w)
        (lw_toasts w ++ [mkToast ToastDestructive "Verification Error" (message_or e "Kode OTP tidak valid")])
        (lw_routes w) (lw_sent w) db'
  end.
Proof.
  intros Ho%String.eqb_neq db'. unfold db'. login_unfold; cbn -[verifyOTP]. rewrite Ho; cbn -[verifyOTP].
  rewrite !verifyOTP_run. by destruct v as [[]|].
Qed.

(** C2: logging in never overwrites a balance: every existing row is
    kept, the only row that can change is the verified user's, which is
    created with balance 0 when it was missing, and when the insert does
    not fail the user has a row afterwards, whatever the read returned. *)
Theorem verify_balance_row v r i db :
  let db' := snd (verifyOTP v r i db) in
  (forall k b, db !! k = Some b -> db' !! k = Some b) /\
  (forall k, db' !! k <> db !! k -> v = Ok (Some k) /\ db !! k = None /\ db' !! k = Some 0) /\
  (forall uid, v = Ok (Some uid) -> i = false -> db' !! uid = Some (default 0 (db !! uid))).
Proof.
  cbv zeta. rewrite verifyOTP_run.
  destruct v as [[uid|]|e]; cbn [snd]; [|split_and!; by intros; simplify_eq..].
  destruct (db !! uid) eqn:E; [split_and!; [done|done|by intros ? [= <-]; rewrite E]|].
  destruct i; [split_and!; by intros; simplify_eq|]. split_and!.
  - intros k b Hk. rewrite lookup_insert_ne; congruence.
  - intros k Hk. destruct (decide (uid = k)) as [<-|]; [by rewrite lookup_insert_eq|].
    by rewrite lookup_insert_ne in Hk.
  - intros ? [= <-] _. by rewrite lookup_insert_eq, E.
Qed.

(** C39: a verified login goes to the dashboard even when the user's
    balance row could not be created: the failed insert is only logged,
    so the page navigates and shows the welcome notification while the
    table still has no row for the user. *)
Theorem login_proceeds_without_balance_row uid r w :
  lf_otp (lw_form w) <> "" -> lw_balances w !! uid = None ->
  let w' := snd (handleVerifyOTP (Ok (Some uid)) r true w) in
  lw_routes w' = lw_routes w ++ ["/dashboard"] /\
  lw_toasts w' = lw_toasts w ++ [mkToast ToastSuccess "Login Successful" "Selamat datang di dashboard!"] /\
  lw_balances w' !! uid = None.
Proof.
  intros Ho Hn w'. unfold w'. rewrite handleVerifyOTP_run by done; cbn -[verifyOTP].
  rewrite verifyOTP_run, Hn. by split_and!.
Qed.

(** A rejected code leaves the table and the address alone and reports
    the provider's message, or the default text. *)
Lemma verify_rejected e r i w :
  lf_otp (lw_form w) <> "" ->
  let w' := snd (handleVerifyOTP (Err e) r i w) in
  lw_routes w' = lw_routes w /\ lw_balances w' = lw_balances w /\
  lw_toasts w' = lw_toasts w ++
    [mkToast ToastDestructive "Verification Error" (message_or e "Kode OTP tidak valid")] /\
  lf_loading (lw_form w') = false.
Proof. intros Ho w'. unfold w'. rewrite handleVerifyOTP_run by done; cbn -[verifyOTP]. by rewrite verifyOTP_run. Qed.

(** While the cooldown runs, submitting the email sends no request:
    the page only repeats the remaining seconds as its error and as a
    notification. *)
Theorem send_blocked_in_cooldown a w :
  cd_active (lw_cooldown w) = true ->
  let w' := snd (handleSendOTP a w) in
  lw_sent w' = lw_sent w /\ lw_cooldown w' = lw_cooldown w /\
  lf_error (lw_form w') = wait_text (cd_time (lw_cooldown w)) /\
  lw_toasts w' = lw_toasts w ++
    [mkToast ToastDestructive "Terlalu Cepat" (wait_text (cd_time (lw_cooldown w)))].
Proof. intros Ha w'. unfold w'. login_unfold; cbn. by rewrite Ha. Qed.

(** ** Logout and the guard *)

(** A successful logout removes the cookie and goes to the home page; the
    provider's [SIGNED_OUT] callback then clears the user, and the layout
    sends to the login page.  A failed [signOut] changes nothing. *)
Theorem logout_flow w m :
  let w1 := snd (handleLogout None w) in
  let c := onAuthStateChange None (ly_ctx w1) in
  au_cookie (ly_ctx w1) = None /\ ly_routes w1 = ly_routes w ++ ["/"] /\
  layout_view c = ShowNothing /\ layout_redirect c = ["/login"] /\
  handleLogout (Some m) w = (Ok tt, w).
Proof. by destruct w. Qed.

(** The navbar's logout removes the cookie and keeps the user until the
    [SIGNED_OUT] callback, after which the menu offers only the login
    button; a failed [signOut] is swallowed and changes nothing.  The
    logout action is in the menu exactly when a user is signed in. *)
Theorem navbar_logout_flow c m :
  let c1 := snd (navbar_handleLogout None c) in
  au_cookie c1 = None /\ au_user c1 = au_user c /\
  navbar_menu (onAuthStateChange None c1) = [NavLink "Masuk" "/login"] /\
  navbar_handleLogout (Some m) c = (Ok tt, c) /\
  (In (NavLogout "Keluar") (navbar_menu c) <-> is_Some (au_user c)).
Proof.
  destruct c as [[u|] l k]; cbn; split_and!; auto.
  - split; [by eexists|auto].
  - split; [intros [H|[]]; discriminate|by intros [? ?]].
Qed.

(** The dashboard frame is drawn only for a signed-in user, and its
    two navigation bars agree: both highlight exactly one entry on the
    four addresses of the sidebar and on every chatbot page (the chatbot
    entry), and none elsewhere (the plans page, for one). *)
Theorem layout_highlight c p :
  match layout_render c p with
  | LDashboard u _ side bottom =>
      au_user c = Some u /\ au_loading c = false /\ side = bottom /\
      length (List.filter nl_active side) =
        (if existsb (String.eqb p) (map si_href sidebarItems) ||
            prefixb (list_ascii_of_string "/dashboard/chatbots") (list_ascii_of_string p)
         then 1 else 0)%nat
  | _ => au_loading c = true \/ au_user c = None
  end.
Proof.
  unfold layout_render, layout_view.
  destruct (au_loading c) eqn:Hl; [by left|]. destruct (au_user c) as [u|]; [|by right].
  split_and!; try done.
  unfold sidebar_links, sidebarItems, isActive; cbn [map List.filter si_href nl_active existsb].
  set (chat := prefixb _ _).
  change (String.eqb "/dashboard/balance" "/dashboard") with false;
  change (String.eqb "/dashboard/settings" "/dashboard") with false;
  change (String.eqb "/dashboard/agency" "/dashboard") with false;
  change (String.eqb "/dashboard" "/dashboard") with true; rewrite !andb_false_l, !orb_false_r.
  destruct (String.eqb_spec p "/dashboard") as [->|]; [by vm_compute|].
  destruct (String.eqb_spec p "/dashboard/balance") as [->|]; [by vm_compute|].
  destruct (String.eqb_spec p "/dashboard/settings") as [->|]; [by vm_compute|].
  destruct (String.eqb_spec p "/dashboard/agency") as [->|]; [by vm_compute|].
  by destruct chat.
Qed.

(** ** Witnesses *)

Definition login_world (email otp : string) (db : gmap string Z) : LoginWorld :=
  mkLoginWorld (mkLoginForm email otp StepEmail false "") initial_cooldown [] [] [] db.

Definition rate_error : AuthError :=
  mkAuthError "email rate limit exceeded" (Some 429) (Some "over_email_send_rate_limit").

Definition login_events : list LoginEvent :=
  [EnterEmail "a@b.id"; SubmitEmail (Some rate_error); Tick; SubmitEmail None; Tick; Tick].

Lemma cooldown_invariant_witness :
  cooldown_ok (lw_cooldown (login_world "" "" ∅)) /\
  cooldown_ok (lw_cooldown (run_login (login_world "" "" ∅) login_events)).
Proof.
  assert (H : cooldown_ok (lw_cooldown (login_world "" "" ∅))) by (right; split_and!; reflexivity).
  split; [exact H|]. apply cooldown_invariant, H.
Defined.

Lemma rate_limit_locks_sixty_ticks_witness :
  let w1 := login_step (login_world "a@b.id" "" ∅) (SubmitEmail (Some rate_error)) in
  lw_cooldown w1 = mkCooldown true 60 1 /\
  (forall k, (k < 60)%nat -> cd_active (lw_cooldown (run_login w1 (repeat Tick k))) = true) /\
  lw_cooldown (run_login w1 (repeat Tick 60)) = mkCooldown false 0 0.
Proof.
  apply (rate_limit_locks_sixty_ticks (login_world "a@b.id" "" ∅) rate_error);
    [right; split_and!; reflexivity|reflexivity|discriminate|vm_compute; reflexivity].
Defined.

Lemma login_proceeds_without_balance_row_witness :
  let w' := snd (handleVerifyOTP (Ok (Some "u1")) false true (login_world "a@b.id" "123456" ∅)) in
  lw_routes w' = [] ++ ["/dashboard"] /\
  lw_toasts w' = [] ++ [mkToast ToastSuccess "Login Successful" "Selamat datang di dashboard!"] /\
  lw_balances w' !! "u1" = None.
Proof.
  apply (login_proceeds_without_balance_row "u1" false (login_world "a@b.id" "123456" ∅));
    [discriminate|reflexivity].
Defined.

Example rate_limit_detected :
  rate_limited (mkAuthError "For security purposes, email rate limit exceeded" None None)
    "For security purposes, email rate limit exceeded" = true.
Proof. vm_compute. reflexivity. Qed.

End Auth.
