(* ===== verification/LoginPage.v ===== *)
(** * The login page as the browser presents it

    Source: src/app/login/page.tsx, the render of [LoginPage] (lines
    145-292): which form the step shows, the labels and [disabled]
    conditions of its buttons, the [required] fields of its forms, and the
    handlers of [Auth] they call.

    - [login_screen] is what the page renders for a [LoginWorld] of
      [Auth]: the e-mail form with the Google button, or the code form.
    - [ui_enabled] says whether an event can happen on that screen: an
      input or button of the other step is not rendered, a disabled button
      cannot be clicked and does not submit its form on Enter, and a form
      with an empty [required] field is not submitted.  [login_ui_step]
      runs [Auth.login_step] only then.
    - [login_reachable] is the set of worlds the page reaches from its
      initial state, as an inductive relation; its invariants are proved
      by rule induction.

    The theorems show that along every run the cooldown countdown shown
    on the send button stays between 1 and 60 seconds while the button is
    disabled, and that the "Terlalu Cepat" branch of [handleSendOTP]
    (lines 32-40) can never be reached from the page: the disabled button
    already prevents it. *)

From Stdlib Require Import ZArith String List Lia.
From stdpp Require Import base list gmap strings.
From S2P Require Import Prelude Js Schema Sql Auth.

Local Open Scope string_scope.
Local Open Scope list_scope.
Local Open Scope Z_scope.

Module LoginPage.
Import Schema Auth.

(** ** What the page renders *)

(** The card of lines 157-272: its title and description, the error box
    (line 170), and the buttons of the step with their labels and
    [disabled] conditions. *)
Inductive LoginScreen :=
  | EmailScreen (title description : string) (error : option string)
      (google_disabled : bool) (send_label : string) (send_disabled : bool)
  | OtpScreen (title description : string) (error : option string)
      (verify_label : string) (verify_disabled : bool).

(** The send button's label (lines 220-228). *)
Definition send_label (w : LoginWorld) : string :=
  if lf_loading (lw_form w) then "Mengirim..."
  else if cd_active (lw_cooldown w) then ("Tunggu " ++ string_of_Z (cd_time (lw_cooldown w)) ++ "s")%string
  else "Kirim OTP".

Definition login_screen (w : LoginWorld) : LoginScreen :=
  let f := lw_form w in
  let err := if String.eqb (lf_error f) "" then None else Some (lf_error f) in
  match lf_step f with
  | StepEmail =>
      EmailScreen "Masuk ke Akun" "Masukkan email Anda untuk mendapatkan kode OTP" err
        (lf_loading f) (send_label w) (lf_loading f || cd_active (lw_cooldown w))
  | StepOtp =>
      OtpScreen "Verifikasi OTP" ("Kami telah mengirim kode OTP ke " ++ lf_email f)%string err
        (if lf_loading f then "Memverifikasi..." else "Verifikasi & Login") (lf_loading f)
  end.

(** ** The events the page lets through *)

Definition is_email_step (f : LoginForm) : bool :=
  match lf_step f with StepEmail => true | StepOtp => false end.

(** Whether the element an event needs is rendered and enabled: the
    e-mail input, the Google button and the send button (lines 176-231)
    exist on the e-mail step, the code input and its buttons (lines
    233-271) on the code step; the disabled conditions are those of lines
    184, 218 and 252; the send form needs a non-empty [email] ([required],
    line 211), the code form a non-empty code (line 245). *)
Definition ui_enabled (w : LoginWorld) (e : LoginEvent) : bool :=
  let f := lw_form w in
  match e with
  | EnterEmail _ => is_email_step f
  | EnterOtp _ => negb (is_email_step f)
  | SubmitEmail _ =>
      is_email_step f && negb (lf_loading f || cd_active (lw_cooldown w)) &&
      negb (String.eqb (lf_email f) "")
  | SubmitGoogle _ => is_email_step f && negb (lf_loading f)
  | SubmitOtp _ _ _ => negb (is_email_step f) && negb (lf_loading f) && negb (String.eqb (lf_otp f) "")
  | BackToEmail => negb (is_email_step f)
  | Tick => true
  end.

Definition login_ui_step (w : LoginWorld) (e : LoginEvent) : LoginWorld :=
  if ui_enabled w e then login_step w e else w.

(** The page as first rendered, over a balances table. *)
Definition login_initial (db : gmap string Z) : LoginWorld :=
  mkLoginWorld initial_form initial_cooldown [] [] [] db.

Inductive login_reachable : LoginWorld -> Prop :=
  | lr_init db : login_reachable (login_initial db)
  | lr_step w e : login_reachable w -> login_reachable (login_ui_step w e).

(** A session of the page: the events in order. *)
Definition run_login_ui (w : LoginWorld) (es : list LoginEvent) : LoginWorld := fold_left login_ui_step es w.

(** The toast of the cooldown branch of [handleSendOTP] (line 36). *)
Definition too_fast (t : Toast) : bool := String.eqb (toast_title t) "Terlalu Cepat".

(** No toast of the list is the cooldown toast. *)
Definition calm (w : LoginWorld) : bool := forallb (fun t => negb (too_fast t)) (lw_toasts w).

(** ** Lemmas *)

Lemma calm_add_toast t w : calm (add_toast t w) = calm w && negb (too_fast t).
Proof. unfold calm; cbn. by rewrite forallb_app; cbn; rewrite andb_true_r. Qed.

Lemma fire_toasts w : lw_toasts (snd (interval_fire w)) = lw_toasts w.
Proof. login_unfold; cbn. by destruct (_ <=? 1). Qed.

Lemma iter_fire_toasts n w :
  lw_toasts (Nat.iter n (fun w' => snd (interval_fire w')) w) = lw_toasts w.
Proof. induction n as [|n IH]; [done|]. by rewrite Nat.iter_succ, fire_toasts. Qed.

Lemma send_calm a w :
  cd_active (lw_cooldown w) = false -> calm (snd (handleSendOTP a w)) = calm w.
Proof.
  destruct w as [[em ? ? ? ?] [ac t n] ts ? ? ?]; cbn; intros ->.
  login_unfold; cbn -[rate_limited forallb]. destruct (String.eqb em ""); [done|].
  destruct a as [e|]; cbn -[rate_limited forallb]; [destruct (rate_limited _ _)|];
    unfold calm; cbn -[forallb]; by rewrite forallb_app, andb_true_r.
Qed.

Lemma google_calm a w : calm (snd (handleGoogleLogin a w)) = calm w.
Proof.
  destruct a; login_unfold; unfold calm; cbn -[forallb]; [|done].
  by rewrite forallb_app, andb_true_r.
Qed.

Lemma verify_calm v r i w : calm (snd (handleVerifyOTP v r i w)) = calm w.
Proof.
  login_unfold; cbn -[verifyOTP forallb]. destruct (String.eqb _ ""); [done|]; cbn -[verifyOTP forallb].
  destruct (verifyOTP v r i _) as [[]?]; unfold calm; cbn -[forallb];
    by rewrite forallb_app, andb_true_r.
Qed.

Lemma ui_step_calm w e : calm w = true -> calm (login_ui_step w e) = true.
Proof.
  unfold login_ui_step. destruct (ui_enabled w e) eqn:He; [|done].
  destruct e; cbn [login_step]; intros Hc; try (by destruct w as [[] ? ? ? ? ?]).
  - rewrite send_calm; [done|]. cbn in He. by destruct (cd_active _), (lf_loading _); rewrite ?andb_false_r in He.
  - by rewrite google_calm.
  - by rewrite verify_calm.
  - unfold calm. by rewrite iter_fire_toasts.
Qed.

Lemma reachable_cooldown_ok w : login_reachable w -> cooldown_ok (lw_cooldown w).
Proof.
  induction 1 as [db|w e _ IH]; [by right|].
  unfold login_ui_step. destruct (ui_enabled w e); [by apply login_step_cooldown_ok|done].
Qed.

Lemma reachable_calm w : login_reachable w -> calm w = true.
Proof. induction 1; [done|by apply ui_step_calm]. Qed.

Lemma run_login_ui_reachable w es : login_reachable w -> login_reachable (run_login_ui w es).
Proof. revert w; induction es as [|e es IH]; intros w Hw; [done|]. apply IH, lr_step, Hw. Qed.

(** A session that hits the provider's rate limit, presses send again
    and waits one second. *)
Definition rate_limited_session : list LoginEvent :=
  [EnterEmail "a@b.id"; SubmitEmail (Some rate_error); SubmitEmail None; Tick].

(** ** The page's guarantees *)

(** C8: On every world the login page can reach, the countdown the send
    button shows while the cooldown runs is a number of seconds between 1
    and 60, and the send form cannot be submitted until it ends. *)
Theorem send_countdown_bounded w a :
  login_reachable w -> cd_active (lw_cooldown w) = true ->
  exists n, 1 <= n <= COOLDOWN_DURATION /\
    send_label w = (if lf_loading (lw_form w) then "Mengirim..." else "Tunggu " ++ string_of_Z n ++ "s")%string /\
    ui_enabled w (SubmitEmail a) = false.
Proof.
  intros Hr Ha. destruct (reachable_cooldown_ok w Hr) as [(_ & _ & Ht)|(_ & Hf & _)]; [|congruence].
  exists (cd_time (lw_cooldown w)). split_and!; [lia|lia| |].
  - unfold send_label. by rewrite Ha.
  - cbn. rewrite Ha, orb_true_r. by rewrite andb_false_r.
Qed.

Lemma send_countdown_bounded_witness :
  let w := run_login_ui (login_initial ∅) rate_limited_session in
  login_reachable w /\ cd_active (lw_cooldown w) = true /\
  exists n, 1 <= n <= COOLDOWN_DURATION /\
    send_label w = (if lf_loading (lw_form w) then "Mengirim..." else "Tunggu " ++ string_of_Z n ++ "s")%string /\
    ui_enabled w (SubmitEmail None) = false.
Proof.
  assert (Hr : login_reachable (run_login_ui (login_initial ∅) rate_limited_session))
    by apply run_login_ui_reachable, lr_init.
  cbv zeta. split; [exact Hr|]. split; [vm_compute; reflexivity|].
  apply (send_countdown_bounded _ None Hr). vm_compute. reflexivity.
Defined.

(** C4: The "Terlalu Cepat" toast of [handleSendOTP] is never shown: on
    every world the login page can reach, no toast has that title, since
    the send button is disabled for as long as the cooldown runs. *)
Theorem cooldown_toast_unreachable w :
  login_reachable w -> List.Forall (fun t => too_fast t = false) (lw_toasts w).
Proof.
  intros Hr. apply reachable_calm in Hr. unfold calm in Hr.
  apply List.Forall_forall. intros t Ht. apply negb_true_iff.
  exact (proj1 (forallb_forall _ _) Hr t Ht).
Qed.

Lemma cooldown_toast_unreachable_witness :
  let w := run_login_ui (login_initial ∅) rate_limited_session in
  login_reachable w /\ List.Forall (fun t => too_fast t = false) (lw_toasts w).
Proof.
  assert (Hr : login_reachable (run_login_ui (login_initial ∅) rate_limited_session))
    by apply run_login_ui_reachable, lr_init.
  cbv zeta. split; [exact Hr|]. apply (cooldown_toast_unreachable _ Hr).
Defined.

End LoginPage.
