(* ===== verification/Landing.v ===== *)
(** * The landing page and the links it offers

    Source: src/app/page.tsx ([LandingPage]): the public navbar of
    src/components/Navbar.tsx (modelled in [Auth]) above four sections:
    the hero with "Mulai Sekarang" (lines 13-28), the demo video with
    "Coba Sendiri" (lines 31-58), the feature cards under the anchor
    [features] (lines 61-110) and the call to action under the anchor
    [contact] (lines 113-138), then the footer (lines 141-158).  The page
    has no state of its own; what it shows depends only on the auth
    context, through the navbar.

    - [landing_view] is the page for an [AuthCtx]: the navbar's links and
      menu, the sections with their anchors, the feature cards and the
      buttons with what they open ([NoHandler] for a button without
      [href] or [onClick]).
    - [anchor_ok] decides whether a link target is served by the page: a
      ["#id"] link needs a section with that [id]; other targets are
      routes or addresses and are not checked here.  [anchor_ok_spec] is
      its reflection lemma.

    The theorems show that the navbar's "Harga" link is the one link of
    the page whose anchor has no section to scroll to, and that the calls
    to action lead to the login page whether or not a user is signed
    in. *)

From Stdlib Require Import ZArith String Ascii List Lia.
From stdpp Require Import base list strings.
From S2P Require Import Prelude Schema Auth.

Local Open Scope string_scope.
Local Open Scope list_scope.

Module Landing.
Import Auth.

(** ** The page *)

Record PageSection := mkPageSection {
  ps_id : option string;
  ps_title : string
}.

(** The four sections, by their [id] and heading (lines 13-138). *)
Definition landing_sections : list PageSection :=
  [mkPageSection None "Buat Chatbot AI WhatsApp Anda dalam Hitungan Menit";
   mkPageSection None "Lihat Cara Kerjanya";
   mkPageSection (Some "features") "Mengapa Memilih Platform Kami?";
   mkPageSection (Some "contact") "Siap untuk Memulai?"].

(** The feature cards (lines 72-107). *)
Definition feature_cards : list string := ["Super Cepat"; "Aman & Terpercaya"; "Bertenaga AI"].

(** The embedded demo (lines 43-48). *)
Definition demo_src : string := "https://www.youtube.com/embed/dQw4w9WgXcQ".

(** What a button opens: the [href] of its [Link] or [a], or nothing. *)
Inductive Target := Href (href : string) | NoHandler.

(** The buttons, in order (lines 22-26, 52-55, 123-135). *)
Definition landing_buttons : list (string * Target) :=
  [("Mulai Sekarang", Href "/login"); ("Coba Sendiri", NoHandler);
   ("Mulai Buat Sekarang", Href "/login"); ("Hubungi Support", Href "mailto:tanamai@gmail.com")].

Record LandingView := mkLandingView {
  lv_nav_links : list (string * string);
  lv_nav_menu : list NavEntry;
  lv_sections : list PageSection;
  lv_features : list string;
  lv_demo : string;
  lv_buttons : list (string * Target)
}.

(** The page for an auth context (lines 8-160). *)
Definition landing_view (c : AuthCtx) : LandingView :=
  mkLandingView navbar_links (navbar_menu c) landing_sections feature_cards demo_src landing_buttons.

(** ** Links *)

(** The fragment of a ["#id"] target. *)
Definition anchor_of (href : string) : option string :=
  match href with String "#"%char id => Some id | _ => None end.

Definition page_ids (v : LandingView) : list string := omap ps_id (lv_sections v).

(** Whether the page serves a target: a fragment needs a section with
    that [id]. *)
Definition anchor_ok (v : LandingView) (href : string) : bool :=
  match anchor_of href with
  | Some id => bool_decide (id ∈ page_ids v)
  | None => true
  end.

(** Every target the page links to: the navbar's links and menu entries
    and the buttons' targets. *)
Definition link_targets (v : LandingView) : list (string * string) :=
  lv_nav_links v ++
  omap (fun e => match e with NavLink l h => Some (l, h) | NavLogout _ => None end) (lv_nav_menu v) ++
  omap (fun '(l, t) => match t with Href h => Some (l, h) | NoHandler => None end) (lv_buttons v).

(** ** Properties *)

Lemma anchor_ok_spec v h :
  anchor_ok v h = false <-> exists id, anchor_of h = Some id /\ id ∉ page_ids v.
Proof.
  unfold anchor_ok. destruct (anchor_of h) as [id|].
  - rewrite bool_decide_eq_false. split; [by exists id|by intros (? & [= <-] & ?)].
  - split; [discriminate|by intros (? & ? & _)].
Qed.

(** The navbar's "Harga" link is the one link of the landing page,
    for any auth context, whose ["#"] target has no section to scroll to:
    [#pricing] names no section, while [#features] and [#contact] have
    theirs and every other target is a route or an address. *)
Theorem dead_anchor_harga c l h :
  In (l, h) (link_targets (landing_view c)) ->
  (exists id, anchor_of h = Some id /\ id ∉ page_ids (landing_view c)) <->
  (l, h) = ("Harga", "#pricing").
Proof.
  rewrite <- anchor_ok_spec.
  unfold link_targets, landing_view, navbar_menu; cbn -[anchor_ok].
  destruct (au_user c); cbn -[anchor_ok];
    intros Hin; repeat destruct Hin as [Hin|Hin]; simplify_eq; try done; vm_compute; done.
Qed.

Lemma dead_anchor_harga_witness :
  In ("Harga", "#pricing") (link_targets (landing_view (mkAuthCtx None false None))) /\
  ((exists id, anchor_of "#pricing" = Some id /\ id ∉ page_ids (landing_view (mkAuthCtx None false None))) <->
   ("Harga", "#pricing") = ("Harga", "#pricing")).
Proof.
  assert (Hin : In ("Harga", "#pricing") (link_targets (landing_view (mkAuthCtx None false None))))
    by (cbn; tauto).
  split; [exact Hin|]. exact (dead_anchor_harga _ _ _ Hin).
Defined.

(** The calls to action lead to the login page in every auth context:
    a signed-in user, whose navbar offers "Dasbor", is still sent to
    "/login". *)
Theorem cta_to_login c u :
  au_user c = Some u ->
  In (NavLink "Dasbor" "/dashboard") (lv_nav_menu (landing_view c)) /\
  In ("Mulai Sekarang", Href "/login") (lv_buttons (landing_view c)) /\
  In ("Mulai Buat Sekarang", Href "/login") (lv_buttons (landing_view c)).
Proof. intros Hu. cbn. unfold navbar_menu. rewrite Hu. cbn. tauto. Qed.

Example signed_in_landing :
  lv_nav_menu (landing_view (mkAuthCtx (Some "u1") false (Some "tok"))) =
    [NavLink "Dasbor" "/dashboard"; NavLogout "Keluar"] /\
  filter (fun '(_, h) => negb (anchor_ok (landing_view (mkAuthCtx None false None)) h))
    (link_targets (landing_view (mkAuthCtx None false None))) = [("Harga", "#pricing")].
Proof. split; reflexivity. Qed.

End Landing.
