(* ===== verification/DashboardView.v ===== *)
(** * What the chatbot list page renders

    Source: src/app/dashboard/page.tsx, the render of [DashboardPage]
    (lines 702-1123): the header with the search box and the refresh
    button, the table of chatbots with one row per shown chatbot and its
    footer, and the new-bot dialog with the plan choice, the balance
    check and the create button.  The state is [Dashboard]'s [DashWorld];
    the events are [DashboardPage]'s.

    - [row_view] is one table row (lines 796-929), [table_body] the body
      (loading, empty with or without a search, or the rows) and
      [table_footer] the counts under the table.
    - [new_bot_view] is the right half of the new-bot dialog (lines
      1020-1117): the balance, the plan's cost, the alert and the create
      button.  A balance left [undefined] by [fetchBalance] (no row, or a
      failed read) is [None]; [formatCurrency] shows it, and any sum with
      it, as [NaN].
    - [qr_dialog_view] is the QR dialog while it is open (lines
      1108-1231): its title, countdown, the square with the spinner, the
      code or the placeholder, and the caption.
    - [formatCurrency], [formatDate] and [toLocaleString] are left as
      the numbers and strings they format.

    The theorems show that the create button is enabled only next to the
    "Saldo mencukupi" alert with a non-negative rest, that an undefined
    balance makes the dialog ask for "Rp NaN" more, and that a row's
    delete button is disabled exactly when the page would ignore its
    confirmation, and that on a well-formed QR state the open dialog
    names the selected bot and counts down within 1..10. *)

From Stdlib Require Import ZArith String List Lia.
From stdpp Require Import base list gmap strings.
From S2P Require Import Prelude Js Schema Sql Ledger Dashboard BotCreation Qr DashboardPage.

Local Open Scope string_scope.
Local Open Scope list_scope.
Local Open Scope Z_scope.

Module DashboardView.
Import Schema Sql Dashboard DashboardPage.

(** ** The header *)

(** The search box's value and the refresh button's label (lines
    711-723); the button has no [onClick]. *)
Definition header_view (w : DashWorld) : string * string :=
  (ls_searchQuery (dw_list w), if ls_loading (dw_list w) then "Memuat..." else "Refresh").

(** ** The table *)

(** One row (lines 796-929): the name, the plan and its monthly price
    ([None] is "Gratis"), the status badge and whether it opens the QR
    dialog, the auto-renewal toggle, usage and quota, the "% used" text,
    the expiry ([None] is "-") with the days left, and the delete
    button's label and [disabled]. *)
Record RowView := mkRowView {
  rv_name : string;
  rv_plan_name : string;
  rv_price : option Z;
  rv_badge : string;
  rv_badge_opens_qr : bool;
  rv_auto_renewal : bool;
  rv_usages : Z;
  rv_quota : Z;
  rv_percentage : rounded;
  rv_expiry : option string;
  rv_days_left : option Z;
  rv_delete_label : string;
  rv_delete_disabled : bool
}.

(** [s || d] on an optional string. *)
Definition or_default (s : option string) (d : string) : string :=
  match s with Some x => if String.eqb x "" then d else x | None => d end.

Definition row_view (date_of : string -> option Z) (now : Z) (deletingId : option string)
    (r : ChatbotWithPlan) : RowView :=
  let c := cwp_bot r in
  let deleting := bool_decide (deletingId = Some (cb_id c)) in
  mkRowView
    (or_default (cb_name c) "Bot Tanpa Nama")
    (match cwp_plan r with Some p => or_default (Some (plan_name p)) "Tanpa Paket"
                      | None => "Tanpa Paket" end)
    (match cwp_plan r with
     | Some p => if plan_price_per_month p =? 0 then None else Some (plan_price_per_month p)
     | None => None end)
    (status_label (Some (or_default (cb_status c) "PROVISIONING")))
    (bool_decide (cb_status c = Some "NEED_SCAN_QR"))
    (match cb_is_auto_renewal c with Some true => true | _ => false end)
    (default 0 (cb_ai_usages c)) (default 0 (cb_ai_quota c))
    (usage_percentage c)
    (match cb_expired_at c with Some "" | None => None | Some e => Some e end)
    (getDaysLeft date_of now (cb_expired_at c))
    (if deleting then "Menghapus..." else "Hapus")
    deleting.

(** The table body (lines 774-932). *)
Inductive TableBody :=
| TableLoading                      (** "Loading chatbots..." *)
| TableEmpty (message : string)
| TableRows (rows : list RowView).

Definition table_body (date_of : string -> option Z) (now : Z) (w : DashWorld) : TableBody :=
  let s := dw_list w in
  if ls_loading s then TableLoading
  else match filteredChatbots (ls_searchQuery s) (ls_chatbots s) with
       | [] => TableEmpty (if String.eqb (ls_searchQuery s) ""
                           then "Tidak ada chatbot ditemukan"
                           else "Tidak ada chatbot yang ditemukan sesuai pencarian Anda")
       | l => TableRows (map (row_view date_of now (fs_deletingId (dw_form w))) l)
       end.

(** "Menampilkan n dari m chatbot" (lines 937-949); the pagination
    buttons beside it are always disabled and the page is always 1 of 1. *)
Definition table_footer (w : DashWorld) : nat * nat :=
  (length (filteredChatbots (ls_searchQuery (dw_list w)) (ls_chatbots (dw_list w))),
   length (ls_chatbots (dw_list w))).

(** ** The new-bot dialog *)

(** A plan of the radio group (lines 987-1014). *)
Record PlanOption := mkPlanOption {
  po_id : string;
  po_name : string;
  po_price : Z;
  po_description : option string;
  po_quota : Z
}.

Definition plan_option (p : Plan) : PlanOption :=
  mkPlanOption (plan_id p) (plan_name p) (plan_price_per_month p)
    (match plan_description p with Some "" => None | d => d end) (plan_ai_quota p).

(** The alert under the balance (lines 1039-1075): none without a
    selected plan, the red one with the amount still needed, or the
    green one with the balance left after creation. *)
Inductive BalanceAlert :=
| NoAlert
| ShortAlert (needed : option Z)
| EnoughAlert (rest : option Z).

Record NewBotView := mkNewBotView {
  nb_name : string;
  nb_options : list PlanOption;
  nb_selected : string;
  nb_balance : option Z;
  nb_cost : option Z;
  nb_alert : BalanceAlert;
  nb_create_label : string;
  nb_create_disabled : bool
}.

Definition new_bot_view (w : DashWorld) : NewBotView :=
  let s := dw_list w in
  let f := dw_form w in
  let plan := getSelectedPlanData s f in
  mkNewBotView (fs_botName f) (map plan_option (ls_plans s)) (fs_selectedPlan f)
    (ls_balance s)
    (option_map plan_price_per_month plan)
    (match plan with
     | None => NoAlert
     | Some p =>
         if isBalanceSufficient s f
         then EnoughAlert (option_map (fun b => b - plan_price_per_month p) (ls_balance s))
         else ShortAlert (option_map (fun b => plan_price_per_month p - b) (ls_balance s))
     end)
    (if fs_creating f then "Membuat..." else "Buat Bot")
    (negb (create_enabled s f)).

(** ** The QR dialog *)

(** The square under "Kode QR" (lines 1188-1213): the spinner while
    loading, the code when [qrCode] is truthy, the placeholder
    otherwise. *)
Inductive QrArea :=
| QrSpinner                         (** "Memuat QR..." *)
| QrImage (value : jsval)
| QrPlaceholder.

Record QrDialogView := mkQrDialogView {
  qv_title : string;
  qv_countdown : Z;
  qv_area : QrArea;
  qv_caption : option string
}.

(** The dialog while it is open (lines 1108-1231): the bot's name or
    "Bot", "Refresh dalam Nd", the square and the caption under it
    (lines 1215-1226). *)
Definition qr_dialog_view (w : DashWorld) : option QrDialogView :=
  let q := dw_qr w in
  if qs_qrDialogOpen q then
    Some (mkQrDialogView
      (match qs_selectedBotForQR q with
       | Some b => or_default (cb_name (cwp_bot b)) "Bot"
       | None => "Bot" end)
      (qs_refreshCountdown q)
      (if qs_qrLoading q then QrSpinner
       else if truthy (qs_qrCode q) then QrImage (qs_qrCode q) else QrPlaceholder)
      (if truthy (qs_qrCode q) then Some "Kode QR siap dipindai"
       else if qs_qrLoading q then None else Some "Kode QR akan dibuat di sini"))
  else None.

(** ** Properties *)

Lemma table_footer_le w : (fst (table_footer w) <= snd (table_footer w))%nat.
Proof. unfold table_footer, filteredChatbots; cbn. apply length_filter. Qed.

(** The rows of the table are the rows [DashboardPage] dispatches row
    events to. *)
Lemma table_rows_shown date_of now w rows :
  table_body date_of now w = TableRows rows ->
  rows = map (row_view date_of now (fs_deletingId (dw_form w))) (shown_rows w).
Proof.
  unfold table_body, shown_rows. destruct (ls_loading _); [done|].
  by destruct (filteredChatbots _ _); [|intros [= <-]].
Qed.

(** "Buat Bot" is enabled only beside the green alert, with a defined
    balance covering the selected plan's cost. *)
Theorem create_enabled_alert w :
  nb_create_disabled (new_bot_view w) = false ->
  exists b c, nb_balance (new_bot_view w) = Some b /\ nb_cost (new_bot_view w) = Some c /\
    nb_alert (new_bot_view w) = EnoughAlert (Some (b - c)) /\ 0 <= b - c.
Proof.
  unfold new_bot_view, create_enabled; cbn.
  destruct (isBalanceSufficient _ _) eqn:Hs; [|by rewrite andb_false_r].
  intros _. unfold isBalanceSufficient in Hs.
  destruct (getSelectedPlanData _ _) as [p|], (ls_balance _) as [b|]; try done.
  exists b, (plan_price_per_month p). apply Z.leb_le in Hs. cbn. split_and!; [done|done|done|lia].
Qed.

(** With a plan selected and the balance left [undefined] (the user has
    no balance row, or the read failed), the dialog shows the red alert
    with [NaN] as the amount still needed ("Anda membutuhkan Rp NaN
    lagi") and keeps "Buat Bot" disabled. *)
Theorem undefined_balance_alert w p :
  getSelectedPlanData (dw_list w) (dw_form w) = Some p -> ls_balance (dw_list w) = None ->
  nb_balance (new_bot_view w) = None /\ nb_cost (new_bot_view w) = Some (plan_price_per_month p) /\
  nb_alert (new_bot_view w) = ShortAlert None /\ nb_create_disabled (new_bot_view w) = true.
Proof.
  intros Hp Hb. unfold new_bot_view, create_enabled, isBalanceSufficient; cbn.
  rewrite Hp, Hb; cbn. by rewrite !andb_false_r.
Qed.

(** A row's delete button is disabled exactly while that row is being
    deleted, and then its confirmation changes nothing on the page. *)
Theorem delete_disabled_ignored json_parse hook fresh user date_of now w i r err :
  shown_rows w !! i = Some r ->
  rv_delete_disabled (row_view date_of now (fs_deletingId (dw_form w)) r) = true ->
  dash_event json_parse hook fresh user w (DeleteConfirm i err) = w.
Proof.
  intros Hr Hd. cbn in Hd. cbn [dash_event]. rewrite Hr. by rewrite Hd.
Qed.

(** On a well-formed QR state (the invariant of [Qr]), the open dialog
    is titled with the selected bot's name and counts down from 10 to
    1. *)
Theorem qr_dialog_wf w v :
  Qr.qr_wf (dw_qr w) -> qr_dialog_view w = Some v ->
  1 <= qv_countdown v <= 10 /\
  exists b, qs_selectedBotForQR (dw_qr w) = Some b /\ qv_title v = or_default (cb_name (cwp_bot b)) "Bot".
Proof.
  intros [Hc Hs]. unfold qr_dialog_view.
  destruct (qs_qrDialogOpen _) eqn:Ho; [|done]. intros [= <-]; cbn.
  destruct (Hs eq_refl) as [b Hb]. rewrite Hb. split; [done|by exists b].
Qed.

(** ** Examples *)

(** User "u1" of [sample_dash] has no balance row: after the dialog is
    closed and opened again, the dialog shows an undefined balance, the
    plan's cost of 50000, and asks for [NaN] more. *)
Definition reopened : DashWorld :=
  run_dash no_json BotCreation.hook_usage BotCreation.fresh_row (Some "u1") sample_dash
    [NewBotOpenChange false false; NewBotOpenChange true false].

Example reopened_asks_nan :
  nb_balance (new_bot_view reopened) = None /\ nb_cost (new_bot_view reopened) = Some 50000 /\
  nb_alert (new_bot_view reopened) = ShortAlert None /\ nb_create_disabled (new_bot_view reopened) = true.
Proof. apply undefined_balance_alert with (p := sample_plan); vm_compute; reflexivity. Qed.

(** The table of [sample_dash] has the one row of "u1", which is not
    being deleted. *)
Example sample_table :
  table_body (fun _ => None) 0 sample_dash =
    TableRows [row_view (fun _ => None) 0 None (mkCWP (sample_bot "b1" "u1" "Toko") (Some sample_plan))] /\
  table_footer sample_dash = (1%nat, 1%nat).
Proof. split; reflexivity. Qed.

End DashboardView.
