(* ===== verification/Refresh.v ===== *)
(** * Overlapping refreshes of the chatbot list

    Source: src/app/dashboard/page.tsx.  [fetchChatbots] (lines 273-299)
    awaits its query: the part before the [await] sends the query, the
    part after it applies the answer with [setChatbots(data || [])] and
    clears [loading] in [finally].  Two intervals call it, every 5 s
    together with [fetchBalance] (lines 216-226) and every 2 s alone
    (lines 228-238), and nothing waits for a previous call to finish, so
    several queries can be in flight and their answers can come back in
    any order.  [Dashboard.fetchChatbots] and [Qr.on_timer] run each call
    to completion; this file splits it at its [await].

    - [RefreshWorld] is the page ([DashWorld]) with the queries in flight,
      in the order they were sent, each with its number and the answer
      the server gave ([None] for a failed query).  The server answers
      from the tables as they are when the query runs, so the answer is
      fixed when the query is sent.
    - [fetchChatbots_issue] is the part before the [await],
      [fetchChatbots_resume] the part after it, [answer_at] delivers the
      answer of the [i]-th query in flight.
    - [refresh_step] is one event: a tick of either interval, an answer,
      or a write by another party (a webhook, another tab) to the tables.
      The balance read of the 5 s tick is run to completion at the tick,
      as in [Qr.on_timer]: the list is the subject here.

    The theorems show that a query answered before any other event is the
    atomic [Dashboard.fetchChatbots], that answers taken oldest first
    leave the newest successful answer on screen, and that an older
    answer arriving last puts back a list the server no longer has, with
    no query left in flight to correct it until the next tick. *)

From Stdlib Require Import ZArith String List Lia.
From stdpp Require Import base list gmap strings.
From S2P Require Import Prelude Schema Dashboard Qr.

Local Open Scope list_scope.

Module Refresh.
Import Dashboard Qr.

(** ** The queries in flight *)

Record Request := mkRequest {
  rq_seq : nat;
  rq_answer : option (list ChatbotWithPlan)
}.

Record RefreshWorld := mkRefreshWorld {
  rw_page : DashWorld;
  rw_inflight : list Request;
  rw_next : nat
}.

(** Lines 273-288 up to the [await]: without a user nothing is sent;
    otherwise the query is answered from the tables as they are now. *)
Definition fetchChatbots_issue (user : option string) (read_error : bool) (r : RefreshWorld)
  : RefreshWorld :=
  match user with
  | None => r
  | Some uid =>
      mkRefreshWorld (rw_page r)
        (rw_inflight r ++
           [mkRequest (rw_next r)
              (if read_error then None else Some (user_chatbots (dw_db (rw_page r)) uid))])
        (S (rw_next r))
  end.

(** Lines 290-298 after the [await]: a failed query returns early, an
    answer replaces the list; [finally] clears [loading] either way. *)
Definition fetchChatbots_resume (answer : option (list ChatbotWithPlan))
  : st DashWorld Empty_set unit :=
  st_finally
    (match answer with None => st_ret tt | Some l => setChatbots l end)
    (setLoading false).

(** The [i]-th query in flight gets its answer; there is none to deliver
    past the end. *)
Definition answer_at (i : nat) (r : RefreshWorld) : RefreshWorld :=
  match rw_inflight r !! i with
  | None => r
  | Some q =>
      mkRefreshWorld (snd (fetchChatbots_resume (rq_answer q) (rw_page r)))
        (delete i (rw_inflight r)) (rw_next r)
  end.

(** ** Events *)

Inductive RefreshEvent :=
| Tick5s (list_error balance_error : bool)  (** lines 219-222 *)
| Tick2s (list_error : bool)                (** lines 231-234 *)
| Answer (i : nat)
| ServerWrite (f : DashDb -> DashDb).

Definition refresh_step (user : option string) (r : RefreshWorld) (e : RefreshEvent)
  : RefreshWorld :=
  match e with
  | Tick5s le be =>
      let r' := fetchChatbots_issue user le r in
      mkRefreshWorld (snd (fetchBalance user be (rw_page r'))) (rw_inflight r') (rw_next r')
  | Tick2s le => fetchChatbots_issue user le r
  | Answer i => answer_at i r
  | ServerWrite f => mkRefreshWorld (snd (mod_db (E := Empty_set) f (rw_page r)))
                       (rw_inflight r) (rw_next r)
  end.

Definition run_refresh (user : option string) (r : RefreshWorld) (es : list RefreshEvent)
  : RefreshWorld :=
  fold_left (refresh_step user) es r.

(** The list left by answers taken in order, from the list [d] shown. *)
Fixpoint last_answer (qs : list Request) (d : list ChatbotWithPlan) : list ChatbotWithPlan :=
  match qs with
  | [] => d
  | q :: qs' => last_answer qs' (default d (rq_answer q))
  end.

(** ** Lemmas *)

Lemma answer_at_middle i r l1 q l2 :
  rw_inflight r = l1 ++ q :: l2 -> i = length l1 ->
  answer_at i r =
    mkRefreshWorld (snd (fetchChatbots_resume (rq_answer q) (rw_page r))) (l1 ++ l2) (rw_next r).
Proof.
  intros Hr ->. unfold answer_at. rewrite Hr, list_lookup_middle by done.
  by rewrite delete_middle.
Qed.

Lemma resume_list answer w :
  dw_list (snd (fetchChatbots_resume answer w)) =
    mkListState (default (ls_chatbots (dw_list w)) answer) (ls_plans (dw_list w))
      (ls_balance (dw_list w)) false (ls_balanceLoading (dw_list w)) (ls_searchQuery (dw_list w)).
Proof. destruct answer; reflexivity. Qed.

Lemma resume_db answer w : dw_db (snd (fetchChatbots_resume answer w)) = dw_db w.
Proof. destruct answer; reflexivity. Qed.

Lemma fetchBalance_db user e w : dw_db (snd (fetchBalance user e w)) = dw_db w.
Proof. destruct user; reflexivity. Qed.

Lemma fetchBalance_chatbots user e w :
  ls_chatbots (dw_list (snd (fetchBalance user e w))) = ls_chatbots (dw_list w).
Proof. destruct user; reflexivity. Qed.

Lemma answer_first_chatbots r q qs :
  rw_inflight r = q :: qs ->
  ls_chatbots (dw_list (rw_page (answer_at 0 r))) =
    default (ls_chatbots (dw_list (rw_page r))) (rq_answer q) /\
  rw_inflight (answer_at 0 r) = qs.
Proof.
  intros Hr. rewrite (answer_at_middle 0 r [] q qs Hr eq_refl); cbn. by rewrite resume_list.
Qed.

(** ** Properties *)

(** A query answered before any other event does what the atomic
    [Dashboard.fetchChatbots] does, and leaves nothing in flight that was
    not in flight before. *)
Theorem issue_then_answer_atomic user e r :
  let r' := answer_at (length (rw_inflight r)) (fetchChatbots_issue user e r) in
  rw_page r' = snd (fetchChatbots user e (rw_page r)) /\ rw_inflight r' = rw_inflight r.
Proof.
  destruct user as [uid|]; cbn.
  - unfold answer_at; cbn. rewrite list_lookup_middle, delete_middle, app_nil_r by done.
    split; [|done]. by destruct e.
  - unfold answer_at. by rewrite lookup_ge_None_2.
Qed.

(** C14: When the queries in flight are answered in the order they were
    sent, the list left on screen is the answer of the newest query that
    succeeded, or the list shown before when every one of them failed. *)
Theorem answers_in_order r :
  ls_chatbots (dw_list (rw_page (Nat.iter (length (rw_inflight r)) (answer_at 0) r))) =
    last_answer (rw_inflight r) (ls_chatbots (dw_list (rw_page r))).
Proof.
  remember (length (rw_inflight r)) as n eqn:Hn. revert r Hn.
  induction n as [|n IH]; intros r Hn.
  - destruct (rw_inflight r); [done|discriminate].
  - rewrite Nat.iter_succ_r.
    destruct (rw_inflight r) as [|q qs] eqn:Hr; [discriminate|].
    destruct (answer_first_chatbots r q qs Hr) as [Hc Hq].
    rewrite IH by (rewrite Hq; simpl in Hn; lia). by rewrite Hq, Hc.
Qed.

(** C17: An older answer arriving last wins.  A 2 s tick sends a query,
    another party then changes the user's chatbot rows, the 5 s tick
    sends a second query, and the second answer comes back before the
    first: the page ends with no query of these in flight, showing the
    list from before the change, which the server no longer has. *)
Theorem stale_answer_wins uid f be r :
  user_chatbots (f (dw_db (rw_page r))) uid <> user_chatbots (dw_db (rw_page r)) uid ->
  let n := length (rw_inflight r) in
  let r' := run_refresh (Some uid) r
              [Tick2s false; ServerWrite f; Tick5s false be; Answer (S n); Answer n] in
  rw_inflight r' = rw_inflight r /\
  ls_chatbots (dw_list (rw_page r')) = user_chatbots (dw_db (rw_page r)) uid /\
  user_chatbots (dw_db (rw_page r')) uid <> ls_chatbots (dw_list (rw_page r')).
Proof.
  intros Hf n. cbn -[answer_at fetchBalance user_chatbots].
  rewrite (answer_at_middle (S n) _ (rw_inflight r ++ [_]) _ [])
    by (cbn; rewrite ?length_app, <- ?app_assoc; cbn; auto with lia).
  rewrite (answer_at_middle n _ (rw_inflight r) _ []) by (cbn; rewrite ?app_nil_r; done).
  cbn -[fetchBalance user_chatbots fetchChatbots_resume].
  rewrite !app_nil_r, !resume_list, !resume_db, fetchBalance_db; cbn.
  split_and!; auto.
Qed.

(** The next tick whose query is answered before any other event shows
    the server's list again. *)
Theorem next_tick_repairs uid r :
  let r' := run_refresh (Some uid) r [Tick2s false; Answer (length (rw_inflight r))] in
  ls_chatbots (dw_list (rw_page r')) = user_chatbots (dw_db (rw_page r')) uid /\
  rw_inflight r' = rw_inflight r.
Proof.
  destruct (issue_then_answer_atomic (Some uid) false r) as [Hp Hi]. cbn [run_refresh fold_left refresh_step].
  rewrite Hp, Hi. split; [reflexivity|done].
Qed.

Lemma stale_answer_wins_witness :
  let r := mkRefreshWorld sample_dash [] 0 in
  user_chatbots (delete_owned "b1" "u1" (dw_db (rw_page r))) "u1" <>
    user_chatbots (dw_db (rw_page r)) "u1" /\
  let n := length (rw_inflight r) in
  let r' := run_refresh (Some "u1") r
              [Tick2s false; ServerWrite (delete_owned "b1" "u1"); Tick5s false false;
               Answer (S n); Answer n] in
  rw_inflight r' = rw_inflight r /\
  ls_chatbots (dw_list (rw_page r')) = user_chatbots (dw_db (rw_page r)) "u1" /\
  user_chatbots (dw_db (rw_page r')) "u1" <> ls_chatbots (dw_list (rw_page r')).
Proof.
  assert (Hf : user_chatbots (delete_owned "b1" "u1" sample_db) "u1" <> user_chatbots sample_db "u1")
    by (vm_compute; discriminate).
  split; [exact Hf|]. exact (stale_answer_wins "u1" (delete_owned "b1" "u1") false (mkRefreshWorld sample_dash [] 0) Hf).
Defined.

End Refresh.
