(* ===== verification/Pagination.v ===== *)
(** * Pagination of the balance page's history

    Source: src/app/dashboard/balance/page.tsx, the tabs and pagination
    of [BalancePage]: [itemsPerPage] (line 55), [getPaginatedData] and
    [getTotalPages] (lines 391-399), the range text "Menampilkan a sampai
    b dari n" (lines 626-632, 728-731) and the previous/next buttons with
    their [disabled] conditions (lines 636-660, 734-758).

    The lists are MathComp sequences: a page is [take] after [drop], and
    the theorems are list arguments (a page-by-page round trip, the size
    of each page, the page index kept in range by the buttons).  Rows are
    of any type: the page never looks inside them.  The pagination block
    is rendered only when its list is non-empty (lines 623, 726), so its
    buttons exist only then; a click on a disabled button does nothing. *)

Set Warnings "-notation-overridden,-parsing,-rewrite-rw".
From mathcomp Require Import ssreflect ssrfun ssrbool eqtype ssrnat seq div.

Set Implicit Arguments.
Unset Strict Implicit.
Unset Printing Implicit Defensive.

Module Pagination.

Section Paging.
Variable T : Type.
Implicit Types (s : seq T) (page total n : nat).

(** [itemsPerPage] (line 55). *)
Definition itemsPerPage : nat := 5.

(** [getPaginatedData] (lines 391-395): [data.slice((page - 1) * 5,
    (page - 1) * 5 + 5)].  For page 0 the start is -5 and the end 0, and
    [slice(-5, 0)] is empty. *)
Definition getPaginatedData s page : seq T :=
  if page is p.+1 then take itemsPerPage (drop (p * itemsPerPage) s) else [::].

(** [getTotalPages] (lines 397-399): [Math.ceil(n / 5)]. *)
Definition getTotalPages n : nat := (n + itemsPerPage.-1) %/ itemsPerPage.

(** The range text (lines 626-632): rows [(page - 1) * 5 + 1] to
    [Math.min(page * 5, n)]. *)
Definition shown_from page : nat := page.-1 * itemsPerPage + 1.
Definition shown_to page n : nat := minn (page * itemsPerPage) n.

(** The updaters of the buttons: [Math.max(1, prev - 1)] and
    [Math.min(total, prev + 1)]. *)
Definition prevPage page : nat := maxn 1 page.-1.
Definition nextPage total page : nat := minn total page.+1.

Inductive PageEvent := PrevClick | NextClick.

(** One click: the previous button is disabled on page 1, the next one
    on the last page; without rows the block is not rendered. *)
Definition page_step s page (e : PageEvent) : nat :=
  if size s == 0 then page else
  match e with
  | PrevClick => if page == 1 then page else prevPage page
  | NextClick => if page == getTotalPages (size s) then page
                 else nextPage (getTotalPages (size s)) page
  end.


End Paging.

(** ** The history card: tabs, both lists and their pages *)

Section History.
Variables T U : Type.

Inductive HistoryTab := TabTransactions | TabPayments.

(** The state of lines 44-54 that the card reads. *)
Record History := mkHistory {
  h_tab : HistoryTab;
  h_transactionsPage : nat;
  h_paymentsPage : nat;
  h_transactions : seq T;
  h_payments : seq U
}.

Definition initial_history : History := mkHistory TabTransactions 1 1 [::] [::].

(** The card's events: a tab button (lines 516, 526), a pagination click
    on the table shown (line 541 renders only the active tab), and a
    refresh by [fetchUserData], which replaces both lists and keeps the
    page numbers. *)
Inductive HistoryEvent :=
  | ClickTab (t : HistoryTab)
  | PageClick (e : PageEvent)
  | Refresh (ts : seq T) (ps : seq U).

Definition history_step (h : History) (ev : HistoryEvent) : History :=
  match ev with
  | ClickTab t => mkHistory t (h_transactionsPage h) (h_paymentsPage h) (h_transactions h) (h_payments h)
  | PageClick e =>
      match h_tab h with
      | TabTransactions =>
          mkHistory (h_tab h) (page_step (h_transactions h) (h_transactionsPage h) e)
            (h_paymentsPage h) (h_transactions h) (h_payments h)
      | TabPayments =>
          mkHistory (h_tab h) (h_transactionsPage h)
            (page_step (h_payments h) (h_paymentsPage h) e) (h_transactions h) (h_payments h)
      end
  | Refresh ts ps => mkHistory (h_tab h) (h_transactionsPage h) (h_paymentsPage h) ts ps
  end.

(** The transaction rows the card shows. *)
Definition shown_transactions (h : History) : seq T :=
  getPaginatedData (h_transactions h) (h_transactionsPage h).

Definition run_history (h : History) (es : seq HistoryEvent) : History := foldl history_step h es.

(** A refresh that does not shorten either list. *)
Definition grows (h : History) (ev : HistoryEvent) : bool :=
  if ev is Refresh ts ps then (size (h_transactions h) <= size ts) && (size (h_payments h) <= size ps)
  else true.

Fixpoint grows_along (h : History) (es : seq HistoryEvent) : bool :=
  if es is ev :: es' then grows h ev && grows_along (history_step h ev) es' else true.

End History.

Section PagingProofs.
Variable T : Type.
Implicit Types (s : seq T) (page total n : nat).

(** ** Lemmas *)

Lemma total_pages_cover n : n <= getTotalPages n * itemsPerPage.
Proof.
  rewrite /getTotalPages /itemsPerPage /= -(leq_add2r 4).
  by rewrite {1}(divn_eq (n + 4) 5) leq_add2l -ltnS ltn_pmod.
Qed.

Lemma pages_flatten s k j :
  flatten [seq getPaginatedData s i | i <- iota j.+1 k] =
  take (k * itemsPerPage) (drop (j * itemsPerPage) s).
Proof.
  elim: k j => [|k IH] j /=; first by rewrite take0.
  by rewrite IH !mulSn takeD drop_drop.
Qed.

Lemma page_start_bound n q : q < getTotalPages n -> q * itemsPerPage < n.
Proof.
  rewrite /getTotalPages /itemsPerPage /= leq_divRL // mulSn => H.
  by rewrite -(leq_add2r 4) addSn -addnS addnC.
Qed.

Lemma total_pos n : 0 < n -> 0 < getTotalPages n.
Proof. move=> Hn. by rewrite /getTotalPages /itemsPerPage /= divn_gt0 // -[5]/(1 + 4) leq_add2r. Qed.

(** ** Properties *)

(** C11: reading the pages one after the other, from 1 to the last one,
    gives back the whole list in its order. *)
Theorem pages_cover s :
  flatten [seq getPaginatedData s p | p <- iota 1 (getTotalPages (size s))] = s.
Proof. by rewrite (pages_flatten s _ 0) drop0 take_oversize // total_pages_cover. Qed.

(** Every page between 1 and the last has between 1 and 5 rows, and the
    range text counts them: it reads "a sampai b" with [b - a + 1] the
    number of rows shown. *)
Theorem page_rows s p :
  0 < p <= getTotalPages (size s) ->
  0 < size (getPaginatedData s p) <= itemsPerPage /\
  shown_from p + size (getPaginatedData s p) = (shown_to p (size s)).+1.
Proof.
  case: p => [//|q] /= /page_start_bound Hq.
  rewrite size_take_min size_drop /shown_from /shown_to /=.
  split.
  - by rewrite geq_minl leq_min /itemsPerPage /= subn_gt0 Hq.
  - by rewrite addn1 addSn addn_minr subnKC ?(ltnW Hq) // mulSn addnC.
Qed.

Lemma page_step_in_range s page e :
  0 < page <= getTotalPages (size s) -> 0 < page_step s page e <= getTotalPages (size s).
Proof.
  move=> /andP[Hp Ht]. rewrite /page_step; case: eqP => [_|_]; first by rewrite Hp.
  case: e => /=; case: eqP => [_|_]; rewrite ?Hp ?Ht //.
  - by rewrite /prevPage leq_max leqnn geq_max (leq_trans Hp Ht) (leq_trans (leq_pred _) Ht).
  - by rewrite /nextPage leq_min (leq_trans Hp Ht) geq_minl.
Qed.

End PagingProofs.

Section HistoryProofs.
Variables T U : Type.

(** A page index is valid for a list when it is between 1 and the number
    of pages, or 1 for an empty list. *)
Definition page_ok (A : Type) (l : seq A) page : bool := 0 < page <= maxn 1 (getTotalPages (size l)).

Definition history_ok (h : History T U) : bool :=
  page_ok (h_transactions h) (h_transactionsPage h) && page_ok (h_payments h) (h_paymentsPage h).

Lemma total_pages_mono m n : m <= n -> getTotalPages m <= getTotalPages n.
Proof. by move=> H; rewrite /getTotalPages leq_div2r // leq_add2r. Qed.

Lemma page_step_ok (A : Type) (l : seq A) page e : page_ok l page -> page_ok l (page_step l page e).
Proof.
  rewrite /page_ok. case: (posnP (size l)) => Hl.
  - by rewrite /page_step Hl.
  - have Ht := total_pos Hl. rewrite (maxn_idPr Ht). exact: page_step_in_range.
Qed.

Lemma page_ok_grow (A : Type) (l l' : seq A) page :
  size l <= size l' -> page_ok l page -> page_ok l' page.
Proof.
  move=> Hs /andP[Hp Ht]. rewrite /page_ok Hp (leq_trans Ht) //.
  by rewrite geq_max leq_maxl /= (leq_trans (total_pages_mono Hs)) // leq_maxr.
Qed.

Lemma history_step_ok h ev : grows h ev -> history_ok h -> history_ok (history_step h ev).
Proof.
  case: ev => [t|e|ts ps] /=; rewrite /history_ok //.
  - by case: (h_tab h) => /= _ /andP[Ht Hp]; rewrite ?page_step_ok ?Ht ?Hp.
  - by move=> /andP[Hts Hps] /andP[Ht Hp]; rewrite (page_ok_grow Hts Ht) (page_ok_grow Hps Hp).
Qed.

(** C40: the history card keeps a valid page on both tabs along every run in
    which no refresh shortens a list: the tab buttons, the enabled
    pagination buttons and the refreshes never move a page index outside
    1 to the number of pages, so a non-empty list always shows between 1
    and 5 rows on the current page. *)
Theorem history_pages_valid es :
  grows_along (initial_history T U) es ->
  let h := run_history (initial_history T U) es in
  history_ok h /\
  (0 < size (h_transactions h) -> 0 < size (shown_transactions h) <= itemsPerPage).
Proof.
  move=> Hg.
  have Hok : history_ok (run_history (initial_history T U) es).
  { have : history_ok (initial_history T U) by [].
    elim: es (initial_history T U) Hg => [//|ev es IH] h0 /= /andP[Hev Hes] H0.
    exact/IH/history_step_ok. }
  move: Hok; set h := run_history _ _ => Hok.
  split=> // Hs. move: Hok => /andP[/andP[Hp Ht] _].
  rewrite (maxn_idPr (total_pos Hs)) in Ht.
  by case: (page_rows (T:=T) (s:=h_transactions h) (p:=h_transactionsPage h)); rewrite ?Hp ?Ht.
Qed.

End HistoryProofs.

(** ** Witnesses *)

Definition sample_history_events : seq (HistoryEvent nat nat) :=
  [:: Refresh (iota 0 12) [:: 7]; PageClick _ _ NextClick; PageClick _ _ NextClick;
      PageClick _ _ NextClick; ClickTab _ _ TabPayments; PageClick _ _ PrevClick;
      Refresh (iota 0 13) [:: 7; 8]; ClickTab _ _ TabTransactions; PageClick _ _ PrevClick].

Lemma history_pages_valid_witness :
  let h := run_history (initial_history nat nat) sample_history_events in
  history_ok h /\
  (0 < size (h_transactions h) -> 0 < size (shown_transactions h) <= itemsPerPage).
Proof. apply: history_pages_valid. by vm_compute. Defined.

Example third_page_sample :
  getPaginatedData (iota 0 12) 3 = [:: 10; 11] /\ getTotalPages 12 = 3 /\
  shown_from 3 = 11 /\ shown_to 3 12 = 12.
Proof. by vm_compute. Qed.

End Pagination.
